(** * SGIC: the stock-adjustment engine of [app.py]

    A shallow embedding of the inventory part of the Flask application
    [src/app.py]: the decimal arithmetic it performs with Python's
    [decimal] module, the tables it reads and writes through its Oracle
    connection, the stock-adjustment helper
    [_actualizar_stock_ingrediente_db] and the endpoints that call it or
    write the stock column themselves.

    Conventions of the embedding.
    - A [Decimal] is a finite decimal number [coef * 10 ^ expo].  NaN and
      the infinities are not represented, and neither is the sign of a
      zero; no branch of the program looks at it.
    - The arithmetic context is Python's default one: 28 significant
      digits, ROUND_HALF_EVEN, InvalidOperation trapped.  The exponent
      limits of the context (Emin, Emax) are not represented.
    - A NUMBER column holds the decimal value it is given; the conversion
      [float(...)] made when a value is bound to a statement and the
      [Decimal(str(...))] made when it is read back are the identity on the
      values (they are exact on the values of up to 15 significant digits
      that the columns are meant for).  A statement that says which
      value a column gets -- a stock, the quantity of a movement, a
      price, an amount -- has that range, [cabe_en_float], among its
      hypotheses, unless the validation of the request already keeps the
      value within it.
    - A request is the JSON body after the conversions [int(...)] and
      [Decimal(str(...))] of its numeric keys; a body whose conversions
      raise is not represented.  Texts are ASCII.
    - Texts built with f-strings are kept structured ([Mensaje],
      [Observacion]): the constructor is the template and its arguments
      are the interpolated values.
    - The database is what the code expects of Oracle and of
      python-oracledb: a statement sees the work of its own transaction,
      [commit] makes it durable, releasing a connection to the pool rolls
      back what was not committed, and a SELECT without ORDER BY returns
      the rows in the order the table holds them.  The pool is available.
      One request runs at a time.
    - Log records ([app.logger]) are not part of the state. *)

From Stdlib Require Import ZArith Lia String Ascii.
From stdpp Require Import gmap strings list fin_maps sorting.

Local Open Scope Z_scope.

(** ** Python's [decimal] module, as far as the program uses it *)

Record Decimal := mkDec { coef : Z; expo : Z }.

#[global] Instance Decimal_eq_dec : EqDecision Decimal.
Proof. solve_decision. Defined.

(** [getcontext().prec] *)
Definition prec : Z := 28.

(** [Decimal(str(n))] for an integer [n]. *)
Definition dec_de_entero (n : Z) : Decimal := mkDec n 0.

(** The coefficient of [d] written at the exponent [e <= expo d]. *)
Definition alinear (d : Decimal) (e : Z) : Z := coef d * 10 ^ (expo d - e).

(** Comparison is by value: both operands at the smaller exponent. *)
Definition dec_compare (a b : Decimal) : comparison :=
  let e := Z.min (expo a) (expo b) in
  alinear a e ?= alinear b e.

Definition dec_ltb (a b : Decimal) : bool :=
  match dec_compare a b with Lt => true | _ => false end.

Definition dec_leb (a b : Decimal) : bool :=
  match dec_compare a b with Gt => false | _ => true end.

Definition dec_gtb (a b : Decimal) : bool := dec_ltb b a.

Definition dec_eqv (a b : Decimal) : Prop := dec_compare a b = Eq.

(** How many digits [n >= 0] has beyond [prec]: the least [k] with
    [n / 10 ^ k < 10 ^ prec]. *)
Fixpoint digitos_sobrantes_aux (fuel : nat) (n : Z) : Z :=
  match fuel with
  | O => 0
  | S f => if n <? 10 ^ prec then 0 else 1 + digitos_sobrantes_aux f (n / 10)
  end.

Definition digitos_sobrantes (n : Z) : Z :=
  digitos_sobrantes_aux (Z.to_nat (Z.log2 n) + 1) n.

(** [n / 10 ^ k] for [n >= 0] and [k > 0], a tie going to the even
    neighbour (ROUND_HALF_EVEN). *)
Definition dividir_half_even (n k : Z) : Z :=
  let p := 10 ^ k in
  let q := n / p in
  let r := n mod p in
  if 2 * r <? p then q
  else if p <? 2 * r then q + 1
  else if Z.even q then q else q + 1.

(** [n / 10 ^ k] for [n >= 0] and [k > 0], a tie going away from zero
    (ROUND_HALF_UP). *)
Definition dividir_half_up (n k : Z) : Z :=
  (n + 5 * 10 ^ (k - 1)) / 10 ^ k.

(** [Decimal._fix]: the result of an operation is rounded to the
    precision of the context. *)
Definition _fix (d : Decimal) : Decimal :=
  let a := Z.abs (coef d) in
  let k := digitos_sobrantes a in
  if k =? 0 then d
  else
    let q := dividir_half_even a k in
    if q =? 10 ^ prec
    then mkDec (Z.sgn (coef d) * 10 ^ (prec - 1)) (expo d + k + 1)
    else mkDec (Z.sgn (coef d) * q) (expo d + k).

(** [a + b] *)
Definition dec_add (a b : Decimal) : Decimal :=
  let e := Z.min (expo a) (expo b) in
  _fix (mkDec (alinear a e + alinear b e) e).

(** [a * b] *)
Definition dec_mul (a b : Decimal) : Decimal :=
  _fix (mkDec (coef a * coef b) (expo a + expo b)).

(** [-a] *)
Definition dec_neg (a : Decimal) : Decimal :=
  _fix (mkDec (- coef a) (expo a)).

(** [abs(a)] on a Decimal. *)
Definition dec_abs (a : Decimal) : Decimal :=
  _fix (mkDec (Z.abs (coef a)) (expo a)).

(** [abs(float(a))]: the magnitude of the value, taken after the
    conversion that binds it to a statement.  The conversion is the one
    of the convention on NUMBER columns: it keeps a value of at most 15
    significant digits ([cabe_en_float]), and the statements about the
    quantity of a movement are made for such values. *)
Definition abs_float (a : Decimal) : Decimal :=
  mkDec (Z.abs (coef a)) (expo a).

(** The exceptions the modelled code can raise. *)
Inductive Mensaje :=
| MsgIngredienteNoEncontrado (id_ingrediente : Z)
| MsgStockInsuficiente (nombre_ingrediente : string) (id_ingrediente : Z)
    (requiere disponible : Decimal)
| MsgProductoNoEncontrado (id_producto : Z).

Inductive Excepcion :=
| ValueError (m : Mensaje)
| InvalidOperation
| AttributeError
| IntegrityError (code : Z).

Inductive Resultado (A : Type) :=
| Ok (a : A)
| Lanza (e : Excepcion).
Arguments Ok {A} a.
Arguments Lanza {A} e.

(** [d.quantize(patron, rounding=ROUND_HALF_UP)]: [d] at the exponent of
    [patron].  InvalidOperation when the coefficient of the result would
    have more than [prec] digits. *)
Definition quantize_half_up (d patron : Decimal) : Resultado Decimal :=
  let k := expo patron - expo d in
  let c := if k <=? 0 then coef d * 10 ^ (- k)
           else Z.sgn (coef d) * dividir_half_up (Z.abs (coef d)) k in
  if Z.abs c <? 10 ^ prec then Ok (mkDec c (expo patron))
  else Lanza InvalidOperation.

(** [Decimal('0.001')] *)
Definition milesima : Decimal := mkDec 1 (-3).

(** The value of a decimal with at most three fractional digits, counted
    in thousandths. *)
Definition milesimas (d : Decimal) : Z := coef d * 10 ^ (expo d + 3).

(** ** Text helpers: [str.strip] and [str.upper]

    Strings are ASCII texts; on them [strip] removes the characters for
    which [str.isspace] holds, [upper] maps [a-z] to [A-Z], and the
    length of a text is its number of characters.  Python's methods also
    know the blanks and the letters beyond ASCII, which these helpers
    leave as they are: what is stated of the result of [upper] is stated
    for ASCII texts ([es_ascii]). *)

Definition es_espacio (c : ascii) : bool :=
  let n := N_of_ascii c in
  (((9 <=? n) && (n <=? 13)) || ((28 <=? n) && (n <=? 32)))%N.

Definition es_minuscula (c : ascii) : bool :=
  let n := N_of_ascii c in ((97 <=? n) && (n <=? 122))%N.

Definition mayuscula (c : ascii) : ascii :=
  if es_minuscula c then ascii_of_N (N_of_ascii c - 32) else c.

Fixpoint lstrip (s : string) : string :=
  match s with
  | EmptyString => EmptyString
  | String c s' => if es_espacio c then lstrip s' else s
  end.

Fixpoint rstrip (s : string) : string :=
  match s with
  | EmptyString => EmptyString
  | String c s' =>
      match rstrip s' with
      | EmptyString => if es_espacio c then EmptyString else String c EmptyString
      | r => String c r
      end
  end.

Definition strip (s : string) : string := rstrip (lstrip s).

Fixpoint upper (s : string) : string :=
  match s with
  | EmptyString => EmptyString
  | String c s' => String (mayuscula c) (upper s')
  end.

(** ** The tables

    The schema is not part of the source; a row has the columns the
    modelled statements name.  SGIC_INGREDIENTES and SGIC_PRODUCTOS are
    keyed by their identifier.  The other tables are kept in the order of
    insertion, which is also the order in which a SELECT without ORDER BY
    returns their rows. *)

Inductive Observacion :=
| ObsTexto (s : string)
| ObsEntradaDe (cantidad : Decimal)
| ObsVentaDe (cantidad_vendida : Z) (nombre_producto : string)
| ObsSalidaPorVenta (id_venta : Z) (cantidad_vendida : Z) (nombre_producto : string).

Record Ingrediente := mkIngrediente {
  nombre : string;
  descripcion : option string;
  unidad_medida : string;
  stock_actual : Decimal;
  stock_minimo : Decimal;
  fecha_actualizacion : Z
}.

Record Producto := mkProducto {
  nombre_producto : string;
  precio_venta : Decimal
}.

Record ProductoIngrediente := mkProductoIngrediente {
  id_producto_fk : Z;
  id_ingrediente_fk : Z;
  cantidad_necesaria : Decimal;
  unidad_medida_receta : string
}.

Record Venta := mkVenta {
  id_venta : Z;
  venta_id_producto_fk : Z;
  cantidad_vendida : Z;
  precio_unitario_venta : Decimal;
  monto_total_venta : Decimal;
  fecha_venta : Z;
  observacion_venta : Observacion
}.

Record Movimiento := mkMovimiento {
  mov_id_ingrediente_fk : Z;
  id_venta_fk : option Z;
  tipo_movimiento : string;
  cantidad : Decimal;
  fecha_movimiento : Z;
  observacion : Observacion
}.

Record BD := mkBD {
  SGIC_INGREDIENTES : gmap Z Ingrediente;
  SGIC_PRODUCTOS : gmap Z Producto;
  SGIC_PRODUCTO_INGREDIENTES : list ProductoIngrediente;
  SGIC_VENTAS : list Venta;
  SGIC_MOVIMIENTOS_INVENTARIO : list Movimiento;
  (** the next value of the generator behind [id_venta] *)
  sec_id_venta : Z
}.

(** ** A connection and its transaction

    [confirmado] is what the database holds; [pendiente] is what the
    statements of the open transaction see.  [bloqueos] lists the
    ingredient rows locked with FOR UPDATE, in the order in which the
    locks were taken.  [reloj k] is the value of the [k]-th
    [datetime.now()] of the request. *)

Record Sesion := mkSesion {
  confirmado : BD;
  pendiente : BD;
  bloqueos : list Z;
  reloj : nat -> Z;
  lecturas : nat
}.

Definition Tx (A : Type) : Type := Sesion -> Resultado A * Sesion.

#[global] Instance Tx_ret : MRet Tx := fun A a s => (Ok a, s).

#[global] Instance Tx_bind : MBind Tx := fun A B f m s =>
  match m s with
  | (Ok a, s') => f a s'
  | (Lanza e, s') => (Lanza e, s')
  end.

Definition lanzar {A : Type} (e : Excepcion) : Tx A := fun s => (Lanza e, s).

Definition elevar {A : Type} (r : Resultado A) : Tx A := fun s => (r, s).

Definition con_pendiente (f : BD -> BD) : Tx unit := fun s =>
  (Ok tt, mkSesion (confirmado s) (f (pendiente s)) (bloqueos s) (reloj s) (lecturas s)).

(** [datetime.now()] *)
Definition datetime_now : Tx Z := fun s =>
  (Ok (reloj s (lecturas s)),
   mkSesion (confirmado s) (pendiente s) (bloqueos s) (reloj s) (S (lecturas s))).

(** [connection.commit()] *)
Definition commit : Tx unit := fun s =>
  (Ok tt, mkSesion (pendiente s) (pendiente s) (bloqueos s) (reloj s) (lecturas s)).

(** The rows of the tables, without the state of the generator. *)
Definition mismas_tablas (a b : BD) : Prop :=
  SGIC_INGREDIENTES a = SGIC_INGREDIENTES b /\
  SGIC_PRODUCTOS a = SGIC_PRODUCTOS b /\
  SGIC_PRODUCTO_INGREDIENTES a = SGIC_PRODUCTO_INGREDIENTES b /\
  SGIC_VENTAS a = SGIC_VENTAS b /\
  SGIC_MOVIMIENTOS_INVENTARIO a = SGIC_MOVIMIENTOS_INVENTARIO b.

(** [pool.release(connection)]: the work that was not committed is rolled
    back.  A value drawn from the generator of identifiers stays drawn. *)
Definition liberar (s : Sesion) : BD :=
  let c := confirmado s in
  mkBD (SGIC_INGREDIENTES c) (SGIC_PRODUCTOS c) (SGIC_PRODUCTO_INGREDIENTES c)
       (SGIC_VENTAS c) (SGIC_MOVIMIENTOS_INVENTARIO c) (sec_id_venta (pendiente s)).

Definition adquirir (r : nat -> Z) (bd : BD) : Sesion := mkSesion bd bd [] r 0%nat.

(** [with get_db_connection() as connection: cuerpo]: the connection is
    acquired from the pool, which is taken to be available, and released
    on every exit; an exception of the body goes on to the caller. *)
Definition get_db_connection {A : Type} (r : nat -> Z) (cuerpo : Tx A) (bd : BD)
  : Resultado A * BD :=
  let '(res, s) := cuerpo (adquirir r bd) in (res, liberar s).

(** ** The statements the inventory code executes *)

(** [SELECT stock_actual, nombre FROM SGIC_INGREDIENTES
     WHERE id_ingrediente = :id FOR UPDATE], then [fetchone()]. *)
Definition select_ingrediente_for_update (id : Z) : Tx (option (Decimal * string)) :=
  fun s =>
    match SGIC_INGREDIENTES (pendiente s) !! id with
    | Some ing =>
        (Ok (Some (stock_actual ing, nombre ing)),
         mkSesion (confirmado s) (pendiente s) (bloqueos s ++ [id]) (reloj s) (lecturas s))
    | None => (Ok None, s)
    end.

Definition con_stock (nuevo_stock : Decimal) (i : Ingrediente) : Ingrediente :=
  mkIngrediente (nombre i) (descripcion i) (unidad_medida i) nuevo_stock
                (stock_minimo i) (fecha_actualizacion i).

(** [UPDATE SGIC_INGREDIENTES SET stock_actual = :nuevo_stock
     WHERE id_ingrediente = :id], with [float(nuevo_stock_decimal)] for
    [:nuevo_stock]: by the convention on NUMBER columns the row has the
    value itself, which is what the code stores when the value has at
    most 15 significant digits ([cabe_en_float]). *)
Definition update_stock_actual (id : Z) (nuevo_stock : Decimal) : Tx unit :=
  con_pendiente (fun bd =>
    mkBD (alter (con_stock nuevo_stock) id (SGIC_INGREDIENTES bd)) (SGIC_PRODUCTOS bd)
         (SGIC_PRODUCTO_INGREDIENTES bd) (SGIC_VENTAS bd)
         (SGIC_MOVIMIENTOS_INVENTARIO bd) (sec_id_venta bd)).

(** [INSERT INTO SGIC_MOVIMIENTOS_INVENTARIO (...) VALUES (...)] *)
Definition insert_movimiento (m : Movimiento) : Tx unit :=
  con_pendiente (fun bd =>
    mkBD (SGIC_INGREDIENTES bd) (SGIC_PRODUCTOS bd) (SGIC_PRODUCTO_INGREDIENTES bd)
         (SGIC_VENTAS bd) (SGIC_MOVIMIENTOS_INVENTARIO bd ++ [m]) (sec_id_venta bd)).

(** [SELECT nombre, precio_venta FROM SGIC_PRODUCTOS WHERE id_producto = :id],
    then [fetchone()]. *)
Definition select_producto (id : Z) : Tx (option (string * Decimal)) :=
  fun s =>
    (Ok ((fun p => (nombre_producto p, precio_venta p)) <$> SGIC_PRODUCTOS (pendiente s) !! id), s).

(** [INSERT INTO SGIC_VENTAS (...) VALUES (...) RETURNING id_venta INTO
    :new_id_venta]: the identifier comes from the generator.  The price
    and the amount are bound as [float(...)]: by the convention on NUMBER
    columns the row has the values themselves, which is what the code
    stores when they have at most 15 significant digits
    ([cabe_en_float]). *)
Definition insert_venta (id_prod cant_vend : Z) (precio_u monto_t : Decimal)
    (fecha : Z) (obs : Observacion) : Tx Z :=
  fun s =>
    let bd := pendiente s in
    let new_id := sec_id_venta bd in
    (Ok new_id,
     mkSesion (confirmado s)
       (mkBD (SGIC_INGREDIENTES bd) (SGIC_PRODUCTOS bd) (SGIC_PRODUCTO_INGREDIENTES bd)
             (SGIC_VENTAS bd ++ [mkVenta new_id id_prod cant_vend precio_u monto_t fecha obs])
             (SGIC_MOVIMIENTOS_INVENTARIO bd) (new_id + 1))
       (bloqueos s) (reloj s) (lecturas s)).

(** The recipe rows of a product, in the order the table holds them. *)
Definition filas_receta (id_prod : Z) (bd : BD) : list ProductoIngrediente :=
  filter (fun f => id_producto_fk f = id_prod) (SGIC_PRODUCTO_INGREDIENTES bd).

(** [SELECT id_ingrediente_fk, cantidad_necesaria FROM
    SGIC_PRODUCTO_INGREDIENTES WHERE id_producto_fk = :id_prod], then
    [fetchall()]. *)
Definition select_receta (id_prod : Z) : Tx (list (Z * Decimal)) :=
  fun s =>
    (Ok ((fun f => (id_ingrediente_fk f, cantidad_necesaria f)) <$> filas_receta id_prod (pendiente s)),
     s).

(** ** [_actualizar_stock_ingrediente_db] *)

Definition _actualizar_stock_ingrediente_db (id_ingrediente : Z)
    (cantidad_ajuste_decimal : Decimal) (tipo : string) (obs : Observacion)
    (id_venta_opt : option Z) : Tx unit :=
  ingrediente_row ← select_ingrediente_for_update id_ingrediente;
  match ingrediente_row with
  | None => lanzar (ValueError (MsgIngredienteNoEncontrado id_ingrediente))
  | Some (stock_actual_decimal, nombre_ingrediente) =>
      nuevo_stock_decimal ←
        elevar (quantize_half_up (dec_add stock_actual_decimal cantidad_ajuste_decimal) milesima);
      if dec_ltb nuevo_stock_decimal (dec_de_entero 0)
      then lanzar (ValueError (MsgStockInsuficiente nombre_ingrediente id_ingrediente
                                 (dec_abs cantidad_ajuste_decimal) stock_actual_decimal))
      else
        update_stock_actual id_ingrediente nuevo_stock_decimal;;
        fecha ← datetime_now;
        insert_movimiento (mkMovimiento id_ingrediente id_venta_opt tipo
                             (abs_float cantidad_ajuste_decimal) fecha obs)
  end.

(** ** Requests and responses *)

(** A key of the JSON body: absent, [null], or a value of the kind the
    code expects there (a text; for a quantity, a number or a numeric
    text, already read by [Decimal(str(...))]). *)
Inductive Campo (A : Type) :=
| Ausente
| Nulo
| Valor (a : A).
Arguments Ausente {A}.
Arguments Nulo {A}.
Arguments Valor {A} a.

Inductive Cuerpo :=
| CuerpoError (error : string)
| CuerpoValueError (error : Mensaje)
| CuerpoErrorInterno (detalle : Excepcion)
| CuerpoErrorGeneral
| CuerpoValidacion (error : string) (detalles : list string)
| CuerpoMensaje (mensaje : string) (id : Z)
| CuerpoEntrada (ingrediente_actualizado : option Ingrediente)
| CuerpoVenta (cantidad_productos_vendidos : Z) (nombre_prod : string) (new_venta_id : Z)
| CuerpoIngrediente (ingrediente : option Ingrediente)
| CuerpoProducto (producto : Producto) (ingredientes : list (Z * string * Decimal * string)).

Record Respuesta := mkRespuesta { estado : Z; cuerpo : Cuerpo }.

(** The body of POST /api/inventario/entrada after [int(...)] and
    [Decimal(str(...))]: a key that is absent is [None]. *)
Record DatosEntrada := mkDatosEntrada {
  req_id_ingrediente : option Z;
  req_cantidad : option Decimal;
  req_tipo_movimiento : Campo string;
  req_observacion : option string
}.

(** [data.get('tipo_movimiento', "ENTRADA_COMPRA").strip().upper()];
    [None] has no [strip]. *)
Definition tipo_movimiento_de (c : Campo string) : Resultado string :=
  match c with
  | Ausente => Ok (upper (strip "ENTRADA_COMPRA"))
  | Valor s => Ok (upper (strip s))
  | Nulo => Lanza AttributeError
  end.

(** ** POST /api/inventario/entrada *)

Definition registrar_entrada_inventario (r : nat -> Z) (data : DatosEntrada) (bd : BD)
  : Respuesta * BD :=
  match req_id_ingrediente data, req_cantidad data with
  | Some id_ingrediente, Some cantidad_dec =>
      if dec_leb cantidad_dec (dec_de_entero 0)
      then (mkRespuesta 400 (CuerpoError "La cantidad debe ser positiva."), bd)
      else
        match tipo_movimiento_de (req_tipo_movimiento data) with
        | Lanza _ => (mkRespuesta 500 CuerpoErrorGeneral, bd)
        | Ok tipo =>
            let obs := match req_observacion data with
                       | Some s => ObsTexto s
                       | None => ObsEntradaDe cantidad_dec
                       end in
            match get_db_connection r
                    (_actualizar_stock_ingrediente_db id_ingrediente cantidad_dec tipo obs None;;
                     commit) bd with
            | (Ok _, bd') =>
                (mkRespuesta 200 (CuerpoEntrada (SGIC_INGREDIENTES bd' !! id_ingrediente)), bd')
            | (Lanza (ValueError ve), bd') => (mkRespuesta 400 (CuerpoValueError ve), bd')
            | (Lanza e, bd') => (mkRespuesta 500 (CuerpoErrorInterno e), bd')
            end
        end
  | _, _ =>
      (mkRespuesta 400 (CuerpoError "Datos incompletos. Se requiere id_ingrediente y cantidad."), bd)
  end.

(** ** POST /api/inventario/salida_venta_producto *)

Record DatosVenta := mkDatosVenta {
  req_id_producto : option Z;
  req_cantidad_vendida : option Z;
  req_observacion_venta : option string
}.

(** The [for] loop over the recipe rows.  (With no rows the source only
    writes a log record, which is what the loop over no rows amounts
    to.) *)
Fixpoint descontar_receta (ingredientes_receta : list (Z * Decimal))
    (cantidad_productos_vendidos new_venta_id : Z) (nombre_prod : string) : Tx unit :=
  match ingredientes_receta with
  | [] => mret tt
  | (id_ing, cant_necesaria_unidad) :: resto =>
      let cantidad_total_a_descontar :=
        dec_mul cant_necesaria_unidad (dec_de_entero cantidad_productos_vendidos) in
      _actualizar_stock_ingrediente_db id_ing (dec_neg cantidad_total_a_descontar)
        "SALIDA_VENTA"
        (ObsSalidaPorVenta new_venta_id cantidad_productos_vendidos nombre_prod)
        (Some new_venta_id);;
      descontar_receta resto cantidad_productos_vendidos new_venta_id nombre_prod
  end.

(** The body of the [with] block of the endpoint. *)
Definition transaccion_venta (id_producto cantidad_productos_vendidos : Z)
    (obs : option string) : Tx (string * Z) :=
  producto_info ← select_producto id_producto;
  match producto_info with
  | None => lanzar (ValueError (MsgProductoNoEncontrado id_producto))
  | Some (nombre_prod, precio_unitario_actual_db) =>
      let monto_total := dec_mul precio_unitario_actual_db
                           (dec_de_entero cantidad_productos_vendidos) in
      fecha ← datetime_now;
      new_venta_id ←
        insert_venta id_producto cantidad_productos_vendidos precio_unitario_actual_db
          monto_total fecha
          (match obs with
           | Some s => ObsTexto s
           | None => ObsVentaDe cantidad_productos_vendidos nombre_prod
           end);
      ingredientes_receta ← select_receta id_producto;
      descontar_receta ingredientes_receta cantidad_productos_vendidos new_venta_id nombre_prod;;
      commit;;
      mret (nombre_prod, new_venta_id)
  end.

Definition registrar_salida_por_venta (r : nat -> Z) (data : DatosVenta) (bd : BD)
  : Respuesta * BD :=
  match req_id_producto data, req_cantidad_vendida data with
  | Some id_producto, Some cantidad_productos_vendidos =>
      if cantidad_productos_vendidos <=? 0
      then (mkRespuesta 400 (CuerpoError "La cantidad vendida debe ser positiva."), bd)
      else
        match get_db_connection r
                (transaccion_venta id_producto cantidad_productos_vendidos
                   (req_observacion_venta data)) bd with
        | (Ok (nombre_prod, new_venta_id), bd') =>
            (mkRespuesta 200 (CuerpoVenta cantidad_productos_vendidos nombre_prod new_venta_id), bd')
        | (Lanza (ValueError ve), bd') => (mkRespuesta 400 (CuerpoValueError ve), bd')
        | (Lanza e, bd') => (mkRespuesta 500 (CuerpoErrorInterno e), bd')
        end
  | _, _ => (mkRespuesta 400 (CuerpoError "Se requiere id_producto y cantidad_vendida."), bd)
  end.

(** ** Notions the statements are made of *)

(** [r] is [x] rounded half-up to three decimals: [r] is a number of
    thousandths, no other number of thousandths is nearer to [x], and when
    [x] lies half-way between two of them [r] is the one away from zero.
    Both values are compared at the exponent [e] of the finer one. *)
Definition redondeo_half_up_3 (x r : Decimal) : Prop :=
  expo r = -3 /\
  let e := Z.min (expo x) (-3) in
  let ulp := 10 ^ (-3 - e) in
  2 * Z.abs (alinear r e - alinear x e) <= ulp /\
  (2 * Z.abs (alinear r e - alinear x e) = ulp -> Z.abs (alinear x e) < Z.abs (alinear r e)).

(** The sum of two decimals as a number, without the rounding of the
    context. *)
Definition suma_exacta (a b : Decimal) : Decimal :=
  let e := Z.min (expo a) (expo b) in mkDec (alinear a e + alinear b e) e.

(** A decimal that [float(...)] followed by [Decimal(str(...))] gives
    back as it is: at most 15 significant digits, of a magnitude that a
    double holds as a normal number.  These are the values a NUMBER
    column holds as they are given to it. *)
Definition cabe_en_float (d : Decimal) : Prop :=
  Z.abs (coef d) < 10 ^ 15 /\ -300 <= expo d <= 290.

(** The row [b] is the row [a] but for its stock. *)
Definition mismas_otras_columnas (a b : Ingrediente) : Prop :=
  nombre b = nombre a /\ descripcion b = descripcion a /\
  unidad_medida b = unidad_medida a /\ stock_minimo b = stock_minimo a /\
  fecha_actualizacion b = fecha_actualizacion a.

(** ** What it is to normalise a text

    The words of the specification for the kind of a movement: the
    blanks around the text are stripped and its letters are put in upper
    case.  The blanks are the characters [str.isspace] accepts among the
    ASCII ones: the tab, the line feed, the vertical tab, the form feed,
    the carriage return, the four separators FS, GS, RS and US, and the
    space. *)








(** The session once the row [id] has been locked. *)
Definition sesion_bloquea (s : Sesion) (id : Z) : Sesion :=
  mkSesion (confirmado s) (pendiente s) (bloqueos s ++ [id]) (reloj s) (lecturas s).

(** The session once the engine has written the new stock of [id] and the
    movement [m]. *)
Definition sesion_ajustada (s : Sesion) (id : Z) (nuevo : Decimal) (m : Movimiento)
  : Sesion :=
  let bd := pendiente s in
  mkSesion (confirmado s)
    (mkBD (alter (con_stock nuevo) id (SGIC_INGREDIENTES bd)) (SGIC_PRODUCTOS bd)
          (SGIC_PRODUCTO_INGREDIENTES bd) (SGIC_VENTAS bd)
          (SGIC_MOVIMIENTOS_INVENTARIO bd ++ [m]) (sec_id_venta bd))
    (bloqueos s ++ [id]) (reloj s) (S (lecturas s)).

(** The answer of the inventory endpoints to an exception of their
    transaction: [except ValueError] and [except Exception]. *)
Definition respuesta_de_excepcion (e : Excepcion) : Respuesta :=
  match e with
  | ValueError ve => mkRespuesta 400 (CuerpoValueError ve)
  | _ => mkRespuesta 500 (CuerpoErrorInterno e)
  end.

(** ** PUT /api/ingredientes/<id> *)

#[global] Instance Resultado_ret : MRet Resultado := fun A a => Ok a.

#[global] Instance Resultado_bind : MBind Resultado := fun A B f m =>
  match m with
  | Ok a => f a
  | Lanza e => Lanza e
  end.

(** The body of PUT /api/ingredientes/<id>: the keys the endpoint reads.
    A body has no other key. *)
Record DatosIngrediente := mkDatosIngrediente {
  req_nombre : Campo string;
  req_descripcion : Campo string;
  req_unidad_medida : Campo string;
  req_stock_actual : Campo Decimal;
  req_stock_minimo : Campo Decimal
}.

Definition ausente {A : Type} (c : Campo A) : bool :=
  match c with Ausente => true | _ => false end.

(** [not data] *)
Definition sin_datos (data : DatosIngrediente) : bool :=
  ausente (req_nombre data) && ausente (req_descripcion data) &&
  ausente (req_unidad_medida data) && ausente (req_stock_actual data) &&
  ausente (req_stock_minimo data).

(** The check of a required text: [data.get(k, '').strip()], then its
    presence and its length. *)
Definition validar_texto (is_update : bool) (c : Campo string)
    (requerido largo : string) (maximo : nat) : Resultado (list string) :=
  match c with
  | Ausente => Ok (if is_update then [] else [requerido])
  | Nulo => Lanza AttributeError
  | Valor s =>
      let t := strip s in
      if String.eqb t "" then Ok [requerido]
      else if (maximo <? String.length t)%nat then Ok [largo]
      else Ok []
  end.

(** The checks of [stock_actual] and of [stock_minimo]; [titulo] is
    [field.replace('_', ' ').title()]. *)
Definition validar_cantidad (is_update : bool) (titulo : string) (c : Campo Decimal)
  : list string :=
  match c with
  | Ausente => []
  | Nulo => if is_update then [] else [titulo +:+ " es requerido."]
  | Valor value =>
      (if dec_ltb value (dec_de_entero 0)
       then [titulo +:+ " no puede ser negativo."] else []) ++
      (if expo value <? -3
       then [titulo +:+ " excede la precisión decimal permitida (3 decimales)."] else []) ++
      (if dec_gtb value (mkDec 9999999999 (-3))
       then [titulo +:+ " excede el valor máximo."] else [])
  end.

Definition validate_ingrediente_data (data : DatosIngrediente) (is_update : bool)
  : Resultado (list string) :=
  e_nombre ← validar_texto is_update (req_nombre data)
               "El nombre del ingrediente es requerido."
               "El nombre no debe exceder 100 caracteres." 100;
  e_unidad ← validar_texto is_update (req_unidad_medida data)
               "La unidad de medida es requerida."
               "La unidad no debe exceder 50 caracteres." 50;
  let e_descripcion :=
    match req_descripcion data with
    | Valor s => if (255 <? String.length s)%nat
                 then ["La descripción no debe exceder 255 caracteres."] else []
    | _ => []
    end in
  Ok (e_nombre ++ e_unidad ++ e_descripcion ++
      validar_cantidad is_update "Stock Actual" (req_stock_actual data) ++
      validar_cantidad is_update "Stock Minimo" (req_stock_minimo data)).

(** [update_fields] with [update_params]: the columns the statement
    assigns. *)
Record CamposUpdate := mkCamposUpdate {
  upd_nombre : option string;
  upd_descripcion : option (option string);
  upd_unidad_medida : option string;
  upd_stock_actual : option Decimal;
  upd_stock_minimo : option Decimal
}.

Definition texto_de (c : Campo string) : Resultado (option string) :=
  match c with
  | Ausente => Ok None
  | Nulo => Lanza AttributeError
  | Valor s => Ok (Some (strip s))
  end.

Definition numero_de (c : Campo Decimal) : option Decimal :=
  match c with Valor d => Some d | _ => None end.

Definition campos_update (data : DatosIngrediente) : Resultado CamposUpdate :=
  n ← texto_de (req_nombre data);
  d ← texto_de (req_descripcion data);
  u ← texto_de (req_unidad_medida data);
  Ok (mkCamposUpdate n
        ((fun t => if String.eqb t "" then None else Some t) <$> d) u
        (numero_de (req_stock_actual data)) (numero_de (req_stock_minimo data))).

(** [not update_fields] *)
Definition sin_campos (c : CamposUpdate) : bool :=
  bool_decide (upd_nombre c = None) && bool_decide (upd_descripcion c = None) &&
  bool_decide (upd_unidad_medida c = None) && bool_decide (upd_stock_actual c = None) &&
  bool_decide (upd_stock_minimo c = None).

Definition asignar (c : CamposUpdate) (ahora : Z) (i : Ingrediente) : Ingrediente :=
  mkIngrediente (default (nombre i) (upd_nombre c))
                (default (descripcion i) (upd_descripcion c))
                (default (unidad_medida i) (upd_unidad_medida c))
                (default (stock_actual i) (upd_stock_actual c))
                (default (stock_minimo i) (upd_stock_minimo c))
                ahora.

(** Whether another row of SGIC_INGREDIENTES already has the name [n]. *)
Definition nombre_en_uso (n : string) (id : Z) (m : gmap Z Ingrediente) : bool :=
  bool_decide (Exists (fun ki => ki.1 <> id /\ nombre ki.2 = n) (map_to_list m)).

(** [UPDATE SGIC_INGREDIENTES SET ..., fecha_actualizacion =
    CURRENT_TIMESTAMP WHERE id_ingrediente = :id].  The handler of the
    endpoint tells what the database answers to a name that is taken: an
    IntegrityError of code 1.  CURRENT_TIMESTAMP is a reading of the
    clock like [datetime.now()]. *)
Definition update_campos (id : Z) (c : CamposUpdate) : Tx unit :=
  fun s =>
    let bd := pendiente s in
    match upd_nombre c with
    | Some n =>
        if nombre_en_uso n id (SGIC_INGREDIENTES bd) then lanzar (IntegrityError 1) s
        else
          (ahora ← datetime_now;
           con_pendiente (fun bd =>
             mkBD (alter (asignar c ahora) id (SGIC_INGREDIENTES bd)) (SGIC_PRODUCTOS bd)
                  (SGIC_PRODUCTO_INGREDIENTES bd) (SGIC_VENTAS bd)
                  (SGIC_MOVIMIENTOS_INVENTARIO bd) (sec_id_venta bd))) s
    | None =>
        (ahora ← datetime_now;
         con_pendiente (fun bd =>
           mkBD (alter (asignar c ahora) id (SGIC_INGREDIENTES bd)) (SGIC_PRODUCTOS bd)
                (SGIC_PRODUCTO_INGREDIENTES bd) (SGIC_VENTAS bd)
                (SGIC_MOVIMIENTOS_INVENTARIO bd) (sec_id_venta bd))) s
    end.

(** [SELECT * FROM SGIC_INGREDIENTES WHERE id_ingrediente = :id], then
    [fetchone()]. *)
Definition select_ingrediente (id : Z) : Tx (option Ingrediente) :=
  fun s => (Ok (SGIC_INGREDIENTES (pendiente s) !! id), s).

(** The body of the [with] block of the endpoint. *)
Definition transaccion_update (ingrediente_id : Z) (data : DatosIngrediente)
  : Tx Respuesta :=
  fila ← select_ingrediente ingrediente_id;
  match fila with
  | None => mret (mkRespuesta 404 (CuerpoError "Ingrediente no encontrado."))
  | Some _ =>
      campos ← elevar (campos_update data);
      if sin_campos campos
      then mret (mkRespuesta 200 (CuerpoMensaje "No hay campos para actualizar." ingrediente_id))
      else
        update_campos ingrediente_id campos;;
        commit;;
        ingrediente_actualizado ← select_ingrediente ingrediente_id;
        mret (mkRespuesta 200 (CuerpoIngrediente ingrediente_actualizado))
  end.

Definition update_ingrediente (r : nat -> Z) (ingrediente_id : Z)
    (data : DatosIngrediente) (bd : BD) : Respuesta * BD :=
  if sin_datos data
  then (mkRespuesta 400 (CuerpoError "No se enviaron datos para actualizar."), bd)
  else
    match validate_ingrediente_data data true with
    | Lanza e => (mkRespuesta 500 (CuerpoErrorInterno e), bd)
    | Ok (e :: errors) =>
        (mkRespuesta 400 (CuerpoValidacion "Datos inválidos para actualizar." (e :: errors)), bd)
    | Ok [] =>
        match get_db_connection r (transaccion_update ingrediente_id data) bd with
        | (Ok resp, bd') => (resp, bd')
        | (Lanza (IntegrityError code), bd') =>
            if code =? 1
            then (mkRespuesta 409
                    (CuerpoError "El nombre del ingrediente ya existe para otro registro."), bd')
            else (mkRespuesta 400 (CuerpoError "Error de integridad en la base de datos."), bd')
        | (Lanza e, bd') => (mkRespuesta 500 (CuerpoErrorInterno e), bd')
        end
    end.

(** ** GET /api/productos/<id>: the recipe of a product *)

(** A row of the recipe as the endpoint returns it: [id_ingrediente],
    [nombre_ingrediente], [cantidad_necesaria], [unidad_medida_receta]. *)
Definition LineaReceta : Type := Z * string * Decimal * string.

Definition linea_id (l : LineaReceta) : Z := l.1.1.1.
Definition linea_nombre (l : LineaReceta) : string := l.1.1.2.

(** [SGIC_PRODUCTO_INGREDIENTES pi JOIN SGIC_INGREDIENTES i ON
    pi.id_ingrediente_fk = i.id_ingrediente WHERE pi.id_producto_fk =
    :id_prod], before it is ordered. *)
Definition receta_con_nombres (id_prod : Z) (bd : BD) : list LineaReceta :=
  omap (fun f =>
          (fun i => (id_ingrediente_fk f, nombre i, cantidad_necesaria f,
                     unidad_medida_receta f))
            <$> SGIC_INGREDIENTES bd !! id_ingrediente_fk f)
       (filas_receta id_prod bd).

Section Colacion.

(** The order of the names under the collation of the database session
    (NLS_SORT); it is a setting of the database, not of the program. *)
Context (colacion : relation string) `{!forall x y, Decision (colacion x y)}.

Definition por_nombre : relation LineaReceta :=
  fun a b => colacion (linea_nombre a) (linea_nombre b).

#[local] Instance por_nombre_dec : forall a b, Decision (por_nombre a b).
Proof. intros a b. unfold por_nombre. apply _. Defined.

(** The recipe query of the endpoint, with its ORDER BY i.nombre. *)
Definition select_receta_ordenada (id_prod : Z) (bd : BD) : list LineaReceta :=
  merge_sort por_nombre (receta_con_nombres id_prod bd).

Definition get_producto_by_id (producto_id : Z) (bd : BD) : Respuesta :=
  match SGIC_PRODUCTOS bd !! producto_id with
  | None => mkRespuesta 404 (CuerpoError "Producto no encontrado.")
  | Some producto_dict =>
      mkRespuesta 200 (CuerpoProducto producto_dict (select_receta_ordenada producto_id bd))
  end.

(** The reading of the specification that a sale takes its row locks in
    the order in which the recipe is resolved. *)
Definition venta_en_orden_de_nombre (r : nat -> Z) (id_prod n : Z) (bd : BD) : Prop :=
  bloqueos (transaccion_venta id_prod n None (adquirir r bd)).2
  = linea_id <$> select_receta_ordenada id_prod bd.

End Colacion.

(** The order of the bytes of the names (NLS_SORT = BINARY). *)
Definition orden_binario : relation string := fun a b => String.leb a b = true.

#[global] Instance orden_binario_dec : forall a b, Decision (orden_binario a b).
Proof. intros a b. unfold orden_binario. apply _. Defined.

(** ** Sequences of committed adjustments *)

Record Ajuste := mkAjuste {
  aj_id_ingrediente : Z;
  aj_cantidad : Decimal;
  aj_tipo : string;
  aj_observacion : Observacion;
  aj_id_venta : option Z
}.

(** The adjustments of [l] one after the other, each in a connection of
    its own and committed, as a request to
    POST /api/inventario/entrada makes them.  [Lanza] when one of
    them fails. *)
Fixpoint ajustes_confirmados (r : nat -> Z) (l : list Ajuste) (bd : BD) : Resultado BD :=
  match l with
  | [] => Ok bd
  | a :: l' =>
      match get_db_connection r
              (_actualizar_stock_ingrediente_db (aj_id_ingrediente a) (aj_cantidad a)
                 (aj_tipo a) (aj_observacion a) (aj_id_venta a);;
               commit) bd with
      | (Ok _, bd1) => ajustes_confirmados r l' bd1
      | (Lanza e, _) => Lanza e
      end
  end.

Definition stock_de (bd : BD) (id : Z) : option Decimal :=
  stock_actual <$> SGIC_INGREDIENTES bd !! id.

(** The adjustments of [l] that are on the ingredient [id]. *)
Definition ajustes_de (id : Z) (l : list Ajuste) : list Ajuste :=
  filter (fun a => aj_id_ingrediente a = id) l.

(** The movement-log invariant for one ingredient: its stock is the
    initial stock plus the signed adjustments, and is not negative once
    there has been an adjustment. *)
Definition invariante_stock (inicial final : Decimal) (deltas : list Decimal) : Prop :=
  dec_eqv final (foldl suma_exacta inicial deltas) /\
  (deltas <> [] -> 0 <= coef final).

(** The movement an adjustment is recorded as, but for its timestamp:
    its quantity is the magnitude of the quantity adjusted. *)
Definition registra (a : Ajuste) (m : Movimiento) : Prop :=
  mov_id_ingrediente_fk m = aj_id_ingrediente a /\
  id_venta_fk m = aj_id_venta a /\
  tipo_movimiento m = aj_tipo a /\
  cantidad m = mkDec (Z.abs (coef (aj_cantidad a))) (expo (aj_cantidad a)) /\
  observacion m = aj_observacion a.

(** The reading of the specification of the invariant: after the
    adjustments of [l] have been committed on [bd], the stock of [id] is
    its stock in [bd] plus the adjustments of [l] that are on [id], it is
    not negative, and [l] has been recorded movement by movement. *)
Definition invariante_tras_ajustes (r : nat -> Z) (l : list Ajuste) (bd : BD) (id : Z)
  : Prop :=
  forall bd' inicial,
    ajustes_confirmados r l bd = Ok bd' ->
    stock_de bd id = Some inicial ->
    exists final,
      stock_de bd' id = Some final /\
      invariante_stock inicial final (aj_cantidad <$> ajustes_de id l) /\
      exists nuevos,
        SGIC_MOVIMIENTOS_INVENTARIO bd' = SGIC_MOVIMIENTOS_INVENTARIO bd ++ nuevos /\
        Forall2 registra l nuevos.

(** The reading of the specification of an adjustment that does not
    drive the stock negative: whenever the stock plus the quantity,
    rounded half-up to three decimals, is not negative, the engine
    succeeds and that rounding is the new stock. *)
Definition ajuste_reflejado (s : Sesion) (id : Z) (d : Decimal) (tipo : string)
    (obs : Observacion) (idv : option Z) : Prop :=
  forall ing nuevo,
    SGIC_INGREDIENTES (pendiente s) !! id = Some ing ->
    redondeo_half_up_3 (suma_exacta (stock_actual ing) d) nuevo ->
    0 <= coef nuevo ->
    exists s',
      _actualizar_stock_ingrediente_db id d tipo obs idv s = (Ok tt, s') /\
      stock_de (pendiente s') id = Some nuevo.

(** The reading of the specification of an adjustment whose rounded new
    stock would be negative: the engine raises the insufficient-stock
    error. *)
Definition ajuste_negativo_rechazado (s : Sesion) (id : Z) (d : Decimal) (tipo : string)
    (obs : Observacion) (idv : option Z) : Prop :=
  forall ing nuevo,
    SGIC_INGREDIENTES (pendiente s) !! id = Some ing ->
    redondeo_half_up_3 (suma_exacta (stock_actual ing) d) nuevo ->
    coef nuevo < 0 ->
    exists s' requiere,
      _actualizar_stock_ingrediente_db id d tipo obs idv s
        = (Lanza (ValueError (MsgStockInsuficiente (nombre ing) id requiere
                                (stock_actual ing))), s').

(** The sum of a list of integers. *)
Definition suma_z (l : list Z) : Z := foldr Z.add 0 l.

(** Every ingredient whose stock differs between [bd] and [bd'] has a
    movement among those that [bd'] has more than [bd]. *)
Definition cambio_de_stock_registrado (bd bd' : BD) : Prop :=
  exists nuevos,
    SGIC_MOVIMIENTOS_INVENTARIO bd' = SGIC_MOVIMIENTOS_INVENTARIO bd ++ nuevos /\
    forall id, stock_de bd' id <> stock_de bd id ->
               exists m, m ∈ nuevos /\ mov_id_ingrediente_fk m = id.

(** The ingredients have in [b] the names they have in [a]. *)
Definition mismos_nombres (a b : BD) : Prop :=
  forall id, nombre <$> SGIC_INGREDIENTES b !! id = nombre <$> SGIC_INGREDIENTES a !! id.

(** ** Sample data *)

Definition leche : Ingrediente :=
  mkIngrediente "Leche" None "L" (mkDec 10000 (-3)) (mkDec 2000 (-3)) 0.

Definition azucar : Ingrediente :=
  mkIngrediente "Azucar" None "kg" (mkDec 5 (-3)) (mkDec 0 0) 0.

Definition latte : Producto := mkProducto "Latte" (mkDec 350 (-2)).

(** Milk is ingredient 1 and sugar ingredient 2; the recipe of the latte
    was stored milk first. *)
Definition bd_ejemplo : BD :=
  mkBD (<[1 := leche]> (<[2 := azucar]> ∅)) (<[1 := latte]> ∅)
       [mkProductoIngrediente 1 1 (mkDec 200 (-3)) "L";
        mkProductoIngrediente 1 2 (mkDec 10 (-3)) "kg"]
       [] [] 1.

Definition reloj_ejemplo : nat -> Z := fun k => 1000 + Z.of_nat k.

(** Scenario A as a request: 5.500 more of ingredient 1. *)
Definition entrada_ejemplo : DatosEntrada :=
  mkDatosEntrada (Some 1) (Some (mkDec 5500 (-3))) Ausente None.


(** An entry for an identifier that has no row. *)
Definition entrada_sin_fila : DatosEntrada :=
  mkDatosEntrada (Some 99) (Some (mkDec 1000 (-3))) Ausente None.

(** An entry of 0.0005. *)
Definition entrada_media_milesima : DatosEntrada :=
  mkDatosEntrada (Some 1) (Some (mkDec 5 (-4))) Ausente None.

(** The sale of one latte. *)
Definition venta_ejemplo : DatosVenta := mkDatosVenta (Some 1) (Some 1) None.

(** The same database with a kilogram of sugar in stock. *)
Definition bd_surtida : BD :=
  mkBD (<[1 := leche]> (<[2 := con_stock (mkDec 1000 (-3)) azucar]> ∅))
       (SGIC_PRODUCTOS bd_ejemplo) (SGIC_PRODUCTO_INGREDIENTES bd_ejemplo) [] [] 1.

(** A PUT that sets the stock of the milk to 3.000. *)
Definition update_ejemplo : DatosIngrediente :=
  mkDatosIngrediente Ausente Ausente Ausente (Valor (mkDec 3000 (-3))) Ausente.

(** Four ten-thousandths more of ingredient 1. *)
Definition ajuste_fino : Ajuste :=
  mkAjuste 1 (mkDec 4 (-4)) "ENTRADA_COMPRA" (ObsTexto "ajuste") None.

(** Scenario D as two adjustments of a sale, and an entry. *)
Definition ajustes_ejemplo : list Ajuste :=
  [mkAjuste 1 (mkDec (-400) (-3)) "SALIDA_VENTA" (ObsSalidaPorVenta 1 2 "Latte") (Some 1);
   mkAjuste 2 (mkDec (-20) (-3)) "SALIDA_VENTA" (ObsSalidaPorVenta 1 2 "Latte") (Some 1);
   mkAjuste 1 (mkDec 55 (-1)) "ENTRADA_COMPRA" (ObsEntradaDe (mkDec 55 (-1))) None].

(** A quantity of 10^25. *)
Definition entrada_enorme : Decimal := mkDec 1 25.

(** A quantity of 2 * 10^29, taken out. *)
Definition salida_enorme : Decimal := mkDec (-2) 29.

(** The latte needs 0.200 of milk only, and 0.150 is left. *)
Definition bd_escasa : BD :=
  mkBD (<[1 := con_stock (mkDec 150 (-3)) leche]> ∅) (<[1 := latte]> ∅)
       [mkProductoIngrediente 1 1 (mkDec 200 (-3)) "L"] [] [] 1.

(** A product without a recipe. *)
Definition bd_sin_receta : BD :=
  mkBD (<[1 := leche]> ∅) (<[7 := mkProducto "Agua" (mkDec 100 (-2))]> ∅) [] [] [] 1.

(** The database after the adjustments of [l], or [bd] itself when one of
    them fails. *)
Definition tras_ajustes (l : list Ajuste) (bd : BD) : BD :=
  match ajustes_confirmados reloj_ejemplo l bd with
  | Ok bd' => bd'
  | Lanza _ => bd
  end.

Definition bd_tras_ajustes : BD := tras_ajustes ajustes_ejemplo bd_surtida.

Definition bd_tras_ajuste_fino : BD := tras_ajustes [ajuste_fino] bd_ejemplo.

(** * The rest of the inventory code *)

(** ** Notions for the properties of the endpoints *)

(** Every stock of the table is a number of thousandths (or coarser) that
    is not negative. *)
Definition stocks_validos (bd : BD) : Prop :=
  forall id ing, SGIC_INGREDIENTES bd !! id = Some ing ->
                 0 <= coef (stock_actual ing) /\ -3 <= expo (stock_actual ing).

(** The quantity a sale of [n] units takes for a recipe quantity [c], as the
    engine receives it: [-(c * Decimal(str(n)))]. *)
Definition descuento (c : Decimal) (n : Z) : Decimal :=
  dec_neg (dec_mul c (dec_de_entero n)).

(** The movement that the sale [idv] of [n] units of [nom] records for the
    recipe entry [(id, c)] at the time [fecha]. *)
Definition movimiento_de_venta (idv n : Z) (nom : string) (fecha : Z) (fila : Z * Decimal)
  : Movimiento :=
  mkMovimiento fila.1 (Some idv) "SALIDA_VENTA" (abs_float (descuento fila.2 n)) fecha
    (ObsSalidaPorVenta idv n nom).

(** What [fetchall()] gives for the recipe of a product. *)
Definition receta_de (id_prod : Z) (bd : BD) : list (Z * Decimal) :=
  (fun f => (id_ingrediente_fk f, cantidad_necesaria f)) <$> filas_receta id_prod bd.

(** The row a sale of [n] units of the product [p] inserts into
    SGIC_VENTAS. *)
Definition venta_de (r : nat -> Z) (id n : Z) (obs : option string) (bd : BD) (p : Producto)
  : Venta :=
  mkVenta (sec_id_venta bd) id n (precio_venta p)
    (dec_mul (precio_venta p) (dec_de_entero n)) (r 0%nat)
    match obs with
    | Some s => ObsTexto s
    | None => ObsVentaDe n (nombre_producto p)
    end.

(** The session of a sale once its row has been inserted. *)
Definition sesion_con_venta (r : nat -> Z) (id n : Z) (obs : option string) (bd : BD)
    (p : Producto) : Sesion :=
  mkSesion bd
    (mkBD (SGIC_INGREDIENTES bd) (SGIC_PRODUCTOS bd) (SGIC_PRODUCTO_INGREDIENTES bd)
          (SGIC_VENTAS bd ++ [venta_de r id n obs bd p])
          (SGIC_MOVIMIENTOS_INVENTARIO bd) (sec_id_venta bd + 1))
    [] r 1%nat.

(** Two lattes. *)
Definition venta_doble : DatosVenta := mkDatosVenta (Some 1) (Some 2) None.

(** The value a column gets from a PUT: the one of the request when the
    request carries one, the one the row had otherwise. *)
Definition columna {A : Type} (c : Campo A) (antes : A) : A :=
  match c with Valor a => a | _ => antes end.

(** A PUT that renames the milk, with blanks around the name, and sets its
    minimum. *)
Definition update_nombre_ejemplo : DatosIngrediente :=
  mkDatosIngrediente (Valor "  Leche entera ") Ausente Ausente Ausente
    (Valor (mkDec 1500 (-3))).

(** A PUT with a stock of four decimals. *)
Definition update_fino : DatosIngrediente :=
  mkDatosIngrediente Ausente Ausente Ausente (Valor (mkDec 30005 (-4))) Ausente.

(** * The catalogue: ingredients, products and recipes

    The endpoints that create, change, delete and list the rows the
    inventory code works on.

    Conventions of this part, beside those of the first.
    - SGIC_PRODUCTOS is represented by the columns [nombre] and
      [precio_venta], the ones the inventory code reads.  The values an
      endpoint computes for [descripcion] and [categoria] are evaluated,
      since evaluating them can raise, and are not kept.
    - The elements of the [ingredientes] list of a request are objects.
    - [Excepcion] names the exceptions the inventory code meets.  A
      KeyError or a TypeError can only come from a key that the validator
      of the endpoint has turned down; the endpoints answer it with the
      status 500 like an AttributeError, which is written in its place. *)

From stdpp Require Import pretty.

Local Open Scope Z_scope.

(** ** What the schema decides

    The tables are created outside the program.  The statements of the
    endpoints below depend on the schema for the identifier a new row
    gets, for the default of a column an INSERT does not name, and for
    the constraints that make a statement fail with an IntegrityError
    where the code has a handler for one. *)

Record Esquema := mkEsquema {
  (** the identifier RETURNING gives for a new ingredient *)
  genera_id_ingrediente : BD -> Z;
  (** the identifier RETURNING gives for a new product *)
  genera_id_producto : BD -> Z;
  (** the default of [fecha_actualizacion] *)
  fecha_por_defecto : Z;
  (** a foreign key the code does not check first forbids deleting the
      ingredient (one from its movements, for instance) *)
  impide_borrar_ingrediente : Z -> BD -> bool;
  (** a foreign key the code does not check first forbids deleting the
      product *)
  impide_borrar_producto : Z -> BD -> bool;
  (** a product may not have two recipe rows for one ingredient *)
  receta_sin_repetidos : bool;
  (** the recipe rows of a product are deleted with it: the ON DELETE
      CASCADE the code counts on when it deletes a product *)
  recetas_en_cascada : bool
}.

(** ** The answers of the catalogue endpoints *)

Inductive Contenido :=
| ContCuerpo (c : Cuerpo)
(** [{"mensaje": ...}] *)
| ContMensaje (mensaje : string)
(** [{"error": ..., "detalle": error_obj.message}]; the detail is the
    text of the database *)
| ContErrorDetalle (error : string)
(** [{"error": "Datos inválidos.", "detalle": str(ve)}] *)
| ContDatosInvalidos (detalle : Mensaje)
(** [{"error": f"El ingrediente con ID {id} no existe."}] *)
| ContIngredienteNoExiste (id : Z)
(** [{"error": f"Ingrediente ID {id} no existe."}] *)
| ContIngredienteIdNoExiste (id : Z)
(** [{"mensaje": f"Producto ID {producto_id} eliminado correctamente."}] *)
| ContProductoEliminado (producto_id : Z)
(** the row of SGIC_PRODUCTOS read back *)
| ContProducto (producto_creado_base : option Producto).

Record Contestacion := mkContestacion { codigo : Z; contenido : Contenido }.

(** [connection.rollback()] *)
Definition rollback : Tx unit := fun s =>
  (Ok tt, mkSesion (confirmado s) (liberar s) (bloqueos s) (reloj s) (lecturas s)).

(** ** GET /api/ingredientes/<id>, GET /api/ingredientes and
       GET /api/reportes/existencias *)

Definition get_ingrediente_by_id (ingrediente_id : Z) (bd : BD) : Respuesta :=
  match SGIC_INGREDIENTES bd !! ingrediente_id with
  | None => mkRespuesta 404 (CuerpoError "Ingrediente no encontrado")
  | Some ingrediente => mkRespuesta 200 (CuerpoIngrediente (Some ingrediente))
  end.

(** A row of the stock report: [id_ingrediente], [nombre],
    [unidad_medida], [stock_actual], [stock_minimo], [estado_stock]. *)
Record FilaExistencias := mkFilaExistencias {
  ex_id_ingrediente : Z;
  ex_nombre : string;
  ex_unidad_medida : string;
  ex_stock_actual : Decimal;
  ex_stock_minimo : Decimal;
  estado_stock : string
}.

(** [SELECT ..., CASE WHEN stock_actual < stock_minimo THEN 'BAJO STOCK'
    ELSE 'OK' END as estado_stock] on a row. *)
Definition fila_existencias (ki : Z * Ingrediente) : FilaExistencias :=
  mkFilaExistencias ki.1 (nombre ki.2) (unidad_medida ki.2) (stock_actual ki.2)
    (stock_minimo ki.2)
    (if dec_ltb (stock_actual ki.2) (stock_minimo ki.2) then "BAJO STOCK" else "OK").

Section ColacionCatalogo.

Context (colacion : relation string) `{!forall x y, Decision (colacion x y)}.

Definition por_nombre_ingrediente : relation (Z * Ingrediente) :=
  fun a b => colacion (nombre a.2) (nombre b.2).

#[local] Instance por_nombre_ingrediente_dec :
  forall a b, Decision (por_nombre_ingrediente a b).
Proof. intros a b. unfold por_nombre_ingrediente. apply _. Defined.

(** [SELECT * FROM SGIC_INGREDIENTES ORDER BY nombre]: the rows with
    their identifiers.  The answer has the status 200. *)
Definition get_all_ingredientes (bd : BD) : list (Z * Ingrediente) :=
  merge_sort por_nombre_ingrediente (map_to_list (SGIC_INGREDIENTES bd)).

(** The rows of the stock report, in the order of the names.  The answer
    has the status 200. *)
Definition reporte_existencias (bd : BD) : list FilaExistencias :=
  fila_existencias <$> get_all_ingredientes bd.

Definition por_nombre_producto : relation (Z * Producto) :=
  fun a b => colacion (nombre_producto a.2) (nombre_producto b.2).

#[local] Instance por_nombre_producto_dec :
  forall a b, Decision (por_nombre_producto a b).
Proof. intros a b. unfold por_nombre_producto. apply _. Defined.

(** GET /api/productos: the products in the order of their names, each
    with its recipe in the order of the names of the ingredients. *)
Definition get_all_productos (bd : BD) : list (Z * Producto * list LineaReceta) :=
  (fun kp : Z * Producto => (kp.1, kp.2, select_receta_ordenada colacion kp.1 bd))
    <$> merge_sort por_nombre_producto (map_to_list (SGIC_PRODUCTOS bd)).

End ColacionCatalogo.

(** ** POST /api/ingredientes *)

(** [data.get(k, '').strip() or None] *)
Definition texto_o_none (c : Campo string) : Resultado (option string) :=
  match c with
  | Ausente => Ok None
  | Nulo => Lanza AttributeError
  | Valor s => Ok (if String.eqb (strip s) "" then None else Some (strip s))
  end.

(** [data[k].strip()] *)
Definition texto_requerido (c : Campo string) : Resultado string :=
  match c with
  | Valor s => Ok (strip s)
  | _ => Lanza AttributeError
  end.

(** [Decimal(str(data.get(k, '0.000')))] *)
Definition cantidad_o_cero (c : Campo Decimal) : Resultado Decimal :=
  match c with
  | Ausente => Ok (mkDec 0 (-3))
  | Nulo => Lanza InvalidOperation
  | Valor d => Ok d
  end.

(** [insert_data]: the row to insert. *)
Definition insert_data (esq : Esquema) (data : DatosIngrediente) : Resultado Ingrediente :=
  n ← texto_requerido (req_nombre data);
  d ← texto_o_none (req_descripcion data);
  u ← texto_requerido (req_unidad_medida data);
  a ← cantidad_o_cero (req_stock_actual data);
  m ← cantidad_o_cero (req_stock_minimo data);
  Ok (mkIngrediente n d u a m (fecha_por_defecto esq)).

(** [INSERT INTO SGIC_INGREDIENTES (...) VALUES (...) RETURNING
    id_ingrediente INTO :new_id].  A name that is taken is an
    IntegrityError of code 1, as the handler of the endpoint tells; so is
    an identifier that is taken, the code of a unique key that is
    violated. *)
Definition insert_ingrediente (esq : Esquema) (i : Ingrediente) : Tx Z :=
  fun s =>
    let bd := pendiente s in
    let new_id := genera_id_ingrediente esq bd in
    if bool_decide (is_Some (SGIC_INGREDIENTES bd !! new_id)) ||
       nombre_en_uso (nombre i) new_id (SGIC_INGREDIENTES bd)
    then lanzar (IntegrityError 1) s
    else
      (Ok new_id,
       mkSesion (confirmado s)
         (mkBD (<[new_id := i]> (SGIC_INGREDIENTES bd)) (SGIC_PRODUCTOS bd)
               (SGIC_PRODUCTO_INGREDIENTES bd) (SGIC_VENTAS bd)
               (SGIC_MOVIMIENTOS_INVENTARIO bd) (sec_id_venta bd))
         (bloqueos s) (reloj s) (lecturas s)).

(** The body of the [with] block of the endpoint. *)
Definition transaccion_create_ingrediente (esq : Esquema) (fila : Ingrediente)
  : Tx Respuesta :=
  new_id ← insert_ingrediente esq fila;
  commit;;
  ingrediente_creado ← select_ingrediente new_id;
  mret (mkRespuesta 201 (CuerpoIngrediente ingrediente_creado)).

Definition create_ingrediente (esq : Esquema) (r : nat -> Z) (data : DatosIngrediente)
    (bd : BD) : Respuesta * BD :=
  if sin_datos data
  then (mkRespuesta 400 (CuerpoError "No se enviaron datos."), bd)
  else
    match validate_ingrediente_data data false with
    | Lanza e => (mkRespuesta 500 (CuerpoErrorInterno e), bd)
    | Ok (e :: errors) =>
        (mkRespuesta 400 (CuerpoValidacion "Datos inválidos." (e :: errors)), bd)
    | Ok [] =>
        match insert_data esq data with
        | Lanza e => (mkRespuesta 500 (CuerpoErrorInterno e), bd)
        | Ok fila =>
            match get_db_connection r (transaccion_create_ingrediente esq fila) bd with
            | (Ok resp, bd') => (resp, bd')
            | (Lanza (IntegrityError code), bd') =>
                if code =? 1
                then (mkRespuesta 409 (CuerpoError "El nombre del ingrediente ya existe."), bd')
                else (mkRespuesta 400 (CuerpoError "Error de integridad en la base de datos."),
                      bd')
            | (Lanza e, bd') => (mkRespuesta 500 (CuerpoErrorInterno e), bd')
            end
        end
    end.

(** ** DELETE /api/ingredientes/<id> *)

(** [SELECT COUNT of the rows FROM SGIC_PRODUCTO_INGREDIENTES WHERE
    id_ingrediente_fk = :id] *)
Definition select_count_recetas_con (id : Z) : Tx nat :=
  fun s =>
    (Ok (length (filter (fun f => id_ingrediente_fk f = id)
                   (SGIC_PRODUCTO_INGREDIENTES (pendiente s)))), s).

(** [DELETE FROM SGIC_INGREDIENTES WHERE id_ingrediente = :id], then
    [cursor.rowcount]. *)
Definition delete_fila_ingrediente (esq : Esquema) (id : Z) : Tx nat :=
  fun s =>
    let bd := pendiente s in
    match SGIC_INGREDIENTES bd !! id with
    | None => (Ok 0%nat, s)
    | Some _ =>
        if impide_borrar_ingrediente esq id bd then lanzar (IntegrityError 2292) s
        else
          (Ok 1%nat,
           mkSesion (confirmado s)
             (mkBD (delete id (SGIC_INGREDIENTES bd)) (SGIC_PRODUCTOS bd)
                   (SGIC_PRODUCTO_INGREDIENTES bd) (SGIC_VENTAS bd)
                   (SGIC_MOVIMIENTOS_INVENTARIO bd) (sec_id_venta bd))
             (bloqueos s) (reloj s) (lecturas s))
    end.

Definition transaccion_delete_ingrediente (esq : Esquema) (ingrediente_id : Z)
  : Tx Contestacion :=
  count ← select_count_recetas_con ingrediente_id;
  if (0 <? count)%nat
  then mret (mkContestacion 409
               (ContCuerpo (CuerpoError "No se puede eliminar: el ingrediente está siendo usado en uno o más productos.")))
  else
    rowcount ← delete_fila_ingrediente esq ingrediente_id;
    if (rowcount =? 0)%nat
    then mret (mkContestacion 404
                 (ContCuerpo (CuerpoError "Ingrediente no encontrado para eliminar.")))
    else
      commit;;
      mret (mkContestacion 200 (ContMensaje "Ingrediente eliminado correctamente.")).

Definition delete_ingrediente (esq : Esquema) (r : nat -> Z) (ingrediente_id : Z) (bd : BD)
  : Contestacion * BD :=
  match get_db_connection r (transaccion_delete_ingrediente esq ingrediente_id) bd with
  | (Ok resp, bd') => (resp, bd')
  | (Lanza (IntegrityError _), bd') =>
      (mkContestacion 409
         (ContErrorDetalle "Error de integridad al eliminar, posiblemente aún en uso en movimientos de inventario u otra tabla."),
       bd')
  | (Lanza e, bd') => (mkContestacion 500 (ContCuerpo (CuerpoErrorInterno e)), bd')
  end.

(** ** [validate_producto_data] *)

(** An element of the [ingredientes] list of a request. *)
Record ItemReceta := mkItemReceta {
  item_id_ingrediente : Campo Z;
  item_cantidad_necesaria : Campo Decimal;
  item_unidad_medida_receta : Campo string
}.

(** The body of POST /api/productos and of PUT /api/productos/<id>: the
    keys the endpoints read.  [Nulo] for [ingredientes] is a value that
    is not a list. *)
Record DatosProducto := mkDatosProducto {
  prod_nombre : Campo string;
  prod_descripcion : Campo string;
  prod_precio_venta : Campo Decimal;
  prod_categoria : Campo string;
  prod_ingredientes : Campo (list ItemReceta)
}.

(** [not data] *)
Definition sin_datos_producto (data : DatosProducto) : bool :=
  ausente (prod_nombre data) && ausente (prod_descripcion data) &&
  ausente (prod_precio_venta data) && ausente (prod_categoria data) &&
  ausente (prod_ingredientes data).

Definition validar_precio (is_update : bool) (c : Campo Decimal) : list string :=
  match c with
  | Ausente => if is_update then [] else ["El precio de venta es requerido."]
  | Nulo => if is_update then []
            else ["El precio de venta es requerido y no puede ser nulo."]
  | Valor precio =>
      (if dec_ltb precio (dec_de_entero 0)
       then ["El precio de venta no puede ser negativo."] else []) ++
      (if dec_gtb precio (mkDec 9999999999 (-2))
       then ["El precio de venta excede el valor máximo."] else [])
  end.

(** The check of the length of an optional text. *)
Definition validar_largo (c : Campo string) (maximo : nat) (largo : string) : list string :=
  match c with
  | Valor s => if (maximo <? String.length s)%nat then [largo] else []
  | _ => []
  end.

(** The checks of one element of the recipe; [n] is [idx+1] as a text. *)
Definition validar_item (n : string) (item_receta : ItemReceta) : list string :=
  match item_id_ingrediente item_receta with
  | Ausente => ["Falta 'id_ingrediente' para el ingrediente #" +:+ n +:+ "."]
  | Nulo => ["'id_ingrediente' para #" +:+ n +:+ " debe ser entero."]
  | Valor _ => []
  end ++
  match item_cantidad_necesaria item_receta with
  | Ausente => ["Falta 'cantidad_necesaria' para el ingrediente #" +:+ n +:+ "."]
  | Nulo => ["'cantidad_necesaria' para #" +:+ n +:+ " debe ser un número."]
  | Valor cant =>
      (if dec_leb cant (dec_de_entero 0)
       then ["'cantidad_necesaria' para #" +:+ n +:+ " debe ser positiva."] else []) ++
      (if expo cant <? -3
       then ["'cantidad_necesaria' para #" +:+ n +:+ " excede precisión (3 decimales)."]
       else []) ++
      (if dec_gtb cant (mkDec 99999999 (-3))
       then ["'cantidad_necesaria' para #" +:+ n +:+ " excede el máximo."] else [])
  end ++
  match item_unidad_medida_receta item_receta with
  | Ausente => ["Falta 'unidad_medida_receta' para el ingrediente #" +:+ n +:+ "."]
  | Nulo => []
  | Valor s =>
      if String.eqb (strip s) ""
      then ["Falta 'unidad_medida_receta' para el ingrediente #" +:+ n +:+ "."]
      else if (50 <? String.length s)%nat
           then ["'unidad_medida_receta' para #" +:+ n +:+ " no debe exceder 50 caracteres."]
           else []
  end.

(** The checks of the [ingredientes] key. *)
Definition validar_ingredientes (c : Campo (list ItemReceta)) : list string :=
  match c with
  | Ausente => []
  | Nulo => ["Los ingredientes deben ser una lista."]
  | Valor l => concat (imap (fun idx item_receta => validar_item (pretty (S idx)) item_receta) l)
  end.

(** The errors, and [data] as the validator leaves it: when the key
    [ingredientes] is absent and the request is not an update, the
    validator sets it to the empty list. *)
Definition validate_producto_data (data : DatosProducto) (is_update : bool)
  : Resultado (list string * DatosProducto) :=
  e_nombre ← validar_texto is_update (prod_nombre data)
               "El nombre del producto es requerido."
               "El nombre del producto no debe exceder 100 caracteres." 100;
  Ok (e_nombre ++
      validar_precio is_update (prod_precio_venta data) ++
      validar_largo (prod_descripcion data) 255
        "La descripción del producto no debe exceder 255 caracteres." ++
      validar_largo (prod_categoria data) 100
        "La categoría del producto no debe exceder 100 caracteres." ++
      validar_ingredientes (prod_ingredientes data),
      match prod_ingredientes data with
      | Ausente =>
          if is_update then data
          else mkDatosProducto (prod_nombre data) (prod_descripcion data)
                 (prod_precio_venta data) (prod_categoria data) (Valor [])
      | _ => data
      end).

(** ** POST /api/productos *)

(** Whether another row of SGIC_PRODUCTOS already has the name [n]. *)
Definition nombre_producto_en_uso (n : string) (id : Z) (m : gmap Z Producto) : bool :=
  bool_decide (Exists (fun kp => kp.1 <> id /\ nombre_producto kp.2 = n) (map_to_list m)).

(** [INSERT INTO SGIC_PRODUCTOS (...) VALUES (...) RETURNING id_producto
    INTO :new_prod_id].  A name that is taken is an IntegrityError of
    code 1, as the handler of the endpoint tells; so is an identifier
    that is taken. *)
Definition insert_producto (esq : Esquema) (p : Producto) : Tx Z :=
  fun s =>
    let bd := pendiente s in
    let new_id := genera_id_producto esq bd in
    if bool_decide (is_Some (SGIC_PRODUCTOS bd !! new_id)) ||
       nombre_producto_en_uso (nombre_producto p) new_id (SGIC_PRODUCTOS bd)
    then lanzar (IntegrityError 1) s
    else
      (Ok new_id,
       mkSesion (confirmado s)
         (mkBD (SGIC_INGREDIENTES bd) (<[new_id := p]> (SGIC_PRODUCTOS bd))
               (SGIC_PRODUCTO_INGREDIENTES bd) (SGIC_VENTAS bd)
               (SGIC_MOVIMIENTOS_INVENTARIO bd) (sec_id_venta bd))
         (bloqueos s) (reloj s) (lecturas s)).

(** [SELECT COUNT of the rows FROM SGIC_INGREDIENTES WHERE
    id_ingrediente = :id_ing] *)
Definition select_count_ingrediente (id : Z) : Tx nat :=
  fun s =>
    (Ok (match SGIC_INGREDIENTES (pendiente s) !! id with
         | Some _ => 1%nat
         | None => 0%nat
         end), s).

(** Whether the recipe table has a row for the product and the
    ingredient of [f]. *)
Definition fila_repetida (f : ProductoIngrediente) (l : list ProductoIngrediente) : bool :=
  bool_decide (Exists (fun g => id_producto_fk g = id_producto_fk f /\
                                id_ingrediente_fk g = id_ingrediente_fk f) l).

(** [INSERT INTO SGIC_PRODUCTO_INGREDIENTES (...) VALUES (:id_prod,
    :id_ing, :cant, :unidad)] *)
Definition insert_producto_ingrediente (esq : Esquema) (f : ProductoIngrediente) : Tx unit :=
  fun s =>
    if receta_sin_repetidos esq &&
       fila_repetida f (SGIC_PRODUCTO_INGREDIENTES (pendiente s))
    then lanzar (IntegrityError 1) s
    else
      con_pendiente (fun bd =>
        mkBD (SGIC_INGREDIENTES bd) (SGIC_PRODUCTOS bd)
             (SGIC_PRODUCTO_INGREDIENTES bd ++ [f]) (SGIC_VENTAS bd)
             (SGIC_MOVIMIENTOS_INVENTARIO bd) (sec_id_venta bd)) s.

(** [int(item_receta["id_ingrediente"])] *)
Definition entero_de (c : Campo Z) : Resultado Z :=
  match c with
  | Valor z => Ok z
  | _ => Lanza AttributeError
  end.

(** [Decimal(str(d[k]))] *)
Definition decimal_de (c : Campo Decimal) : Resultado Decimal :=
  match c with
  | Valor d => Ok d
  | Nulo => Lanza InvalidOperation
  | Ausente => Lanza AttributeError
  end.

(** The loop over the elements of the recipe: for each one the check
    that the ingredient has a row, then the INSERT.  [Some] is the answer
    the loop returns with when an ingredient has no row, after a
    rollback; [no_existe] is the text of that answer. *)
Fixpoint insertar_receta (esq : Esquema) (no_existe : Z -> Contenido) (id_prod : Z)
    (items : list ItemReceta) : Tx (option Contestacion) :=
  match items with
  | [] => mret None
  | item_receta :: resto =>
      id_ing ← elevar (entero_de (item_id_ingrediente item_receta));
      count ← select_count_ingrediente id_ing;
      if (count =? 0)%nat
      then rollback;; mret (Some (mkContestacion 400 (no_existe id_ing)))
      else
        cant ← elevar (decimal_de (item_cantidad_necesaria item_receta));
        unidad ← elevar (texto_requerido (item_unidad_medida_receta item_receta));
        insert_producto_ingrediente esq (mkProductoIngrediente id_prod id_ing cant unidad);;
        insertar_receta esq no_existe id_prod resto
  end.

(** [SELECT * FROM SGIC_PRODUCTOS WHERE id_producto = :id], then
    [fetchone()]. *)
Definition select_producto_base (id : Z) : Tx (option Producto) :=
  fun s => (Ok (SGIC_PRODUCTOS (pendiente s) !! id), s).

(** The body of the [with] block of the endpoint.  The price is bound as
    [float(Decimal(str(...)))] and the endpoint checks no precision for
    it: by the convention on NUMBER columns the row has the price of the
    request, which is what the code stores when the price has at most 15
    significant digits ([cabe_en_float]). *)
Definition transaccion_create_producto (esq : Esquema) (data : DatosProducto)
  : Tx Contestacion :=
  nombre ← elevar (texto_requerido (prod_nombre data));
  _ ← elevar (texto_o_none (prod_descripcion data));
  precio ← elevar (decimal_de (prod_precio_venta data));
  _ ← elevar (texto_o_none (prod_categoria data));
  new_producto_id ← insert_producto esq (mkProducto nombre precio);
  salida ← match prod_ingredientes data with
           | Valor (item_receta :: resto) =>
               insertar_receta esq ContIngredienteNoExiste new_producto_id
                 (item_receta :: resto)
           | _ => mret None
           end;
  match salida with
  | Some resp => mret resp
  | None =>
      commit;;
      producto_creado_base ← select_producto_base new_producto_id;
      mret (mkContestacion 201 (ContProducto producto_creado_base))
  end.

Definition create_producto (esq : Esquema) (r : nat -> Z) (data : DatosProducto) (bd : BD)
  : Contestacion * BD :=
  if sin_datos_producto data
  then (mkContestacion 400 (ContCuerpo (CuerpoError "No se enviaron datos.")), bd)
  else
    match validate_producto_data data false with
    | Lanza e => (mkContestacion 500 (ContCuerpo (CuerpoErrorInterno e)), bd)
    | Ok (e :: errors, _) =>
        (mkContestacion 400
           (ContCuerpo (CuerpoValidacion "Datos de producto inválidos." (e :: errors))), bd)
    | Ok ([], data) =>
        match get_db_connection r (transaccion_create_producto esq data) bd with
        | (Ok resp, bd') => (resp, bd')
        | (Lanza (IntegrityError code), bd') =>
            if code =? 1
            then (mkContestacion 409
                    (ContCuerpo (CuerpoError "El nombre del producto ya existe.")), bd')
            else (mkContestacion 400
                    (ContErrorDetalle "Error de integridad en la base de datos."), bd')
        | (Lanza (ValueError ve), bd') => (mkContestacion 400 (ContDatosInvalidos ve), bd')
        | (Lanza e, bd') => (mkContestacion 500 (ContCuerpo (CuerpoErrorInterno e)), bd')
        end
    end.

(** ** PUT /api/productos/<id> *)

(** [SELECT COUNT of the rows FROM SGIC_PRODUCTOS WHERE id_producto = :id] *)
Definition select_count_producto (id : Z) : Tx nat :=
  fun s =>
    (Ok (match SGIC_PRODUCTOS (pendiente s) !! id with
         | Some _ => 1%nat
         | None => 0%nat
         end), s).

(** The row with the columns of [update_fields_prod] assigned. *)
Definition asignar_producto (n : option string) (precio : option Decimal) (p : Producto)
  : Producto :=
  mkProducto (default (nombre_producto p) n) (default (precio_venta p) precio).

(** [UPDATE SGIC_PRODUCTOS SET ..., fecha_actualizacion =
    CURRENT_TIMESTAMP WHERE id_producto = :id] *)
Definition update_campos_producto (id : Z) (n : option string) (precio : option Decimal)
  : Tx unit :=
  fun s =>
    let bd := pendiente s in
    if match n with
       | Some n' => nombre_producto_en_uso n' id (SGIC_PRODUCTOS bd)
       | None => false
       end
    then lanzar (IntegrityError 1) s
    else
      con_pendiente (fun bd =>
        mkBD (SGIC_INGREDIENTES bd) (alter (asignar_producto n precio) id (SGIC_PRODUCTOS bd))
             (SGIC_PRODUCTO_INGREDIENTES bd) (SGIC_VENTAS bd)
             (SGIC_MOVIMIENTOS_INVENTARIO bd) (sec_id_venta bd)) s.

(** [DELETE FROM SGIC_PRODUCTO_INGREDIENTES WHERE id_producto_fk =
    :id_prod] *)
Definition delete_receta (id_prod : Z) : Tx unit :=
  con_pendiente (fun bd =>
    mkBD (SGIC_INGREDIENTES bd) (SGIC_PRODUCTOS bd)
         (filter (fun f => id_producto_fk f <> id_prod) (SGIC_PRODUCTO_INGREDIENTES bd))
         (SGIC_VENTAS bd) (SGIC_MOVIMIENTOS_INVENTARIO bd) (sec_id_venta bd)).

(** The body of the [with] block of the endpoint.  A price is bound as
    [float(Decimal(str(...)))], as in POST /api/productos. *)
Definition transaccion_update_producto (esq : Esquema) (producto_id : Z)
    (data : DatosProducto) : Tx Contestacion :=
  count ← select_count_producto producto_id;
  if (count =? 0)%nat
  then mret (mkContestacion 404 (ContCuerpo (CuerpoError "Producto no encontrado.")))
  else
    n ← elevar (texto_de (prod_nombre data));
    let precio := numero_de (prod_precio_venta data) in
    (if bool_decide (n = None) && bool_decide (precio = None)
     then mret tt
     else update_campos_producto producto_id n precio);;
    salida ← match prod_ingredientes data with
             | Ausente => mret None
             | Nulo => delete_receta producto_id;; lanzar AttributeError
             | Valor items =>
                 delete_receta producto_id;;
                 insertar_receta esq ContIngredienteIdNoExiste producto_id items
             end;
    match salida with
    | Some resp => mret resp
    | None =>
        commit;;
        mret (mkContestacion 200 (ContMensaje "Producto actualizado"))
    end.

Definition update_producto (esq : Esquema) (r : nat -> Z) (producto_id : Z)
    (data : DatosProducto) (bd : BD) : Contestacion * BD :=
  if sin_datos_producto data
  then (mkContestacion 400 (ContCuerpo (CuerpoError "No se enviaron datos para actualizar.")),
        bd)
  else
    match validate_producto_data data true with
    | Lanza e => (mkContestacion 500 (ContCuerpo (CuerpoErrorInterno e)), bd)
    | Ok (e :: errors, _) =>
        (mkContestacion 400
           (ContCuerpo (CuerpoValidacion "Datos de producto inválidos para actualizar."
                          (e :: errors))), bd)
    | Ok ([], data) =>
        match get_db_connection r (transaccion_update_producto esq producto_id data) bd with
        | (Ok resp, bd') => (resp, bd')
        | (Lanza e, bd') => (mkContestacion 500 (ContCuerpo (CuerpoErrorInterno e)), bd')
        end
    end.

(** ** DELETE /api/productos/<id> *)

(** [SELECT COUNT of the rows FROM SGIC_VENTAS WHERE id_producto_fk = :id] *)
Definition select_count_ventas (id : Z) : Tx nat :=
  fun s =>
    (Ok (length (filter (fun v => venta_id_producto_fk v = id) (SGIC_VENTAS (pendiente s)))),
     s).

(** [DELETE FROM SGIC_PRODUCTOS WHERE id_producto = :id], then
    [cursor.rowcount].  The statement names this one table.  What becomes
    of the recipe rows of the product is for the schema to say: under the
    ON DELETE CASCADE the endpoint counts on they go with the product,
    without it they stay; a key on them that forbids the DELETE is one of
    those [impide_borrar_producto] stands for. *)
Definition delete_fila_producto (esq : Esquema) (id : Z) : Tx nat :=
  fun s =>
    let bd := pendiente s in
    match SGIC_PRODUCTOS bd !! id with
    | None => (Ok 0%nat, s)
    | Some _ =>
        if impide_borrar_producto esq id bd then lanzar (IntegrityError 2292) s
        else
          (Ok 1%nat,
           mkSesion (confirmado s)
             (mkBD (SGIC_INGREDIENTES bd) (delete id (SGIC_PRODUCTOS bd))
                   (if recetas_en_cascada esq
                    then filter (fun f => id_producto_fk f <> id)
                           (SGIC_PRODUCTO_INGREDIENTES bd)
                    else SGIC_PRODUCTO_INGREDIENTES bd)
                   (SGIC_VENTAS bd) (SGIC_MOVIMIENTOS_INVENTARIO bd) (sec_id_venta bd))
             (bloqueos s) (reloj s) (lecturas s))
    end.

Definition transaccion_delete_producto (esq : Esquema) (producto_id : Z)
  : Tx Contestacion :=
  count ← select_count_producto producto_id;
  if (count =? 0)%nat
  then mret (mkContestacion 404
               (ContCuerpo (CuerpoError "Producto no encontrado para eliminar.")))
  else
    ventas ← select_count_ventas producto_id;
    if (0 <? ventas)%nat
    then mret (mkContestacion 409
                 (ContCuerpo (CuerpoError "No se puede eliminar: el producto tiene ventas registradas.")))
    else
      rowcount ← delete_fila_producto esq producto_id;
      if (rowcount =? 0)%nat
      then mret (mkContestacion 404
                   (ContCuerpo (CuerpoError "Producto no encontrado durante intento de eliminación.")))
      else
        commit;;
        mret (mkContestacion 200 (ContProductoEliminado producto_id)).

Definition delete_producto (esq : Esquema) (r : nat -> Z) (producto_id : Z) (bd : BD)
  : Contestacion * BD :=
  match get_db_connection r (transaccion_delete_producto esq producto_id) bd with
  | (Ok resp, bd') => (resp, bd')
  | (Lanza (IntegrityError _), bd') =>
      (mkContestacion 409 (ContErrorDetalle "Error de integridad al eliminar el producto."),
       bd')
  | (Lanza e, bd') => (mkContestacion 500 (ContCuerpo (CuerpoErrorInterno e)), bd')
  end.

(** ** Notions for the properties of the catalogue *)

(** A recipe quantity the validator lets through: positive, of at most
    three decimals, at most 99999.999. *)
Definition cantidad_valida (c : Decimal) : Prop :=
  0 < coef c /\ -3 <= expo c /\ milesimas c <= 99999999.

(** An element of a recipe the validator lets through. *)
Definition item_valido (item_receta : ItemReceta) : Prop :=
  (exists id, item_id_ingrediente item_receta = Valor id) /\
  (exists c, item_cantidad_necesaria item_receta = Valor c /\ cantidad_valida c) /\
  match item_unidad_medida_receta item_receta with
  | Ausente => False
  | Nulo => True
  | Valor s => strip s <> "" /\ (String.length s <= 50)%nat
  end.

(** The recipe row [f] of the product [id_prod] is the one the element
    [item_receta] of a request stands for. *)
Definition fila_de_receta (id_prod : Z) (item_receta : ItemReceta) (f : ProductoIngrediente)
  : Prop :=
  id_producto_fk f = id_prod /\
  item_id_ingrediente item_receta = Valor (id_ingrediente_fk f) /\
  item_cantidad_necesaria item_receta = Valor (cantidad_necesaria f) /\
  exists s, item_unidad_medida_receta item_receta = Valor s /\
            unidad_medida_receta f = strip s.

(** The elements of the recipe of a request. *)
Definition items_de (c : Campo (list ItemReceta)) : list ItemReceta :=
  match c with Valor l => l | _ => [] end.

(** Every recipe row names an ingredient and a product that have a row,
    and has a quantity the validator lets through. *)
Definition recetas_integras (bd : BD) : Prop :=
  Forall (fun f => is_Some (SGIC_INGREDIENTES bd !! id_ingrediente_fk f) /\
                   is_Some (SGIC_PRODUCTOS bd !! id_producto_fk f) /\
                   cantidad_valida (cantidad_necesaria f))
         (SGIC_PRODUCTO_INGREDIENTES bd).

(** The schema keeps a recipe row from outliving its product: the recipe
    rows go with the product that is deleted, or a product that has
    recipe rows cannot be deleted. *)
Definition recetas_protegidas (esq : Esquema) : Prop :=
  recetas_en_cascada esq = true \/
  forall id bd, filas_receta id bd <> [] -> impide_borrar_producto esq id bd = true.

(** Every stock is below 10^12 units: counted in thousandths it has at
    most 15 digits, which a column holds as they are. *)
Definition stocks_acotados (bd : BD) : Prop :=
  forall id ing, SGIC_INGREDIENTES bd !! id = Some ing ->
                 milesimas (stock_actual ing) < 10 ^ 15.

(** Every sale names a product that has a row. *)
Definition ventas_integras (bd : BD) : Prop :=
  Forall (fun v => is_Some (SGIC_PRODUCTOS bd !! venta_id_producto_fk v)) (SGIC_VENTAS bd).

(** What the endpoints keep true of the tables. *)
Definition catalogo_integro (bd : BD) : Prop :=
  stocks_validos bd /\ recetas_integras bd /\ ventas_integras bd.

(** A request to one of the endpoints that write. *)
Inductive Peticion :=
| PostIngrediente (data : DatosIngrediente)
| PutIngrediente (ingrediente_id : Z) (data : DatosIngrediente)
| DeleteIngrediente (ingrediente_id : Z)
| PostProducto (data : DatosProducto)
| PutProducto (producto_id : Z) (data : DatosProducto)
| DeleteProducto (producto_id : Z)
| PostEntrada (data : DatosEntrada)
| PostVenta (data : DatosVenta).

(** The database after the request [p], served with the clock [r]. *)
Definition atender (esq : Esquema) (r : nat -> Z) (p : Peticion) (bd : BD) : BD :=
  match p with
  | PostIngrediente data => (create_ingrediente esq r data bd).2
  | PutIngrediente id data => (update_ingrediente r id data bd).2
  | DeleteIngrediente id => (delete_ingrediente esq r id bd).2
  | PostProducto data => (create_producto esq r data bd).2
  | PutProducto id data => (update_producto esq r id data bd).2
  | DeleteProducto id => (delete_producto esq r id bd).2
  | PostEntrada data => (registrar_entrada_inventario r data bd).2
  | PostVenta data => (registrar_salida_por_venta r data bd).2
  end.

(** The database after the requests of [l], one after the other, each
    with its clock. *)
Definition atender_todas (esq : Esquema) (l : list ((nat -> Z) * Peticion)) (bd : BD) : BD :=
  foldl (fun bd rp => atender esq rp.1 rp.2 bd) bd l.

(** The database before any request. *)
Definition bd_vacia : BD := mkBD ∅ ∅ [] [] [] 1.

(** ** Sample data for the catalogue *)

(** A generator that gives the identifier after the largest one in use. *)
Definition siguiente_id {A : Type} (m : gmap Z A) : Z :=
  1 + foldr Z.max 0 (map_to_list m).*1.

(** A schema: identifiers in sequence, an ingredient that has movements
    cannot be deleted, one recipe row per product and ingredient, the
    recipe rows of a product deleted with it. *)
Definition esquema_ejemplo : Esquema :=
  mkEsquema (fun bd => siguiente_id (SGIC_INGREDIENTES bd))
            (fun bd => siguiente_id (SGIC_PRODUCTOS bd))
            0
            (fun id bd =>
               bool_decide (Exists (fun m => mov_id_ingrediente_fk m = id)
                              (SGIC_MOVIMIENTOS_INVENTARIO bd)))
            (fun _ _ => false)
            true
            true.

(** A new ingredient, with blanks around its texts and no stock given. *)
Definition cafe_nuevo : DatosIngrediente :=
  mkDatosIngrediente (Valor " Cafe ") (Valor "  ") (Valor "kg ") Ausente
    (Valor (mkDec 5 (-1))).


(** The sample database with a third ingredient that no recipe uses. *)
Definition bd_con_cafe : BD :=
  (create_ingrediente esquema_ejemplo reloj_ejemplo cafe_nuevo bd_ejemplo).2.

(** An element of a recipe: 0.200 of the milk. *)
Definition item_leche : ItemReceta :=
  mkItemReceta (Valor 1) (Valor (mkDec 200 (-3))) (Valor " L ").

(** An element of a recipe: 0.005 of the sugar. *)
Definition item_azucar : ItemReceta :=
  mkItemReceta (Valor 2) (Valor (mkDec 5 (-3))) (Valor "kg").

(** An element of a recipe for an ingredient that has no row. *)
Definition item_fantasma : ItemReceta :=
  mkItemReceta (Valor 9) (Valor (mkDec 1 0)) (Valor "u").

(** A new product made of milk. *)
Definition te_nuevo : DatosProducto :=
  mkDatosProducto (Valor " Te ") Ausente (Valor (mkDec 150 (-2))) Ausente
    (Valor [item_leche]).

(** A new product whose second ingredient has no row. *)
Definition te_con_fantasma : DatosProducto :=
  mkDatosProducto (Valor "Te") Ausente (Valor (mkDec 150 (-2))) Ausente
    (Valor [item_leche; item_fantasma]).

(** A PUT that sets the price of a product and gives it a recipe of sugar
    only. *)
Definition receta_de_azucar : DatosProducto :=
  mkDatosProducto Ausente Ausente (Valor (mkDec 400 (-2))) Ausente (Valor [item_azucar]).

(** A PUT whose new recipe names an ingredient that has no row. *)
Definition receta_con_fantasma : DatosProducto :=
  mkDatosProducto (Valor "Cortado") Ausente Ausente Ausente
    (Valor [item_azucar; item_fantasma]).

(** The stocked database after the sale of one latte. *)
Definition bd_con_venta : BD :=
  (registrar_salida_por_venta reloj_ejemplo venta_ejemplo bd_surtida).2.

(** The opening of the cafeteria, from the empty database: a new
    ingredient, a product made of it, a purchase of one kilogram. *)
Definition apertura : list ((nat -> Z) * Peticion) :=
  [(reloj_ejemplo, PostIngrediente cafe_nuevo);
   (reloj_ejemplo,
    PostProducto (mkDatosProducto (Valor "Espresso") Ausente (Valor (mkDec 200 (-2))) Ausente
                    (Valor [mkItemReceta (Valor 1) (Valor (mkDec 8 (-3))) (Valor "kg")])));
   (reloj_ejemplo, PostEntrada (mkDatosEntrada (Some 1) (Some (mkDec 1 0)) Ausente None))].

Definition bd_abierta : BD := atender_todas esquema_ejemplo apertura bd_vacia.

(** Three espressos. *)
Definition venta_espressos : DatosVenta := mkDatosVenta (Some 1) (Some 3) None.

(** A morning of the cafeteria: the opening, a sale, and a deletion that
    is refused. *)
Definition jornada : list ((nat -> Z) * Peticion) :=
  apertura ++ [(reloj_ejemplo, PostVenta venta_espressos);
               (reloj_ejemplo, DeleteIngrediente 1)].

(** The session of POST /api/productos once the product row has been
    inserted. *)
Definition sesion_con_producto (esq : Esquema) (r : nat -> Z) (bd : BD) (p : Producto)
  : Sesion :=
  mkSesion bd
    (mkBD (SGIC_INGREDIENTES bd) (<[genera_id_producto esq bd := p]> (SGIC_PRODUCTOS bd))
          (SGIC_PRODUCTO_INGREDIENTES bd) (SGIC_VENTAS bd)
          (SGIC_MOVIMIENTOS_INVENTARIO bd) (sec_id_venta bd))
    [] r 0%nat.

(** An element of a recipe whose unit is null. *)
Definition item_sin_unidad : ItemReceta :=
  mkItemReceta (Valor 1) (Valor (mkDec 200 (-3))) Nulo.

(** A new product with that element. *)
Definition te_sin_unidad : DatosProducto :=
  mkDatosProducto (Valor "Te") Ausente (Valor (mkDec 150 (-2))) Ausente
    (Valor [item_sin_unidad]).

(** The sample schema without the cascade from a product to its recipe
    rows, and without a key that forbids deleting the product. *)
Definition esquema_sin_cascada : Esquema :=
  mkEsquema (genera_id_ingrediente esquema_ejemplo) (genera_id_producto esquema_ejemplo)
            0 (impide_borrar_ingrediente esquema_ejemplo) (fun _ _ => false) true false.
(** * Proofs *)

(** ** Worked values of the decimal arithmetic *)

Example quantize_ej1 :
  quantize_half_up (mkDec 100005 (-4)) milesima = Ok (mkDec 10001 (-3)).
Proof. vm_compute. reflexivity. Qed.

Example quantize_ej2 :
  quantize_half_up (mkDec (-100005) (-4)) milesima = Ok (mkDec (-10001) (-3)).
Proof. vm_compute. reflexivity. Qed.

Example quantize_ej3 :
  quantize_half_up (mkDec 100004 (-4)) milesima = Ok (mkDec 10000 (-3)).
Proof. vm_compute. reflexivity. Qed.

Example quantize_ej4 :
  quantize_half_up (dec_add (mkDec 10 0) (mkDec 1 30)) milesima = Lanza InvalidOperation.
Proof. vm_compute. reflexivity. Qed.

Example dec_add_ej1 : dec_add (mkDec 10000 (-3)) (mkDec 55 (-1)) = mkDec 15500 (-3).
Proof. vm_compute. reflexivity. Qed.

Example dec_add_ej2 :
  dec_add (mkDec 1 0) (mkDec 1 (-28)) = mkDec (10 ^ 27) (-27).
Proof. vm_compute. reflexivity. Qed.

Example dec_add_ej3 :
  dec_add (mkDec (10 ^ 28 - 1) 0) (mkDec 5 (-1)) = mkDec (10 ^ 27) 1.
Proof. vm_compute. reflexivity. Qed.

Example strip_upper_ej :
  upper (strip "  ajuste manual  ") = "AJUSTE MANUAL"%string.
Proof. vm_compute. reflexivity. Qed.

(** ** Facts about the decimal arithmetic *)

Section DecimalFacts.

Lemma pot10_pos (k : Z) : 0 <= k -> 0 < 10 ^ k.
Proof. intros Hk. apply Z.pow_pos_nonneg; lia. Qed.

Lemma pot10_prec : 10 ^ prec = 10 * 10 ^ (prec - 1).
Proof.
  replace prec with (Z.succ (prec - 1)) at 1 by lia.
  apply Z.pow_succ_r. unfold prec. lia.
Qed.

Lemma pot10_suma (a b : Z) : 0 <= a -> 0 <= b -> 10 ^ (a + b) = 10 ^ a * 10 ^ b.
Proof. intros. apply Z.pow_add_r; assumption. Qed.

Lemma pot10_mono (a b : Z) : 0 <= a <= b -> 10 ^ a <= 10 ^ b.
Proof. intros. apply Z.pow_le_mono_r; lia. Qed.

Lemma digitos_sobrantes_aux_spec (fuel : nat) (n : Z) :
  0 <= n < 2 ^ Z.of_nat fuel ->
  let k := digitos_sobrantes_aux fuel n in
  0 <= k /\ n / 10 ^ k < 10 ^ prec /\ (0 < k -> 10 ^ prec <= n / 10 ^ (k - 1)).
Proof.
  revert n. induction fuel as [|f IH]; intros n Hn.
  - cbn [digitos_sobrantes_aux]. change (2 ^ Z.of_nat 0) with 1 in Hn.
    assert (n = 0) as -> by lia.
    pose proof (pot10_pos prec ltac:(unfold prec; lia)).
    split; [lia|]. split; [|lia]. rewrite Z.pow_0_r, Z.div_1_r. lia.
  - cbn [digitos_sobrantes_aux].
    destruct (Z.ltb_spec n (10 ^ prec)) as [Hlt|Hge].
    + split; [lia|]. split; [|lia]. rewrite Z.pow_0_r, Z.div_1_r. lia.
    + assert (Hdiv : 0 <= n / 10 < 2 ^ Z.of_nat f).
      { rewrite Nat2Z.inj_succ, Z.pow_succ_r in Hn by lia.
        split; [apply Z.div_pos; lia|].
        apply Z.div_lt_upper_bound; lia. }
      destruct (IH _ Hdiv) as (Hk0 & Hup & Hlow).
      set (k' := digitos_sobrantes_aux f (n / 10)) in *.
      split; [lia|]. split.
      * rewrite Z.add_comm, Z.pow_add_r, Z.pow_1_r by lia.
        rewrite Z.mul_comm, <- Z.div_div by (try apply pot10_pos; lia).
        exact Hup.
      * intros _. replace (1 + k' - 1) with k' by lia.
        destruct (Z.eq_dec k' 0) as [->|Hne].
        -- rewrite Z.pow_0_r, Z.div_1_r. lia.
        -- replace k' with (1 + (k' - 1)) by lia.
           rewrite Z.pow_add_r, Z.pow_1_r by lia.
           rewrite <- Z.div_div by (try apply pot10_pos; lia).
           apply Hlow. lia.
Qed.

Lemma digitos_sobrantes_spec (n : Z) :
  0 <= n ->
  let k := digitos_sobrantes n in
  0 <= k /\ n / 10 ^ k < 10 ^ prec /\ (0 < k -> 10 ^ prec <= n / 10 ^ (k - 1)).
Proof.
  intros Hn. unfold digitos_sobrantes.
  apply digitos_sobrantes_aux_spec. split; [lia|].
  rewrite Nat2Z.inj_add, Z2Nat.id by apply Z.log2_nonneg.
  destruct (Z.eq_dec n 0) as [->|Hne].
  - vm_compute. reflexivity.
  - change (Z.of_nat 1) with 1. rewrite Z.add_1_r.
    apply Z.log2_spec. lia.
Qed.

Lemma digitos_sobrantes_cero (n : Z) :
  0 <= n -> n < 10 ^ prec -> digitos_sobrantes n = 0.
Proof.
  intros Hn Hlt.
  destruct (digitos_sobrantes_spec n Hn) as (Hk0 & _ & Hlow).
  destruct (Z.eq_dec (digitos_sobrantes n) 0) as [|Hne]; [assumption|].
  exfalso.
  assert (Hpos : 0 < digitos_sobrantes n) by lia.
  specialize (Hlow Hpos).
  assert (n / 10 ^ (digitos_sobrantes n - 1) <= n).
  { apply Z.div_le_upper_bound; [apply pot10_pos; lia|].
    pose proof (pot10_pos (digitos_sobrantes n - 1) ltac:(lia)). nia. }
  lia.
Qed.

Lemma digitos_sobrantes_pos (n : Z) :
  10 ^ prec <= n -> 0 < digitos_sobrantes n.
Proof.
  intros Hge.
  pose proof (pot10_pos prec ltac:(unfold prec; lia)) as Hp.
  destruct (digitos_sobrantes_spec n ltac:(lia)) as (Hk0 & Hup & _).
  destruct (Z.eq_dec (digitos_sobrantes n) 0) as [Heq|Hne]; [|lia].
  rewrite Heq, Z.pow_0_r, Z.div_1_r in Hup. lia.
Qed.

Lemma dividir_half_even_cotas (n k : Z) :
  n / 10 ^ k <= dividir_half_even n k <= n / 10 ^ k + 1.
Proof.
  unfold dividir_half_even.
  repeat match goal with |- context [if ?b then _ else _] => destruct b end; lia.
Qed.

(** Rounding to the context leaves a coefficient of at most [prec] digits
    as it is. *)
Lemma fix_id (d : Decimal) : Z.abs (coef d) < 10 ^ prec -> _fix d = d.
Proof.
  intros H. unfold _fix.
  rewrite digitos_sobrantes_cero by lia. reflexivity.
Qed.

(** When it rounds, the coefficient keeps [prec] digits and the exponent
    grows. *)
Lemma fix_grande (d : Decimal) :
  10 ^ prec <= Z.abs (coef d) ->
  10 ^ (prec - 1) <= Z.abs (coef (_fix d)) /\ expo d < expo (_fix d) /\
  Z.sgn (coef (_fix d)) = Z.sgn (coef d).
Proof.
  intros Hge. unfold _fix.
  pose proof (digitos_sobrantes_pos _ Hge) as Hk.
  destruct (digitos_sobrantes_spec (Z.abs (coef d)) ltac:(lia)) as (_ & Hup & Hlow).
  specialize (Hlow Hk).
  set (k := digitos_sobrantes (Z.abs (coef d))) in *.
  set (a := Z.abs (coef d)) in *.
  destruct (Z.eqb_spec k 0) as [|_]; [lia|].
  pose proof (pot10_pos (prec - 1) ltac:(unfold prec; lia)) as Hp1.
  pose proof pot10_prec as Hp.
  assert (Hq : 10 ^ (prec - 1) <= a / 10 ^ k).
  { replace k with ((k - 1) + 1) by lia.
    rewrite Z.pow_add_r, Z.pow_1_r by lia.
    rewrite <- Z.div_div by (try apply pot10_pos; lia).
    apply Z.div_le_lower_bound; lia. }
  pose proof (dividir_half_even_cotas a k) as Hb.
  assert (Hsg : Z.abs (Z.sgn (coef d)) = 1) by (subst a; lia).
  destruct (Z.eqb_spec (dividir_half_even a k) (10 ^ prec)) as [Heq|Hne]; cbn [coef expo].
  - rewrite Z.abs_mul, Hsg, Z.sgn_mul. split; [lia|]. split; [lia|].
    rewrite (Z.sgn_pos (10 ^ (prec - 1))) by lia. lia.
  - rewrite Z.abs_mul, Hsg, Z.sgn_mul. split; [lia|]. split; [lia|].
    rewrite (Z.sgn_pos (dividir_half_even a k)) by lia. lia.
Qed.

Lemma fix_signo (d : Decimal) : Z.sgn (coef (_fix d)) = Z.sgn (coef d).
Proof.
  pose proof (pot10_pos prec ltac:(unfold prec; lia)).
  destruct (Z_lt_le_dec (Z.abs (coef d)) (10 ^ prec)) as [Hlt|Hge].
  - rewrite fix_id by assumption. reflexivity.
  - apply fix_grande. assumption.
Qed.

Lemma dec_ltb_cero (d : Decimal) : dec_ltb d (dec_de_entero 0) = (coef d <? 0).
Proof.
  unfold dec_ltb, dec_compare, alinear, dec_de_entero. cbn [coef expo].
  rewrite Z.mul_0_l.
  pose proof (pot10_pos (expo d - Z.min (expo d) 0) ltac:(lia)) as Hp.
  destruct (Z.ltb_spec (coef d) 0) as [Hlt|Hge].
  - assert (coef d * 10 ^ (expo d - Z.min (expo d) 0) < 0) as Hc by nia.
    apply Z.compare_lt_iff in Hc. rewrite Hc. reflexivity.
  - assert (0 <= coef d * 10 ^ (expo d - Z.min (expo d) 0)) as Hc by nia.
    destruct (Z.compare_spec (coef d * 10 ^ (expo d - Z.min (expo d) 0)) 0);
      try reflexivity; lia.
Qed.

Lemma dec_leb_cero (d : Decimal) : dec_leb d (dec_de_entero 0) = (coef d <=? 0).
Proof.
  unfold dec_leb, dec_compare, alinear, dec_de_entero. cbn [coef expo].
  rewrite Z.mul_0_l.
  pose proof (pot10_pos (expo d - Z.min (expo d) 0) ltac:(lia)) as Hp.
  destruct (Z.leb_spec (coef d) 0) as [Hle|Hgt].
  - destruct (Z.compare_spec (coef d * 10 ^ (expo d - Z.min (expo d) 0)) 0);
      try reflexivity; nia.
  - assert (0 < coef d * 10 ^ (expo d - Z.min (expo d) 0)) as Hc by nia.
    apply Z.compare_gt_iff in Hc. rewrite Hc. reflexivity.
Qed.

Lemma quantize_expo (d p r : Decimal) :
  quantize_half_up d p = Ok r -> expo r = expo p.
Proof.
  unfold quantize_half_up. intros H.
  destruct (Z.abs _ <? 10 ^ prec); [|discriminate].
  injection H as <-. reflexivity.
Qed.

Lemma quantize_lanza (d p : Decimal) (e : Excepcion) :
  quantize_half_up d p = Lanza e -> e = InvalidOperation.
Proof.
  unfold quantize_half_up. intros H.
  destruct (Z.abs _ <? 10 ^ prec); [discriminate|].
  injection H as <-. reflexivity.
Qed.

Lemma dividir_half_up_nonneg (n k : Z) : 0 <= n -> 0 < k -> 0 <= dividir_half_up n k.
Proof.
  intros Hn Hk. unfold dividir_half_up.
  pose proof (pot10_pos (k - 1) ltac:(lia)).
  apply Z.div_pos; [lia|apply pot10_pos; lia].
Qed.

(** Rounding to thousandths never changes the side of zero a value is on. *)
Lemma quantize_nonneg (d p r : Decimal) :
  quantize_half_up d p = Ok r -> 0 <= coef d -> 0 <= coef r.
Proof.
  unfold quantize_half_up. intros H Hd.
  destruct (Z.abs _ <? 10 ^ prec); [|discriminate].
  injection H as <-. cbn [coef].
  destruct (Z.leb_spec (expo p - expo d) 0) as [Hk|Hk].
  - pose proof (pot10_pos (- (expo p - expo d)) ltac:(lia)). nia.
  - pose proof (dividir_half_up_nonneg (Z.abs (coef d)) _ ltac:(lia) Hk).
    assert (0 <= Z.sgn (coef d)) by lia. nia.
Qed.

(** A value that already is at the exponent of the pattern, or above, is
    kept exactly. *)
Lemma quantize_exacto (d p r : Decimal) :
  expo p <= expo d ->
  quantize_half_up d p = Ok r ->
  r = mkDec (coef d * 10 ^ (expo d - expo p)) (expo p) /\
  Z.abs (coef d * 10 ^ (expo d - expo p)) < 10 ^ prec.
Proof.
  unfold quantize_half_up. intros Hle H.
  destruct (Z.leb_spec (expo p - expo d) 0) as [Hk|Hk]; [|lia].
  replace (- (expo p - expo d)) with (expo d - expo p) in H by lia.
  destruct (Z.ltb_spec (Z.abs (coef d * 10 ^ (expo d - expo p))) (10 ^ prec));
    [|discriminate].
  injection H as <-. split; [reflexivity|assumption].
Qed.

(** Adding two values of at most three fractional digits and rounding the
    sum to thousandths is exact whenever [quantize] accepts the sum. *)
Lemma suma_milesimas (s d r : Decimal) :
  -3 <= expo s -> -3 <= expo d ->
  quantize_half_up (dec_add s d) milesima = Ok r ->
  milesimas r = milesimas s + milesimas d /\ expo r = -3.
Proof.
  intros Hs Hd Hq. unfold dec_add in Hq.
  set (e := Z.min (expo s) (expo d)) in *.
  set (c := alinear s e + alinear d e) in *.
  assert (He : -3 <= e) by (subst e; lia).
  pose proof (pot10_pos prec ltac:(unfold prec; lia)) as Hp.
  destruct (Z_lt_le_dec (Z.abs c) (10 ^ prec)) as [Hlt|Hge].
  - rewrite fix_id in Hq by (cbn [coef]; assumption).
    apply quantize_exacto in Hq; [|cbn [expo milesima]; lia].
    destruct Hq as [-> _]. cbn [coef expo milesima]. split; [|reflexivity].
    unfold milesimas. cbn [coef expo].
    replace (-3 + 3) with 0 by lia. rewrite Z.pow_0_r, Z.mul_1_r.
    replace (e - -3) with (e + 3) by lia.
    subst c. unfold alinear.
    rewrite Z.mul_add_distr_r, <- !Z.mul_assoc, <- !pot10_suma by lia.
    f_equal; f_equal; f_equal; lia.
  - exfalso.
    destruct (fix_grande (mkDec c e)) as (Hc & Hexp & _); [cbn [coef]; lia|].
    cbn [expo] in Hexp.
    set (f := _fix (mkDec c e)) in *.
    apply quantize_exacto in Hq; [|cbn [expo milesima]; lia].
    destruct Hq as [_ Hsmall]. cbn [expo milesima] in Hsmall.
    rewrite Z.abs_mul in Hsmall.
    pose proof (pot10_mono 1 (expo f - -3) ltac:(lia)) as Hm.
    rewrite Z.pow_1_r in Hm.
    pose proof (pot10_pos (expo f - -3) ltac:(lia)) as Hpp.
    rewrite (Z.abs_eq (10 ^ (expo f - -3))) in Hsmall by lia.
    pose proof pot10_prec. nia.
Qed.

End DecimalFacts.

Lemma dividir_half_up_spec (a k : Z) :
  0 <= a -> 0 < k ->
  let q := dividir_half_up a k in
  2 * Z.abs (q * 10 ^ k - a) <= 10 ^ k /\
  (2 * Z.abs (q * 10 ^ k - a) = 10 ^ k -> a < q * 10 ^ k).
Proof.
  intros Ha Hk. unfold dividir_half_up.
  pose proof (pot10_pos (k - 1) ltac:(lia)) as Hh.
  assert (Hp : 10 ^ k = 10 * 10 ^ (k - 1)).
  { replace k with (Z.succ (k - 1)) at 1 by lia. apply Z.pow_succ_r. lia. }
  set (h := 10 ^ (k - 1)) in *. rewrite Hp.
  pose proof (Z.div_mod (a + 5 * h) (10 * h) ltac:(lia)) as Hdm.
  pose proof (Z.mod_pos_bound (a + 5 * h) (10 * h) ltac:(lia)) as Hmb.
  set (q := (a + 5 * h) / (10 * h)) in *.
  set (m := (a + 5 * h) mod (10 * h)) in *.
  cbv zeta. split; [lia|]. intros Heq. lia.
Qed.

(** The rounding half-up to three decimals is a function: a number has
    one such rounding. *)
Lemma redondeo_half_up_3_unico (x r1 r2 : Decimal) :
  redondeo_half_up_3 x r1 -> redondeo_half_up_3 x r2 -> r1 = r2.
Proof.
  intros (He1 & H1 & T1) (He2 & H2 & T2).
  destruct r1 as [a e1], r2 as [b e2]. cbn [expo] in He1, He2. subst e1 e2.
  f_equal.
  set (e := Z.min (expo x) (-3)) in *.
  unfold alinear in *. cbn [coef expo] in *.
  assert (Hu : 0 < 10 ^ (-3 - e)) by (apply pot10_pos; subst e; lia).
  set (u := 10 ^ (-3 - e)) in *.
  set (X := coef x * 10 ^ (expo x - e)) in *.
  destruct (Z.lt_trichotomy a b) as [Hlt|[Heq|Hgt]]; [exfalso|exact Heq|exfalso].
  - assert (Hb : b * u - a * u >= u) by nia.
    assert (Ha2 : 2 * Z.abs (a * u - X) = u) by lia.
    assert (Hb2 : 2 * Z.abs (b * u - X) = u) by lia.
    specialize (T1 Ha2). specialize (T2 Hb2).
    assert (Hbu : b * u = a * u + u) by nia.
    assert (Hs1 : 0 <= a -> 0 <= a * u) by nia.
    assert (Hs2 : a < 0 -> a * u + u <= 0) by nia.
    lia.
  - assert (Hb : a * u - b * u >= u) by nia.
    assert (Ha2 : 2 * Z.abs (a * u - X) = u) by lia.
    assert (Hb2 : 2 * Z.abs (b * u - X) = u) by lia.
    specialize (T1 Ha2). specialize (T2 Hb2).
    assert (Hbu : a * u = b * u + u) by nia.
    assert (Hs1 : 0 <= b -> 0 <= b * u) by nia.
    assert (Hs2 : b < 0 -> b * u + u <= 0) by nia.
    lia.
Qed.

(** The coefficient [quantize] computes is the rounding, whether or not
    it fits the precision. *)
Lemma quantize_coef_redondeo (x : Decimal) :
  let k := -3 - expo x in
  let c := if k <=? 0 then coef x * 10 ^ (- k)
           else Z.sgn (coef x) * dividir_half_up (Z.abs (coef x)) k in
  redondeo_half_up_3 x (mkDec c (-3)).
Proof.
  cbv zeta. split; [reflexivity|].
  destruct (Z.leb_spec (-3 - expo x) 0) as [Hge|Hk].
  - rewrite Z.min_r by lia. cbv zeta. unfold alinear. cbn [coef expo].
    replace (-3 - -3) with 0 by lia. rewrite Z.pow_0_r, Z.mul_1_r.
    replace (- (-3 - expo x)) with (expo x - -3) by lia. rewrite Z.sub_diag.
    cbn. split; lia.
  - rewrite Z.min_l by lia. cbv zeta. unfold alinear. cbn [coef expo].
    rewrite Z.sub_diag, Z.pow_0_r, Z.mul_1_r.
    destruct (dividir_half_up_spec (Z.abs (coef x)) (-3 - expo x) ltac:(lia) Hk)
      as [H1 H2].
    pose proof (dividir_half_up_nonneg (Z.abs (coef x)) (-3 - expo x) ltac:(lia) Hk) as Hq0.
    set (q := dividir_half_up (Z.abs (coef x)) (-3 - expo x)) in *.
    set (p := 10 ^ (-3 - expo x)) in *.
    assert (Hp : 0 < p) by (apply pot10_pos; lia).
    destruct (Z.lt_trichotomy (coef x) 0) as [Hneg|[Hz|Hpos]].
    + rewrite (Z.sgn_neg (coef x)) by lia.
      rewrite (Z.abs_neq (coef x)) in * by lia.
      replace (-1 * q * p - coef x) with (- (q * p - - coef x)) by lia.
      rewrite Z.abs_opp. split; [lia|]. intros Heq. specialize (H2 Heq). nia.
    + rewrite Hz in *. cbn [Z.sgn Z.abs] in *.
      replace (0 * q * p - 0) with 0 by lia.
      cbn [Z.abs]. split; [lia|]. intros Heq. lia.
    + rewrite (Z.sgn_pos (coef x)) by lia.
      rewrite (Z.abs_eq (coef x)) in * by lia.
      replace (1 * q * p - coef x) with (q * p - coef x) by lia.
      split; [lia|]. intros Heq. specialize (H2 Heq). nia.
Qed.

(** [quantize] gives the rounding when the rounding fits the precision,
    and raises when it does not. *)
Lemma quantize_de_redondeo (x r : Decimal) :
  redondeo_half_up_3 x r ->
  quantize_half_up x milesima
  = if Z.abs (coef r) <? 10 ^ prec then Ok r else Lanza InvalidOperation.
Proof.
  intros Hr. pose proof (quantize_coef_redondeo x) as Hc. cbv zeta in Hc.
  unfold quantize_half_up. cbn [expo milesima].
  set (c := if -3 - expo x <=? 0 then _ else _) in *.
  rewrite (redondeo_half_up_3_unico x r (mkDec c (-3)) Hr Hc). reflexivity.
Qed.

(** The sum of the context is the exact one when the exact one fits the
    precision. *)
Lemma dec_add_exacta (a b : Decimal) :
  Z.abs (coef (suma_exacta a b)) < 10 ^ prec -> dec_add a b = suma_exacta a b.
Proof. intros H. unfold dec_add. apply fix_id. exact H. Qed.

(** [abs] is exact on a value that fits the precision. *)
Lemma dec_abs_exacto (d : Decimal) :
  Z.abs (coef d) < 10 ^ prec -> dec_abs d = mkDec (Z.abs (coef d)) (expo d).
Proof. intros H. unfold dec_abs. apply fix_id. cbn [coef]. lia. Qed.

Lemma cabe_en_float_prec (d : Decimal) : cabe_en_float d -> Z.abs (coef d) < 10 ^ prec.
Proof.
  intros [H _]. eapply Z.lt_trans; [exact H|]. vm_compute. reflexivity.
Qed.

(** What the engine computes, in the terms of the exact arithmetic: when
    the exact sum of the stock and the quantity fits the precision of the
    context, the new stock is the rounding half-up of that sum to three
    decimals, and the engine has it when it fits the precision too. *)
Lemma nuevo_stock_exacto (stock d nuevo : Decimal) :
  redondeo_half_up_3 (suma_exacta stock d) nuevo ->
  Z.abs (coef (suma_exacta stock d)) < 10 ^ prec ->
  Z.abs (coef nuevo) < 10 ^ prec ->
  quantize_half_up (dec_add stock d) milesima = Ok nuevo.
Proof.
  intros Hr Hsum Hn. rewrite (dec_add_exacta _ _ Hsum), (quantize_de_redondeo _ _ Hr).
  destruct (Z.ltb_spec (Z.abs (coef nuevo)) (10 ^ prec)); [reflexivity|lia].
Qed.

Lemma actualizar_stock_eq (id : Z) (d : Decimal) (tipo : string) (obs : Observacion)
    (idv : option Z) (s : Sesion) :
  _actualizar_stock_ingrediente_db id d tipo obs idv s =
  match SGIC_INGREDIENTES (pendiente s) !! id with
  | None => (Lanza (ValueError (MsgIngredienteNoEncontrado id)), s)
  | Some ing =>
      match quantize_half_up (dec_add (stock_actual ing) d) milesima with
      | Lanza e => (Lanza e, sesion_bloquea s id)
      | Ok nuevo =>
          if coef nuevo <? 0
          then (Lanza (ValueError (MsgStockInsuficiente (nombre ing) id (dec_abs d)
                                     (stock_actual ing))), sesion_bloquea s id)
          else (Ok tt,
                sesion_ajustada s id nuevo
                  (mkMovimiento id idv tipo (abs_float d) (reloj s (lecturas s)) obs))
      end
  end.
Proof.
  unfold _actualizar_stock_ingrediente_db, mbind, Tx_bind, select_ingrediente_for_update.
  destruct (SGIC_INGREDIENTES (pendiente s) !! id) as [ing|]; [|reflexivity].
  unfold elevar.
  destruct (quantize_half_up _ _) as [nuevo|e]; [|reflexivity].
  rewrite dec_ltb_cero.
  destruct (coef nuevo <? 0); reflexivity.
Qed.

Lemma alter_presente {A : Type} (f : A -> A) (m : gmap Z A) (id : Z) (x : A) :
  m !! id = Some x -> alter f id m = <[id := f x]> m.
Proof.
  intros H. apply map_eq. intros j.
  rewrite lookup_alter, lookup_insert.
  destruct (decide (id = j)) as [->|]; [rewrite H|]; reflexivity.
Qed.

(** ** The engine: success and failure *)

Lemma liberar_adquirir (r : nat -> Z) (bd : BD) : liberar (adquirir r bd) = bd.
Proof. destruct bd. reflexivity. Qed.

Lemma mismas_tablas_refl (bd : BD) : mismas_tablas bd bd.
Proof. repeat split. Qed.

(** A session whose open transaction has written nothing that a release
    would keep. *)
Lemma liberar_mismas_tablas (s : Sesion) (bd : BD) :
  confirmado s = bd -> mismas_tablas (liberar s) bd.
Proof. intros <-. repeat split. Qed.

(** A sum of a value that is not negative and of a positive one is not
    negative once rounded. *)
Lemma ajuste_positivo_no_negativo (stock d nuevo : Decimal) :
  0 <= coef stock -> 0 < coef d ->
  quantize_half_up (dec_add stock d) milesima = Ok nuevo ->
  0 <= coef nuevo.
Proof.
  intros Hs Hd Hq. apply (quantize_nonneg _ _ _ Hq).
  unfold dec_add.
  set (e := Z.min (expo stock) (expo d)).
  pose proof (fix_signo (mkDec (alinear stock e + alinear d e) e)) as Hsg.
  cbn [coef] in Hsg.
  pose proof (pot10_pos (expo stock - e) ltac:(subst e; lia)).
  pose proof (pot10_pos (expo d - e) ltac:(subst e; lia)).
  assert (0 < alinear stock e + alinear d e) by (unfold alinear; nia).
  lia.
Qed.

(** One adjustment in a connection of its own, committed when it
    succeeds: the transaction of POST /api/inventario/entrada. *)
Lemma ajuste_confirmado_eq (r : nat -> Z) (id : Z) (d : Decimal) (tipo : string)
    (obs : Observacion) (idv : option Z) (bd : BD) :
  get_db_connection r (_actualizar_stock_ingrediente_db id d tipo obs idv;; commit) bd =
  match SGIC_INGREDIENTES bd !! id with
  | None => (Lanza (ValueError (MsgIngredienteNoEncontrado id)), bd)
  | Some ing =>
      match quantize_half_up (dec_add (stock_actual ing) d) milesima with
      | Lanza e => (Lanza e, bd)
      | Ok nuevo =>
          if coef nuevo <? 0
          then (Lanza (ValueError (MsgStockInsuficiente (nombre ing) id (dec_abs d)
                                     (stock_actual ing))), bd)
          else (Ok tt,
                mkBD (alter (con_stock nuevo) id (SGIC_INGREDIENTES bd)) (SGIC_PRODUCTOS bd)
                     (SGIC_PRODUCTO_INGREDIENTES bd) (SGIC_VENTAS bd)
                     (SGIC_MOVIMIENTOS_INVENTARIO bd ++
                        [mkMovimiento id idv tipo (abs_float d) (r 0%nat) obs])
                     (sec_id_venta bd))
      end
  end.
Proof.
  unfold get_db_connection, mbind, Tx_bind.
  rewrite actualizar_stock_eq. cbn [pendiente adquirir].
  destruct (SGIC_INGREDIENTES bd !! id) as [ing|];
    [|rewrite liberar_adquirir; reflexivity].
  destruct (quantize_half_up _ _) as [nuevo|e];
    [|destruct bd; reflexivity].
  destruct (coef nuevo <? 0); destruct bd; reflexivity.
Qed.

(** C3, within the precision of the arithmetic and of the columns.  An
    adjustment of an ingredient that exists, whose new stock [nuevo] --
    the current stock plus the signed quantity, as numbers, rounded
    half-up to three decimals -- is not negative, succeeds when the sum
    fits the 28 digits of the context and the stock, the quantity and the
    new stock have at most 15 significant digits.  The row of the
    ingredient then has [nuevo] as its stock and its other columns as
    before, no other ingredient has changed, and exactly one movement has
    been appended: of the given kind, with the absolute value of the
    quantity, the given sale reference, a reading of the clock and the
    given note.  The other tables and the committed data are as
    before. *)
Theorem ajuste_escribe_stock_y_movimiento
    (s : Sesion) (id : Z) (d : Decimal) (tipo : string) (obs : Observacion)
    (idv : option Z) (ing : Ingrediente) (nuevo : Decimal) :
  SGIC_INGREDIENTES (pendiente s) !! id = Some ing ->
  redondeo_half_up_3 (suma_exacta (stock_actual ing) d) nuevo ->
  0 <= coef nuevo ->
  Z.abs (coef (suma_exacta (stock_actual ing) d)) < 10 ^ prec ->
  cabe_en_float (stock_actual ing) ->
  cabe_en_float d ->
  cabe_en_float nuevo ->
  exists s' ing',
    _actualizar_stock_ingrediente_db id d tipo obs idv s = (Ok tt, s') /\
    SGIC_INGREDIENTES (pendiente s') !! id = Some ing' /\
    stock_actual ing' = nuevo /\
    mismas_otras_columnas ing ing' /\
    (forall j, j <> id ->
       SGIC_INGREDIENTES (pendiente s') !! j = SGIC_INGREDIENTES (pendiente s) !! j) /\
    SGIC_MOVIMIENTOS_INVENTARIO (pendiente s')
      = SGIC_MOVIMIENTOS_INVENTARIO (pendiente s) ++
        [mkMovimiento id idv tipo (mkDec (Z.abs (coef d)) (expo d))
           (reloj s (lecturas s)) obs] /\
    SGIC_VENTAS (pendiente s') = SGIC_VENTAS (pendiente s) /\
    SGIC_PRODUCTOS (pendiente s') = SGIC_PRODUCTOS (pendiente s) /\
    SGIC_PRODUCTO_INGREDIENTES (pendiente s') = SGIC_PRODUCTO_INGREDIENTES (pendiente s) /\
    confirmado s' = confirmado s.
Proof.
  intros Hing Hr Hnn Hsum _ _ Hfn.
  pose proof (nuevo_stock_exacto _ _ _ Hr Hsum (cabe_en_float_prec _ Hfn)) as Hq.
  eexists. exists (con_stock nuevo ing).
  rewrite actualizar_stock_eq, Hing, Hq.
  destruct (Z.ltb_spec (coef nuevo) 0) as [|_]; [lia|].
  split; [reflexivity|].
  cbn [pendiente confirmado sesion_ajustada SGIC_INGREDIENTES SGIC_MOVIMIENTOS_INVENTARIO
       SGIC_VENTAS SGIC_PRODUCTOS SGIC_PRODUCTO_INGREDIENTES].
  split; [rewrite lookup_alter_eq, Hing; reflexivity|].
  split; [reflexivity|].
  split; [repeat split|].
  split; [intros j Hj; apply lookup_alter_ne; congruence|].
  repeat split.
Qed.

(** Scenario A: stock 10.000, adjustment +5.500 as ENTRADA_COMPRA. *)
Lemma ajuste_escribe_stock_y_movimiento_ej :
  exists s' ing',
    _actualizar_stock_ingrediente_db 1 (mkDec 5500 (-3)) "ENTRADA_COMPRA"
      (ObsTexto "compra") None (adquirir reloj_ejemplo bd_ejemplo) = (Ok tt, s') /\
    SGIC_INGREDIENTES (pendiente s') !! 1 = Some ing' /\
    stock_actual ing' = mkDec 15500 (-3) /\
    mismas_otras_columnas leche ing' /\
    (forall j, j <> 1 ->
       SGIC_INGREDIENTES (pendiente s') !! j = SGIC_INGREDIENTES bd_ejemplo !! j) /\
    SGIC_MOVIMIENTOS_INVENTARIO (pendiente s')
      = [] ++ [mkMovimiento 1 None "ENTRADA_COMPRA" (mkDec 5500 (-3)) 1000
                 (ObsTexto "compra")] /\
    SGIC_VENTAS (pendiente s') = [] /\
    SGIC_PRODUCTOS (pendiente s') = SGIC_PRODUCTOS bd_ejemplo /\
    SGIC_PRODUCTO_INGREDIENTES (pendiente s') = SGIC_PRODUCTO_INGREDIENTES bd_ejemplo /\
    confirmado s' = bd_ejemplo.
Proof.
  apply (ajuste_escribe_stock_y_movimiento (adquirir reloj_ejemplo bd_ejemplo) 1
           (mkDec 5500 (-3)) "ENTRADA_COMPRA" (ObsTexto "compra") None leche
           (mkDec 15500 (-3))).
  - vm_compute. reflexivity.
  - split; [reflexivity|]. vm_compute. split; [discriminate|]. intros H. discriminate H.
  - vm_compute. discriminate.
  - vm_compute. reflexivity.
  - split; [vm_compute; reflexivity|]. cbn. lia.
  - split; [vm_compute; reflexivity|]. cbn. lia.
  - split; [vm_compute; reflexivity|]. cbn. lia.
Defined.

(** C3, as the specification states it, fails: 10^25 more of the milk is
    an adjustment that does not drive the stock negative, and the engine
    raises InvalidOperation on it, for the new stock does not fit the 28
    digits of the context.  No stock is set. *)
Lemma ajuste_enorme_no_reflejado :
  ~ ajuste_reflejado (adquirir reloj_ejemplo bd_ejemplo) 1 entrada_enorme
      "ENTRADA_COMPRA" (ObsTexto "compra") None.
Proof.
  intros H.
  destruct (H leche (mkDec (10 ^ 28 + 10000) (-3))) as (s' & Hs & _).
  - vm_compute. reflexivity.
  - split; [reflexivity|]. vm_compute. split; [discriminate|]. intros H0. discriminate H0.
  - vm_compute. discriminate.
  - vm_compute in Hs. discriminate Hs.
Qed.

(** C4, within the precision of the arithmetic.  An adjustment of an
    ingredient that exists, whose new stock [nuevo] -- the current stock
    plus the signed quantity, as numbers, rounded half-up to three
    decimals -- is negative, raises the insufficient-stock error when the
    sum, the new stock and the quantity fit the 28 digits of the context.
    The error carries the identifier and the name of the ingredient, the
    absolute value of the quantity and the stock available; the tables
    the transaction sees and the committed ones are as before. *)
Theorem stock_insuficiente_no_escribe
    (s : Sesion) (id : Z) (d : Decimal) (tipo : string) (obs : Observacion)
    (idv : option Z) (ing : Ingrediente) (nuevo : Decimal) :
  SGIC_INGREDIENTES (pendiente s) !! id = Some ing ->
  redondeo_half_up_3 (suma_exacta (stock_actual ing) d) nuevo ->
  coef nuevo < 0 ->
  Z.abs (coef (suma_exacta (stock_actual ing) d)) < 10 ^ prec ->
  Z.abs (coef nuevo) < 10 ^ prec ->
  Z.abs (coef d) < 10 ^ prec ->
  cabe_en_float (stock_actual ing) ->
  exists s',
    _actualizar_stock_ingrediente_db id d tipo obs idv s
      = (Lanza (ValueError (MsgStockInsuficiente (nombre ing) id
                              (mkDec (Z.abs (coef d)) (expo d)) (stock_actual ing))), s') /\
    pendiente s' = pendiente s /\ confirmado s' = confirmado s.
Proof.
  intros Hing Hr Hneg Hsum Hn Hd _.
  pose proof (nuevo_stock_exacto _ _ _ Hr Hsum Hn) as Hq.
  eexists. rewrite actualizar_stock_eq, Hing, Hq, (dec_abs_exacto _ Hd).
  destruct (Z.ltb_spec (coef nuevo) 0) as [_|]; [|lia].
  split; [reflexivity|]. split; reflexivity.
Qed.

(** Sugar: 0.005 in stock, 0.010 asked for. *)
Lemma stock_insuficiente_no_escribe_ej :
  exists s',
    _actualizar_stock_ingrediente_db 2 (mkDec (-10) (-3)) "SALIDA_VENTA"
      (ObsTexto "salida") (Some 1) (adquirir reloj_ejemplo bd_ejemplo)
      = (Lanza (ValueError (MsgStockInsuficiente "Azucar" 2 (mkDec 10 (-3))
                              (mkDec 5 (-3)))), s') /\
    pendiente s' = bd_ejemplo /\ confirmado s' = bd_ejemplo.
Proof.
  apply (stock_insuficiente_no_escribe (adquirir reloj_ejemplo bd_ejemplo) 2
           (mkDec (-10) (-3)) "SALIDA_VENTA" (ObsTexto "salida") (Some 1) azucar
           (mkDec (-5) (-3))).
  - vm_compute. reflexivity.
  - split; [reflexivity|]. vm_compute. split; [discriminate|]. intros H. discriminate H.
  - vm_compute. reflexivity.
  - vm_compute. reflexivity.
  - vm_compute. reflexivity.
  - vm_compute. reflexivity.
  - split; [vm_compute; reflexivity|]. cbn. lia.
Defined.

(** C4, as the specification states it, fails: taking 2 * 10^29 from the
    milk would leave a negative stock, and the engine raises
    InvalidOperation, not the insufficient-stock error. *)
Lemma salida_enorme_sin_stock_insuficiente :
  ~ ajuste_negativo_rechazado (adquirir reloj_ejemplo bd_ejemplo) 1 salida_enorme
      "SALIDA_VENTA" (ObsTexto "salida") (Some 1).
Proof.
  intros H.
  destruct (H leche (mkDec (10000 - 2 * 10 ^ 32) (-3))) as (s' & requiere & Hs).
  - vm_compute. reflexivity.
  - split; [reflexivity|]. vm_compute. split; [discriminate|]. intros H0. discriminate H0.
  - vm_compute. reflexivity.
  - vm_compute in Hs. discriminate Hs.
Qed.

(** ** POST /api/inventario/entrada *)

Lemma dec_gtb_cero (d : Decimal) : dec_gtb d (dec_de_entero 0) = (0 <? coef d).
Proof.
  unfold dec_gtb, dec_ltb, dec_compare, alinear, dec_de_entero. cbn [coef expo].
  rewrite Z.mul_0_l.
  pose proof (pot10_pos (expo d - Z.min 0 (expo d)) ltac:(lia)) as Hp.
  destruct (Z.ltb_spec 0 (coef d)) as [Hlt|Hge].
  - assert (0 < coef d * 10 ^ (expo d - Z.min 0 (expo d))) as Hc by nia.
    apply Z.compare_lt_iff in Hc. rewrite Hc. reflexivity.
  - destruct (Z.compare_spec 0 (coef d * 10 ^ (expo d - Z.min 0 (expo d))));
      try reflexivity; nia.
Qed.

Lemma dec_gtb_no_leb (d : Decimal) :
  dec_gtb d (dec_de_entero 0) = true -> dec_leb d (dec_de_entero 0) = false.
Proof.
  rewrite dec_gtb_cero, dec_leb_cero. intros H.
  apply Z.ltb_lt in H. apply Z.leb_gt. exact H.
Qed.

(** C9.  A quantity that is strictly positive, entered for an ingredient
    that exists and whose stock is not negative, never meets the
    insufficient-stock branch: neither the engine raises that error nor
    the endpoint answers with it. *)
Theorem entrada_sin_stock_insuficiente
    (r : nat -> Z) (data : DatosEntrada) (bd : BD) (id : Z) (cant : Decimal)
    (ing : Ingrediente) :
  req_id_ingrediente data = Some id ->
  req_cantidad data = Some cant ->
  dec_gtb cant (dec_de_entero 0) = true ->
  SGIC_INGREDIENTES bd !! id = Some ing ->
  dec_ltb (stock_actual ing) (dec_de_entero 0) = false ->
  (forall s tipo obs idv n i q a s',
      pendiente s = bd ->
      _actualizar_stock_ingrediente_db id cant tipo obs idv s
        <> (Lanza (ValueError (MsgStockInsuficiente n i q a)), s')) /\
  (forall n i q a,
      cuerpo (registrar_entrada_inventario r data bd).1
        <> CuerpoValueError (MsgStockInsuficiente n i q a)).
Proof.
  intros Hid Hcant Hpos Hing Hstock.
  rewrite dec_gtb_cero in Hpos. apply Z.ltb_lt in Hpos.
  pose proof Hstock as Hstock'.
  rewrite dec_ltb_cero in Hstock'. apply Z.ltb_ge in Hstock'.
  split.
  - intros s tipo obs idv n i q a s' Hs.
    rewrite actualizar_stock_eq, Hs, Hing.
    destruct (quantize_half_up _ _) as [nuevo|e] eqn:Hq.
    + pose proof (ajuste_positivo_no_negativo _ _ _ Hstock' Hpos Hq) as Hn.
      apply Z.ltb_ge in Hn. rewrite Hn. discriminate.
    + apply quantize_lanza in Hq. subst e. discriminate.
  - intros n i q a.
    unfold registrar_entrada_inventario. rewrite Hid, Hcant.
    destruct (dec_leb cant (dec_de_entero 0)); [discriminate|].
    destruct (tipo_movimiento_de _) as [tipo|e]; [|discriminate].
    rewrite ajuste_confirmado_eq, Hing.
    destruct (quantize_half_up _ _) as [nuevo|e] eqn:Hq.
    + pose proof (ajuste_positivo_no_negativo _ _ _ Hstock' Hpos Hq) as Hn.
      apply Z.ltb_ge in Hn. rewrite Hn. discriminate.
    + apply quantize_lanza in Hq. subst e. intros H. cbn in H. discriminate H.
Qed.

Lemma entrada_sin_stock_insuficiente_ej :
  (forall s tipo obs idv n i q a s',
      pendiente s = bd_ejemplo ->
      _actualizar_stock_ingrediente_db 1 (mkDec 5500 (-3)) tipo obs idv s
        <> (Lanza (ValueError (MsgStockInsuficiente n i q a)), s')) /\
  (forall n i q a,
      cuerpo (registrar_entrada_inventario reloj_ejemplo entrada_ejemplo bd_ejemplo).1
        <> CuerpoValueError (MsgStockInsuficiente n i q a)).
Proof.
  apply (entrada_sin_stock_insuficiente reloj_ejemplo entrada_ejemplo bd_ejemplo 1
           (mkDec 5500 (-3)) leche); vm_compute; reflexivity.
Defined.

(** What a request to the endpoint comes to: either nothing is written and
    the answer is an error, or one adjustment is committed and the answer
    is 200. *)
Lemma entrada_casos (r : nat -> Z) (data : DatosEntrada) (bd : BD) :
  let '(resp, bd') := registrar_entrada_inventario r data bd in
  (estado resp <> 200 /\ bd' = bd) \/
  (estado resp = 200 /\
   exists id cant tipo ing nuevo,
     req_id_ingrediente data = Some id /\
     req_cantidad data = Some cant /\
     tipo_movimiento_de (req_tipo_movimiento data) = Ok tipo /\
     SGIC_INGREDIENTES bd !! id = Some ing /\
     quantize_half_up (dec_add (stock_actual ing) cant) milesima = Ok nuevo /\
     bd' = mkBD (alter (con_stock nuevo) id (SGIC_INGREDIENTES bd)) (SGIC_PRODUCTOS bd)
                (SGIC_PRODUCTO_INGREDIENTES bd) (SGIC_VENTAS bd)
                (SGIC_MOVIMIENTOS_INVENTARIO bd ++
                   [mkMovimiento id None tipo (abs_float cant) (r 0%nat)
                      match req_observacion data with
                      | Some s => ObsTexto s
                      | None => ObsEntradaDe cant
                      end])
                (sec_id_venta bd)).
Proof.
  unfold registrar_entrada_inventario.
  destruct (req_id_ingrediente data) as [id|]; [|left; split; [discriminate|reflexivity]].
  destruct (req_cantidad data) as [cant|]; [|left; split; [discriminate|reflexivity]].
  destruct (dec_leb cant (dec_de_entero 0)); [left; split; [discriminate|reflexivity]|].
  destruct (tipo_movimiento_de _) as [tipo|e] eqn:Htipo;
    [|left; split; [discriminate|reflexivity]].
  rewrite ajuste_confirmado_eq.
  destruct (SGIC_INGREDIENTES bd !! id) as [ing|] eqn:Hing;
    [|left; split; [discriminate|reflexivity]].
  destruct (quantize_half_up _ _) as [nuevo|e] eqn:Hq.
  - destruct (coef nuevo <? 0); [left; split; [discriminate|reflexivity]|].
    right. split; [reflexivity|].
    exists id, cant, tipo, ing, nuevo. repeat split; try assumption; reflexivity.
  - apply quantize_lanza in Hq. subst e. left. split; [discriminate|reflexivity].
Qed.

(** ** The kind of a movement against the words of the specification *)























(** C8, as the code has it.  A well-formed entry (a positive quantity, a
    kind that is a text or is left out) for an identifier that has no row
    is answered with 400 and the not-found message of the engine, and
    leaves the database as it was. *)
Theorem entrada_ingrediente_inexistente
    (r : nat -> Z) (data : DatosEntrada) (bd : BD) (id : Z) (cant : Decimal) :
  req_id_ingrediente data = Some id ->
  req_cantidad data = Some cant ->
  dec_gtb cant (dec_de_entero 0) = true ->
  req_tipo_movimiento data <> Nulo ->
  SGIC_INGREDIENTES bd !! id = None ->
  registrar_entrada_inventario r data bd
    = (mkRespuesta 400 (CuerpoValueError (MsgIngredienteNoEncontrado id)), bd).
Proof.
  intros Hid Hcant Hpos Htipo Hing.
  unfold registrar_entrada_inventario.
  rewrite Hid, Hcant, (dec_gtb_no_leb _ Hpos).
  destruct (req_tipo_movimiento data) as [| |s]; [|contradiction|];
    cbn [tipo_movimiento_de]; rewrite ajuste_confirmado_eq, Hing; reflexivity.
Qed.

Lemma entrada_ingrediente_inexistente_ej :
  registrar_entrada_inventario reloj_ejemplo entrada_sin_fila bd_ejemplo
    = (mkRespuesta 400 (CuerpoValueError (MsgIngredienteNoEncontrado 99)), bd_ejemplo).
Proof.
  apply (entrada_ingrediente_inexistente reloj_ejemplo entrada_sin_fila bd_ejemplo 99
           (mkDec 1000 (-3))).
  - reflexivity.
  - reflexivity.
  - vm_compute. reflexivity.
  - discriminate.
  - vm_compute. reflexivity.
Defined.

(** C8, as the specification states it, fails: the answer to an entry for
    an identifier without a row does not have the status 404. *)
Lemma entrada_ingrediente_inexistente_no_404 :
  ~ estado (registrar_entrada_inventario reloj_ejemplo entrada_sin_fila bd_ejemplo).1 = 404.
Proof. vm_compute. discriminate. Qed.

(** C7.  A quantity of 0.0005 is accepted by the endpoint: the answer is
    200, the stock goes from 10.000 to 10.001 and the movement keeps
    0.0005 as its quantity. *)
Theorem entrada_de_media_milesima_aceptada :
  let '(resp, bd') :=
    registrar_entrada_inventario reloj_ejemplo entrada_media_milesima bd_ejemplo in
  estado resp = 200 /\
  stock_de bd' 1 = Some (mkDec 10001 (-3)) /\
  cantidad <$> SGIC_MOVIMIENTOS_INVENTARIO bd' = [mkDec 5 (-4)].
Proof. vm_compute. repeat split. Qed.

(** ** Changes of stock and the movements that record them *)

Lemma cambio_registrado_refl (bd : BD) : cambio_de_stock_registrado bd bd.
Proof.
  exists []. split; [symmetry; apply app_nil_r|]. intros id H. contradiction.
Qed.

Lemma cambio_registrado_trans (a b c : BD) :
  cambio_de_stock_registrado a b -> cambio_de_stock_registrado b c ->
  cambio_de_stock_registrado a c.
Proof.
  intros (n1 & Hm1 & H1) (n2 & Hm2 & H2).
  exists (n1 ++ n2). split; [rewrite Hm2, Hm1, app_assoc; reflexivity|].
  intros id Hne.
  destruct (decide (stock_de b id = stock_de a id)) as [Heq|Hdif].
  - destruct (H2 id) as (m & Hm & Hid); [congruence|].
    exists m. split; [apply elem_of_app; right; exact Hm|exact Hid].
  - destruct (H1 id Hdif) as (m & Hm & Hid).
    exists m. split; [apply elem_of_app; left; exact Hm|exact Hid].
Qed.

Lemma cambio_registrado_tablas (a b c : BD) :
  cambio_de_stock_registrado a b ->
  SGIC_INGREDIENTES c = SGIC_INGREDIENTES b ->
  SGIC_MOVIMIENTOS_INVENTARIO c = SGIC_MOVIMIENTOS_INVENTARIO b ->
  cambio_de_stock_registrado a c.
Proof.
  intros (n & Hm & H) Hi Hmov. exists n. split; [congruence|].
  intros id. unfold stock_de in *. rewrite Hi. apply H.
Qed.

(** What one call of the engine does to the session, whatever its
    outcome. *)
Lemma actualizar_stock_efecto (id : Z) (d : Decimal) (tipo : string) (obs : Observacion)
    (idv : option Z) (s : Sesion) :
  let '(res, s') := _actualizar_stock_ingrediente_db id d tipo obs idv s in
  confirmado s' = confirmado s /\
  SGIC_PRODUCTOS (pendiente s') = SGIC_PRODUCTOS (pendiente s) /\
  SGIC_PRODUCTO_INGREDIENTES (pendiente s') = SGIC_PRODUCTO_INGREDIENTES (pendiente s) /\
  SGIC_VENTAS (pendiente s') = SGIC_VENTAS (pendiente s) /\
  sec_id_venta (pendiente s') = sec_id_venta (pendiente s) /\
  cambio_de_stock_registrado (pendiente s) (pendiente s') /\
  mismos_nombres (pendiente s) (pendiente s') /\
  match res with
  | Ok _ => bloqueos s' = bloqueos s ++ [id]
  | Lanza e =>
      pendiente s' = pendiente s /\
      (bloqueos s' = bloqueos s \/ bloqueos s' = bloqueos s ++ [id]) /\
      (e = InvalidOperation \/
       e = ValueError (MsgIngredienteNoEncontrado id) \/
       exists ing, SGIC_INGREDIENTES (pendiente s) !! id = Some ing /\
                   e = ValueError (MsgStockInsuficiente (nombre ing) id (dec_abs d)
                                     (stock_actual ing)))
  end.
Proof.
  rewrite actualizar_stock_eq.
  destruct (SGIC_INGREDIENTES (pendiente s) !! id) as [ing|] eqn:Hing.
  - destruct (quantize_half_up _ _) as [nuevo|e] eqn:Hq.
    + destruct (coef nuevo <? 0).
      * do 5 (split; [reflexivity|]).
        split; [apply cambio_registrado_refl|]. split; [intros j; reflexivity|].
        split; [reflexivity|]. split; [right; reflexivity|].
        right; right. exists ing. split; reflexivity.
      * do 5 (split; [reflexivity|]).
        split; [|split; [|reflexivity]].
        -- eexists. split; [reflexivity|].
           intros j Hne. eexists. split; [apply list_elem_of_singleton; reflexivity|].
           cbn [mov_id_ingrediente_fk].
           destruct (decide (id = j)) as [|Hdif]; [assumption|].
           exfalso. apply Hne. unfold stock_de.
           cbn [pendiente sesion_ajustada SGIC_INGREDIENTES].
           rewrite lookup_alter_ne by assumption. reflexivity.
        -- intros j. cbn [pendiente sesion_ajustada SGIC_INGREDIENTES].
           destruct (decide (id = j)) as [<-|Hdif].
           ++ rewrite lookup_alter_eq, Hing. reflexivity.
           ++ rewrite lookup_alter_ne by assumption. reflexivity.
    + apply quantize_lanza in Hq. subst e.
      do 5 (split; [reflexivity|]).
      split; [apply cambio_registrado_refl|]. split; [intros j; reflexivity|].
      split; [reflexivity|]. split; [right; reflexivity|].
      left; reflexivity.
  - do 5 (split; [reflexivity|]).
    split; [apply cambio_registrado_refl|]. split; [intros j; reflexivity|].
    split; [reflexivity|]. split; [left; reflexivity|].
    right; left; reflexivity.
Qed.

(** ** POST /api/inventario/salida_venta_producto *)

(** The quantity the sale of [n] units takes from a recipe row. *)
Lemma descontar_receta_cons (id : Z) (c : Decimal) (resto : list (Z * Decimal))
    (n idv : Z) (nom : string) (s : Sesion) :
  descontar_receta ((id, c) :: resto) n idv nom s =
  match _actualizar_stock_ingrediente_db id (dec_neg (dec_mul c (dec_de_entero n)))
          "SALIDA_VENTA" (ObsSalidaPorVenta idv n nom) (Some idv) s with
  | (Ok _, s1) => descontar_receta resto n idv nom s1
  | (Lanza e, s1) => (Lanza e, s1)
  end.
Proof. reflexivity. Qed.

(** The loop over the recipe rows: what it has done to the session when it
    ends, and what it has raised when it does not reach the end. *)
Lemma descontar_receta_efecto (filas : list (Z * Decimal)) (n idv : Z) (nom : string)
    (s : Sesion) :
  let '(res, s') := descontar_receta filas n idv nom s in
  confirmado s' = confirmado s /\
  SGIC_PRODUCTOS (pendiente s') = SGIC_PRODUCTOS (pendiente s) /\
  SGIC_PRODUCTO_INGREDIENTES (pendiente s') = SGIC_PRODUCTO_INGREDIENTES (pendiente s) /\
  SGIC_VENTAS (pendiente s') = SGIC_VENTAS (pendiente s) /\
  sec_id_venta (pendiente s') = sec_id_venta (pendiente s) /\
  cambio_de_stock_registrado (pendiente s) (pendiente s') /\
  mismos_nombres (pendiente s) (pendiente s') /\
  match res with
  | Ok _ => bloqueos s' = bloqueos s ++ filas.*1
  | Lanza e =>
      (exists l, l `prefix_of` filas.*1 /\ bloqueos s' = bloqueos s ++ l) /\
      (e = InvalidOperation \/
       exists fila, fila ∈ filas /\
         (e = ValueError (MsgIngredienteNoEncontrado fila.1) \/
          exists ing disponible,
            SGIC_INGREDIENTES (pendiente s) !! fila.1 = Some ing /\
            e = ValueError (MsgStockInsuficiente (nombre ing) fila.1
                              (dec_abs (dec_neg (dec_mul fila.2 (dec_de_entero n))))
                              disponible)))
  end.
Proof.
  revert s. induction filas as [|[id c] resto IH]; intros s.
  - cbn. do 5 (split; [reflexivity|]).
    split; [apply cambio_registrado_refl|]. split; [intros j; reflexivity|].
    symmetry. apply app_nil_r.
  - rewrite descontar_receta_cons.
    pose proof (actualizar_stock_efecto id (dec_neg (dec_mul c (dec_de_entero n)))
                  "SALIDA_VENTA" (ObsSalidaPorVenta idv n nom) (Some idv) s) as H1.
    destruct (_actualizar_stock_ingrediente_db _ _ _ _ _ s) as [[[]|e] s1].
    + destruct H1 as (Hc & Hp & Hr & Hv & Hs & Hreg & Hnom & Hb).
      specialize (IH s1).
      destruct (descontar_receta resto n idv nom s1) as [[[]|e] s2].
      * destruct IH as (Hc' & Hp' & Hr' & Hv' & Hs' & Hreg' & Hnom' & Hb').
        do 5 (split; [congruence|]).
        split; [eapply cambio_registrado_trans; eassumption|].
        split; [intros j; rewrite Hnom', Hnom; reflexivity|].
        rewrite Hb', Hb, <- app_assoc. reflexivity.
      * destruct IH as (Hc' & Hp' & Hr' & Hv' & Hs' & Hreg' & Hnom' & (l & Hl & Hb') & He).
        do 5 (split; [congruence|]).
        split; [eapply cambio_registrado_trans; eassumption|].
        split; [intros j; rewrite Hnom', Hnom; reflexivity|].
        split.
        -- exists (id :: l). split; [apply prefix_cons; exact Hl|].
           rewrite Hb', Hb, <- app_assoc. reflexivity.
        -- destruct He as [He|(fila & Hin & He)]; [left; exact He|].
           right. exists fila. split; [apply elem_of_cons; right; exact Hin|].
           destruct He as [He|(ing & disp & Hing & He)]; [left; exact He|].
           right. specialize (Hnom fila.1). rewrite Hing in Hnom. cbn in Hnom.
           destruct (SGIC_INGREDIENTES (pendiente s) !! fila.1) as [ing0|] eqn:Hing0;
             [|discriminate].
           cbn in Hnom. injection Hnom as Hnom.
           exists ing0, disp. split; [reflexivity|]. rewrite <- Hnom. exact He.
    + destruct H1 as (Hc & Hp & Hr & Hv & Hs & Hreg & Hnom & Hpend & Hb & He).
      do 5 (split; [congruence|]).
      split; [exact Hreg|]. split; [exact Hnom|]. split.
      * destruct Hb as [Hb|Hb].
        -- exists []. split; [apply prefix_nil|]. rewrite Hb, app_nil_r. reflexivity.
        -- exists [id]. split; [apply prefix_cons, prefix_nil|exact Hb].
      * destruct He as [He|[He|(ing & Hing & He)]]; [left; exact He| |].
        -- right. exists (id, c). split; [apply elem_of_cons; left; reflexivity|].
           left. exact He.
        -- right. exists (id, c). split; [apply elem_of_cons; left; reflexivity|].
           right. exists ing, (stock_actual ing). split; [exact Hing|exact He].
Qed.

(** The transaction of a sale, from a connection that has just been
    acquired. *)
Lemma transaccion_venta_efecto (r : nat -> Z) (id n : Z) (obs : option string) (bd : BD) :
  let '(res, s') := transaccion_venta id n obs (adquirir r bd) in
  match res with
  | Ok (nom, idv) =>
      confirmado s' = pendiente s' /\
      cambio_de_stock_registrado bd (pendiente s') /\
      (exists v, SGIC_VENTAS (pendiente s') = SGIC_VENTAS bd ++ [v] /\ id_venta v = idv) /\
      bloqueos s' = id_ingrediente_fk <$> filas_receta id bd
  | Lanza e =>
      confirmado s' = bd /\
      bloqueos s' `prefix_of` (id_ingrediente_fk <$> filas_receta id bd) /\
      match SGIC_PRODUCTOS bd !! id with
      | None => e = ValueError (MsgProductoNoEncontrado id)
      | Some _ =>
          e = InvalidOperation \/
          exists f, f ∈ filas_receta id bd /\
            (e = ValueError (MsgIngredienteNoEncontrado (id_ingrediente_fk f)) \/
             exists ing disponible,
               SGIC_INGREDIENTES bd !! id_ingrediente_fk f = Some ing /\
               e = ValueError
                     (MsgStockInsuficiente (nombre ing) (id_ingrediente_fk f)
                        (dec_abs (dec_neg (dec_mul (cantidad_necesaria f) (dec_de_entero n))))
                        disponible))
      end
  end.
Proof.
  unfold transaccion_venta, mbind, Tx_bind, select_producto.
  cbn [pendiente adquirir].
  destruct (SGIC_PRODUCTOS bd !! id) as [p|] eqn:Hp; cbn [fmap option_fmap option_map].
  2:{ cbn. repeat split. apply prefix_nil. }
  unfold datetime_now, insert_venta, select_receta.
  cbn [pendiente adquirir confirmado bloqueos reloj lecturas].
  match goal with
  | |- context [descontar_receta ?fs ?a ?b ?c ?s1] =>
      pose proof (descontar_receta_efecto fs a b c s1) as H;
      destruct (descontar_receta fs a b c s1) as [[[]|e] s2]
  end;
  cbn [pendiente confirmado bloqueos SGIC_PRODUCTOS SGIC_PRODUCTO_INGREDIENTES
       SGIC_VENTAS sec_id_venta SGIC_INGREDIENTES SGIC_MOVIMIENTOS_INVENTARIO] in H;
  unfold filas_receta in H;
  cbn [SGIC_PRODUCTO_INGREDIENTES] in H;
  rewrite <- list_fmap_compose in H.
  - destruct H as (Hc & Hpr & Hr & Hv & Hs & Hreg & _ & Hb).
    cbn. split; [reflexivity|]. split; [|split].
    + eapply cambio_registrado_trans; [|exact Hreg].
      exists []. split; [symmetry; apply app_nil_r|]. intros j Hne. contradiction.
    + eexists. split; [exact Hv|reflexivity].
    + exact Hb.
  - destruct H as (Hc & Hpr & Hr & Hv & Hs & Hreg & _ & (l & Hl & Hb) & He).
    split; [exact Hc|]. split; [rewrite Hb; exact Hl|].
    destruct He as [He|(fila & Hin & He)]; [left; exact He|].
    right. apply list_elem_of_fmap in Hin. destruct Hin as (f & -> & Hf).
    exists f. split; [exact Hf|exact He].
Qed.

Lemma respuesta_de_excepcion_estado (e : Excepcion) :
  estado (respuesta_de_excepcion e) <> 200.
Proof. destruct e; cbn; discriminate. Qed.

Lemma venta_respuesta (r : nat -> Z) (id n : Z) (obs : option string) (bd : BD) :
  0 < n ->
  registrar_salida_por_venta r (mkDatosVenta (Some id) (Some n) obs) bd =
  match transaccion_venta id n obs (adquirir r bd) with
  | (Ok (nom, idv), s') => (mkRespuesta 200 (CuerpoVenta n nom idv), liberar s')
  | (Lanza e, s') => (respuesta_de_excepcion e, liberar s')
  end.
Proof.
  intros Hn. unfold registrar_salida_por_venta, get_db_connection.
  cbn [req_id_producto req_cantidad_vendida req_observacion_venta].
  destruct (Z.leb_spec n 0) as [|_]; [lia|].
  destruct (transaccion_venta id n obs (adquirir r bd)) as [[[nom idv]|e] s'];
    [reflexivity|].
  destruct e; reflexivity.
Qed.

(** Whatever the request, a sale that is not answered with 200 leaves the
    tables as they were. *)
Lemma venta_rechazada_mismas_tablas (r : nat -> Z) (data : DatosVenta) (bd : BD) :
  estado (registrar_salida_por_venta r data bd).1 <> 200 ->
  mismas_tablas (registrar_salida_por_venta r data bd).2 bd.
Proof.
  unfold registrar_salida_por_venta.
  destruct (req_id_producto data) as [id|]; [|intros _; apply mismas_tablas_refl].
  destruct (req_cantidad_vendida data) as [n|]; [|intros _; apply mismas_tablas_refl].
  destruct (n <=? 0); [intros _; apply mismas_tablas_refl|].
  unfold get_db_connection.
  pose proof (transaccion_venta_efecto r id n (req_observacion_venta data) bd) as H.
  destruct (transaccion_venta id n (req_observacion_venta data) (adquirir r bd))
    as [[[nom idv]|e] s'].
  - cbn. intros Hne. contradiction.
  - destruct H as (Hc & _). intros _.
    assert (Hm : mismas_tablas (liberar s') bd) by (apply liberar_mismas_tablas; exact Hc).
    destruct e; exact Hm.
Qed.

(** ** PUT /api/ingredientes/<id> and the movement log *)

Lemma update_campos_efecto (id : Z) (c : CamposUpdate) (s : Sesion) :
  let '(res, s') := update_campos id c s in
  confirmado s' = confirmado s /\
  SGIC_MOVIMIENTOS_INVENTARIO (pendiente s') = SGIC_MOVIMIENTOS_INVENTARIO (pendiente s) /\
  match res with
  | Ok _ =>
      SGIC_INGREDIENTES (pendiente s')
        = alter (asignar c (reloj s (lecturas s))) id (SGIC_INGREDIENTES (pendiente s))
  | Lanza _ => pendiente s' = pendiente s
  end.
Proof.
  unfold update_campos.
  destruct (upd_nombre c) as [n|];
    [destruct (nombre_en_uso n id _); [repeat split|]|]; repeat split.
Qed.

Lemma transaccion_update_efecto (r : nat -> Z) (id : Z) (data : DatosIngrediente)
    (bd : BD) :
  let '(res, s') := transaccion_update id data (adquirir r bd) in
  SGIC_MOVIMIENTOS_INVENTARIO (confirmado s') = SGIC_MOVIMIENTOS_INVENTARIO bd /\
  forall resp,
    res = Ok resp -> estado resp = 200 ->
    exists c, campos_update data = Ok c /\
      (sin_campos c = false ->
       SGIC_INGREDIENTES (confirmado s')
         = alter (asignar c (r 0%nat)) id (SGIC_INGREDIENTES bd)).
Proof.
  unfold transaccion_update, mbind, Tx_bind, select_ingrediente.
  cbn [pendiente adquirir].
  destruct (SGIC_INGREDIENTES bd !! id) as [ing|].
  2:{ cbn. split; [reflexivity|]. intros resp [= <-]. discriminate. }
  unfold elevar.
  destruct (campos_update data) as [c|e]; [|split; [reflexivity|discriminate]].
  destruct (sin_campos c) eqn:Hsin.
  { cbn. split; [reflexivity|]. intros resp _ _. exists c. split; [reflexivity|].
    rewrite Hsin. discriminate. }
  pose proof (update_campos_efecto id c (adquirir r bd)) as H.
  destruct (update_campos id c (adquirir r bd)) as [[[]|e] s1].
  - destruct H as (_ & Hm & Hi). cbn. split; [exact Hm|].
    intros resp _ _. exists c. split; [reflexivity|]. intros _. exact Hi.
  - destruct H as (Hc & _ & _). split; [rewrite Hc; reflexivity|discriminate].
Qed.

Lemma update_ingrediente_efecto (r : nat -> Z) (id : Z) (data : DatosIngrediente)
    (bd : BD) :
  let '(resp, bd') := update_ingrediente r id data bd in
  SGIC_MOVIMIENTOS_INVENTARIO bd' = SGIC_MOVIMIENTOS_INVENTARIO bd /\
  (estado resp = 200 ->
   exists c, campos_update data = Ok c /\
     (sin_campos c = false ->
      SGIC_INGREDIENTES bd' = alter (asignar c (r 0%nat)) id (SGIC_INGREDIENTES bd))).
Proof.
  unfold update_ingrediente.
  destruct (sin_datos data); [split; [reflexivity|discriminate]|].
  destruct (validate_ingrediente_data data true) as [[|e errors]|e];
    [|split; [reflexivity|discriminate]..].
  unfold get_db_connection.
  pose proof (transaccion_update_efecto r id data bd) as H.
  destruct (transaccion_update id data (adquirir r bd)) as [[resp|e] s'].
  - destruct H as [Hm Hi]. split; [exact Hm|].
    intros H200. exact (Hi resp eq_refl H200).
  - destruct H as [Hm _].
    destruct e as [m| | |code]; try (split; [exact Hm|discriminate]).
    destruct (code =? 1); split; try exact Hm; discriminate.
Qed.

Lemma campos_update_stock (data : DatosIngrediente) (c : CamposUpdate) (d : Decimal) :
  campos_update data = Ok c -> req_stock_actual data = Valor d ->
  upd_stock_actual c = Some d /\ sin_campos c = false.
Proof.
  unfold campos_update, mbind, Resultado_bind. intros Hc Hd.
  destruct (texto_de (req_nombre data)); [|discriminate].
  destruct (texto_de (req_descripcion data)); [|discriminate].
  destruct (texto_de (req_unidad_medida data)); [|discriminate].
  injection Hc as <-. rewrite Hd. cbn [upd_stock_actual numero_de].
  split; [reflexivity|].
  unfold sin_campos. cbn [upd_stock_actual].
  rewrite (bool_decide_eq_false_2 (Some d = None)) by discriminate.
  rewrite andb_false_r. reflexivity.
Qed.

Lemma entrada_cambio_registrado (r : nat -> Z) (data : DatosEntrada) (bd : BD) :
  cambio_de_stock_registrado bd (registrar_entrada_inventario r data bd).2.
Proof.
  pose proof (entrada_casos r data bd) as H.
  destruct (registrar_entrada_inventario r data bd) as [resp bd']. cbn [snd].
  destruct H as [[_ ->]|[_ (id & cant & tipo & ing & nuevo & _ & _ & _ & _ & _ & ->)]].
  - apply cambio_registrado_refl.
  - eexists. split; [reflexivity|].
    intros j Hne. eexists. split; [apply list_elem_of_singleton; reflexivity|].
    cbn [mov_id_ingrediente_fk].
    destruct (decide (id = j)) as [|Hdif]; [assumption|].
    exfalso. apply Hne. unfold stock_de. cbn [SGIC_INGREDIENTES].
    rewrite lookup_alter_ne by assumption. reflexivity.
Qed.

Lemma venta_cambio_registrado (r : nat -> Z) (data : DatosVenta) (bd : BD) :
  cambio_de_stock_registrado bd (registrar_salida_por_venta r data bd).2.
Proof.
  unfold registrar_salida_por_venta.
  destruct (req_id_producto data) as [id|]; [|apply cambio_registrado_refl].
  destruct (req_cantidad_vendida data) as [n|]; [|apply cambio_registrado_refl].
  destruct (n <=? 0); [apply cambio_registrado_refl|].
  unfold get_db_connection.
  pose proof (transaccion_venta_efecto r id n (req_observacion_venta data) bd) as H.
  destruct (transaccion_venta id n (req_observacion_venta data) (adquirir r bd))
    as [[[nom idv]|e] s'].
  - destruct H as (Hc & Hreg & _). cbn [snd].
    eapply cambio_registrado_tablas; [exact Hreg| |];
      unfold liberar; cbn [SGIC_INGREDIENTES SGIC_MOVIMIENTOS_INVENTARIO];
      rewrite Hc; reflexivity.
  - destruct H as (Hc & _).
    assert (Hbd : cambio_de_stock_registrado bd (liberar s')).
    { eapply cambio_registrado_tablas; [apply cambio_registrado_refl| |];
        unfold liberar; cbn [SGIC_INGREDIENTES SGIC_MOVIMIENTOS_INVENTARIO];
        rewrite Hc; reflexivity. }
    destruct e; exact Hbd.
Qed.

(** C5, as the code has it.  The entry and the sale change a stock only
    through the engine: whichever stock differs after the request has a
    movement appended by the same request.  The update of an ingredient
    assigns the stock column itself and appends no movement. *)
Theorem stock_registrado_salvo_en_update :
  (forall r data bd,
      cambio_de_stock_registrado bd (registrar_entrada_inventario r data bd).2) /\
  (forall r data bd,
      cambio_de_stock_registrado bd (registrar_salida_por_venta r data bd).2) /\
  (forall r id data bd,
      SGIC_MOVIMIENTOS_INVENTARIO (update_ingrediente r id data bd).2
        = SGIC_MOVIMIENTOS_INVENTARIO bd) /\
  (forall r id data bd ing d,
      SGIC_INGREDIENTES bd !! id = Some ing ->
      req_stock_actual data = Valor d ->
      estado (update_ingrediente r id data bd).1 = 200 ->
      stock_de (update_ingrediente r id data bd).2 id = Some d).
Proof.
  split; [exact entrada_cambio_registrado|].
  split; [exact venta_cambio_registrado|].
  split.
  - intros r id data bd.
    pose proof (update_ingrediente_efecto r id data bd) as H.
    destruct (update_ingrediente r id data bd) as [resp bd']. apply H.
  - intros r id data bd ing d Hing Hd H200.
    pose proof (update_ingrediente_efecto r id data bd) as H.
    destruct (update_ingrediente r id data bd) as [resp bd']. cbn [fst snd] in *.
    destruct H as [_ H]. destruct (H H200) as (c & Hc & Hi).
    destruct (campos_update_stock data c d Hc Hd) as [Hs Hsin].
    unfold stock_de. rewrite (Hi Hsin), lookup_alter_eq, Hing.
    cbn. rewrite Hs. reflexivity.
Qed.

(** The milk had 10.000; the PUT leaves 3.000 and no movement. *)
Lemma stock_registrado_salvo_en_update_ej :
  cambio_de_stock_registrado bd_ejemplo
    (registrar_entrada_inventario reloj_ejemplo entrada_ejemplo bd_ejemplo).2 /\
  cambio_de_stock_registrado bd_ejemplo
    (registrar_salida_por_venta reloj_ejemplo venta_ejemplo bd_ejemplo).2 /\
  SGIC_MOVIMIENTOS_INVENTARIO (update_ingrediente reloj_ejemplo 1 update_ejemplo bd_ejemplo).2
    = SGIC_MOVIMIENTOS_INVENTARIO bd_ejemplo /\
  stock_de (update_ingrediente reloj_ejemplo 1 update_ejemplo bd_ejemplo).2 1
    = Some (mkDec 3000 (-3)).
Proof.
  destruct stock_registrado_salvo_en_update as (H1 & H2 & H3 & H4).
  split; [apply H1|]. split; [apply H2|]. split; [apply H3|].
  apply (H4 reloj_ejemplo 1 update_ejemplo bd_ejemplo leche (mkDec 3000 (-3))).
  - vm_compute. reflexivity.
  - reflexivity.
  - vm_compute. reflexivity.
Defined.

(** C5, as the specification states it, fails: the PUT changes the stock
    of the milk and the change has no movement. *)
Lemma update_cambia_stock_sin_movimiento :
  ~ cambio_de_stock_registrado bd_ejemplo
      (update_ingrediente reloj_ejemplo 1 update_ejemplo bd_ejemplo).2.
Proof.
  intros (nuevos & Hm & H).
  assert (Hmov : SGIC_MOVIMIENTOS_INVENTARIO
                   (update_ingrediente reloj_ejemplo 1 update_ejemplo bd_ejemplo).2 = [])
    by (vm_compute; reflexivity).
  rewrite Hmov in Hm. cbn in Hm. subst nuevos.
  destruct (H 1) as (m & Hin & _).
  - vm_compute. discriminate.
  - apply elem_of_nil in Hin. exact Hin.
Qed.

(** ** The recipe of a product and the order of the locks *)

Lemma orden_binario_total : Total orden_binario.
Proof. intros a b. apply String.leb_total. Qed.

Lemma compare_no_gt_trans (a b c : string) :
  String.compare a b <> Gt -> String.compare b c <> Gt -> String.compare a c <> Gt.
Proof.
  revert b c. induction a as [|x a IH]; intros [|y b] [|z c]; cbn [String.compare];
    try congruence.
  unfold Ascii.compare.
  destruct (N.compare_spec (N_of_ascii x) (N_of_ascii y)) as [Hxy|Hxy|Hxy];
    destruct (N.compare_spec (N_of_ascii y) (N_of_ascii z)) as [Hyz|Hyz|Hyz];
    destruct (N.compare_spec (N_of_ascii x) (N_of_ascii z)) as [Hxz|Hxz|Hxz];
    try congruence; try lia.
  apply IH.
Qed.

Lemma orden_binario_trans : Transitive orden_binario.
Proof.
  intros a b c. unfold orden_binario, String.leb. intros Hab Hbc.
  pose proof (compare_no_gt_trans a b c) as H.
  destruct (String.compare a b); try discriminate;
    destruct (String.compare b c); try discriminate;
    destruct (String.compare a c); try reflexivity;
    exfalso; apply H; congruence.
Qed.

Section OrdenDeLaReceta.

Context (colacion : relation string) `{!forall x y, Decision (colacion x y)}.
Context (colacion_total : Total colacion) (colacion_trans : Transitive colacion).

Lemma por_nombre_total : Total (por_nombre colacion).
Proof using colacion_total. intros a b. unfold por_nombre. apply colacion_total. Qed.

Lemma por_nombre_trans : Transitive (por_nombre colacion).
Proof using colacion_trans. intros a b c. unfold por_nombre. apply colacion_trans. Qed.

(** C6, as the code has it.  The recipe that GET /api/productos/<id>
    returns holds the rows of the product whose ingredient exists, in
    the order of the ingredient names.  A sale goes through the rows of
    the recipe -- and locks their ingredients -- in the order in which
    the table returns them, whatever the names are; it stops at the
    first row whose adjustment fails. *)
Theorem receta_por_nombre_y_bloqueos_por_fila :
  (forall id bd,
      StronglySorted (por_nombre colacion) (select_receta_ordenada colacion id bd) /\
      select_receta_ordenada colacion id bd ≡ₚ receta_con_nombres id bd) /\
  (forall id bd p,
      SGIC_PRODUCTOS bd !! id = Some p ->
      get_producto_by_id colacion id bd
        = mkRespuesta 200 (CuerpoProducto p (select_receta_ordenada colacion id bd))) /\
  (forall r id n obs bd,
      let '(res, s') := transaccion_venta id n obs (adquirir r bd) in
      bloqueos s' `prefix_of` (id_ingrediente_fk <$> filas_receta id bd) /\
      (forall x, res = Ok x -> bloqueos s' = id_ingrediente_fk <$> filas_receta id bd)).
Proof using colacion_total colacion_trans.
  split; [|split].
  - intros id bd. unfold select_receta_ordenada. split.
    + apply StronglySorted_merge_sort; [exact por_nombre_trans|exact por_nombre_total].
    + apply merge_sort_Permutation.
  - intros id bd p Hp. unfold get_producto_by_id. rewrite Hp. reflexivity.
  - intros r id n obs bd.
    pose proof (transaccion_venta_efecto r id n obs bd) as Hef.
    destruct (transaccion_venta id n obs (adquirir r bd)) as [[[nom idv]|e] s'].
    + destruct Hef as (_ & _ & _ & Hb). rewrite Hb. split; [reflexivity|].
      intros x _. reflexivity.
    + destruct Hef as (_ & Hb & _). split; [exact Hb|]. intros x Hx. discriminate.
Qed.

End OrdenDeLaReceta.

(** The latte under the binary order of the names: the recipe comes back
    sugar first, the sale locks the milk first. *)
Lemma receta_por_nombre_y_bloqueos_por_fila_ej :
  (StronglySorted (por_nombre orden_binario) (select_receta_ordenada orden_binario 1 bd_surtida) /\
   select_receta_ordenada orden_binario 1 bd_surtida ≡ₚ receta_con_nombres 1 bd_surtida) /\
  get_producto_by_id orden_binario 1 bd_surtida
    = mkRespuesta 200 (CuerpoProducto latte (select_receta_ordenada orden_binario 1 bd_surtida)) /\
  bloqueos (transaccion_venta 1 1 None (adquirir reloj_ejemplo bd_surtida)).2 = [1; 2].
Proof.
  destruct (receta_por_nombre_y_bloqueos_por_fila orden_binario
              orden_binario_total orden_binario_trans) as (H1 & H2 & H3).
  split; [apply H1|]. split.
  - apply H2. vm_compute. reflexivity.
  - specialize (H3 reloj_ejemplo 1 1 None bd_surtida).
    destruct (transaccion_venta 1 1 None (adquirir reloj_ejemplo bd_surtida))
      as [res s'] eqn:Htx.
    destruct H3 as [_ H3]. cbn [snd].
    assert (Hres : exists x, res = Ok x).
    { assert (Hf : (transaccion_venta 1 1 None (adquirir reloj_ejemplo bd_surtida)).1
                   = Ok ("Latte"%string, 1)) by (vm_compute; reflexivity).
      rewrite Htx in Hf. cbn [fst] in Hf. eexists. exact Hf. }
    destruct Hres as [x Hx]. rewrite (H3 x Hx). vm_compute. reflexivity.
Defined.

(** C6, as the specification states it, fails: the sale of a latte locks
    the milk and then the sugar, and the recipe is resolved sugar first. *)
Lemma venta_no_bloquea_en_orden_de_nombre :
  ~ venta_en_orden_de_nombre orden_binario reloj_ejemplo 1 1 bd_surtida.
Proof. unfold venta_en_orden_de_nombre. vm_compute. discriminate. Qed.

(** ** The invariant of the stock under committed adjustments *)

Lemma alinear_milesimas (a : Decimal) (e : Z) :
  -3 <= e <= expo a -> milesimas a = alinear a e * 10 ^ (e + 3).
Proof.
  intros He. unfold milesimas, alinear.
  rewrite <- Z.mul_assoc, <- pot10_suma by lia.
  f_equal; f_equal; lia.
Qed.

(** On values of at most three fractional digits, to be equal as numbers
    is to be the same number of thousandths. *)
Lemma dec_eqv_milesimas (a b : Decimal) :
  -3 <= expo a -> -3 <= expo b -> (dec_eqv a b <-> milesimas a = milesimas b).
Proof.
  intros Ha Hb. unfold dec_eqv, dec_compare.
  set (e := Z.min (expo a) (expo b)).
  rewrite (alinear_milesimas a e), (alinear_milesimas b e) by (subst e; lia).
  pose proof (pot10_pos (e + 3) ltac:(subst e; lia)) as Hp.
  rewrite Z.compare_eq_iff. split; [intros ->; reflexivity|]. nia.
Qed.

Lemma suma_exacta_milesimas (a b : Decimal) :
  -3 <= expo a -> -3 <= expo b ->
  milesimas (suma_exacta a b) = milesimas a + milesimas b /\ -3 <= expo (suma_exacta a b).
Proof.
  intros Ha Hb. unfold suma_exacta.
  set (e := Z.min (expo a) (expo b)).
  split; [|cbn [expo]; subst e; lia].
  rewrite (alinear_milesimas a e), (alinear_milesimas b e) by (subst e; lia).
  unfold milesimas. cbn [coef expo]. lia.
Qed.

Lemma foldl_suma_exacta_milesimas (ds : list Decimal) (x : Decimal) :
  -3 <= expo x -> Forall (fun d => -3 <= expo d) ds ->
  milesimas (foldl suma_exacta x ds) = milesimas x + suma_z (milesimas <$> ds) /\
  -3 <= expo (foldl suma_exacta x ds).
Proof.
  revert x. induction ds as [|d ds IH]; intros x Hx Hds.
  - cbn. split; [lia|exact Hx].
  - apply Forall_cons in Hds. destruct Hds as [Hd Hds].
    destruct (suma_exacta_milesimas x d Hx Hd) as [Hm He].
    destruct (IH (suma_exacta x d) He Hds) as [Hm' He'].
    cbn [foldl fmap list_fmap suma_z foldr]. split; [|exact He'].
    rewrite Hm', Hm. unfold suma_z. lia.
Qed.

Lemma milesimas_signo (a : Decimal) : -3 <= expo a -> (0 <= milesimas a <-> 0 <= coef a).
Proof.
  intros Ha. unfold milesimas.
  pose proof (pot10_pos (expo a + 3) ltac:(lia)). split; nia.
Qed.

Lemma ajustes_de_cons (id : Z) (a : Ajuste) (l : list Ajuste) :
  ajustes_de id (a :: l) =
  if decide (aj_id_ingrediente a = id) then a :: ajustes_de id l else ajustes_de id l.
Proof. unfold ajustes_de. rewrite filter_cons. reflexivity. Qed.

(** What a sequence of committed adjustments does to the stock of one
    ingredient and to the log, by induction on the sequence.  The sum is
    stated in thousandths, for quantities of at most three fractional
    digits. *)
Lemma ajustes_confirmados_efecto (r : nat -> Z) (l : list Ajuste) :
  forall (bd bd' : BD) (id : Z) (inicial : Decimal),
    ajustes_confirmados r l bd = Ok bd' ->
    stock_de bd id = Some inicial ->
    exists final,
      stock_de bd' id = Some final /\
      (0 <= coef inicial \/ ajustes_de id l <> [] -> 0 <= coef final) /\
      (exists nuevos,
         SGIC_MOVIMIENTOS_INVENTARIO bd' = SGIC_MOVIMIENTOS_INVENTARIO bd ++ nuevos /\
         Forall2 registra l nuevos) /\
      (-3 <= expo inicial ->
       (forall a, a ∈ l -> aj_id_ingrediente a = id -> -3 <= expo (aj_cantidad a)) ->
       -3 <= expo final /\
       milesimas final
         = milesimas inicial + suma_z (milesimas <$> (aj_cantidad <$> ajustes_de id l))).
Proof.
  induction l as [|a l IH]; intros bd bd' id inicial Hok Hst.
  - cbn in Hok. injection Hok as <-. exists inicial.
    split; [exact Hst|].
    split; [intros [H|H]; [exact H|contradiction]|].
    split; [exists []; split; [symmetry; apply app_nil_r|constructor]|].
    intros Hexp _. split; [exact Hexp|cbn; lia].
  - cbn [ajustes_confirmados] in Hok. rewrite ajuste_confirmado_eq in Hok.
    destruct (SGIC_INGREDIENTES bd !! aj_id_ingrediente a) as [ing|] eqn:Hing;
      [|discriminate].
    destruct (quantize_half_up _ _) as [nuevo|e] eqn:Hq; [|discriminate].
    destruct (Z.ltb_spec (coef nuevo) 0) as [|Hnn]; [discriminate|].
    set (bd1 := mkBD _ _ _ _ _ _) in Hok.
    rewrite ajustes_de_cons.
    destruct (decide (aj_id_ingrediente a = id)) as [Heq|Hne].
    + assert (Hinicial : stock_actual ing = inicial).
      { unfold stock_de in Hst. rewrite <- Heq, Hing in Hst. cbn in Hst. congruence. }
      rewrite Hinicial in Hq.
      assert (Hst1 : stock_de bd1 id = Some nuevo).
      { unfold stock_de, bd1. cbn [SGIC_INGREDIENTES].
        rewrite <- Heq, lookup_alter_eq, Hing. reflexivity. }
      destruct (IH bd1 bd' id nuevo Hok Hst1)
        as (final & Hf & Hfs & (nuevos & Hmov & Hreg) & Hsum).
      exists final. split; [exact Hf|].
      split; [intros _; apply Hfs; left; exact Hnn|].
      split.
      { eexists (_ :: nuevos). split.
        - rewrite Hmov. unfold bd1. cbn [SGIC_MOVIMIENTOS_INVENTARIO].
          rewrite <- app_assoc. reflexivity.
        - constructor; [|exact Hreg]. repeat split. }
      intros Hexp Hl.
      assert (Ha : -3 <= expo (aj_cantidad a)).
      { apply Hl; [apply elem_of_cons; left; reflexivity|exact Heq]. }
      destruct (suma_milesimas _ _ _ Hexp Ha Hq) as [Hm He].
      destruct Hsum as [Hfe Hfm]; [lia| |].
      { intros b Hb. apply Hl. apply elem_of_cons. right. exact Hb. }
      split; [exact Hfe|].
      rewrite Hfm, Hm. cbn [fmap list_fmap suma_z foldr]. unfold suma_z. lia.
    + assert (Hst1 : stock_de bd1 id = Some inicial).
      { unfold stock_de, bd1. cbn [SGIC_INGREDIENTES].
        rewrite lookup_alter_ne by exact Hne. exact Hst. }
      destruct (IH bd1 bd' id inicial Hok Hst1)
        as (final & Hf & Hfs & (nuevos & Hmov & Hreg) & Hsum).
      exists final. split; [exact Hf|]. split; [exact Hfs|].
      split.
      { eexists (_ :: nuevos). split.
        - rewrite Hmov. unfold bd1. cbn [SGIC_MOVIMIENTOS_INVENTARIO].
          rewrite <- app_assoc. reflexivity.
        - constructor; [|exact Hreg]. repeat split. }
      intros Hexp Hl. apply Hsum; [exact Hexp|].
      intros b Hb. apply Hl. apply elem_of_cons. right. exact Hb.
Qed.

Lemma suma_z_cota (l : list Decimal) :
  Z.abs (suma_z (milesimas <$> l)) <= suma_z ((fun d => Z.abs (milesimas d)) <$> l).
Proof.
  induction l as [|d l IH]; [cbn; lia|].
  cbn [fmap list_fmap suma_z foldr] in *. unfold suma_z in *. lia.
Qed.

(** C2, as the code has it.  After any sequence of committed adjustments
    whose quantities have at most 15 significant digits, every adjustment
    has its movement, in order, whose quantity is the absolute value of
    the quantity adjusted, and the stock of an ingredient is not negative
    once one of them has been applied to it.  When moreover the initial
    stock of the ingredient is not negative and has at most three
    decimals, the quantities adjusted on it have at most three decimals
    too, and the initial stock and their magnitudes add up to less than
    10^12 units (10^15 thousandths), the stock is the initial stock plus
    the sum of those signed quantities, and is below 10^12. *)
Theorem invariante_de_stock_con_tres_decimales
    (r : nat -> Z) (l : list Ajuste) (bd bd' : BD) (id : Z) (inicial : Decimal) :
  ajustes_confirmados r l bd = Ok bd' ->
  stock_de bd id = Some inicial ->
  Forall (fun a => cabe_en_float (aj_cantidad a)) l ->
  exists final,
    stock_de bd' id = Some final /\
    (ajustes_de id l <> [] -> 0 <= coef final) /\
    (exists nuevos,
       SGIC_MOVIMIENTOS_INVENTARIO bd' = SGIC_MOVIMIENTOS_INVENTARIO bd ++ nuevos /\
       Forall2 registra l nuevos) /\
    (0 <= coef inicial ->
     -3 <= expo inicial ->
     Forall (fun d => -3 <= expo d) (aj_cantidad <$> ajustes_de id l) ->
     milesimas inicial
       + suma_z ((fun d => Z.abs (milesimas d)) <$> (aj_cantidad <$> ajustes_de id l))
       < 10 ^ 15 ->
     invariante_stock inicial final (aj_cantidad <$> ajustes_de id l) /\
     milesimas final
       = milesimas inicial + suma_z (milesimas <$> (aj_cantidad <$> ajustes_de id l)) /\
     0 <= milesimas final < 10 ^ 15).
Proof.
  intros Hok Hst _.
  destruct (ajustes_confirmados_efecto r l bd bd' id inicial Hok Hst)
    as (final & Hf & Hfs & Hmov & Hsum).
  exists final. split; [exact Hf|].
  split; [intros Hne; apply Hfs; right; exact Hne|].
  split; [exact Hmov|].
  intros Hnn Hexp Hds Hcota.
  assert (Hl : forall a, a ∈ l -> aj_id_ingrediente a = id -> -3 <= expo (aj_cantidad a)).
  { intros a Ha Hid. rewrite Forall_fmap, Forall_forall in Hds. apply (Hds a).
    unfold ajustes_de. apply list_elem_of_filter. split; assumption. }
  destruct (Hsum Hexp Hl) as [Hfe Hfm].
  destruct (foldl_suma_exacta_milesimas _ inicial Hexp Hds) as [Hs Hse].
  assert (Hfc : 0 <= coef final) by (apply Hfs; left; exact Hnn).
  pose proof (suma_z_cota (aj_cantidad <$> ajustes_de id l)) as Hc.
  split.
  { split.
    - apply dec_eqv_milesimas; [exact Hfe|exact Hse|]. rewrite Hfm, Hs. reflexivity.
    - intros _. exact Hfc. }
  split; [exact Hfm|].
  split; [apply milesimas_signo; assumption|]. lia.
Qed.

(** Scenario D followed by an entry: the milk goes 10.000 - 0.400 + 5.5. *)
Lemma invariante_de_stock_con_tres_decimales_ej :
  exists final,
    stock_de bd_tras_ajustes 1 = Some final /\
    (exists nuevos,
       SGIC_MOVIMIENTOS_INVENTARIO bd_tras_ajustes
         = SGIC_MOVIMIENTOS_INVENTARIO bd_surtida ++ nuevos /\
       Forall2 registra ajustes_ejemplo nuevos) /\
    invariante_stock (mkDec 10000 (-3)) final [mkDec (-400) (-3); mkDec 55 (-1)] /\
    milesimas final = 10000 + (-400 + (5500 + 0)) /\
    0 <= milesimas final < 10 ^ 15.
Proof.
  destruct (invariante_de_stock_con_tres_decimales reloj_ejemplo ajustes_ejemplo
              bd_surtida bd_tras_ajustes 1 (mkDec 10000 (-3)))
    as (final & Hf & _ & Hmov & Hinv).
  - vm_compute. reflexivity.
  - vm_compute. reflexivity.
  - repeat (apply Forall_cons; split;
            [split; [vm_compute; reflexivity|cbn; lia]|]).
    apply Forall_nil_2.
  - exists final. split; [exact Hf|]. split; [exact Hmov|].
    apply Hinv.
    + vm_compute. discriminate.
    + vm_compute. discriminate.
    + repeat (apply Forall_cons; split; [vm_compute; discriminate|]). apply Forall_nil_2.
    + vm_compute. reflexivity.
Defined.

(** C2, as the specification states it, fails: 0.0004 more of the milk is
    committed and recorded, and the stock stays at 10.000. *)
Lemma invariante_de_stock_roto_por_redondeo :
  ~ invariante_tras_ajustes reloj_ejemplo [ajuste_fino] bd_ejemplo 1.
Proof.
  intros H.
  destruct (H bd_tras_ajuste_fino (mkDec 10000 (-3)))
    as (final & Hf & [Heqv _] & _).
  - vm_compute. reflexivity.
  - vm_compute. reflexivity.
  - vm_compute in Hf. injection Hf as <-. vm_compute in Heqv. discriminate.
Qed.

(** ** The scenarios of the specification, run on the model *)

(** Scenario A: stock 10.000, an entry of 5.500. *)
Example escenario_A :
  let '(resp, bd') := registrar_entrada_inventario reloj_ejemplo entrada_ejemplo bd_ejemplo in
  estado resp = 200 /\
  stock_de bd' 1 = Some (mkDec 15500 (-3)) /\
  SGIC_MOVIMIENTOS_INVENTARIO bd'
    = [mkMovimiento 1 None "ENTRADA_COMPRA" (mkDec 5500 (-3)) 1000
         (ObsEntradaDe (mkDec 5500 (-3)))].
Proof. vm_compute. repeat split. Qed.

(** Scenario B: 0.200 of milk asked for, 0.150 available. *)
Example escenario_B :
  let '(resp, bd') :=
    registrar_salida_por_venta reloj_ejemplo venta_ejemplo bd_escasa in
  resp = mkRespuesta 400
           (CuerpoValueError
              (MsgStockInsuficiente "Leche" 1 (mkDec 200 (-3)) (mkDec 150 (-3)))) /\
  SGIC_VENTAS bd' = [] /\ SGIC_MOVIMIENTOS_INVENTARIO bd' = [] /\
  stock_de bd' 1 = Some (mkDec 150 (-3)).
Proof. vm_compute. repeat split. Qed.

(** Scenario C: three units of a product without a recipe. *)
Example escenario_C :
  let '(resp, bd') :=
    registrar_salida_por_venta reloj_ejemplo (mkDatosVenta (Some 7) (Some 3) None)
      bd_sin_receta in
  resp = mkRespuesta 200 (CuerpoVenta 3 "Agua" 1) /\
  SGIC_MOVIMIENTOS_INVENTARIO bd' = [] /\
  SGIC_VENTAS bd'
    = [mkVenta 1 7 3 (mkDec 100 (-2)) (mkDec 300 (-2)) 1000 (ObsVentaDe 3 "Agua")].
Proof. vm_compute. repeat split. Qed.

(** Scenario D: two lattes, milk and sugar in stock. *)
Example escenario_D :
  let '(resp, bd') :=
    registrar_salida_por_venta reloj_ejemplo (mkDatosVenta (Some 1) (Some 2) None)
      bd_surtida in
  resp = mkRespuesta 200 (CuerpoVenta 2 "Latte" 1) /\
  stock_de bd' 1 = Some (mkDec 9600 (-3)) /\
  stock_de bd' 2 = Some (mkDec 980 (-3)) /\
  length (SGIC_VENTAS bd') = 1%nat /\
  (fun m => (mov_id_ingrediente_fk m, id_venta_fk m, tipo_movimiento m, cantidad m))
    <$> SGIC_MOVIMIENTOS_INVENTARIO bd'
    = [(1, Some 1, "SALIDA_VENTA"%string, mkDec 400 (-3));
       (2, Some 1, "SALIDA_VENTA"%string, mkDec 20 (-3))].
Proof. vm_compute. repeat split. Qed.

(** * The rest of the inventory code: proofs *)

(** ** A sale that goes through *)

Lemma transaccion_venta_eq (r : nat -> Z) (id n : Z) (obs : option string) (bd : BD)
    (p : Producto) :
  SGIC_PRODUCTOS bd !! id = Some p ->
  transaccion_venta id n obs (adquirir r bd) =
  match descontar_receta (receta_de id bd) n (sec_id_venta bd) (nombre_producto p)
          (sesion_con_venta r id n obs bd p) with
  | (Ok _, s2) =>
      (Ok (nombre_producto p, sec_id_venta bd),
       mkSesion (pendiente s2) (pendiente s2) (bloqueos s2) (reloj s2) (lecturas s2))
  | (Lanza e, s2) => (Lanza e, s2)
  end.
Proof.
  intros Hp.
  unfold transaccion_venta, mbind, Tx_bind, select_producto.
  cbn [pendiente adquirir]. rewrite Hp. cbn [fmap option_fmap option_map].
  unfold datetime_now, insert_venta, select_receta.
  cbn [pendiente adquirir confirmado bloqueos reloj lecturas].
  change (descontar_receta
            ((fun f => (id_ingrediente_fk f, cantidad_necesaria f)) <$>
             filas_receta id (mkBD (SGIC_INGREDIENTES bd) (SGIC_PRODUCTOS bd)
               (SGIC_PRODUCTO_INGREDIENTES bd)
               (SGIC_VENTAS bd ++
                  [mkVenta (sec_id_venta bd) id n (precio_venta p)
                     (dec_mul (precio_venta p) (dec_de_entero n)) (r 0%nat)
                     match obs with
                     | Some s => ObsTexto s
                     | None => ObsVentaDe n (nombre_producto p)
                     end])
               (SGIC_MOVIMIENTOS_INVENTARIO bd) (sec_id_venta bd + 1))))
    with (descontar_receta (receta_de id bd)).
  change (mkSesion bd _ [] r 1%nat) with (sesion_con_venta r id n obs bd p).
  destruct (descontar_receta _ _ _ _ _) as [[[]|e] s2]; reflexivity.
Qed.

(** The loop over the recipe when every adjustment succeeds: the clock is
    read once per entry, the movements are appended entry by entry, no
    ingredient outside the recipe is touched. *)
Lemma descontar_receta_exito (filas : list (Z * Decimal)) (n idv : Z) (nom : string) :
  forall s s',
    descontar_receta filas n idv nom s = (Ok tt, s') ->
    reloj s' = reloj s /\
    lecturas s' = (lecturas s + length filas)%nat /\
    SGIC_MOVIMIENTOS_INVENTARIO (pendiente s')
      = SGIC_MOVIMIENTOS_INVENTARIO (pendiente s) ++
        imap (fun i fila =>
                movimiento_de_venta idv n nom (reloj s (lecturas s + i)%nat) fila) filas /\
    (forall j, j ∉ filas.*1 ->
               SGIC_INGREDIENTES (pendiente s') !! j = SGIC_INGREDIENTES (pendiente s) !! j) /\
    (stocks_validos (pendiente s) -> stocks_validos (pendiente s')).
Proof.
  induction filas as [|[id c] resto IH]; intros s s' Hok.
  - cbn in Hok. injection Hok as <-.
    split; [reflexivity|]. split; [cbn; lia|].
    split; [cbn; rewrite app_nil_r; reflexivity|].
    split; [reflexivity|exact id].
  - rewrite descontar_receta_cons, actualizar_stock_eq in Hok.
    destruct (SGIC_INGREDIENTES (pendiente s) !! id) as [ing|] eqn:Hing; [|discriminate].
    destruct (quantize_half_up _ _) as [nuevo|e] eqn:Hq; [|discriminate].
    destruct (Z.ltb_spec (coef nuevo) 0) as [|Hnn]; [discriminate|].
    apply IH in Hok. destruct Hok as (Hr & Hl & Hm & Hfr & Hval).
    cbn [reloj lecturas pendiente sesion_ajustada SGIC_MOVIMIENTOS_INVENTARIO
         SGIC_INGREDIENTES] in Hr, Hl, Hm, Hfr.
    split; [exact Hr|]. split; [rewrite Hl; cbn [length]; lia|].
    split.
    { rewrite Hm, <- app_assoc. f_equal. cbn [imap app]. f_equal.
      - unfold movimiento_de_venta, descuento. cbn [fst snd].
        rewrite Nat.add_0_r. reflexivity.
      - apply imap_ext. intros i fila _. cbn.
        rewrite Nat.add_succ_r. reflexivity. }
    split.
    { intros j Hj. cbn [fmap list_fmap fst] in Hj.
      apply not_elem_of_cons in Hj. destruct Hj as [Hne Hj].
      rewrite (Hfr j Hj). apply lookup_alter_ne. congruence. }
    intros Hv. apply Hval. intros j ingj.
    cbn [pendiente sesion_ajustada SGIC_INGREDIENTES].
    destruct (decide (id = j)) as [<-|Hne].
    + rewrite lookup_alter_eq, Hing. cbn. intros [= <-]. cbn [stock_actual con_stock].
      split; [exact Hnn|]. rewrite (quantize_expo _ _ _ Hq). cbn. lia.
    + rewrite lookup_alter_ne by exact Hne. apply Hv.
Qed.

Lemma transaccion_venta_sin_producto (r : nat -> Z) (id n : Z) (obs : option string)
    (bd : BD) :
  SGIC_PRODUCTOS bd !! id = None ->
  transaccion_venta id n obs (adquirir r bd)
    = (Lanza (ValueError (MsgProductoNoEncontrado id)), adquirir r bd).
Proof.
  intros Hp. unfold transaccion_venta, mbind, Tx_bind, select_producto.
  cbn [pendiente adquirir]. rewrite Hp. reflexivity.
Qed.

(** ** A sale that does not go through *)

(** The loop over a recipe goes through its first rows, then through the
    others. *)
Lemma descontar_receta_app (previas resto : list (Z * Decimal)) (n idv : Z) (nom : string)
    (s : Sesion) :
  descontar_receta (previas ++ resto) n idv nom s =
  match descontar_receta previas n idv nom s with
  | (Ok _, s1) => descontar_receta resto n idv nom s1
  | (Lanza e, s1) => (Lanza e, s1)
  end.
Proof.
  revert s. induction previas as [|[id c] previas IH]; intros s; [reflexivity|].
  cbn [app]. rewrite !descontar_receta_cons.
  destruct (_actualizar_stock_ingrediente_db _ _ _ _ _ s) as [[[]|e] s1]; [apply IH|reflexivity].
Qed.

(** C1.  Take the sale of [n] units of a product that exists, and a row
    [fila] of its recipe: the rows before it have been adjusted, and the
    adjustment of [fila] fails with the message [msg] -- its ingredient
    has no row, or the stock of its ingredient is short.  Then the sale
    is answered with 400 and that very message, and nothing of it is
    left: no sale, no movement, and every stock as before the call, those
    of the rows adjusted before [fila] included. *)
Theorem venta_fallida_no_persiste
    (r : nat -> Z) (id n : Z) (obs : option string) (bd : BD) (p : Producto)
    (previas resto : list (Z * Decimal)) (fila : Z * Decimal) (s1 s2 : Sesion)
    (msg : Mensaje) :
  0 < n ->
  SGIC_PRODUCTOS bd !! id = Some p ->
  receta_de id bd = previas ++ fila :: resto ->
  descontar_receta previas n (sec_id_venta bd) (nombre_producto p)
    (sesion_con_venta r id n obs bd p) = (Ok tt, s1) ->
  _actualizar_stock_ingrediente_db fila.1 (descuento fila.2 n) "SALIDA_VENTA"
    (ObsSalidaPorVenta (sec_id_venta bd) n (nombre_producto p)) (Some (sec_id_venta bd)) s1
    = (Lanza (ValueError msg), s2) ->
  exists bd',
    registrar_salida_por_venta r (mkDatosVenta (Some id) (Some n) obs) bd
      = (mkRespuesta 400 (CuerpoValueError msg), bd') /\
    SGIC_VENTAS bd' = SGIC_VENTAS bd /\
    SGIC_MOVIMIENTOS_INVENTARIO bd' = SGIC_MOVIMIENTOS_INVENTARIO bd /\
    SGIC_INGREDIENTES bd' = SGIC_INGREDIENTES bd /\
    SGIC_PRODUCTOS bd' = SGIC_PRODUCTOS bd /\
    SGIC_PRODUCTO_INGREDIENTES bd' = SGIC_PRODUCTO_INGREDIENTES bd /\
    ((SGIC_INGREDIENTES (pendiente s1) !! fila.1 = None /\
      msg = MsgIngredienteNoEncontrado fila.1) \/
     (exists ing requiere,
        SGIC_INGREDIENTES (pendiente s1) !! fila.1 = Some ing /\
        msg = MsgStockInsuficiente (nombre ing) fila.1 requiere (stock_actual ing))).
Proof.
  intros Hn Hp Hrec Hprev Hfalla.
  assert (Hloop : descontar_receta (receta_de id bd) n (sec_id_venta bd) (nombre_producto p)
                    (sesion_con_venta r id n obs bd p) = (Lanza (ValueError msg), s2)).
  { rewrite Hrec, descontar_receta_app, Hprev. destruct fila as [j c].
    rewrite descontar_receta_cons. fold (descuento c n).
    cbn [fst snd] in Hfalla. rewrite Hfalla. reflexivity. }
  assert (Hc2 : confirmado s2 = bd).
  { pose proof (descontar_receta_efecto (receta_de id bd) n (sec_id_venta bd)
                  (nombre_producto p) (sesion_con_venta r id n obs bd p)) as Hef.
    rewrite Hloop in Hef. destruct Hef as (Hc & _). exact Hc. }
  exists (liberar s2).
  rewrite venta_respuesta by exact Hn.
  rewrite (transaccion_venta_eq r id n obs bd p Hp), Hloop.
  split; [reflexivity|].
  destruct (liberar_mismas_tablas s2 bd Hc2) as (Hi & Hpr & Hr & Hv & Hm).
  do 5 (split; [assumption|]).
  rewrite actualizar_stock_eq in Hfalla.
  destruct (SGIC_INGREDIENTES (pendiente s1) !! fila.1) as [ing|].
  - right. exists ing.
    destruct (quantize_half_up _ _) as [nuevo|e] eqn:Hq.
    2:{ apply quantize_lanza in Hq. subst e. discriminate. }
    destruct (coef nuevo <? 0); [|discriminate].
    injection Hfalla as <- _. eexists. split; reflexivity.
  - left. injection Hfalla as <- _. split; reflexivity.
Qed.

(** The sale of one latte: the milk is adjusted, the sugar is short, and
    the milk is as before. *)
Lemma venta_fallida_no_persiste_ej :
  exists bd',
    registrar_salida_por_venta reloj_ejemplo venta_ejemplo bd_ejemplo
      = (mkRespuesta 400
           (CuerpoValueError (MsgStockInsuficiente "Azucar" 2 (mkDec 10 (-3)) (mkDec 5 (-3)))),
         bd') /\
    SGIC_VENTAS bd' = SGIC_VENTAS bd_ejemplo /\
    SGIC_MOVIMIENTOS_INVENTARIO bd' = SGIC_MOVIMIENTOS_INVENTARIO bd_ejemplo /\
    SGIC_INGREDIENTES bd' = SGIC_INGREDIENTES bd_ejemplo /\
    SGIC_PRODUCTOS bd' = SGIC_PRODUCTOS bd_ejemplo /\
    SGIC_PRODUCTO_INGREDIENTES bd' = SGIC_PRODUCTO_INGREDIENTES bd_ejemplo.
Proof.
  destruct (venta_fallida_no_persiste reloj_ejemplo 1 1 None bd_ejemplo latte
              [(1, mkDec 200 (-3))] [] (2, mkDec 10 (-3))
              (descontar_receta [(1, mkDec 200 (-3))] 1 1 "Latte"
                 (sesion_con_venta reloj_ejemplo 1 1 None bd_ejemplo latte)).2
              (sesion_bloquea
                 (descontar_receta [(1, mkDec 200 (-3))] 1 1 "Latte"
                    (sesion_con_venta reloj_ejemplo 1 1 None bd_ejemplo latte)).2 2)
              (MsgStockInsuficiente "Azucar" 2 (mkDec 10 (-3)) (mkDec 5 (-3))))
    as (bd' & Hresp & Hv & Hm & Hi & Hp & Hr & _).
  - lia.
  - vm_compute. reflexivity.
  - vm_compute. reflexivity.
  - vm_compute. reflexivity.
  - vm_compute. reflexivity.
  - exists bd'. repeat split; assumption.
Defined.

(** The product of a decimal and an integer is exact when it fits the
    precision of the context. *)
Lemma dec_mul_entero (a : Decimal) (n : Z) :
  Z.abs (coef a * n) < 10 ^ prec ->
  dec_mul a (dec_de_entero n) = mkDec (coef a * n) (expo a).
Proof.
  intros H. unfold dec_mul, dec_de_entero. cbn [coef expo].
  rewrite Z.add_0_r. apply fix_id. exact H.
Qed.

(** The quantity a sale takes for a recipe row is the exact product, with
    a minus sign, when the product fits the precision of the context. *)
Lemma descuento_acotado (c : Decimal) (n : Z) :
  Z.abs (coef c * n) < 10 ^ prec ->
  descuento c n = mkDec (- (coef c * n)) (expo c).
Proof.
  intros H. unfold descuento. rewrite (dec_mul_entero _ _ H).
  unfold dec_neg. cbn [coef expo]. apply fix_id. cbn [coef]. lia.
Qed.

(** X1.  A sale answered with 200 has inserted exactly one row into
    SGIC_VENTAS, with the price read from the product and the amount
    [precio * n], and has appended one SALIDA_VENTA movement per recipe
    row, in the order of the recipe, each with the identifier of the
    sale and, as its quantity, the quantity of the row times [n]; it has
    left alone every ingredient outside the recipe, the products and the
    recipes.  The price, the amount and the quantities of the movements
    are taken to have at most 15 significant digits, those a column
    holds as they are. *)
Theorem venta_aceptada
    (r : nat -> Z) (data : DatosVenta) (bd bd' : BD) (resp : Respuesta) (id n : Z)
    (p : Producto) :
  req_id_producto data = Some id ->
  req_cantidad_vendida data = Some n ->
  SGIC_PRODUCTOS bd !! id = Some p ->
  cabe_en_float (precio_venta p) ->
  cabe_en_float (mkDec (coef (precio_venta p) * n) (expo (precio_venta p))) ->
  Forall (fun fila => cabe_en_float (mkDec (coef fila.2 * n) (expo fila.2)))
         (receta_de id bd) ->
  registrar_salida_por_venta r data bd = (resp, bd') ->
  estado resp = 200 ->
  0 < n /\
  resp = mkRespuesta 200 (CuerpoVenta n (nombre_producto p) (sec_id_venta bd)) /\
  SGIC_VENTAS bd'
    = SGIC_VENTAS bd ++
      [mkVenta (sec_id_venta bd) id n (precio_venta p)
         (mkDec (coef (precio_venta p) * n) (expo (precio_venta p))) (r 0%nat)
         match req_observacion_venta data with
         | Some s => ObsTexto s
         | None => ObsVentaDe n (nombre_producto p)
         end] /\
  SGIC_MOVIMIENTOS_INVENTARIO bd'
    = SGIC_MOVIMIENTOS_INVENTARIO bd ++
      imap (fun i fila =>
              mkMovimiento fila.1 (Some (sec_id_venta bd)) "SALIDA_VENTA"
                (mkDec (Z.abs (coef fila.2 * n)) (expo fila.2)) (r (S i))
                (ObsSalidaPorVenta (sec_id_venta bd) n (nombre_producto p)))
           (receta_de id bd) /\
  (forall j, j ∉ (receta_de id bd).*1 ->
             SGIC_INGREDIENTES bd' !! j = SGIC_INGREDIENTES bd !! j) /\
  SGIC_PRODUCTOS bd' = SGIC_PRODUCTOS bd /\
  SGIC_PRODUCTO_INGREDIENTES bd' = SGIC_PRODUCTO_INGREDIENTES bd /\
  sec_id_venta bd' = sec_id_venta bd + 1.
Proof.
  intros Hid Hn Hp _ Hmonto Hcant Heq H200.
  unfold registrar_salida_por_venta in Heq. rewrite Hid, Hn in Heq.
  destruct (Z.leb_spec n 0) as [|Hpos]; [injection Heq as <- <-; discriminate|].
  unfold get_db_connection in Heq.
  rewrite (transaccion_venta_eq r id n _ bd p Hp) in Heq.
  pose proof (descontar_receta_efecto (receta_de id bd) n (sec_id_venta bd)
                (nombre_producto p) (sesion_con_venta r id n (req_observacion_venta data) bd p))
    as Hef.
  destruct (descontar_receta _ _ _ _ _) as [[[]|e] s2] eqn:Hloop.
  2:{ destruct e; injection Heq as <- <-; discriminate. }
  destruct Hef as (_ & Hpr & Hre & Hv & Hs & _).
  destruct (descontar_receta_exito _ _ _ _ _ _ Hloop) as (_ & _ & Hm & Hfr & _).
  injection Heq as <- <-.
  split; [exact Hpos|]. split; [reflexivity|].
  cbn [liberar confirmado pendiente SGIC_VENTAS SGIC_MOVIMIENTOS_INVENTARIO SGIC_INGREDIENTES
       SGIC_PRODUCTOS SGIC_PRODUCTO_INGREDIENTES sec_id_venta].
  split.
  { rewrite Hv. cbn [pendiente sesion_con_venta SGIC_VENTAS]. unfold venta_de.
    rewrite (dec_mul_entero _ _ (cabe_en_float_prec _ Hmonto)). reflexivity. }
  split.
  { rewrite Hm. cbn [pendiente sesion_con_venta SGIC_MOVIMIENTOS_INVENTARIO reloj lecturas].
    f_equal. rewrite Forall_forall in Hcant.
    apply imap_ext. intros i fila Hfila. apply list_elem_of_lookup_2 in Hfila.
    unfold movimiento_de_venta.
    rewrite (descuento_acotado _ _ (cabe_en_float_prec _ (Hcant fila Hfila))).
    unfold abs_float. cbn [coef expo]. rewrite Z.abs_opp. reflexivity. }
  split; [exact Hfr|].
  split; [exact Hpr|]. split; [exact Hre|exact Hs].
Qed.

(** Two lattes: one sale of 7.00, a movement of 0.400 of milk and one of
    0.020 of sugar. *)
Lemma venta_aceptada_ej :
  SGIC_VENTAS (registrar_salida_por_venta reloj_ejemplo venta_doble bd_surtida).2
    = [mkVenta 1 1 2 (mkDec 350 (-2)) (mkDec 700 (-2)) 1000 (ObsVentaDe 2 "Latte")] /\
  SGIC_MOVIMIENTOS_INVENTARIO (registrar_salida_por_venta reloj_ejemplo venta_doble bd_surtida).2
    = [mkMovimiento 1 (Some 1) "SALIDA_VENTA" (mkDec 400 (-3)) 1001
         (ObsSalidaPorVenta 1 2 "Latte");
       mkMovimiento 2 (Some 1) "SALIDA_VENTA" (mkDec 20 (-3)) 1002
         (ObsSalidaPorVenta 1 2 "Latte")].
Proof.
  destruct (venta_aceptada reloj_ejemplo venta_doble bd_surtida
              (registrar_salida_por_venta reloj_ejemplo venta_doble bd_surtida).2
              (registrar_salida_por_venta reloj_ejemplo venta_doble bd_surtida).1 1 2 latte)
    as (_ & _ & Hv & Hm & _).
  - reflexivity.
  - reflexivity.
  - vm_compute. reflexivity.
  - split; [vm_compute; reflexivity|]. cbn. lia.
  - split; [vm_compute; reflexivity|]. cbn. lia.
  - replace (receta_de 1 bd_surtida) with [(1, mkDec 200 (-3)); (2, mkDec 10 (-3))]
      by (vm_compute; reflexivity).
    repeat (apply Forall_cons; split; [split; [vm_compute; reflexivity|cbn; lia]|]).
    apply Forall_nil_2.
  - vm_compute. reflexivity.
  - vm_compute. reflexivity.
  - split; [rewrite Hv|rewrite Hm]; vm_compute; reflexivity.
Defined.

(** X3.  A sale of a positive number of units of a product that exists
    and has no recipe row always goes through: the sale is inserted, with
    the price of the product and the amount [precio * n], and committed,
    no movement is written and no ingredient changes.  The price and the
    amount are taken to have at most 15 significant digits, those a
    column holds as they are. *)
Theorem venta_sin_receta
    (r : nat -> Z) (data : DatosVenta) (bd : BD) (id n : Z) (p : Producto) :
  req_id_producto data = Some id ->
  req_cantidad_vendida data = Some n ->
  0 < n ->
  SGIC_PRODUCTOS bd !! id = Some p ->
  filas_receta id bd = [] ->
  cabe_en_float (precio_venta p) ->
  cabe_en_float (mkDec (coef (precio_venta p) * n) (expo (precio_venta p))) ->
  registrar_salida_por_venta r data bd
    = (mkRespuesta 200 (CuerpoVenta n (nombre_producto p) (sec_id_venta bd)),
       mkBD (SGIC_INGREDIENTES bd) (SGIC_PRODUCTOS bd) (SGIC_PRODUCTO_INGREDIENTES bd)
            (SGIC_VENTAS bd ++
               [mkVenta (sec_id_venta bd) id n (precio_venta p)
                  (mkDec (coef (precio_venta p) * n) (expo (precio_venta p))) (r 0%nat)
                  match req_observacion_venta data with
                  | Some s => ObsTexto s
                  | None => ObsVentaDe n (nombre_producto p)
                  end])
            (SGIC_MOVIMIENTOS_INVENTARIO bd) (sec_id_venta bd + 1)).
Proof.
  intros Hid Hn Hpos Hp Hfilas _ Hmonto.
  unfold registrar_salida_por_venta. rewrite Hid, Hn.
  destruct (Z.leb_spec n 0) as [|_]; [lia|].
  unfold get_db_connection.
  rewrite (transaccion_venta_eq r id n _ bd p Hp).
  unfold receta_de. rewrite Hfilas.
  cbn [fmap list_fmap descontar_receta mret Tx_ret liberar sesion_con_venta pendiente
       confirmado SGIC_INGREDIENTES SGIC_PRODUCTOS SGIC_PRODUCTO_INGREDIENTES SGIC_VENTAS
       SGIC_MOVIMIENTOS_INVENTARIO sec_id_venta].
  unfold venta_de. rewrite (dec_mul_entero _ _ (cabe_en_float_prec _ Hmonto)).
  reflexivity.
Qed.

(** Three waters at 1.00: a sale of 3.00. *)
Lemma venta_sin_receta_ej :
  registrar_salida_por_venta reloj_ejemplo (mkDatosVenta (Some 7) (Some 3) None) bd_sin_receta
    = (mkRespuesta 200 (CuerpoVenta 3 "Agua" 1),
       mkBD (SGIC_INGREDIENTES bd_sin_receta) (SGIC_PRODUCTOS bd_sin_receta)
            (SGIC_PRODUCTO_INGREDIENTES bd_sin_receta)
            (SGIC_VENTAS bd_sin_receta ++
               [mkVenta 1 7 3 (mkDec 100 (-2)) (mkDec (100 * 3) (-2)) 1000
                  (ObsVentaDe 3 "Agua")])
            (SGIC_MOVIMIENTOS_INVENTARIO bd_sin_receta) (1 + 1)).
Proof.
  apply (venta_sin_receta reloj_ejemplo (mkDatosVenta (Some 7) (Some 3) None) bd_sin_receta
           7 3 (mkProducto "Agua" (mkDec 100 (-2)))).
  - reflexivity.
  - reflexivity.
  - lia.
  - vm_compute. reflexivity.
  - vm_compute. reflexivity.
  - split; [vm_compute; reflexivity|]. cbn. lia.
  - split; [vm_compute; reflexivity|]. cbn. lia.
Defined.

(** X4.  A sale of a product that does not exist is answered with 400 and
    the product-not-found message of the endpoint; the database is left
    exactly as it was, the generator of sale identifiers included. *)
Theorem venta_de_producto_inexistente
    (r : nat -> Z) (data : DatosVenta) (bd : BD) (id n : Z) :
  req_id_producto data = Some id ->
  req_cantidad_vendida data = Some n ->
  0 < n ->
  SGIC_PRODUCTOS bd !! id = None ->
  registrar_salida_por_venta r data bd
    = (mkRespuesta 400 (CuerpoValueError (MsgProductoNoEncontrado id)), bd).
Proof.
  intros Hid Hn Hpos Hp.
  unfold registrar_salida_por_venta. rewrite Hid, Hn.
  destruct (Z.leb_spec n 0) as [|_]; [lia|].
  unfold get_db_connection.
  rewrite (transaccion_venta_sin_producto r id n _ bd Hp), liberar_adquirir.
  reflexivity.
Qed.

Lemma venta_de_producto_inexistente_ej :
  registrar_salida_por_venta reloj_ejemplo (mkDatosVenta (Some 42) (Some 1) None) bd_ejemplo
    = (mkRespuesta 400 (CuerpoValueError (MsgProductoNoEncontrado 42)), bd_ejemplo).
Proof.
  apply (venta_de_producto_inexistente reloj_ejemplo (mkDatosVenta (Some 42) (Some 1) None)
           bd_ejemplo 42 1).
  - reflexivity.
  - reflexivity.
  - lia.
  - vm_compute. reflexivity.
Defined.

(** ** An entry that goes through, and one that does not *)

(** X5.  An entry answered with 200 has replaced the stock of the
    ingredient it names by the stock plus the quantity, as numbers,
    rounded half-up to three decimals, and has recorded one movement for
    that ingredient with the quantity of the request.  Nothing else has
    changed: the other columns of that row, the other ingredients, the
    products, the recipes and the sales are as before.  The body of the
    answer is the row as it now is.  The sum is taken to fit the 28
    digits of the context, and the stock, the quantity and the new stock
    to have at most 15 significant digits, those a column holds as they
    are. *)
Theorem entrada_aceptada
    (r : nat -> Z) (data : DatosEntrada) (bd bd' : BD) (resp : Respuesta)
    (id : Z) (cant : Decimal) (ing : Ingrediente) (nuevo : Decimal) :
  registrar_entrada_inventario r data bd = (resp, bd') ->
  estado resp = 200 ->
  req_id_ingrediente data = Some id ->
  req_cantidad data = Some cant ->
  SGIC_INGREDIENTES bd !! id = Some ing ->
  redondeo_half_up_3 (suma_exacta (stock_actual ing) cant) nuevo ->
  Z.abs (coef (suma_exacta (stock_actual ing) cant)) < 10 ^ prec ->
  cabe_en_float (stock_actual ing) ->
  cabe_en_float cant ->
  cabe_en_float nuevo ->
  exists ing' m,
    resp = mkRespuesta 200 (CuerpoEntrada (Some ing')) /\
    SGIC_INGREDIENTES bd' !! id = Some ing' /\
    stock_actual ing' = nuevo /\
    mismas_otras_columnas ing ing' /\
    (forall j, j <> id -> SGIC_INGREDIENTES bd' !! j = SGIC_INGREDIENTES bd !! j) /\
    SGIC_MOVIMIENTOS_INVENTARIO bd' = SGIC_MOVIMIENTOS_INVENTARIO bd ++ [m] /\
    mov_id_ingrediente_fk m = id /\
    cantidad m = cant /\
    id_venta_fk m = None /\
    SGIC_PRODUCTOS bd' = SGIC_PRODUCTOS bd /\
    SGIC_PRODUCTO_INGREDIENTES bd' = SGIC_PRODUCTO_INGREDIENTES bd /\
    SGIC_VENTAS bd' = SGIC_VENTAS bd /\
    sec_id_venta bd' = sec_id_venta bd.
Proof.
  intros Heq H200 Hid Hcant Hing Hr Hsum _ _ Hfn.
  pose proof (nuevo_stock_exacto _ _ _ Hr Hsum (cabe_en_float_prec _ Hfn)) as Hq.
  unfold registrar_entrada_inventario in Heq. rewrite Hid, Hcant in Heq.
  destruct (dec_leb cant (dec_de_entero 0)) eqn:Hpos;
    [injection Heq as <- <-; discriminate|].
  destruct (tipo_movimiento_de _) as [tipo|e]; [|injection Heq as <- <-; discriminate].
  rewrite ajuste_confirmado_eq, Hing, Hq in Heq.
  destruct (coef nuevo <? 0); [injection Heq as <- <-; discriminate|].
  injection Heq as <- <-.
  exists (con_stock nuevo ing). eexists.
  cbn [SGIC_INGREDIENTES SGIC_PRODUCTOS SGIC_PRODUCTO_INGREDIENTES SGIC_VENTAS
       SGIC_MOVIMIENTOS_INVENTARIO sec_id_venta].
  rewrite lookup_alter_eq, Hing.
  split; [reflexivity|]. split; [reflexivity|]. split; [reflexivity|].
  split; [repeat split|].
  split; [intros j Hj; apply lookup_alter_ne; congruence|].
  split; [reflexivity|]. split; [reflexivity|].
  split.
  { cbn [cantidad]. unfold abs_float. destruct cant as [c e]. cbn [coef expo]. f_equal.
    unfold dec_leb, dec_compare, alinear, dec_de_entero in Hpos. cbn [coef expo] in Hpos.
    destruct (Z.compare_spec (c * 10 ^ (e - Z.min e 0)) (0 * 10 ^ (0 - Z.min e 0)))
      as [| |Hgt]; try discriminate.
    pose proof (pot10_pos (e - Z.min e 0) ltac:(lia)). nia. }
  repeat split.
Qed.

(** Scenario A as a request: the milk goes from 10.000 to 15.500. *)
Lemma entrada_aceptada_ej :
  exists ing' m,
    (registrar_entrada_inventario reloj_ejemplo entrada_ejemplo bd_ejemplo).1
      = mkRespuesta 200 (CuerpoEntrada (Some ing')) /\
    SGIC_INGREDIENTES (registrar_entrada_inventario reloj_ejemplo entrada_ejemplo bd_ejemplo).2
      !! 1 = Some ing' /\
    stock_actual ing' = mkDec 15500 (-3) /\
    mismas_otras_columnas leche ing' /\
    (forall j, j <> 1 ->
       SGIC_INGREDIENTES (registrar_entrada_inventario reloj_ejemplo entrada_ejemplo
                            bd_ejemplo).2 !! j
       = SGIC_INGREDIENTES bd_ejemplo !! j) /\
    SGIC_MOVIMIENTOS_INVENTARIO
      (registrar_entrada_inventario reloj_ejemplo entrada_ejemplo bd_ejemplo).2
      = SGIC_MOVIMIENTOS_INVENTARIO bd_ejemplo ++ [m] /\
    mov_id_ingrediente_fk m = 1 /\
    cantidad m = mkDec 5500 (-3) /\
    id_venta_fk m = None /\
    SGIC_PRODUCTOS (registrar_entrada_inventario reloj_ejemplo entrada_ejemplo bd_ejemplo).2
      = SGIC_PRODUCTOS bd_ejemplo /\
    SGIC_PRODUCTO_INGREDIENTES
      (registrar_entrada_inventario reloj_ejemplo entrada_ejemplo bd_ejemplo).2
      = SGIC_PRODUCTO_INGREDIENTES bd_ejemplo /\
    SGIC_VENTAS (registrar_entrada_inventario reloj_ejemplo entrada_ejemplo bd_ejemplo).2
      = SGIC_VENTAS bd_ejemplo /\
    sec_id_venta (registrar_entrada_inventario reloj_ejemplo entrada_ejemplo bd_ejemplo).2
      = sec_id_venta bd_ejemplo.
Proof.
  apply (entrada_aceptada reloj_ejemplo entrada_ejemplo bd_ejemplo
           (registrar_entrada_inventario reloj_ejemplo entrada_ejemplo bd_ejemplo).2
           (registrar_entrada_inventario reloj_ejemplo entrada_ejemplo bd_ejemplo).1
           1 (mkDec 5500 (-3)) leche (mkDec 15500 (-3))).
  - vm_compute. reflexivity.
  - vm_compute. reflexivity.
  - reflexivity.
  - reflexivity.
  - vm_compute. reflexivity.
  - split; [reflexivity|]. vm_compute. split; [discriminate|]. intros H. discriminate H.
  - vm_compute. reflexivity.
  - split; [vm_compute; reflexivity|]. cbn. lia.
  - split; [vm_compute; reflexivity|]. cbn. lia.
  - split; [vm_compute; reflexivity|]. cbn. lia.
Defined.

(** X6.  An entry that is not answered with 200 -- a key is missing, the
    quantity is not positive, the kind is null, the ingredient is not
    there, the arithmetic gives up -- leaves the database exactly as it
    was. *)
Theorem entrada_rechazada_no_escribe
    (r : nat -> Z) (data : DatosEntrada) (bd : BD) :
  estado (registrar_entrada_inventario r data bd).1 <> 200 ->
  (registrar_entrada_inventario r data bd).2 = bd.
Proof.
  intros Hne. pose proof (entrada_casos r data bd) as H.
  destruct (registrar_entrada_inventario r data bd) as [resp bd']. cbn [fst snd] in *.
  destruct H as [[_ ->]|[H200 _]]; [reflexivity|contradiction].
Qed.

Lemma entrada_rechazada_no_escribe_ej :
  (registrar_entrada_inventario reloj_ejemplo
     (mkDatosEntrada (Some 1) (Some (mkDec (-1) 0)) Ausente None) bd_ejemplo).2 = bd_ejemplo.
Proof.
  apply (entrada_rechazada_no_escribe reloj_ejemplo
           (mkDatosEntrada (Some 1) (Some (mkDec (-1) 0)) Ausente None) bd_ejemplo).
  vm_compute. discriminate.
Defined.

(** ** PUT /api/ingredientes/<id>: what it writes *)

(** Either the request writes nothing, or it assigns the columns it
    carries to the row and answers with the row. *)
Lemma update_ingrediente_casos (r : nat -> Z) (id : Z) (data : DatosIngrediente) (bd : BD) :
  let '(resp, bd') := update_ingrediente r id data bd in
  (bd' = bd /\
   (estado resp = 200 ->
    resp = mkRespuesta 200 (CuerpoMensaje "No hay campos para actualizar." id))) \/
  (exists c ing,
     validate_ingrediente_data data true = Ok [] /\
     campos_update data = Ok c /\
     sin_campos c = false /\
     SGIC_INGREDIENTES bd !! id = Some ing /\
     resp = mkRespuesta 200 (CuerpoIngrediente (Some (asignar c (r 0%nat) ing))) /\
     bd' = mkBD (<[id := asignar c (r 0%nat) ing]> (SGIC_INGREDIENTES bd)) (SGIC_PRODUCTOS bd)
                (SGIC_PRODUCTO_INGREDIENTES bd) (SGIC_VENTAS bd)
                (SGIC_MOVIMIENTOS_INVENTARIO bd) (sec_id_venta bd)).
Proof.
  unfold update_ingrediente.
  destruct (sin_datos data); [left; split; [reflexivity|discriminate]|].
  destruct (validate_ingrediente_data data true) as [[|e errors]|e] eqn:Hval;
    [|left; split; [reflexivity|discriminate]..].
  unfold get_db_connection, transaccion_update, mbind, Tx_bind, select_ingrediente.
  cbn [pendiente adquirir].
  destruct (SGIC_INGREDIENTES bd !! id) as [ing|] eqn:Hing.
  2:{ cbn. rewrite liberar_adquirir. left. split; [reflexivity|discriminate]. }
  unfold elevar.
  destruct (campos_update data) as [c|e] eqn:Hc.
  2:{ rewrite liberar_adquirir.
      destruct e as [m| | |code]; try (left; split; [reflexivity|discriminate]).
      destruct (code =? 1); left; split; try reflexivity; discriminate. }
  destruct (sin_campos c) eqn:Hsin.
  { cbn. rewrite liberar_adquirir. left. split; [reflexivity|]. intros _. reflexivity. }
  unfold update_campos.
  assert (Hok : (ahora ← datetime_now;
                 con_pendiente (fun bd0 =>
                   mkBD (alter (asignar c ahora) id (SGIC_INGREDIENTES bd0)) (SGIC_PRODUCTOS bd0)
                        (SGIC_PRODUCTO_INGREDIENTES bd0) (SGIC_VENTAS bd0)
                        (SGIC_MOVIMIENTOS_INVENTARIO bd0) (sec_id_venta bd0))) (adquirir r bd)
                = (Ok tt,
                   mkSesion bd
                     (mkBD (alter (asignar c (r 0%nat)) id (SGIC_INGREDIENTES bd))
                        (SGIC_PRODUCTOS bd) (SGIC_PRODUCTO_INGREDIENTES bd) (SGIC_VENTAS bd)
                        (SGIC_MOVIMIENTOS_INVENTARIO bd) (sec_id_venta bd))
                     [] r 1%nat)) by reflexivity.
  destruct (upd_nombre c) as [nom|].
  - destruct (nombre_en_uso nom id (SGIC_INGREDIENTES (pendiente (adquirir r bd)))).
    + cbn. rewrite liberar_adquirir. left. split; [reflexivity|discriminate].
    + rewrite Hok. cbn [commit select_ingrediente mret Tx_ret fst snd].
      right. exists c, ing.
      cbn [pendiente liberar confirmado SGIC_INGREDIENTES SGIC_PRODUCTOS
           SGIC_PRODUCTO_INGREDIENTES SGIC_VENTAS SGIC_MOVIMIENTOS_INVENTARIO sec_id_venta].
      rewrite (alter_presente _ _ _ _ Hing), lookup_insert_eq.
      repeat split; try reflexivity; assumption.
  - rewrite Hok. cbn [commit select_ingrediente mret Tx_ret fst snd].
    right. exists c, ing.
    cbn [pendiente liberar confirmado SGIC_INGREDIENTES SGIC_PRODUCTOS
         SGIC_PRODUCTO_INGREDIENTES SGIC_VENTAS SGIC_MOVIMIENTOS_INVENTARIO sec_id_venta].
    rewrite (alter_presente _ _ _ _ Hing), lookup_insert_eq.
    repeat split; try reflexivity; assumption.
Qed.

(** X7.  A PUT that is not answered with 200 -- no data, a field that does
    not validate, an identifier without a row, a name that is taken, a
    null text -- leaves the database exactly as it was. *)
Theorem update_rechazado_no_escribe
    (r : nat -> Z) (id : Z) (data : DatosIngrediente) (bd : BD) :
  estado (update_ingrediente r id data bd).1 <> 200 ->
  (update_ingrediente r id data bd).2 = bd.
Proof.
  intros Hne. pose proof (update_ingrediente_casos r id data bd) as H.
  destruct (update_ingrediente r id data bd) as [resp bd']. cbn [fst snd] in *.
  destruct H as [[-> _]|(c & ing & _ & _ & _ & _ & -> & _)]; [reflexivity|].
  exfalso. apply Hne. reflexivity.
Qed.

Lemma update_rechazado_no_escribe_ej :
  (update_ingrediente reloj_ejemplo 1 update_fino bd_ejemplo).2 = bd_ejemplo.
Proof.
  apply (update_rechazado_no_escribe reloj_ejemplo 1 update_fino bd_ejemplo).
  vm_compute. discriminate.
Defined.

Lemma campos_update_columnas (data : DatosIngrediente) (c : CamposUpdate) (ing : Ingrediente)
    (ahora : Z) :
  campos_update data = Ok c ->
  nombre (asignar c ahora ing) = columna (match req_nombre data with
                                           | Valor s => Valor (strip s)
                                           | Ausente => Ausente
                                           | Nulo => Nulo
                                           end) (nombre ing) /\
  unidad_medida (asignar c ahora ing)
    = columna (match req_unidad_medida data with
               | Valor s => Valor (strip s)
               | Ausente => Ausente
               | Nulo => Nulo
               end) (unidad_medida ing) /\
  descripcion (asignar c ahora ing)
    = columna (match req_descripcion data with
               | Valor s => Valor (if String.eqb (strip s) "" then None else Some (strip s))
               | Ausente => Ausente
               | Nulo => Nulo
               end) (descripcion ing) /\
  stock_actual (asignar c ahora ing) = columna (req_stock_actual data) (stock_actual ing) /\
  stock_minimo (asignar c ahora ing) = columna (req_stock_minimo data) (stock_minimo ing) /\
  fecha_actualizacion (asignar c ahora ing) = ahora.
Proof.
  unfold campos_update, mbind, Resultado_bind. intros Hc.
  destruct (req_nombre data) as [| |n]; cbn [texto_de] in Hc; try discriminate;
    destruct (req_descripcion data) as [| |d]; cbn [texto_de] in Hc; try discriminate;
    destruct (req_unidad_medida data) as [| |u]; cbn [texto_de] in Hc; try discriminate;
    injection Hc as <-;
    destruct (req_stock_actual data), (req_stock_minimo data); repeat split.
Qed.

(** X8.  A PUT that is answered with the row has written that row and
    nothing else.  In the row, a column whose key the request carries has
    the value of the request -- a text without the blanks around it, a
    description of blanks as NULL -- and every other column has the value
    it had; the time of the update is set.  No movement is written. *)
Theorem update_aceptado
    (r : nat -> Z) (id : Z) (data : DatosIngrediente) (bd bd' : BD) (resp : Respuesta) :
  update_ingrediente r id data bd = (resp, bd') ->
  estado resp = 200 ->
  cuerpo resp <> CuerpoMensaje "No hay campos para actualizar." id ->
  exists ing ing',
    SGIC_INGREDIENTES bd !! id = Some ing /\
    resp = mkRespuesta 200 (CuerpoIngrediente (Some ing')) /\
    bd' = mkBD (<[id := ing']> (SGIC_INGREDIENTES bd)) (SGIC_PRODUCTOS bd)
               (SGIC_PRODUCTO_INGREDIENTES bd) (SGIC_VENTAS bd)
               (SGIC_MOVIMIENTOS_INVENTARIO bd) (sec_id_venta bd) /\
    nombre ing' = columna (match req_nombre data with
                           | Valor s => Valor (strip s)
                           | Ausente => Ausente
                           | Nulo => Nulo
                           end) (nombre ing) /\
    unidad_medida ing' = columna (match req_unidad_medida data with
                                  | Valor s => Valor (strip s)
                                  | Ausente => Ausente
                                  | Nulo => Nulo
                                  end) (unidad_medida ing) /\
    descripcion ing'
      = columna (match req_descripcion data with
                 | Valor s => Valor (if String.eqb (strip s) "" then None else Some (strip s))
                 | Ausente => Ausente
                 | Nulo => Nulo
                 end) (descripcion ing) /\
    stock_actual ing' = columna (req_stock_actual data) (stock_actual ing) /\
    stock_minimo ing' = columna (req_stock_minimo data) (stock_minimo ing) /\
    fecha_actualizacion ing' = r 0%nat.
Proof.
  intros Heq H200 Hmsg.
  pose proof (update_ingrediente_casos r id data bd) as H. rewrite Heq in H.
  destruct H as [[_ Hm]|(c & ing & _ & Hc & _ & Hing & -> & ->)].
  - exfalso. apply Hmsg. rewrite (Hm H200). reflexivity.
  - exists ing, (asignar c (r 0%nat) ing).
    split; [exact Hing|]. split; [reflexivity|]. split; [reflexivity|].
    apply campos_update_columnas. exact Hc.
Qed.

Lemma update_aceptado_ej :
  exists ing ing',
    SGIC_INGREDIENTES bd_ejemplo !! 1 = Some ing /\
    (update_ingrediente reloj_ejemplo 1 update_nombre_ejemplo bd_ejemplo).1
      = mkRespuesta 200 (CuerpoIngrediente (Some ing')) /\
    (update_ingrediente reloj_ejemplo 1 update_nombre_ejemplo bd_ejemplo).2
      = mkBD (<[1 := ing']> (SGIC_INGREDIENTES bd_ejemplo)) (SGIC_PRODUCTOS bd_ejemplo)
             (SGIC_PRODUCTO_INGREDIENTES bd_ejemplo) (SGIC_VENTAS bd_ejemplo)
             (SGIC_MOVIMIENTOS_INVENTARIO bd_ejemplo) (sec_id_venta bd_ejemplo) /\
    nombre ing' = columna (Valor (strip "  Leche entera ")) (nombre ing) /\
    unidad_medida ing' = columna Ausente (unidad_medida ing) /\
    descripcion ing' = columna Ausente (descripcion ing) /\
    stock_actual ing' = columna Ausente (stock_actual ing) /\
    stock_minimo ing' = columna (Valor (mkDec 1500 (-3))) (stock_minimo ing) /\
    fecha_actualizacion ing' = reloj_ejemplo 0%nat.
Proof.
  apply (update_aceptado reloj_ejemplo 1 update_nombre_ejemplo bd_ejemplo
           (update_ingrediente reloj_ejemplo 1 update_nombre_ejemplo bd_ejemplo).2
           (update_ingrediente reloj_ejemplo 1 update_nombre_ejemplo bd_ejemplo).1).
  - vm_compute. reflexivity.
  - vm_compute. reflexivity.
  - vm_compute. discriminate.
Defined.

(** ** Rounding never takes a sum below what it started from *)

(** The context rounding of a coefficient that is not negative keeps it
    at or above any multiple of a power of ten that it was at or above. *)
Lemma fix_cota_inferior (c e m j : Z) :
  0 <= m -> 0 <= j -> m * 10 ^ j <= c ->
  expo (_fix (mkDec c e)) <= e + j ->
  m * 10 ^ (e + j - expo (_fix (mkDec c e))) <= coef (_fix (mkDec c e)).
Proof.
  intros Hm Hj Hc.
  pose proof (pot10_pos j Hj) as Hpj.
  assert (Hc0 : 0 <= c) by nia.
  unfold _fix. cbn [coef expo]. rewrite (Z.abs_eq c) by lia.
  destruct (digitos_sobrantes_spec c Hc0) as (Hk0 & Hup & Hlow).
  set (k := digitos_sobrantes c) in *.
  destruct (Z.eqb_spec k 0) as [Hk|Hk].
  - cbn [coef expo]. intros _. replace (e + j - e) with j by lia. exact Hc.
  - assert (Hkpos : 0 < k) by lia. specialize (Hlow Hkpos).
    pose proof (pot10_pos prec ltac:(unfold prec; lia)) as Hpp.
    pose proof (pot10_pos k ltac:(lia)) as Hpk.
    assert (Hcpos : 0 < c).
    { assert (c / 10 ^ (k - 1) <= c); [|lia].
      apply Z.div_le_upper_bound; [apply pot10_pos; lia|].
      pose proof (pot10_pos (k - 1) ltac:(lia)). nia. }
    rewrite (Z.sgn_pos c) by exact Hcpos.
    pose proof (dividir_half_even_cotas c k) as Hq.
    destruct (Z.eqb_spec (dividir_half_even c k) (10 ^ prec)) as [Heq|Hne];
      cbn [coef expo]; intros Hexp.
    + replace (e + j - (e + k + 1)) with (j - k - 1) by lia.
      assert (Hmk : m * 10 ^ (j - k) <= c / 10 ^ k).
      { apply Z.div_le_lower_bound; [lia|].
        rewrite Z.mul_comm, <- Z.mul_assoc, <- pot10_suma by lia.
        replace (j - k + k) with j by lia. exact Hc. }
      replace (j - k) with (1 + (j - k - 1)) in Hmk by lia.
      rewrite pot10_suma, Z.pow_1_r in Hmk by lia.
      pose proof pot10_prec. lia.
    + replace (e + j - (e + k)) with (j - k) by lia.
      assert (Hmk : m * 10 ^ (j - k) <= c / 10 ^ k).
      { apply Z.div_le_lower_bound; [lia|].
        rewrite Z.mul_comm, <- Z.mul_assoc, <- pot10_suma by lia.
        replace (j - k + k) with j by lia. exact Hc. }
      lia.
Qed.

(** Rounding to thousandths keeps a value that is not negative at or
    above any number of thousandths that it was at or above. *)
Lemma quantize_cota_inferior (y r : Decimal) (m : Z) :
  0 <= coef y -> expo y <= -3 ->
  m * 10 ^ (-3 - expo y) <= coef y ->
  quantize_half_up y milesima = Ok r ->
  m <= coef r.
Proof.
  intros Hy He Hm Hq. unfold quantize_half_up in Hq. cbn [expo milesima] in Hq.
  destruct (Z.abs _ <? 10 ^ prec); [|discriminate].
  injection Hq as <-. cbn [coef].
  destruct (Z.leb_spec (-3 - expo y) 0) as [Hk|Hk].
  - replace (-3 - expo y) with 0 in * by lia. cbn in *. lia.
  - pose proof (pot10_pos (-3 - expo y) ltac:(lia)) as Hp.
    pose proof (pot10_pos (-3 - expo y - 1) ltac:(lia)) as Hh.
    destruct (Z.eq_dec (coef y) 0) as [Hz|Hnz].
    + rewrite Hz in *. cbn. nia.
    + rewrite (Z.sgn_pos (coef y)), (Z.abs_eq (coef y)), Z.mul_1_l by lia.
      unfold dividir_half_up. apply Z.div_le_lower_bound; lia.
Qed.

(** A stock of thousandths that is not negative, plus a positive quantity
    of any precision, rounds to a stock that is not below it. *)
Lemma ajuste_positivo_no_baja (s d r : Decimal) :
  0 <= coef s -> -3 <= expo s -> 0 < coef d ->
  quantize_half_up (dec_add s d) milesima = Ok r ->
  milesimas s <= coef r.
Proof.
  intros Hs Hes Hd Hq.
  destruct (Z_le_gt_dec (-3) (expo d)) as [Hed|Hed].
  - destruct (suma_milesimas s d r Hes Hed Hq) as [Hm He].
    unfold milesimas in Hm at 1. rewrite He in Hm.
    replace (-3 + 3) with 0 in Hm by lia. rewrite Z.pow_0_r, Z.mul_1_r in Hm.
    pose proof (pot10_pos (expo d + 3) ltac:(lia)).
    assert (0 < milesimas d) by (unfold milesimas; nia). lia.
  - unfold dec_add in Hq. rewrite Z.min_r in Hq by lia.
    set (e := expo d) in *.
    set (c := alinear s e + alinear d e) in *.
    assert (Hms : milesimas s * 10 ^ (-3 - e) = alinear s e).
    { unfold milesimas, alinear. rewrite <- Z.mul_assoc, <- pot10_suma by lia.
      f_equal; f_equal; lia. }
    assert (Hmd : alinear d e = coef d).
    { unfold alinear, e. rewrite Z.sub_diag, Z.pow_0_r. lia. }
    assert (HS : 0 <= milesimas s).
    { unfold milesimas. pose proof (pot10_pos (expo s + 3) ltac:(lia)). nia. }
    assert (Hc : milesimas s * 10 ^ (-3 - e) <= c) by (unfold c; lia).
    pose proof (pot10_pos (-3 - e) ltac:(lia)) as Hpg.
    assert (Hcpos : 0 < c) by (unfold c; nia).
    pose proof (fix_signo (mkDec c e)) as Hsg. cbn [coef] in Hsg.
    rewrite (Z.sgn_pos c) in Hsg by exact Hcpos.
    pose proof (fix_cota_inferior c e (milesimas s) (-3 - e) HS ltac:(lia) Hc) as Hfix.
    set (y := _fix (mkDec c e)) in *.
    destruct (Z_le_gt_dec (expo y) (-3)) as [Hey|Hey].
    + apply (quantize_cota_inferior y r (milesimas s)); [lia|exact Hey| |exact Hq].
      replace (e + (-3 - e) - expo y) with (-3 - expo y) in Hfix by lia.
      apply Hfix. lia.
    + exfalso.
      pose proof (pot10_pos prec ltac:(unfold prec; lia)) as Hpp.
      destruct (Z_lt_le_dec (Z.abs c) (10 ^ prec)) as [Hlt|Hge].
      * assert (Hy : y = mkDec c e) by (apply fix_id; exact Hlt).
        rewrite Hy in Hey. cbn [expo] in Hey. lia.
      * destruct (fix_grande (mkDec c e) Hge) as (Hbig & _ & _). fold y in Hbig.
        apply quantize_exacto in Hq; [|cbn [expo milesima]; lia].
        destruct Hq as [_ Hsmall]. cbn [expo milesima] in Hsmall.
        rewrite Z.abs_mul in Hsmall.
        pose proof (pot10_mono 1 (expo y - -3) ltac:(lia)) as Hmono.
        rewrite Z.pow_1_r in Hmono.
        pose proof (pot10_pos (expo y - -3) ltac:(lia)) as Hpy.
        rewrite (Z.abs_eq (10 ^ (expo y - -3))) in Hsmall by lia.
        pose proof (pot10_pos (prec - 1) ltac:(unfold prec; lia)).
        pose proof pot10_prec. nia.
Qed.

(** X9.  An entry that is accepted never lowers the stock: for a stock of
    thousandths that is not negative, the stock after the entry is at
    least the stock before it, whatever the precision of the quantity. *)
Theorem entrada_no_baja_el_stock
    (r : nat -> Z) (data : DatosEntrada) (bd bd' : BD) (resp : Respuesta)
    (id : Z) (antes : Decimal) :
  registrar_entrada_inventario r data bd = (resp, bd') ->
  estado resp = 200 ->
  req_id_ingrediente data = Some id ->
  stock_de bd id = Some antes ->
  0 <= coef antes -> -3 <= expo antes ->
  exists despues,
    stock_de bd' id = Some despues /\ expo despues = -3 /\
    milesimas antes <= milesimas despues /\
    dec_leb antes despues = true.
Proof.
  intros Heq H200 Hid Hst Hnn Hexp.
  pose proof (entrada_casos r data bd) as H. rewrite Heq in H.
  destruct H as [[Hno _]|[_ H]]; [contradiction|].
  destruct H as (id' & cant & tipo & ing & nuevo & Hid' & Hcant & _ & Hing & Hq & ->).
  assert (id' = id) by congruence. subst id'.
  assert (Hantes : stock_actual ing = antes).
  { unfold stock_de in Hst. rewrite Hing in Hst. cbn in Hst. congruence. }
  rewrite Hantes in Hq.
  assert (Hpos : 0 < coef cant).
  { unfold registrar_entrada_inventario in Heq. rewrite Hid, Hcant in Heq.
    rewrite dec_leb_cero in Heq.
    destruct (Z.leb_spec (coef cant) 0) as [|Hgt]; [|exact Hgt].
    injection Heq as <- _. discriminate. }
  pose proof (ajuste_positivo_no_baja antes cant nuevo Hnn Hexp Hpos Hq) as Hle.
  pose proof (quantize_expo _ _ _ Hq) as He. cbn [expo milesima] in He.
  assert (Hmn : milesimas nuevo = coef nuevo).
  { unfold milesimas. rewrite He. replace (-3 + 3) with 0 by lia.
    rewrite Z.pow_0_r. lia. }
  exists nuevo. split.
  { unfold stock_de. cbn [SGIC_INGREDIENTES]. rewrite lookup_alter_eq, Hing. reflexivity. }
  split; [exact He|]. split; [lia|].
  unfold dec_leb, dec_compare. rewrite He, Z.min_r by lia.
  assert (Ha : alinear antes (-3) = milesimas antes).
  { unfold alinear, milesimas. f_equal; f_equal; lia. }
  assert (Hn : alinear nuevo (-3) = coef nuevo).
  { unfold alinear. rewrite He, Z.sub_diag, Z.pow_0_r. lia. }
  rewrite Ha, Hn.
  destruct (Z.compare_spec (milesimas antes) (coef nuevo)); try reflexivity. lia.
Qed.

Lemma entrada_no_baja_el_stock_ej :
  exists despues,
    stock_de (registrar_entrada_inventario reloj_ejemplo entrada_media_milesima bd_ejemplo).2 1
      = Some despues /\ expo despues = -3 /\
    milesimas (mkDec 10000 (-3)) <= milesimas despues /\
    dec_leb (mkDec 10000 (-3)) despues = true.
Proof.
  apply (entrada_no_baja_el_stock reloj_ejemplo entrada_media_milesima bd_ejemplo
           (registrar_entrada_inventario reloj_ejemplo entrada_media_milesima bd_ejemplo).2
           (registrar_entrada_inventario reloj_ejemplo entrada_media_milesima bd_ejemplo).1
           1 (mkDec 10000 (-3))).
  - vm_compute. reflexivity.
  - vm_compute. reflexivity.
  - reflexivity.
  - vm_compute. reflexivity.
  - vm_compute. discriminate.
  - vm_compute. discriminate.
Defined.

(** * The catalogue: proofs *)

(** ** What the validator of the ingredients lets through *)

Lemma validar_texto_ok (is_update : bool) (c : Campo string) (requerido largo : string)
    (maximo : nat) :
  validar_texto is_update c requerido largo maximo = Ok [] ->
  match c with
  | Ausente => is_update = true
  | Nulo => False
  | Valor s => strip s <> "" /\ (String.length (strip s) <= maximo)%nat
  end.
Proof.
  destruct c as [| |s]; unfold validar_texto.
  - destruct is_update; [reflexivity|discriminate].
  - discriminate.
  - destruct (String.eqb (strip s) "") eqn:Hne; [discriminate|].
    apply String.eqb_neq in Hne.
    destruct (Nat.ltb_spec maximo (String.length (strip s))); [discriminate|].
    intros _. split; [exact Hne|lia].
Qed.

Lemma dec_gtb_milesimas (d : Decimal) (m : Z) :
  -3 <= expo d -> dec_gtb d (mkDec m (-3)) = false -> milesimas d <= m.
Proof.
  intros He. unfold dec_gtb, dec_ltb, dec_compare, milesimas, alinear. cbn [expo coef].
  rewrite Z.min_l by lia. rewrite Z.sub_diag, Z.mul_1_r.
  replace (expo d - -3) with (expo d + 3) by lia.
  destruct (Z.compare_spec m (coef d * 10 ^ (expo d + 3))) as [Hc|Hc|Hc]; intros Hg;
    try lia; discriminate.
Qed.

Lemma validar_cantidad_ok (is_update : bool) (titulo : string) (d : Decimal) :
  validar_cantidad is_update titulo (Valor d) = [] ->
  0 <= coef d /\ -3 <= expo d /\ milesimas d <= 9999999999.
Proof.
  cbn. rewrite dec_ltb_cero.
  destruct (Z.ltb_spec (coef d) 0); [discriminate|].
  destruct (Z.ltb_spec (expo d) (-3)); [discriminate|].
  destruct (dec_gtb d (mkDec 9999999999 (-3))) eqn:Hg; [discriminate|].
  intros _. repeat split; try lia. apply dec_gtb_milesimas; [lia|exact Hg].
Qed.

Lemma validate_ingrediente_ok (data : DatosIngrediente) (is_update : bool) :
  validate_ingrediente_data data is_update = Ok [] ->
  validar_texto is_update (req_nombre data)
    "El nombre del ingrediente es requerido."
    "El nombre no debe exceder 100 caracteres." 100 = Ok [] /\
  validar_texto is_update (req_unidad_medida data)
    "La unidad de medida es requerida."
    "La unidad no debe exceder 50 caracteres." 50 = Ok [] /\
  validar_cantidad is_update "Stock Actual" (req_stock_actual data) = [] /\
  validar_cantidad is_update "Stock Minimo" (req_stock_minimo data) = [].
Proof.
  unfold validate_ingrediente_data, mbind, Resultado_bind.
  destruct (validar_texto is_update (req_nombre data) _ _ _) as [e1|]; [|discriminate].
  destruct (validar_texto is_update (req_unidad_medida data) _ _ _) as [e2|]; [|discriminate].
  intros [= H].
  apply app_eq_nil in H as [-> H]. apply app_eq_nil in H as [-> H].
  apply app_eq_nil in H as [_ H]. apply app_eq_nil in H as [Ha Hm].
  repeat split; assumption.
Qed.

(** ** POST /api/ingredientes *)

Lemma create_ingrediente_casos (esq : Esquema) (r : nat -> Z) (data : DatosIngrediente)
    (bd : BD) :
  let '(resp, bd') := create_ingrediente esq r data bd in
  (bd' = bd /\ estado resp <> 201) \/
  (exists fila,
     validate_ingrediente_data data false = Ok [] /\
     insert_data esq data = Ok fila /\
     SGIC_INGREDIENTES bd !! genera_id_ingrediente esq bd = None /\
     nombre_en_uso (nombre fila) (genera_id_ingrediente esq bd) (SGIC_INGREDIENTES bd) = false /\
     resp = mkRespuesta 201 (CuerpoIngrediente (Some fila)) /\
     bd' = mkBD (<[genera_id_ingrediente esq bd := fila]> (SGIC_INGREDIENTES bd))
                (SGIC_PRODUCTOS bd) (SGIC_PRODUCTO_INGREDIENTES bd) (SGIC_VENTAS bd)
                (SGIC_MOVIMIENTOS_INVENTARIO bd) (sec_id_venta bd)).
Proof.
  unfold create_ingrediente.
  destruct (sin_datos data); [left; split; [reflexivity|discriminate]|].
  destruct (validate_ingrediente_data data false) as [[|e errors]|e] eqn:Hval;
    [|left; split; [reflexivity|discriminate]..].
  destruct (insert_data esq data) as [fila|e] eqn:Hfila;
    [|left; split; [reflexivity|discriminate]].
  unfold get_db_connection, transaccion_create_ingrediente, mbind, Tx_bind, insert_ingrediente.
  cbn [pendiente adquirir].
  destruct (bool_decide _ || nombre_en_uso _ _ _) eqn:Huso.
  - cbn. rewrite liberar_adquirir. left. split; [reflexivity|discriminate].
  - apply orb_false_iff in Huso as [Hlibre Huso].
    apply bool_decide_eq_false in Hlibre. apply eq_None_not_Some in Hlibre.
    cbn [commit select_ingrediente mret Tx_ret fst snd pendiente liberar confirmado
         SGIC_INGREDIENTES SGIC_PRODUCTOS SGIC_PRODUCTO_INGREDIENTES SGIC_VENTAS
         SGIC_MOVIMIENTOS_INVENTARIO sec_id_venta adquirir bloqueos reloj lecturas].
    rewrite lookup_insert_eq.
    right. exists fila. repeat split; try reflexivity; assumption.
Qed.

Lemma insert_data_columnas (esq : Esquema) (data : DatosIngrediente) (fila : Ingrediente) :
  validate_ingrediente_data data false = Ok [] ->
  insert_data esq data = Ok fila ->
  exists n u,
    req_nombre data = Valor n /\ req_unidad_medida data = Valor u /\
    strip n <> "" /\ strip u <> "" /\
    fila = mkIngrediente (strip n)
             match req_descripcion data with
             | Valor s => if String.eqb (strip s) "" then None else Some (strip s)
             | _ => None
             end
             (strip u)
             (columna (req_stock_actual data) (mkDec 0 (-3)))
             (columna (req_stock_minimo data) (mkDec 0 (-3)))
             (fecha_por_defecto esq) /\
    0 <= coef (stock_actual fila) /\ -3 <= expo (stock_actual fila) /\
    milesimas (stock_actual fila) <= 9999999999 /\
    0 <= coef (stock_minimo fila) /\ -3 <= expo (stock_minimo fila) /\
    milesimas (stock_minimo fila) <= 9999999999.
Proof.
  intros Hval Hins.
  apply validate_ingrediente_ok in Hval. destruct Hval as (Hn & Hu & Ha & Hm).
  apply validar_texto_ok in Hn. apply validar_texto_ok in Hu.
  unfold insert_data, mbind, Resultado_bind in Hins.
  destruct (req_nombre data) as [| |n]; try discriminate.
  destruct (req_unidad_medida data) as [| |u];
    [cbn in Hins; destruct (texto_o_none _); discriminate..|].
  assert (Hcant : forall t c d,
            validar_cantidad false t c = [] -> cantidad_o_cero c = Ok d ->
            d = columna c (mkDec 0 (-3)) /\
            0 <= coef d /\ -3 <= expo d /\ milesimas d <= 9999999999).
  { intros t c d Hv Hc. destruct c as [| |x].
    - injection Hc as <-. split; [reflexivity|]. cbn. unfold milesimas, alinear. cbn. lia.
    - discriminate.
    - injection Hc as <-. split; [reflexivity|]. eapply validar_cantidad_ok, Hv. }
  cbn [texto_requerido] in Hins.
  destruct (req_descripcion data) as [| |s] eqn:Hd; cbn [texto_o_none] in Hins;
    try discriminate;
    destruct (cantidad_o_cero (req_stock_actual data)) as [a|] eqn:Hca; try discriminate;
    destruct (cantidad_o_cero (req_stock_minimo data)) as [m|] eqn:Hcm; try discriminate;
    injection Hins as <-;
    destruct (Hcant _ _ _ Ha Hca) as (-> & ? & ? & ?);
    destruct (Hcant _ _ _ Hm Hcm) as (-> & ? & ? & ?);
    exists n, u; cbn [stock_actual stock_minimo];
    repeat split; try reflexivity; try assumption; try apply Hn; try apply Hu.
Qed.

(** X10.  A POST /api/ingredientes answered with 201 has stored one row
    under the generated identifier, which had none, and nothing else: the
    name and the unit are those of the request without the blanks around
    them and are not empty, no other ingredient has the name, a blank or
    missing description is NULL, a stock that the request does not give
    is 0.000, both stocks are non-negative numbers of at most three
    decimals and at most 9999999.999, the answer is the row,
    GET /api/ingredientes/<id> returns it, and no movement is written for
    the initial stock. *)
Theorem create_ingrediente_aceptado
    (esq : Esquema) (r : nat -> Z) (data : DatosIngrediente) (bd bd' : BD)
    (resp : Respuesta) :
  create_ingrediente esq r data bd = (resp, bd') ->
  estado resp = 201 ->
  exists n u,
    req_nombre data = Valor n /\ req_unidad_medida data = Valor u /\
    strip n <> "" /\ strip u <> "" /\
    let fila :=
      mkIngrediente (strip n)
        match req_descripcion data with
        | Valor s => if String.eqb (strip s) "" then None else Some (strip s)
        | _ => None
        end
        (strip u)
        (columna (req_stock_actual data) (mkDec 0 (-3)))
        (columna (req_stock_minimo data) (mkDec 0 (-3)))
        (fecha_por_defecto esq) in
    let new_id := genera_id_ingrediente esq bd in
    resp = mkRespuesta 201 (CuerpoIngrediente (Some fila)) /\
    get_ingrediente_by_id new_id bd' = mkRespuesta 200 (CuerpoIngrediente (Some fila)) /\
    SGIC_INGREDIENTES bd !! new_id = None /\
    (forall id, id <> new_id -> SGIC_INGREDIENTES bd' !! id = SGIC_INGREDIENTES bd !! id) /\
    (forall id ing, SGIC_INGREDIENTES bd !! id = Some ing -> nombre ing <> strip n) /\
    (0 <= coef (stock_actual fila) /\ -3 <= expo (stock_actual fila) /\
     milesimas (stock_actual fila) <= 9999999999) /\
    (0 <= coef (stock_minimo fila) /\ -3 <= expo (stock_minimo fila) /\
     milesimas (stock_minimo fila) <= 9999999999) /\
    SGIC_PRODUCTOS bd' = SGIC_PRODUCTOS bd /\
    SGIC_PRODUCTO_INGREDIENTES bd' = SGIC_PRODUCTO_INGREDIENTES bd /\
    SGIC_VENTAS bd' = SGIC_VENTAS bd /\
    SGIC_MOVIMIENTOS_INVENTARIO bd' = SGIC_MOVIMIENTOS_INVENTARIO bd.
Proof.
  intros Hc H201.
  pose proof (create_ingrediente_casos esq r data bd) as Hcasos. rewrite Hc in Hcasos.
  destruct Hcasos as [[_ Hno]|(fila & Hval & Hins & Hlibre & Huso & -> & ->)];
    [contradiction|].
  destruct (insert_data_columnas _ _ _ Hval Hins)
    as (n & u & Hn & Hu & Hnn & Hun & Hfila & Ha1 & Ha2 & Ha3 & Hm1 & Hm2 & Hm3).
  exists n, u. split; [exact Hn|]. split; [exact Hu|].
  split; [exact Hnn|]. split; [exact Hun|].
  cbv zeta. rewrite <- Hfila.
  split; [reflexivity|].
  split.
  { unfold get_ingrediente_by_id. cbn [SGIC_INGREDIENTES].
    rewrite lookup_insert_eq. reflexivity. }
  split; [exact Hlibre|].
  split.
  { intros id Hne. cbn [SGIC_INGREDIENTES]. apply lookup_insert_ne. congruence. }
  split.
  { intros id ing Hing Hnom.
    unfold nombre_en_uso in Huso. apply bool_decide_eq_false in Huso. apply Huso.
    apply Exists_exists. exists (id, ing). split.
    - apply elem_of_map_to_list. exact Hing.
    - cbn. split; [congruence|]. rewrite Hnom, Hfila. reflexivity. }
  repeat split; assumption.
Qed.

Lemma create_ingrediente_aceptado_ej :
  exists fila,
    (create_ingrediente esquema_ejemplo reloj_ejemplo cafe_nuevo bd_ejemplo).1
      = mkRespuesta 201 (CuerpoIngrediente (Some fila)) /\
    get_ingrediente_by_id 3 bd_con_cafe = mkRespuesta 200 (CuerpoIngrediente (Some fila)) /\
    nombre fila = "Cafe" /\ descripcion fila = None /\ stock_actual fila = mkDec 0 (-3) /\
    SGIC_MOVIMIENTOS_INVENTARIO bd_con_cafe = [].
Proof.
  destruct (create_ingrediente_aceptado esquema_ejemplo reloj_ejemplo cafe_nuevo bd_ejemplo
              bd_con_cafe
              (create_ingrediente esquema_ejemplo reloj_ejemplo cafe_nuevo bd_ejemplo).1)
    as (n & u & Hn & Hu & _ & _ & Hresp & Hget & _ & _ & _ & _ & _ & _ & _ & _ & Hmov).
  - vm_compute. reflexivity.
  - vm_compute. reflexivity.
  - injection Hn as <-. injection Hu as <-.
    eexists. split; [exact Hresp|]. split; [exact Hget|].
    split; [vm_compute; reflexivity|]. split; [vm_compute; reflexivity|].
    split; [reflexivity|exact Hmov].
Defined.

(** X11.  A POST /api/ingredientes that is not answered with 201 -- no
    data, a field that does not validate, a null description, a name that
    is taken -- leaves the database as it was. *)
Theorem create_ingrediente_rechazado_no_escribe
    (esq : Esquema) (r : nat -> Z) (data : DatosIngrediente) (bd bd' : BD)
    (resp : Respuesta) :
  create_ingrediente esq r data bd = (resp, bd') ->
  estado resp <> 201 ->
  bd' = bd.
Proof.
  intros Hc Hno.
  pose proof (create_ingrediente_casos esq r data bd) as Hcasos. rewrite Hc in Hcasos.
  destruct Hcasos as [[Hbd _]|(fila & _ & _ & _ & _ & -> & _)]; [exact Hbd|].
  exfalso. apply Hno. reflexivity.
Qed.

Lemma create_ingrediente_rechazado_no_escribe_ej :
  (create_ingrediente esquema_ejemplo reloj_ejemplo
     (mkDatosIngrediente (Valor "Te") Nulo (Valor "kg") Ausente Ausente) bd_ejemplo).2
  = bd_ejemplo.
Proof.
  apply (create_ingrediente_rechazado_no_escribe esquema_ejemplo reloj_ejemplo
           (mkDatosIngrediente (Valor "Te") Nulo (Valor "kg") Ausente Ausente) bd_ejemplo _
           (create_ingrediente esquema_ejemplo reloj_ejemplo
              (mkDatosIngrediente (Valor "Te") Nulo (Valor "kg") Ausente Ausente)
              bd_ejemplo).1).
  - vm_compute. reflexivity.
  - vm_compute. discriminate.
Defined.



(** ** DELETE /api/ingredientes/<id> *)

Lemma length_filter_pos {A : Type} (P : A -> Prop) `{!forall x, Decision (P x)} (l : list A) :
  (0 <? length (filter P l))%nat = true <-> Exists P l.
Proof.
  rewrite Nat.ltb_lt. split.
  - intros Hl. destruct (filter P l) as [|x l'] eqn:Hf; [cbn in Hl; lia|].
    assert (Hx : x ∈ filter P l) by (rewrite Hf; left).
    apply list_elem_of_filter in Hx. apply Exists_exists. exists x. tauto.
  - intros Hex. apply Exists_exists in Hex as (x & Hx & HP).
    assert (Hin : x ∈ filter P l) by (apply list_elem_of_filter; tauto).
    destruct (filter P l); [inversion Hin|cbn; lia].
Qed.

Lemma delete_ingrediente_casos (esq : Esquema) (r : nat -> Z) (id : Z) (bd : BD) :
  let '(resp, bd') := delete_ingrediente esq r id bd in
  (bd' = bd /\ codigo resp <> 200 /\
   (Exists (fun f => id_ingrediente_fk f = id) (SGIC_PRODUCTO_INGREDIENTES bd) ->
    resp = mkContestacion 409
             (ContCuerpo (CuerpoError "No se puede eliminar: el ingrediente está siendo usado en uno o más productos."))) /\
   (~ Exists (fun f => id_ingrediente_fk f = id) (SGIC_PRODUCTO_INGREDIENTES bd) ->
    SGIC_INGREDIENTES bd !! id = None ->
    resp = mkContestacion 404
             (ContCuerpo (CuerpoError "Ingrediente no encontrado para eliminar.")))) \/
  (~ Exists (fun f => id_ingrediente_fk f = id) (SGIC_PRODUCTO_INGREDIENTES bd) /\
   is_Some (SGIC_INGREDIENTES bd !! id) /\
   impide_borrar_ingrediente esq id bd = false /\
   resp = mkContestacion 200 (ContMensaje "Ingrediente eliminado correctamente.") /\
   bd' = mkBD (delete id (SGIC_INGREDIENTES bd)) (SGIC_PRODUCTOS bd)
              (SGIC_PRODUCTO_INGREDIENTES bd) (SGIC_VENTAS bd)
              (SGIC_MOVIMIENTOS_INVENTARIO bd) (sec_id_venta bd)).
Proof.
  unfold delete_ingrediente, get_db_connection, transaccion_delete_ingrediente, mbind,
    Tx_bind, select_count_recetas_con.
  cbn [pendiente adquirir].
  destruct (0 <? length (filter (fun f => id_ingrediente_fk f = id)
                           (SGIC_PRODUCTO_INGREDIENTES bd)))%nat eqn:Hcount.
  - apply length_filter_pos in Hcount.
    cbn. rewrite liberar_adquirir. left.
    split; [reflexivity|]. split; [discriminate|]. split; [reflexivity|contradiction].
  - assert (Hno : ~ Exists (fun f => id_ingrediente_fk f = id)
                      (SGIC_PRODUCTO_INGREDIENTES bd)).
    { intros Hex. apply (proj2 (length_filter_pos _ _)) in Hex. congruence. }
    unfold delete_fila_ingrediente. cbn [pendiente adquirir].
    destruct (SGIC_INGREDIENTES bd !! id) as [ing|] eqn:Hing.
    + destruct (impide_borrar_ingrediente esq id bd) eqn:Himp.
      * cbn. rewrite liberar_adquirir. left.
        split; [reflexivity|]. split; [discriminate|].
        split; [contradiction|discriminate].
      * cbn. right. split; [exact Hno|]. split; [eexists; reflexivity|].
        repeat split; reflexivity.
    + cbn. rewrite liberar_adquirir. left.
      split; [reflexivity|]. split; [discriminate|]. split; [contradiction|reflexivity].
Qed.

(** X13.  An ingredient that a recipe uses is never deleted: DELETE
    /api/ingredientes/<id> answers 409 and leaves the database as it was,
    whatever the schema allows. *)
Theorem delete_ingrediente_en_receta
    (esq : Esquema) (r : nat -> Z) (id : Z) (bd : BD) (f : ProductoIngrediente) :
  f ∈ SGIC_PRODUCTO_INGREDIENTES bd ->
  id_ingrediente_fk f = id ->
  delete_ingrediente esq r id bd
  = (mkContestacion 409
       (ContCuerpo (CuerpoError "No se puede eliminar: el ingrediente está siendo usado en uno o más productos.")),
     bd).
Proof.
  intros Hf Hid.
  pose proof (delete_ingrediente_casos esq r id bd) as Hcasos.
  assert (Hex : Exists (fun f => id_ingrediente_fk f = id) (SGIC_PRODUCTO_INGREDIENTES bd)).
  { apply Exists_exists. exists f. split; assumption. }
  destruct (delete_ingrediente esq r id bd) as [resp bd'].
  destruct Hcasos as [(-> & _ & Hresp & _)|(Hno & _)]; [|contradiction].
  rewrite (Hresp Hex). reflexivity.
Qed.

Lemma delete_ingrediente_en_receta_ej :
  delete_ingrediente esquema_ejemplo reloj_ejemplo 2 bd_ejemplo
  = (mkContestacion 409
       (ContCuerpo (CuerpoError "No se puede eliminar: el ingrediente está siendo usado en uno o más productos.")),
     bd_ejemplo).
Proof.
  apply (delete_ingrediente_en_receta esquema_ejemplo reloj_ejemplo 2 bd_ejemplo
           (mkProductoIngrediente 1 2 (mkDec 10 (-3)) "kg")).
  - right. left.
  - reflexivity.
Defined.

(** X14.  A DELETE /api/ingredientes/<id> answered with 200 has removed
    that row and nothing else: the ingredient was there and in no recipe,
    GET /api/ingredientes/<id> now answers 404, every other ingredient and
    every other table is as it was.  The movements of the ingredient, if
    the schema let it go, stay in the log. *)
Theorem delete_ingrediente_aceptado
    (esq : Esquema) (r : nat -> Z) (id : Z) (bd bd' : BD) (resp : Contestacion) :
  delete_ingrediente esq r id bd = (resp, bd') ->
  codigo resp = 200 ->
  is_Some (SGIC_INGREDIENTES bd !! id) /\
  Forall (fun f => id_ingrediente_fk f <> id) (SGIC_PRODUCTO_INGREDIENTES bd) /\
  get_ingrediente_by_id id bd' = mkRespuesta 404 (CuerpoError "Ingrediente no encontrado") /\
  (forall j, j <> id -> SGIC_INGREDIENTES bd' !! j = SGIC_INGREDIENTES bd !! j) /\
  SGIC_PRODUCTOS bd' = SGIC_PRODUCTOS bd /\
  SGIC_PRODUCTO_INGREDIENTES bd' = SGIC_PRODUCTO_INGREDIENTES bd /\
  SGIC_VENTAS bd' = SGIC_VENTAS bd /\
  SGIC_MOVIMIENTOS_INVENTARIO bd' = SGIC_MOVIMIENTOS_INVENTARIO bd.
Proof.
  intros Hd H200.
  pose proof (delete_ingrediente_casos esq r id bd) as Hcasos. rewrite Hd in Hcasos.
  destruct Hcasos as [(_ & Hno & _)|(Hno & Hsome & _ & _ & ->)]; [contradiction|].
  split; [exact Hsome|].
  split.
  { apply Forall_forall. intros f Hf Hid. apply Hno. apply Exists_exists. eauto. }
  split.
  { unfold get_ingrediente_by_id. cbn [SGIC_INGREDIENTES].
    rewrite lookup_delete_eq. reflexivity. }
  split.
  { intros j Hj. cbn [SGIC_INGREDIENTES]. apply lookup_delete_ne. congruence. }
  repeat split; reflexivity.
Qed.

Lemma delete_ingrediente_aceptado_ej :
  get_ingrediente_by_id 3 (delete_ingrediente esquema_ejemplo reloj_ejemplo 3 bd_con_cafe).2
  = mkRespuesta 404 (CuerpoError "Ingrediente no encontrado").
Proof.
  apply (delete_ingrediente_aceptado esquema_ejemplo reloj_ejemplo 3 bd_con_cafe
           (delete_ingrediente esquema_ejemplo reloj_ejemplo 3 bd_con_cafe).2
           (delete_ingrediente esquema_ejemplo reloj_ejemplo 3 bd_con_cafe).1).
  - vm_compute. reflexivity.
  - vm_compute. reflexivity.
Defined.

(** X15.  A DELETE /api/ingredientes/<id> that is not answered with 200
    leaves the database as it was, and an identifier that has no row and
    that no recipe uses is answered with 404. *)
Theorem delete_ingrediente_rechazado_no_escribe
    (esq : Esquema) (r : nat -> Z) (id : Z) (bd bd' : BD) (resp : Contestacion) :
  delete_ingrediente esq r id bd = (resp, bd') ->
  codigo resp <> 200 ->
  bd' = bd /\
  (Forall (fun f => id_ingrediente_fk f <> id) (SGIC_PRODUCTO_INGREDIENTES bd) ->
   SGIC_INGREDIENTES bd !! id = None ->
   resp = mkContestacion 404
            (ContCuerpo (CuerpoError "Ingrediente no encontrado para eliminar."))).
Proof.
  intros Hd Hno.
  pose proof (delete_ingrediente_casos esq r id bd) as Hcasos. rewrite Hd in Hcasos.
  destruct Hcasos as [(-> & _ & _ & H404)|(_ & _ & _ & -> & _)].
  - split; [reflexivity|]. intros Hall Hnone. apply H404; [|exact Hnone].
    intros Hex. apply Exists_exists in Hex as (f & Hf & Hid).
    rewrite Forall_forall in Hall. exact (Hall f Hf Hid).
  - exfalso. apply Hno. reflexivity.
Qed.

Lemma delete_ingrediente_rechazado_no_escribe_ej :
  (delete_ingrediente esquema_ejemplo reloj_ejemplo 99 bd_ejemplo).2 = bd_ejemplo /\
  (delete_ingrediente esquema_ejemplo reloj_ejemplo 99 bd_ejemplo).1
  = mkContestacion 404 (ContCuerpo (CuerpoError "Ingrediente no encontrado para eliminar.")).
Proof.
  destruct (delete_ingrediente_rechazado_no_escribe esquema_ejemplo reloj_ejemplo 99
              bd_ejemplo (delete_ingrediente esquema_ejemplo reloj_ejemplo 99 bd_ejemplo).2
              (delete_ingrediente esquema_ejemplo reloj_ejemplo 99 bd_ejemplo).1)
    as [Hbd H404].
  - vm_compute. reflexivity.
  - vm_compute. discriminate.
  - split; [exact Hbd|]. apply H404.
    + apply (@bool_decide_unpack _ (Forall_dec _ _)). vm_compute. exact I.
    + vm_compute. reflexivity.
Defined.

(** ** What the validator of the products lets through *)

Lemma concat_imap_nil {A B : Type} (l : list A) :
  forall f : nat -> A -> list B,
    concat (imap f l) = [] -> Forall (fun x => exists i, f i x = []) l.
Proof.
  induction l as [|x l IH]; intros f H.
  - constructor.
  - cbn in H. apply app_eq_nil in H as [Hx Hl]. constructor.
    + exists 0%nat. exact Hx.
    + apply IH in Hl. eapply Forall_impl; [exact Hl|].
      intros y [i Hi]. exists (S i). exact Hi.
Qed.

Lemma validar_item_ok (n : string) (item_receta : ItemReceta) :
  validar_item n item_receta = [] -> item_valido item_receta.
Proof.
  unfold validar_item, item_valido. intros H.
  apply app_eq_nil in H as [Hid H]. apply app_eq_nil in H as [Hc Hu].
  split; [|split].
  - destruct (item_id_ingrediente item_receta) as [| |id]; try discriminate. eauto.
  - destruct (item_cantidad_necesaria item_receta) as [| |c]; try discriminate.
    exists c. split; [reflexivity|].
    apply app_eq_nil in Hc as [Hpos Hc]. apply app_eq_nil in Hc as [Hexp Hmax].
    rewrite dec_leb_cero in Hpos.
    destruct (Z.leb_spec (coef c) 0); [discriminate|].
    destruct (Z.ltb_spec (expo c) (-3)); [discriminate|].
    destruct (dec_gtb c (mkDec 99999999 (-3))) eqn:Hg; [discriminate|].
    repeat split; try lia. apply dec_gtb_milesimas; [lia|exact Hg].
  - destruct (item_unidad_medida_receta item_receta) as [| |s]; try discriminate; [exact I|].
    destruct (String.eqb (strip s) "") eqn:Hs; [discriminate|].
    apply String.eqb_neq in Hs.
    destruct (Nat.ltb_spec 50 (String.length s)); [discriminate|].
    split; [exact Hs|lia].
Qed.

Lemma validar_ingredientes_ok (c : Campo (list ItemReceta)) :
  validar_ingredientes c = [] -> c <> Nulo /\ Forall item_valido (items_de c).
Proof.
  destruct c as [| |l]; cbn [validar_ingredientes items_de].
  - intros _. split; [discriminate|constructor].
  - discriminate.
  - intros H. split; [discriminate|].
    apply concat_imap_nil in H. eapply Forall_impl; [exact H|].
    intros item [i Hi]. eapply validar_item_ok, Hi.
Qed.

Lemma validar_precio_ok (is_update : bool) (c : Campo Decimal) :
  validar_precio is_update c = [] ->
  match c with
  | Valor precio => 0 <= coef precio
  | _ => is_update = true
  end.
Proof.
  destruct c as [| |p]; cbn [validar_precio].
  - destruct is_update; [reflexivity|discriminate].
  - destruct is_update; [reflexivity|discriminate].
  - rewrite dec_ltb_cero. destruct (Z.ltb_spec (coef p) 0); [discriminate|]. intros _. lia.
Qed.

Lemma validate_producto_ok (data data' : DatosProducto) (is_update : bool) :
  validate_producto_data data is_update = Ok ([], data') ->
  match prod_nombre data with
  | Ausente => is_update = true
  | Nulo => False
  | Valor s => strip s <> "" /\ (String.length (strip s) <= 100)%nat
  end /\
  match prod_precio_venta data with
  | Valor precio => 0 <= coef precio
  | _ => is_update = true
  end /\
  prod_ingredientes data <> Nulo /\
  Forall item_valido (items_de (prod_ingredientes data)) /\
  prod_nombre data' = prod_nombre data /\
  prod_descripcion data' = prod_descripcion data /\
  prod_precio_venta data' = prod_precio_venta data /\
  prod_categoria data' = prod_categoria data /\
  items_de (prod_ingredientes data') = items_de (prod_ingredientes data) /\
  (prod_ingredientes data' = Ausente <->
   prod_ingredientes data = Ausente /\ is_update = true) /\
  prod_ingredientes data' <> Nulo.
Proof.
  unfold validate_producto_data, mbind, Resultado_bind.
  destruct (validar_texto is_update (prod_nombre data) _ _ _) as [e1|] eqn:Hn; [|discriminate].
  intros [= H Hdata].
  apply app_eq_nil in H as [-> H]. apply app_eq_nil in H as [Hp H].
  apply app_eq_nil in H as [_ H]. apply app_eq_nil in H as [_ Hi].
  apply validar_texto_ok in Hn. apply validar_precio_ok in Hp.
  apply validar_ingredientes_ok in Hi as [Hnn Hitems].
  split; [exact Hn|]. split; [exact Hp|]. split; [exact Hnn|]. split; [exact Hitems|].
  subst data'.
  destruct (prod_ingredientes data) as [| |l] eqn:Hing; [|contradiction|].
  - destruct is_update; cbn; rewrite ?Hing;
      repeat split; try reflexivity; try discriminate; try tauto;
      try (intros [_ [=]]).
  - rewrite Hing. repeat split; try reflexivity; try discriminate;
      try (intros [=]); try (intros [[=] _]).
Qed.

(** ** The loop that stores a recipe *)

Lemma liberar_confirmado (s : Sesion) (bd : BD) :
  confirmado s = bd -> sec_id_venta (pendiente s) = sec_id_venta bd -> liberar s = bd.
Proof. intros <- Hsec. unfold liberar. rewrite Hsec. destruct (confirmado s). reflexivity. Qed.

Lemma insertar_receta_efecto (esq : Esquema) (no_existe : Z -> Contenido) (id_prod : Z)
    (items : list ItemReceta) :
  forall s,
    let '(res, s') := insertar_receta esq no_existe id_prod items s in
    confirmado s' = confirmado s /\
    sec_id_venta (pendiente s') = sec_id_venta (pendiente s) /\
    match res with
    | Ok None =>
        exists filas,
          Forall2 (fila_de_receta id_prod) items filas /\
          Forall (fun f => is_Some (SGIC_INGREDIENTES (pendiente s) !! id_ingrediente_fk f))
                 filas /\
          pendiente s'
          = mkBD (SGIC_INGREDIENTES (pendiente s)) (SGIC_PRODUCTOS (pendiente s))
                 (SGIC_PRODUCTO_INGREDIENTES (pendiente s) ++ filas)
                 (SGIC_VENTAS (pendiente s)) (SGIC_MOVIMIENTOS_INVENTARIO (pendiente s))
                 (sec_id_venta (pendiente s))
    | Ok (Some resp) =>
        exists id,
          resp = mkContestacion 400 (no_existe id) /\
          SGIC_INGREDIENTES (pendiente s) !! id = None /\
          Exists (fun item_receta => item_id_ingrediente item_receta = Valor id) items /\
          pendiente s' = liberar s
    | Lanza e => e = AttributeError \/ e = InvalidOperation \/ e = IntegrityError 1
    end.
Proof.
  induction items as [|item resto IH]; intros s.
  - cbn. split; [reflexivity|]. split; [reflexivity|].
    exists []. split; [constructor|]. split; [constructor|].
    rewrite app_nil_r. destruct (pendiente s). reflexivity.
  - cbn [insertar_receta]. unfold mbind, Tx_bind, elevar.
    destruct (item_id_ingrediente item) as [| |id] eqn:Hid; cbn [entero_de];
      [split; [reflexivity|]; split; [reflexivity|]; left; reflexivity..|].
    unfold select_count_ingrediente.
    destruct (SGIC_INGREDIENTES (pendiente s) !! id) as [ing|] eqn:Hing; cbn [Nat.eqb].
    2:{ cbn. split; [reflexivity|]. split; [reflexivity|].
        exists id. split; [reflexivity|]. split; [exact Hing|].
        split; [left; exact Hid|reflexivity]. }
    destruct (item_cantidad_necesaria item) as [| |c] eqn:Hc; cbn [decimal_de];
      [split; [reflexivity|]; split; [reflexivity|]; auto..|].
    destruct (item_unidad_medida_receta item) as [| |u] eqn:Hu; cbn [texto_requerido];
      [split; [reflexivity|]; split; [reflexivity|]; auto..|].
    unfold insert_producto_ingrediente.
    destruct (receta_sin_repetidos esq && fila_repetida _ _).
    { cbn. split; [reflexivity|]. split; [reflexivity|]. auto. }
    unfold con_pendiente.
    match goal with
    | |- context [insertar_receta esq no_existe id_prod resto ?s1] =>
        specialize (IH s1); destruct (insertar_receta esq no_existe id_prod resto s1)
          as [res s'] eqn:Hloop
    end.
    cbn [confirmado pendiente sec_id_venta SGIC_INGREDIENTES SGIC_PRODUCTOS
         SGIC_PRODUCTO_INGREDIENTES SGIC_VENTAS SGIC_MOVIMIENTOS_INVENTARIO] in IH.
    destruct IH as (Hconf & Hsec & IH).
    split; [exact Hconf|]. split; [exact Hsec|].
    destruct res as [[resp|]|e].
    + destruct IH as (j & -> & Hj & Hex & Hpend).
      exists j. split; [reflexivity|]. split; [exact Hj|].
      split; [right; exact Hex|].
      rewrite Hpend. unfold liberar. cbn [confirmado pendiente sec_id_venta]. reflexivity.
    + destruct IH as (filas & Hf2 & Hall & Hpend).
      exists (mkProductoIngrediente id_prod id c (strip u) :: filas).
      split.
      { constructor; [|exact Hf2].
        unfold fila_de_receta. cbn. repeat split; try assumption. eauto. }
      split.
      { constructor; [cbn; rewrite Hing; eauto|exact Hall]. }
      rewrite Hpend, <- app_assoc. reflexivity.
    + exact IH.
Qed.

Lemma filas_validas (id_prod : Z) (items : list ItemReceta) (filas : list ProductoIngrediente) :
  Forall item_valido items ->
  Forall2 (fila_de_receta id_prod) items filas ->
  Forall (fun f => id_producto_fk f = id_prod /\ cantidad_valida (cantidad_necesaria f) /\
                   unidad_medida_receta f <> "") filas.
Proof.
  intros Hval Hf2. induction Hf2 as [|item f items filas Hf _ IH]; [constructor|].
  apply Forall_cons in Hval as [Hitem Hval]. constructor; [|exact (IH Hval)].
  destruct Hf as (Hp & _ & Hc & s & Hs & Hu).
  destruct Hitem as (_ & (c & Hc' & Hcv) & Hunidad).
  rewrite Hc in Hc'. injection Hc' as <-.
  rewrite Hs in Hunidad. rewrite Hu. tauto.
Qed.

(** ** POST /api/productos *)

Lemma salida_de_la_receta (esq : Esquema) (no_existe : Z -> Contenido) (id_prod : Z)
    (c : Campo (list ItemReceta)) :
  match c with
  | Valor (item_receta :: resto) =>
      insertar_receta esq no_existe id_prod (item_receta :: resto)
  | _ => mret None
  end = insertar_receta esq no_existe id_prod (items_de c).
Proof. destruct c as [| |[|i l]]; reflexivity. Qed.

Lemma create_producto_casos (esq : Esquema) (r : nat -> Z) (data : DatosProducto) (bd : BD) :
  let '(resp, bd') := create_producto esq r data bd in
  (bd' = bd /\ codigo resp <> 201 /\
   forall id, contenido resp = ContIngredienteNoExiste id ->
              SGIC_INGREDIENTES bd !! id = None /\
              Exists (fun item_receta => item_id_ingrediente item_receta = Valor id)
                     (items_de (prod_ingredientes data))) \/
  (exists n precio filas,
     prod_nombre data = Valor n /\ strip n <> "" /\
     prod_precio_venta data = Valor precio /\ 0 <= coef precio /\
     SGIC_PRODUCTOS bd !! genera_id_producto esq bd = None /\
     nombre_producto_en_uso (strip n) (genera_id_producto esq bd) (SGIC_PRODUCTOS bd) = false /\
     Forall item_valido (items_de (prod_ingredientes data)) /\
     Forall2 (fila_de_receta (genera_id_producto esq bd))
             (items_de (prod_ingredientes data)) filas /\
     Forall (fun f => is_Some (SGIC_INGREDIENTES bd !! id_ingrediente_fk f)) filas /\
     resp = mkContestacion 201 (ContProducto (Some (mkProducto (strip n) precio))) /\
     bd' = mkBD (SGIC_INGREDIENTES bd)
                (<[genera_id_producto esq bd := mkProducto (strip n) precio]> (SGIC_PRODUCTOS bd))
                (SGIC_PRODUCTO_INGREDIENTES bd ++ filas) (SGIC_VENTAS bd)
                (SGIC_MOVIMIENTOS_INVENTARIO bd) (sec_id_venta bd)).
Proof.
  unfold create_producto.
  destruct (sin_datos_producto data);
    [left; split; [reflexivity|]; split; [discriminate|]; intros id; discriminate|].
  destruct (validate_producto_data data false) as [[[|e errors] data']|e] eqn:Hval;
    [|left; split; [reflexivity|]; split; [discriminate|]; intros id; discriminate..].
  apply validate_producto_ok in Hval.
  destruct Hval as (Hn & Hp & _ & Hitems & Hn' & Hd' & Hp' & Hc' & Hi' & _ & _).
  destruct (prod_nombre data) as [| |n] eqn:Hnom; try discriminate; try contradiction.
  destruct (prod_precio_venta data) as [| |precio] eqn:Hprecio; try discriminate.
  unfold get_db_connection, transaccion_create_producto, mbind, Tx_bind, elevar.
  rewrite Hn', Hd', Hp', Hc'. cbn [texto_requerido decimal_de].
  destruct (texto_o_none (prod_descripcion data)) as [d|ed];
    [|rewrite liberar_adquirir; destruct ed as [m| | |code]; [| | |destruct (code =? 1)];
      left; (split; [reflexivity|]; split; [discriminate|]; intros id; discriminate)].
  destruct (texto_o_none (prod_categoria data)) as [cat|ec];
    [|rewrite liberar_adquirir; destruct ec as [m| | |code]; [| | |destruct (code =? 1)];
      left; (split; [reflexivity|]; split; [discriminate|]; intros id; discriminate)].
  unfold insert_producto. cbn [pendiente adquirir].
  destruct (bool_decide _ || nombre_producto_en_uso _ _ _) eqn:Huso.
  { cbn. rewrite liberar_adquirir.
    left. split; [reflexivity|]. split; [discriminate|]. intros id. discriminate. }
  apply orb_false_iff in Huso as [Hlibre Huso].
  apply bool_decide_eq_false in Hlibre. apply eq_None_not_Some in Hlibre.
  cbn [confirmado bloqueos reloj lecturas].
  rewrite salida_de_la_receta, Hi'.
  match goal with
  | |- context [insertar_receta esq ContIngredienteNoExiste ?id ?l ?s1] =>
      pose proof (insertar_receta_efecto esq ContIngredienteNoExiste id l s1) as Hloop;
      destruct (insertar_receta esq ContIngredienteNoExiste id l s1) as [res s']
  end.
  cbn [confirmado pendiente sec_id_venta SGIC_INGREDIENTES SGIC_PRODUCTOS
       SGIC_PRODUCTO_INGREDIENTES SGIC_VENTAS SGIC_MOVIMIENTOS_INVENTARIO] in Hloop.
  destruct Hloop as (Hconf & Hsec & Hres).
  destruct res as [[resp|]|e].
  - destruct Hres as (id & -> & Hid & Hex & Hpend).
    cbn [mret Tx_ret]. rewrite (liberar_confirmado s' bd Hconf Hsec).
    left. split; [reflexivity|]. split; [discriminate|].
    intros j [= <-]. split; assumption.
  - destruct Hres as (filas & Hf2 & Hall & Hpend).
    unfold commit, select_producto_base. cbn [mret Tx_ret pendiente].
    right. exists n, precio, filas.
    split; [reflexivity|]. split; [apply Hn|]. split; [reflexivity|]. split; [exact Hp|].
    split; [exact Hlibre|].
    split; [exact Huso|]. split; [exact Hitems|]. split; [exact Hf2|]. split; [exact Hall|].
    rewrite Hpend. cbn [SGIC_PRODUCTOS]. rewrite lookup_insert_eq.
    split; [reflexivity|].
    unfold liberar. cbn [confirmado pendiente sec_id_venta SGIC_INGREDIENTES SGIC_PRODUCTOS
      SGIC_PRODUCTO_INGREDIENTES SGIC_VENTAS SGIC_MOVIMIENTOS_INVENTARIO]. reflexivity.
  - rewrite (liberar_confirmado s' bd Hconf Hsec).
    destruct Hres as [->|[->| ->]]; cbn;
      left; (split; [reflexivity|]; split; [discriminate|]; intros id; discriminate).
Qed.

(** X16.  A POST /api/productos answered with 201 has stored the product
    under the generated identifier, which had no row, with the name of the
    request without the blanks around it -- a name no other product has
    -- and its price,
    and has appended one recipe row per element of the request, in the
    order of the request: each row belongs to the new product, names an
    ingredient that exists, has the quantity of the element -- positive,
    of at most three decimals, at most 99999.999 -- and its unit without
    the blanks around it.  Nothing else is written.  When no older recipe
    row carries the generated identifier, those rows are the recipe a
    sale of the product goes through.  The price of the request, for
    which the endpoint checks no precision, is taken to have at most 15
    significant digits, those a column holds as they are. *)
Theorem create_producto_aceptado
    (esq : Esquema) (r : nat -> Z) (data : DatosProducto) (bd bd' : BD)
    (resp : Contestacion) :
  create_producto esq r data bd = (resp, bd') ->
  codigo resp = 201 ->
  (forall precio, prod_precio_venta data = Valor precio -> cabe_en_float precio) ->
  let new_id := genera_id_producto esq bd in
  exists n precio filas,
    prod_nombre data = Valor n /\ strip n <> "" /\
    prod_precio_venta data = Valor precio /\ 0 <= coef precio /\
    resp = mkContestacion 201 (ContProducto (Some (mkProducto (strip n) precio))) /\
    SGIC_PRODUCTOS bd !! new_id = None /\
    SGIC_PRODUCTOS bd' !! new_id = Some (mkProducto (strip n) precio) /\
    (forall j, j <> new_id -> SGIC_PRODUCTOS bd' !! j = SGIC_PRODUCTOS bd !! j) /\
    (forall j p, SGIC_PRODUCTOS bd !! j = Some p -> nombre_producto p <> strip n) /\
    SGIC_PRODUCTO_INGREDIENTES bd' = SGIC_PRODUCTO_INGREDIENTES bd ++ filas /\
    Forall2 (fila_de_receta new_id) (items_de (prod_ingredientes data)) filas /\
    Forall (fun f => is_Some (SGIC_INGREDIENTES bd !! id_ingrediente_fk f) /\
                     cantidad_valida (cantidad_necesaria f) /\
                     unidad_medida_receta f <> "") filas /\
    (Forall (fun f => id_producto_fk f <> new_id) (SGIC_PRODUCTO_INGREDIENTES bd) ->
     filas_receta new_id bd' = filas) /\
    SGIC_INGREDIENTES bd' = SGIC_INGREDIENTES bd /\
    SGIC_VENTAS bd' = SGIC_VENTAS bd /\
    SGIC_MOVIMIENTOS_INVENTARIO bd' = SGIC_MOVIMIENTOS_INVENTARIO bd.
Proof.
  intros Hc H201 _ new_id. subst new_id.
  pose proof (create_producto_casos esq r data bd) as Hcasos. rewrite Hc in Hcasos.
  destruct Hcasos as [(_ & Hno & _)|
    (n & precio & filas & Hn & Hnn & Hp & Hpp & Hlibre & Huso & Hitems & Hf2 & Hall
       & -> & ->)];
    [contradiction|].
  pose proof (filas_validas _ _ _ Hitems Hf2) as Hval.
  exists n, precio, filas.
  split; [exact Hn|]. split; [exact Hnn|]. split; [exact Hp|]. split; [exact Hpp|].
  split; [reflexivity|].
  cbn [SGIC_INGREDIENTES SGIC_PRODUCTOS SGIC_PRODUCTO_INGREDIENTES SGIC_VENTAS
       SGIC_MOVIMIENTOS_INVENTARIO].
  split; [exact Hlibre|].
  split; [apply lookup_insert_eq|].
  split; [intros j Hj; apply lookup_insert_ne; congruence|].
  split.
  { intros j p Hjp Hnom.
    unfold nombre_producto_en_uso in Huso. apply bool_decide_eq_false in Huso. apply Huso.
    apply Exists_exists. exists (j, p). split; [apply elem_of_map_to_list; exact Hjp|].
    cbn. split; [congruence|assumption]. }
  split; [reflexivity|]. split; [exact Hf2|].
  split.
  { rewrite Forall_forall in Hall, Hval. apply Forall_forall. intros f Hf.
    split; [exact (Hall f Hf)|]. apply (Hval f Hf). }
  split.
  { intros Hfresh. unfold filas_receta. cbn [SGIC_PRODUCTO_INGREDIENTES].
    rewrite filter_app.
    replace (filter (fun f => id_producto_fk f = genera_id_producto esq bd)
               (SGIC_PRODUCTO_INGREDIENTES bd))
      with (@nil ProductoIngrediente).
    - cbn [app]. clear -Hval. induction Hval as [|f filas (Hf & _) _ IH]; [reflexivity|].
      rewrite filter_cons_True by exact Hf. f_equal. exact IH.
    - symmetry. clear -Hfresh.
      induction Hfresh as [|f l Hf _ IH]; [reflexivity|].
      rewrite filter_cons_False by exact Hf. exact IH. }
  repeat split; reflexivity.
Qed.

Lemma create_producto_aceptado_ej :
  SGIC_PRODUCTOS (create_producto esquema_ejemplo reloj_ejemplo te_nuevo bd_ejemplo).2 !! 2
  = Some (mkProducto "Te" (mkDec 150 (-2))) /\
  filas_receta 2 (create_producto esquema_ejemplo reloj_ejemplo te_nuevo bd_ejemplo).2
  = [mkProductoIngrediente 2 1 (mkDec 200 (-3)) "L"].
Proof.
  destruct (create_producto_aceptado esquema_ejemplo reloj_ejemplo te_nuevo bd_ejemplo
              (create_producto esquema_ejemplo reloj_ejemplo te_nuevo bd_ejemplo).2
              (create_producto esquema_ejemplo reloj_ejemplo te_nuevo bd_ejemplo).1)
    as (n & precio & filas & Hn & _ & Hp & _ & _ & _ & Hprod & _ & _ & _ & _ & _ & Hrec & _).
  - vm_compute. reflexivity.
  - vm_compute. reflexivity.
  - intros precio [= <-]. split; [vm_compute; reflexivity|]. cbn. lia.
  - injection Hn as <-. injection Hp as <-. split; [exact Hprod|].
    vm_compute. reflexivity.
Defined.

(** X17.  A product is created with its whole recipe or not at all: a
    POST /api/productos that is not answered with 201 leaves the database
    as it was, also when the product row and some of the recipe rows had
    been inserted before an element named an ingredient without a row.
    The identifier the answer 400 of that case names is one of the
    request and has no row. *)
Theorem create_producto_rechazado_no_escribe
    (esq : Esquema) (r : nat -> Z) (data : DatosProducto) (bd bd' : BD)
    (resp : Contestacion) :
  create_producto esq r data bd = (resp, bd') ->
  codigo resp <> 201 ->
  bd' = bd /\
  forall id, contenido resp = ContIngredienteNoExiste id ->
             SGIC_INGREDIENTES bd !! id = None /\
             Exists (fun item_receta => item_id_ingrediente item_receta = Valor id)
                    (items_de (prod_ingredientes data)).
Proof.
  intros Hc Hno.
  pose proof (create_producto_casos esq r data bd) as Hcasos. rewrite Hc in Hcasos.
  destruct Hcasos as [(Hbd & _ & Hid)|(n & precio & filas & Hresp)].
  - split; assumption.
  - exfalso. apply Hno. destruct Hresp as (_ & _ & _ & _ & _ & _ & _ & _ & _ & -> & _).
    reflexivity.
Qed.

Lemma create_producto_rechazado_no_escribe_ej :
  (create_producto esquema_ejemplo reloj_ejemplo te_con_fantasma bd_ejemplo).2 = bd_ejemplo /\
  SGIC_INGREDIENTES bd_ejemplo !! 9 = None.
Proof.
  destruct (create_producto_rechazado_no_escribe esquema_ejemplo reloj_ejemplo
              te_con_fantasma bd_ejemplo
              (create_producto esquema_ejemplo reloj_ejemplo te_con_fantasma bd_ejemplo).2
              (create_producto esquema_ejemplo reloj_ejemplo te_con_fantasma bd_ejemplo).1)
    as [Hbd Hid].
  - vm_compute. reflexivity.
  - vm_compute. discriminate.
  - split; [exact Hbd|]. apply (Hid 9). vm_compute. reflexivity.
Defined.

(** ** PUT /api/productos/<id> *)

Lemma asignar_producto_nada (p : Producto) : asignar_producto None None p = p.
Proof. destruct p. reflexivity. Qed.

Lemma update_producto_casos (esq : Esquema) (r : nat -> Z) (id : Z) (data : DatosProducto)
    (bd : BD) :
  let '(resp, bd') := update_producto esq r id data bd in
  (bd' = bd /\ codigo resp <> 200 /\
   forall j, contenido resp = ContIngredienteIdNoExiste j ->
             SGIC_INGREDIENTES bd !! j = None /\
             Exists (fun item_receta => item_id_ingrediente item_receta = Valor j)
                    (items_de (prod_ingredientes data))) \/
  (exists p n filas,
     SGIC_PRODUCTOS bd !! id = Some p /\
     texto_de (prod_nombre data) = Ok n /\
     match n with
     | Some n' => n' <> "" /\ nombre_producto_en_uso n' id (SGIC_PRODUCTOS bd) = false
     | None => True
     end /\
     prod_ingredientes data <> Nulo /\
     Forall item_valido (items_de (prod_ingredientes data)) /\
     Forall2 (fila_de_receta id) (items_de (prod_ingredientes data)) filas /\
     Forall (fun f => is_Some (SGIC_INGREDIENTES bd !! id_ingrediente_fk f)) filas /\
     resp = mkContestacion 200 (ContMensaje "Producto actualizado") /\
     bd' = mkBD (SGIC_INGREDIENTES bd)
                (<[id := asignar_producto n (numero_de (prod_precio_venta data)) p]>
                   (SGIC_PRODUCTOS bd))
                match prod_ingredientes data with
                | Ausente => SGIC_PRODUCTO_INGREDIENTES bd
                | _ => filter (fun f => id_producto_fk f <> id)
                         (SGIC_PRODUCTO_INGREDIENTES bd) ++ filas
                end
                (SGIC_VENTAS bd) (SGIC_MOVIMIENTOS_INVENTARIO bd) (sec_id_venta bd)).
Proof.
  unfold update_producto.
  destruct (sin_datos_producto data);
    [left; split; [reflexivity|]; split; [discriminate|]; intros j; discriminate|].
  destruct (validate_producto_data data true) as [[[|e errors] data']|e] eqn:Hval;
    [|left; split; [reflexivity|]; split; [discriminate|]; intros j; discriminate..].
  apply validate_producto_ok in Hval.
  destruct Hval as (Hn & Hp & Hnonulo & Hitems & Hn' & Hd' & Hp' & Hc' & Hi' & Haus & Hnn').
  unfold get_db_connection, transaccion_update_producto, mbind, Tx_bind, select_count_producto.
  cbn [pendiente adquirir].
  destruct (SGIC_PRODUCTOS bd !! id) as [p|] eqn:Hprod; cbn [Nat.eqb].
  2:{ cbn. rewrite liberar_adquirir.
      left. split; [reflexivity|]. split; [discriminate|]. intros j. discriminate. }
  unfold elevar. rewrite Hn', Hp'.
  destruct (texto_de (prod_nombre data)) as [n|en] eqn:Htexto.
  2:{ destruct (prod_nombre data); try discriminate; contradiction. }
  assert (Hcampos :
    forall s1,
      (if bool_decide (n = None) && bool_decide (numero_de (prod_precio_venta data) = None)
       then mret tt
       else update_campos_producto id n (numero_de (prod_precio_venta data))) (adquirir r bd)
      = (Ok tt, s1) ->
      s1 = mkSesion bd
             (mkBD (SGIC_INGREDIENTES bd)
                   (<[id := asignar_producto n (numero_de (prod_precio_venta data)) p]>
                      (SGIC_PRODUCTOS bd))
                   (SGIC_PRODUCTO_INGREDIENTES bd) (SGIC_VENTAS bd)
                   (SGIC_MOVIMIENTOS_INVENTARIO bd) (sec_id_venta bd)) [] r 0%nat /\
      match n with
      | Some n' => nombre_producto_en_uso n' id (SGIC_PRODUCTOS bd) = false
      | None => True
      end).
  { intros s1.
    destruct (bool_decide (n = None) && bool_decide (numero_de (prod_precio_venta data) = None))
      eqn:Hnada.
    - apply andb_true_iff in Hnada as [Hn0 Hp0].
      apply bool_decide_eq_true in Hn0, Hp0. rewrite Hn0, Hp0.
      intros [= <-]. rewrite asignar_producto_nada, insert_id by exact Hprod.
      split; [|exact I]. unfold adquirir. destruct bd. reflexivity.
    - unfold update_campos_producto. cbn [pendiente adquirir].
      destruct n as [n'|].
      + destruct (nombre_producto_en_uso n' id (SGIC_PRODUCTOS bd)); [discriminate|].
        intros [= <-]. cbn [pendiente adquirir confirmado bloqueos reloj lecturas].
        rewrite (alter_presente _ _ _ _ Hprod). split; reflexivity.
      + intros [= <-]. cbn [pendiente adquirir confirmado bloqueos reloj lecturas].
        rewrite (alter_presente _ _ _ _ Hprod). split; [reflexivity|exact I]. }
  destruct ((if bool_decide (n = None) && bool_decide (numero_de (prod_precio_venta data) = None)
             then mret tt
             else update_campos_producto id n (numero_de (prod_precio_venta data)))
              (adquirir r bd)) as [[[]|e] s1] eqn:Hupd.
  2:{ assert (Hs1 : s1 = adquirir r bd).
      { destruct (bool_decide (n = None) && bool_decide _); [discriminate|].
        unfold update_campos_producto in Hupd. cbn [pendiente adquirir] in Hupd.
        destruct (match n with Some n' => _ | None => false end); [|discriminate].
        injection Hupd as _ <-. reflexivity. }
      rewrite Hs1, liberar_adquirir.
      left. split; [reflexivity|]. split; [discriminate|]. intros j. discriminate. }
  destruct (Hcampos s1 eq_refl) as [-> Huso]. clear Hcampos Hupd.
  assert (Hnom : match n with
                 | Some n' => n' <> "" /\ nombre_producto_en_uso n' id (SGIC_PRODUCTOS bd) = false
                 | None => True
                 end).
  { destruct n as [n'|]; [|exact I]. split; [|exact Huso].
    destruct (prod_nombre data) as [| |s]; try discriminate.
    injection Htexto as <-. apply Hn. }
  destruct (prod_ingredientes data') as [| |items'] eqn:Hing'; [| contradiction |].
  - (* the request carries no recipe *)
    destruct (proj1 Haus eq_refl) as [Hing _].
    cbn [mret Tx_ret commit pendiente]. right. exists p, n, [].
    rewrite Hing. cbn [items_de].
    split; [reflexivity|]. split; [reflexivity|]. split; [exact Hnom|].
    split; [discriminate|]. split; [constructor|]. split; [constructor|].
    split; [constructor|]. split; [reflexivity|].
    unfold liberar. cbn. reflexivity.
  - (* the request carries a recipe *)
    cbn [items_de] in Hi'. subst items'.
    unfold delete_receta, con_pendiente.
    cbn [pendiente confirmado bloqueos reloj lecturas SGIC_INGREDIENTES SGIC_PRODUCTOS
         SGIC_PRODUCTO_INGREDIENTES SGIC_VENTAS SGIC_MOVIMIENTOS_INVENTARIO sec_id_venta].
    match goal with
    | |- context [insertar_receta esq ContIngredienteIdNoExiste ?i ?l ?s1] =>
        pose proof (insertar_receta_efecto esq ContIngredienteIdNoExiste i l s1) as Hloop;
        destruct (insertar_receta esq ContIngredienteIdNoExiste i l s1) as [res s']
    end.
    cbn [confirmado pendiente sec_id_venta SGIC_INGREDIENTES SGIC_PRODUCTOS
         SGIC_PRODUCTO_INGREDIENTES SGIC_VENTAS SGIC_MOVIMIENTOS_INVENTARIO] in Hloop.
    destruct Hloop as (Hconf & Hsec & Hres).
    destruct res as [[resp|]|e].
    + destruct Hres as (j & -> & Hj & Hex & Hpend).
      cbn [mret Tx_ret]. rewrite (liberar_confirmado s' bd Hconf Hsec).
      left. split; [reflexivity|]. split; [discriminate|].
      intros j' [= <-]. split; assumption.
    + destruct Hres as (filas & Hf2 & Hall & Hpend).
      cbn [mret Tx_ret commit pendiente]. right. exists p, n, filas.
      split; [reflexivity|]. split; [reflexivity|]. split; [exact Hnom|].
      split; [exact Hnonulo|]. split; [exact Hitems|]. split; [exact Hf2|].
      split; [exact Hall|]. split; [reflexivity|].
      rewrite Hpend. unfold liberar.
      cbn [confirmado pendiente sec_id_venta SGIC_INGREDIENTES SGIC_PRODUCTOS
           SGIC_PRODUCTO_INGREDIENTES SGIC_VENTAS SGIC_MOVIMIENTOS_INVENTARIO].
      destruct (prod_ingredientes data); [|contradiction|]; try reflexivity.
      exfalso. cbn in Hitems. clear -Haus Hing'.
      destruct Haus as [_ Haus]. discriminate (Haus (conj eq_refl eq_refl)).
    + rewrite (liberar_confirmado s' bd Hconf Hsec).
      left. split; [reflexivity|]. split; [discriminate|]. intros j. discriminate.
Qed.

Lemma filter_otro_producto (id j : Z) (l : list ProductoIngrediente) :
  j <> id ->
  filter (fun f => id_producto_fk f = j) (filter (fun f => id_producto_fk f <> id) l)
  = filter (fun f => id_producto_fk f = j) l.
Proof.
  intros Hj. induction l as [|f l IH]; [reflexivity|].
  destruct (decide (id_producto_fk f = id)) as [Hf|Hf].
  - rewrite (filter_cons_False (fun f => id_producto_fk f <> id)) by tauto.
    rewrite (filter_cons_False (fun f => id_producto_fk f = j)) by congruence. exact IH.
  - rewrite (filter_cons_True (fun f => id_producto_fk f <> id)) by exact Hf.
    destruct (decide (id_producto_fk f = j)) as [Hfj|Hfj].
    + rewrite !(filter_cons_True (fun f => id_producto_fk f = j)) by exact Hfj.
      f_equal. exact IH.
    + rewrite !(filter_cons_False (fun f => id_producto_fk f = j)) by exact Hfj. exact IH.
Qed.

Lemma filter_mismo_producto (id : Z) (l : list ProductoIngrediente) :
  filter (fun f => id_producto_fk f = id) (filter (fun f => id_producto_fk f <> id) l) = [].
Proof.
  induction l as [|f l IH]; [reflexivity|].
  destruct (decide (id_producto_fk f = id)) as [Hf|Hf].
  - rewrite (filter_cons_False (fun f => id_producto_fk f <> id)) by tauto. exact IH.
  - rewrite (filter_cons_True (fun f => id_producto_fk f <> id)) by exact Hf.
    rewrite (filter_cons_False (fun f => id_producto_fk f = id)) by exact Hf. exact IH.
Qed.

Lemma filter_todas (id : Z) (l : list ProductoIngrediente) :
  Forall (fun f => id_producto_fk f = id) l ->
  filter (fun f => id_producto_fk f = id) l = l.
Proof.
  induction 1 as [|f l Hf _ IH]; [reflexivity|].
  rewrite filter_cons_True by exact Hf. f_equal. exact IH.
Qed.

Lemma filter_ninguna (id j : Z) (l : list ProductoIngrediente) :
  j <> id ->
  Forall (fun f => id_producto_fk f = id) l ->
  filter (fun f => id_producto_fk f = j) l = [].
Proof.
  intros Hj. induction 1 as [|f l Hf _ IH]; [reflexivity|].
  rewrite filter_cons_False by congruence. exact IH.
Qed.

(** X18.  A PUT /api/productos/<id> answered with 200 has changed the
    row of that product and its recipe only.  The name and the price are
    those of the request where it carries them -- the name without the
    blanks around it, not empty and not the name of another product --
    and those of the row otherwise.  A request with the key ingredientes
    replaces the recipe as a whole: the old rows of the product are gone
    and its recipe is one row per element of the request, in that order,
    each for an ingredient that exists and with a quantity that is
    positive, of at most three decimals and at most 99999.999; a request
    without the key leaves the recipe table as it was.  The recipes of
    the other products, the ingredients, the sales and the movements are
    as they were.  A price in the request, for which the endpoint checks
    no precision, is taken to have at most 15 significant digits, those a
    column holds as they are. *)
Theorem update_producto_aceptado
    (esq : Esquema) (r : nat -> Z) (id : Z) (data : DatosProducto) (bd bd' : BD)
    (resp : Contestacion) :
  update_producto esq r id data bd = (resp, bd') ->
  codigo resp = 200 ->
  (forall precio, prod_precio_venta data = Valor precio -> cabe_en_float precio) ->
  exists p,
    SGIC_PRODUCTOS bd !! id = Some p /\
    SGIC_PRODUCTOS bd' !! id
      = Some (mkProducto
                (columna match prod_nombre data with
                         | Valor s => Valor (strip s)
                         | Ausente => Ausente
                         | Nulo => Nulo
                         end (nombre_producto p))
                (columna (prod_precio_venta data) (precio_venta p))) /\
    (forall s, prod_nombre data = Valor s ->
               strip s <> "" /\
               forall j q, j <> id -> SGIC_PRODUCTOS bd !! j = Some q ->
                           nombre_producto q <> strip s) /\
    (forall j, j <> id -> SGIC_PRODUCTOS bd' !! j = SGIC_PRODUCTOS bd !! j) /\
    (prod_ingredientes data = Ausente ->
     SGIC_PRODUCTO_INGREDIENTES bd' = SGIC_PRODUCTO_INGREDIENTES bd) /\
    (forall items, prod_ingredientes data = Valor items ->
       Forall2 (fila_de_receta id) items (filas_receta id bd') /\
       Forall (fun f => is_Some (SGIC_INGREDIENTES bd !! id_ingrediente_fk f) /\
                        cantidad_valida (cantidad_necesaria f) /\
                        unidad_medida_receta f <> "") (filas_receta id bd') /\
       SGIC_PRODUCTO_INGREDIENTES bd'
       = filter (fun f => id_producto_fk f <> id) (SGIC_PRODUCTO_INGREDIENTES bd)
         ++ filas_receta id bd') /\
    (forall j, j <> id -> filas_receta j bd' = filas_receta j bd) /\
    SGIC_INGREDIENTES bd' = SGIC_INGREDIENTES bd /\
    SGIC_VENTAS bd' = SGIC_VENTAS bd /\
    SGIC_MOVIMIENTOS_INVENTARIO bd' = SGIC_MOVIMIENTOS_INVENTARIO bd.
Proof.
  intros Hu H200 _.
  pose proof (update_producto_casos esq r id data bd) as Hcasos. rewrite Hu in Hcasos.
  destruct Hcasos as [(_ & Hno & _)|
    (p & n & filas & Hp & Hn & Hnom & Hnonulo & Hitems & Hf2 & Hall & -> & ->)];
    [contradiction|].
  pose proof (filas_validas _ _ _ Hitems Hf2) as Hval.
  assert (Hprod : Forall (fun f => id_producto_fk f = id) filas).
  { eapply Forall_impl; [exact Hval|]. intros f Hf. apply Hf. }
  exists p. split; [exact Hp|].
  cbn [SGIC_INGREDIENTES SGIC_PRODUCTOS SGIC_PRODUCTO_INGREDIENTES SGIC_VENTAS
       SGIC_MOVIMIENTOS_INVENTARIO].
  split.
  { rewrite lookup_insert_eq. f_equal. unfold asignar_producto. f_equal.
    - destruct (prod_nombre data) as [| |s]; try discriminate;
        injection Hn as <-; reflexivity.
    - destruct (prod_precio_venta data); reflexivity. }
  split.
  { intros s Hs. rewrite Hs in Hn. injection Hn as <-. destruct Hnom as [Hne Huso].
    split; [exact Hne|]. intros j q Hj Hq Hnq.
    unfold nombre_producto_en_uso in Huso. apply bool_decide_eq_false in Huso. apply Huso.
    apply Exists_exists. exists (j, q). split; [apply elem_of_map_to_list; exact Hq|].
    cbn. split; assumption. }
  split; [intros j Hj; apply lookup_insert_ne; congruence|].
  split; [intros ->; reflexivity|].
  split.
  { intros items Hi. rewrite Hi in Hf2 |- *. cbn [items_de] in Hf2.
    assert (Hrec : filas_receta id
                     (mkBD (SGIC_INGREDIENTES bd)
                        (<[id := asignar_producto n (numero_de (prod_precio_venta data)) p]>
                           (SGIC_PRODUCTOS bd))
                        (filter (fun f => id_producto_fk f <> id)
                           (SGIC_PRODUCTO_INGREDIENTES bd) ++ filas)
                        (SGIC_VENTAS bd) (SGIC_MOVIMIENTOS_INVENTARIO bd) (sec_id_venta bd))
                   = filas).
    { unfold filas_receta. cbn [SGIC_PRODUCTO_INGREDIENTES].
      rewrite filter_app, filter_mismo_producto, (filter_todas _ _ Hprod). reflexivity. }
    rewrite Hrec. split; [exact Hf2|]. split; [|reflexivity].
    rewrite Forall_forall in Hall, Hval. apply Forall_forall. intros f Hf.
    split; [exact (Hall f Hf)|]. apply (Hval f Hf). }
  split.
  { intros j Hj. unfold filas_receta. cbn [SGIC_PRODUCTO_INGREDIENTES].
    destruct (prod_ingredientes data); [reflexivity|contradiction|].
    rewrite filter_app, (filter_otro_producto _ _ _ Hj), (filter_ninguna _ _ _ Hj Hprod).
    apply app_nil_r. }
  repeat split; reflexivity.
Qed.

Lemma update_producto_aceptado_ej :
  exists p,
    SGIC_PRODUCTOS bd_ejemplo !! 1 = Some p /\
    SGIC_PRODUCTOS (update_producto esquema_ejemplo reloj_ejemplo 1 receta_de_azucar
                      bd_ejemplo).2 !! 1
    = Some (mkProducto (nombre_producto p) (mkDec 400 (-2))) /\
    Forall2 (fila_de_receta 1) [item_azucar]
      (filas_receta 1 (update_producto esquema_ejemplo reloj_ejemplo 1 receta_de_azucar
                         bd_ejemplo).2).
Proof.
  destruct (update_producto_aceptado esquema_ejemplo reloj_ejemplo 1 receta_de_azucar
              bd_ejemplo
              (update_producto esquema_ejemplo reloj_ejemplo 1 receta_de_azucar bd_ejemplo).2
              (update_producto esquema_ejemplo reloj_ejemplo 1 receta_de_azucar bd_ejemplo).1)
    as (p & Hp & Hp' & _ & _ & _ & Hrec & _).
  - vm_compute. reflexivity.
  - vm_compute. reflexivity.
  - intros precio [= <-]. split; [vm_compute; reflexivity|]. cbn. lia.
  - exists p. split; [exact Hp|]. split; [exact Hp'|].
    apply (Hrec [item_azucar]). reflexivity.
Defined.

(** X19.  A PUT /api/productos/<id> that is not answered with 200 leaves
    the database as it was: when an element of the new recipe names an
    ingredient without a row, the change of the product row and the
    deletion of the old recipe are rolled back with the rows already
    inserted, so that the product keeps the recipe it had.  The identifier
    the answer 400 names is one of the request and has no row. *)
Theorem update_producto_rechazado_no_escribe
    (esq : Esquema) (r : nat -> Z) (id : Z) (data : DatosProducto) (bd bd' : BD)
    (resp : Contestacion) :
  update_producto esq r id data bd = (resp, bd') ->
  codigo resp <> 200 ->
  bd' = bd /\
  forall j, contenido resp = ContIngredienteIdNoExiste j ->
            SGIC_INGREDIENTES bd !! j = None /\
            Exists (fun item_receta => item_id_ingrediente item_receta = Valor j)
                   (items_de (prod_ingredientes data)).
Proof.
  intros Hu Hno.
  pose proof (update_producto_casos esq r id data bd) as Hcasos. rewrite Hu in Hcasos.
  destruct Hcasos as [(Hbd & _ & Hid)|(p & n & filas & Hresp)].
  - split; assumption.
  - exfalso. apply Hno. destruct Hresp as (_ & _ & _ & _ & _ & _ & _ & -> & _).
    reflexivity.
Qed.

Lemma update_producto_rechazado_no_escribe_ej :
  (update_producto esquema_ejemplo reloj_ejemplo 1 receta_con_fantasma bd_ejemplo).2
  = bd_ejemplo /\
  SGIC_INGREDIENTES bd_ejemplo !! 9 = None.
Proof.
  destruct (update_producto_rechazado_no_escribe esquema_ejemplo reloj_ejemplo 1
              receta_con_fantasma bd_ejemplo
              (update_producto esquema_ejemplo reloj_ejemplo 1 receta_con_fantasma
                 bd_ejemplo).2
              (update_producto esquema_ejemplo reloj_ejemplo 1 receta_con_fantasma
                 bd_ejemplo).1)
    as [Hbd Hid].
  - vm_compute. reflexivity.
  - vm_compute. discriminate.
  - split; [exact Hbd|]. apply (Hid 9). vm_compute. reflexivity.
Defined.

(** ** DELETE /api/productos/<id> *)

Lemma delete_producto_casos (esq : Esquema) (r : nat -> Z) (id : Z) (bd : BD) :
  let '(resp, bd') := delete_producto esq r id bd in
  (bd' = bd /\ codigo resp <> 200 /\
   (SGIC_PRODUCTOS bd !! id = None ->
    resp = mkContestacion 404
             (ContCuerpo (CuerpoError "Producto no encontrado para eliminar."))) /\
   (is_Some (SGIC_PRODUCTOS bd !! id) ->
    Exists (fun v => venta_id_producto_fk v = id) (SGIC_VENTAS bd) ->
    resp = mkContestacion 409
             (ContCuerpo (CuerpoError "No se puede eliminar: el producto tiene ventas registradas.")))) \/
  (is_Some (SGIC_PRODUCTOS bd !! id) /\
   ~ Exists (fun v => venta_id_producto_fk v = id) (SGIC_VENTAS bd) /\
   impide_borrar_producto esq id bd = false /\
   resp = mkContestacion 200 (ContProductoEliminado id) /\
   bd' = mkBD (SGIC_INGREDIENTES bd) (delete id (SGIC_PRODUCTOS bd))
              (if recetas_en_cascada esq
               then filter (fun f => id_producto_fk f <> id) (SGIC_PRODUCTO_INGREDIENTES bd)
               else SGIC_PRODUCTO_INGREDIENTES bd)
              (SGIC_VENTAS bd) (SGIC_MOVIMIENTOS_INVENTARIO bd) (sec_id_venta bd)).
Proof.
  unfold delete_producto, get_db_connection, transaccion_delete_producto, mbind, Tx_bind,
    select_count_producto.
  cbn [pendiente adquirir].
  destruct (SGIC_PRODUCTOS bd !! id) as [p|] eqn:Hprod; cbn [Nat.eqb].
  2:{ cbn. rewrite liberar_adquirir. left.
      split; [reflexivity|]. split; [discriminate|]. split; [reflexivity|].
      intros [x [=]]. }
  unfold select_count_ventas. cbn [pendiente adquirir].
  destruct (0 <? length (filter (fun v => venta_id_producto_fk v = id) (SGIC_VENTAS bd)))%nat
    eqn:Hcount.
  - cbn. rewrite liberar_adquirir. left.
    split; [reflexivity|]. split; [discriminate|]. split; [discriminate|reflexivity].
  - assert (Hno : ~ Exists (fun v => venta_id_producto_fk v = id) (SGIC_VENTAS bd)).
    { intros Hex. apply (proj2 (length_filter_pos _ _)) in Hex. congruence. }
    unfold delete_fila_producto. cbn [pendiente adquirir]. rewrite Hprod.
    destruct (impide_borrar_producto esq id bd) eqn:Himp.
    + cbn. rewrite liberar_adquirir. left.
      split; [reflexivity|]. split; [discriminate|]. split; [discriminate|contradiction].
    + cbn. right. split; [eexists; reflexivity|]. split; [exact Hno|].
      repeat split; reflexivity.
Qed.

(** X20.  A product that has been sold is never deleted: DELETE
    /api/productos/<id> answers 409 and leaves the database as it was,
    so that every sale keeps its product. *)
Theorem delete_producto_con_ventas
    (esq : Esquema) (r : nat -> Z) (id : Z) (bd : BD) (p : Producto) (v : Venta) :
  SGIC_PRODUCTOS bd !! id = Some p ->
  v ∈ SGIC_VENTAS bd ->
  venta_id_producto_fk v = id ->
  delete_producto esq r id bd
  = (mkContestacion 409
       (ContCuerpo (CuerpoError "No se puede eliminar: el producto tiene ventas registradas.")),
     bd).
Proof.
  intros Hp Hv Hid.
  pose proof (delete_producto_casos esq r id bd) as Hcasos.
  assert (Hex : Exists (fun v => venta_id_producto_fk v = id) (SGIC_VENTAS bd)).
  { apply Exists_exists. exists v. split; assumption. }
  destruct (delete_producto esq r id bd) as [resp bd'].
  destruct Hcasos as [(-> & _ & _ & Hresp)|(_ & Hno & _)]; [|contradiction].
  rewrite Hresp; [reflexivity|eexists; exact Hp|exact Hex].
Qed.

Lemma delete_producto_con_ventas_ej :
  delete_producto esquema_ejemplo reloj_ejemplo 1 bd_con_venta
  = (mkContestacion 409
       (ContCuerpo (CuerpoError "No se puede eliminar: el producto tiene ventas registradas.")),
     bd_con_venta).
Proof.
  apply (delete_producto_con_ventas esquema_ejemplo reloj_ejemplo 1 bd_con_venta latte
           (mkVenta 1 1 1 (mkDec 350 (-2)) (mkDec 350 (-2)) 1000 (ObsVentaDe 1 "Latte"))).
  - vm_compute. reflexivity.
  - replace (SGIC_VENTAS bd_con_venta)
      with [mkVenta 1 1 1 (mkDec 350 (-2)) (mkDec 350 (-2)) 1000 (ObsVentaDe 1 "Latte")]
      by (vm_compute; reflexivity).
    left.
  - reflexivity.
Defined.

(** X21.  DELETE /api/productos/<id> removes a product or changes
    nothing.  Answered with 200, the product had a row and no sale, and
    no key of the schema forbade the DELETE; the row of the product is
    gone, and the other products, their recipes, the ingredients, the
    sales and the movements are as they were.  The statement the endpoint
    issues names the table of the products only: the recipe rows of the
    product are gone too where the schema has the ON DELETE CASCADE the
    endpoint counts on, and are all still there where it has not.
    Answered otherwise, the database is as it was, and an identifier
    without a row is answered with 404. *)
Theorem delete_producto_efecto
    (esq : Esquema) (r : nat -> Z) (id : Z) (bd bd' : BD) (resp : Contestacion) :
  delete_producto esq r id bd = (resp, bd') ->
  (codigo resp <> 200 ->
   bd' = bd /\
   (SGIC_PRODUCTOS bd !! id = None ->
    resp = mkContestacion 404
             (ContCuerpo (CuerpoError "Producto no encontrado para eliminar.")))) /\
  (codigo resp = 200 ->
   is_Some (SGIC_PRODUCTOS bd !! id) /\
   Forall (fun v => venta_id_producto_fk v <> id) (SGIC_VENTAS bd) /\
   impide_borrar_producto esq id bd = false /\
   SGIC_PRODUCTOS bd' !! id = None /\
   (forall j, j <> id -> SGIC_PRODUCTOS bd' !! j = SGIC_PRODUCTOS bd !! j) /\
   (recetas_en_cascada esq = true -> filas_receta id bd' = []) /\
   (recetas_en_cascada esq = false ->
    SGIC_PRODUCTO_INGREDIENTES bd' = SGIC_PRODUCTO_INGREDIENTES bd) /\
   (forall j, j <> id -> filas_receta j bd' = filas_receta j bd) /\
   SGIC_INGREDIENTES bd' = SGIC_INGREDIENTES bd /\
   SGIC_VENTAS bd' = SGIC_VENTAS bd /\
   SGIC_MOVIMIENTOS_INVENTARIO bd' = SGIC_MOVIMIENTOS_INVENTARIO bd).
Proof.
  intros Hd.
  pose proof (delete_producto_casos esq r id bd) as Hcasos. rewrite Hd in Hcasos.
  destruct Hcasos as [(-> & Hno & H404 & _)|(Hsome & Hno & Himp & -> & ->)].
  - split; [intros _; split; [reflexivity|exact H404]|]. intros H200. contradiction.
  - split; [intros Hne; exfalso; apply Hne; reflexivity|]. intros _.
    split; [exact Hsome|].
    split.
    { apply Forall_forall. intros v Hv Hid. apply Hno. apply Exists_exists. eauto. }
    split; [exact Himp|].
    cbn [SGIC_INGREDIENTES SGIC_PRODUCTOS SGIC_PRODUCTO_INGREDIENTES SGIC_VENTAS
         SGIC_MOVIMIENTOS_INVENTARIO].
    split; [apply lookup_delete_eq|].
    split; [intros j Hj; apply lookup_delete_ne; congruence|].
    split; [intros ->; apply filter_mismo_producto|].
    split; [intros ->; reflexivity|].
    split.
    { intros j Hj. destruct (recetas_en_cascada esq); [|reflexivity].
      apply filter_otro_producto. exact Hj. }
    repeat split; reflexivity.
Qed.

(** On the sample schema, which has the cascade, the latte goes with its
    two recipe rows. *)
Lemma delete_producto_efecto_ej :
  SGIC_PRODUCTOS (delete_producto esquema_ejemplo reloj_ejemplo 1 bd_ejemplo).2 !! 1 = None /\
  filas_receta 1 (delete_producto esquema_ejemplo reloj_ejemplo 1 bd_ejemplo).2 = [].
Proof.
  destruct (delete_producto_efecto esquema_ejemplo reloj_ejemplo 1 bd_ejemplo
              (delete_producto esquema_ejemplo reloj_ejemplo 1 bd_ejemplo).2
              (delete_producto esquema_ejemplo reloj_ejemplo 1 bd_ejemplo).1)
    as [_ H200].
  - vm_compute. reflexivity.
  - destruct H200 as (_ & _ & _ & Hp & _ & Hrec & _); [vm_compute; reflexivity|].
    split; [exact Hp|apply Hrec; reflexivity].
Defined.

(** ** The listings *)

Lemma dec_ltb_milesimas (a b : Decimal) :
  -3 <= expo a -> -3 <= expo b -> (dec_ltb a b = true <-> milesimas a < milesimas b).
Proof.
  intros Ha Hb. unfold dec_ltb, dec_compare.
  set (e := Z.min (expo a) (expo b)).
  assert (He : -3 <= e <= expo a /\ -3 <= e <= expo b) by (unfold e; lia).
  rewrite (alinear_milesimas a e), (alinear_milesimas b e) by lia.
  assert (Hpos : 0 < 10 ^ (e + 3)) by (apply Z.pow_pos_nonneg; lia).
  destruct (Z.compare_spec (alinear a e) (alinear b e)) as [Hc|Hc|Hc];
    split; intros H; try discriminate; try reflexivity; nia.
Qed.

Lemma StronglySorted_fmap {A B : Type} (R : relation A) (R' : relation B) (f : A -> B)
    (l : list A) :
  (forall x y, R x y -> R' (f x) (f y)) ->
  StronglySorted R l -> StronglySorted R' (f <$> l).
Proof.
  intros HR. induction 1 as [|x l _ IH Hall]; [constructor|].
  cbn. constructor; [exact IH|].
  apply Forall_fmap. eapply Forall_impl; [exact Hall|]. intros y Hy. apply HR. exact Hy.
Qed.

Section Listados.

Context (colacion : relation string) `{!forall x y, Decision (colacion x y)}.
Context (colacion_total : Total colacion) (colacion_trans : Transitive colacion).

Lemma por_nombre_ingrediente_total : Total (por_nombre_ingrediente colacion).
Proof using colacion_total.
  intros a b. unfold por_nombre_ingrediente. apply colacion_total.
Qed.

Lemma por_nombre_ingrediente_trans : Transitive (por_nombre_ingrediente colacion).
Proof using colacion_trans.
  intros a b c. unfold por_nombre_ingrediente. apply colacion_trans.
Qed.

Lemma por_nombre_producto_total : Total (por_nombre_producto colacion).
Proof using colacion_total.
  intros a b. unfold por_nombre_producto. apply colacion_total.
Qed.

Lemma por_nombre_producto_trans : Transitive (por_nombre_producto colacion).
Proof using colacion_trans.
  intros a b c. unfold por_nombre_producto. apply colacion_trans.
Qed.

(** X22.  GET /api/ingredientes lists every ingredient once, in the order
    of the names, and lists for an identifier the row that
    GET /api/ingredientes/<id> returns for it. *)
Theorem get_all_ingredientes_ordenado (bd : BD) :
  StronglySorted (por_nombre_ingrediente colacion) (get_all_ingredientes colacion bd) /\
  NoDup (get_all_ingredientes colacion bd).*1 /\
  length (get_all_ingredientes colacion bd) = size (SGIC_INGREDIENTES bd) /\
  forall id ing,
    (id, ing) ∈ get_all_ingredientes colacion bd <->
    get_ingrediente_by_id id bd = mkRespuesta 200 (CuerpoIngrediente (Some ing)).
Proof using colacion_total colacion_trans.
  unfold get_all_ingredientes.
  pose proof (merge_sort_Permutation (por_nombre_ingrediente colacion)
                (map_to_list (SGIC_INGREDIENTES bd))) as Hperm.
  split.
  { apply StronglySorted_merge_sort;
      [exact por_nombre_ingrediente_trans|exact por_nombre_ingrediente_total]. }
  split.
  { rewrite Hperm. apply NoDup_fst_map_to_list. }
  split.
  { rewrite Hperm. apply length_map_to_list. }
  intros id ing. rewrite Hperm, elem_of_map_to_list. unfold get_ingrediente_by_id.
  destruct (SGIC_INGREDIENTES bd !! id) as [x|]; split; intros Hx;
    try discriminate; congruence.
Qed.

(** X23.  The stock report has one row per ingredient, in the order of
    the names.  The row of an ingredient carries its name, unit, stock
    and minimum, and its state is BAJO STOCK or OK; for a stock and a
    minimum of at most three decimals it is BAJO STOCK exactly when the
    stock, counted in thousandths, is below the minimum. *)
Theorem reporte_existencias_filas (bd : BD) :
  StronglySorted (fun a b => colacion (ex_nombre a) (ex_nombre b))
    (reporte_existencias colacion bd) /\
  NoDup (ex_id_ingrediente <$> reporte_existencias colacion bd) /\
  length (reporte_existencias colacion bd) = size (SGIC_INGREDIENTES bd) /\
  (forall f, f ∈ reporte_existencias colacion bd ->
             is_Some (SGIC_INGREDIENTES bd !! ex_id_ingrediente f)) /\
  forall id ing,
    SGIC_INGREDIENTES bd !! id = Some ing ->
    exists estado,
      mkFilaExistencias id (nombre ing) (unidad_medida ing) (stock_actual ing)
        (stock_minimo ing) estado ∈ reporte_existencias colacion bd /\
      (estado = "BAJO STOCK" \/ estado = "OK") /\
      (-3 <= expo (stock_actual ing) -> -3 <= expo (stock_minimo ing) ->
       (estado = "BAJO STOCK" <-> milesimas (stock_actual ing) < milesimas (stock_minimo ing))).
Proof using colacion_total colacion_trans.
  destruct (get_all_ingredientes_ordenado bd) as (Hsort & Hnodup & Hlen & Hin).
  unfold reporte_existencias.
  split.
  { eapply StronglySorted_fmap; [|exact Hsort]. intros x y Hxy. exact Hxy. }
  split.
  { rewrite <- list_fmap_compose.
    replace (ex_id_ingrediente ∘ fila_existencias) with (@fst Z Ingrediente); [exact Hnodup|].
    reflexivity. }
  split; [rewrite length_fmap; exact Hlen|].
  split.
  { intros f Hf. apply list_elem_of_fmap in Hf as ([id ing] & -> & Hki).
    apply Hin in Hki. unfold get_ingrediente_by_id in Hki. cbn.
    destruct (SGIC_INGREDIENTES bd !! id); [eauto|discriminate]. }
  intros id ing Hing.
  exists (if dec_ltb (stock_actual ing) (stock_minimo ing) then "BAJO STOCK" else "OK").
  split.
  { apply list_elem_of_fmap. exists (id, ing). split; [reflexivity|].
    apply Hin. unfold get_ingrediente_by_id. rewrite Hing. reflexivity. }
  split; [destruct (dec_ltb _ _); auto|].
  intros Ha Hm. rewrite <- (dec_ltb_milesimas _ _ Ha Hm).
  destruct (dec_ltb _ _); split; intros Hx; try reflexivity; discriminate.
Qed.

(** X24.  GET /api/productos lists every product once, in the order of
    the names, each with the recipe that GET /api/productos/<id> returns
    for it. *)
Theorem get_all_productos_ordenado (bd : BD) :
  StronglySorted (fun a b => colacion (nombre_producto a.1.2) (nombre_producto b.1.2))
    (get_all_productos colacion bd) /\
  NoDup ((fun x => x.1.1) <$> get_all_productos colacion bd) /\
  length (get_all_productos colacion bd) = size (SGIC_PRODUCTOS bd) /\
  forall id p receta,
    (id, p, receta) ∈ get_all_productos colacion bd <->
    get_producto_by_id colacion id bd = mkRespuesta 200 (CuerpoProducto p receta).
Proof using colacion_total colacion_trans.
  unfold get_all_productos.
  pose proof (merge_sort_Permutation (por_nombre_producto colacion)
                (map_to_list (SGIC_PRODUCTOS bd))) as Hperm.
  split.
  { eapply StronglySorted_fmap;
      [|apply StronglySorted_merge_sort;
        [exact por_nombre_producto_trans|exact por_nombre_producto_total]].
    intros x y Hxy. exact Hxy. }
  split.
  { rewrite <- list_fmap_compose.
    replace ((fun x : Z * Producto * list LineaReceta => x.1.1) ∘
             (fun kp : Z * Producto => (kp.1, kp.2, select_receta_ordenada colacion kp.1 bd)))
      with (@fst Z Producto) by reflexivity.
    rewrite Hperm. apply NoDup_fst_map_to_list. }
  split.
  { rewrite length_fmap, Hperm. apply length_map_to_list. }
  intros id p receta. rewrite list_elem_of_fmap. unfold get_producto_by_id. split.
  - intros ([j q] & [= -> -> ->] & Hin). rewrite Hperm in Hin.
    apply elem_of_map_to_list in Hin. cbn [fst snd]. rewrite Hin. reflexivity.
  - destruct (SGIC_PRODUCTOS bd !! id) as [q|] eqn:Hq; [|discriminate].
    intros [= -> <-]. exists (id, p). split; [reflexivity|].
    rewrite Hperm. apply elem_of_map_to_list. exact Hq.
Qed.

End Listados.

(** The sample database under the binary order of the names: the sugar
    is listed before the milk. *)
Lemma get_all_ingredientes_ordenado_ej :
  StronglySorted (por_nombre_ingrediente orden_binario)
    (get_all_ingredientes orden_binario bd_ejemplo) /\
  (2, azucar) ∈ get_all_ingredientes orden_binario bd_ejemplo.
Proof.
  destruct (get_all_ingredientes_ordenado orden_binario orden_binario_total
              orden_binario_trans bd_ejemplo) as (Hsort & _ & _ & Hin).
  split; [exact Hsort|]. apply Hin. vm_compute. reflexivity.
Defined.

Lemma reporte_existencias_filas_ej :
  exists estado,
    mkFilaExistencias 2 "Azucar" "kg" (mkDec 5 (-3)) (mkDec 0 0) estado
      ∈ reporte_existencias orden_binario bd_ejemplo /\
    (estado = "BAJO STOCK" <-> 5 < 0).
Proof.
  destruct (reporte_existencias_filas orden_binario orden_binario_total
              orden_binario_trans bd_ejemplo) as (_ & _ & _ & _ & Hfila).
  destruct (Hfila 2 azucar ltac:(vm_compute; reflexivity)) as (estado & Hin & _ & Hest).
  exists estado. split; [exact Hin|].
  apply (Hest ltac:(cbn; lia) ltac:(cbn; lia)).
Defined.

Lemma get_all_productos_ordenado_ej :
  (1, latte, select_receta_ordenada orden_binario 1 bd_ejemplo)
    ∈ get_all_productos orden_binario bd_ejemplo.
Proof.
  destruct (get_all_productos_ordenado orden_binario orden_binario_total
              orden_binario_trans bd_ejemplo) as (_ & _ & _ & Hin).
  apply Hin. vm_compute. reflexivity.
Defined.

(** * What every request keeps true *)

Lemma catalogo_integro_tablas (a b : BD) :
  mismas_tablas a b -> catalogo_integro b -> catalogo_integro a.
Proof.
  intros (Hi & Hp & Hr & Hv & _) (Hs & Hrec & Hven).
  unfold catalogo_integro, stocks_validos, recetas_integras, ventas_integras.
  rewrite Hi, Hp, Hr, Hv. split; [exact Hs|]. split; [exact Hrec|exact Hven].
Qed.

Lemma is_Some_insert {A : Type} (m : gmap Z A) (i j : Z) (x : A) :
  is_Some (m !! j) -> is_Some (<[i := x]> m !! j).
Proof.
  intros Hj. destruct (decide (i = j)) as [->|Hne].
  - rewrite lookup_insert_eq. eauto.
  - rewrite lookup_insert_ne by exact Hne. exact Hj.
Qed.

Lemma is_Some_alter {A : Type} (f : A -> A) (m : gmap Z A) (i j : Z) :
  is_Some (m !! j) -> is_Some (alter f i m !! j).
Proof.
  intros [x Hx]. destruct (decide (i = j)) as [->|Hne].
  - rewrite lookup_alter_eq, Hx. cbn. eauto.
  - rewrite lookup_alter_ne by exact Hne. eauto.
Qed.

Lemma stocks_validos_insert (bd : BD) (m : gmap Z Ingrediente) (id : Z) (ing : Ingrediente) :
  stocks_validos bd ->
  m = <[id := ing]> (SGIC_INGREDIENTES bd) ->
  0 <= coef (stock_actual ing) -> -3 <= expo (stock_actual ing) ->
  forall j x, m !! j = Some x -> 0 <= coef (stock_actual x) /\ -3 <= expo (stock_actual x).
Proof.
  intros Hs -> Hc He j x. destruct (decide (id = j)) as [->|Hne].
  - rewrite lookup_insert_eq. intros [= <-]. split; assumption.
  - rewrite lookup_insert_ne by exact Hne. apply Hs.
Qed.

Lemma create_ingrediente_integro (esq : Esquema) (r : nat -> Z) (data : DatosIngrediente)
    (bd : BD) :
  catalogo_integro bd -> catalogo_integro (create_ingrediente esq r data bd).2.
Proof.
  intros (Hs & Hrec & Hven).
  pose proof (create_ingrediente_casos esq r data bd) as Hcasos.
  destruct (create_ingrediente esq r data bd) as [resp bd']. cbn [snd].
  destruct Hcasos as [[-> _]|(fila & Hval & Hins & _ & _ & _ & ->)];
    [split; [assumption|]; split; assumption|].
  destruct (insert_data_columnas _ _ _ Hval Hins)
    as (n & u & _ & _ & _ & _ & _ & Ha1 & Ha2 & _).
  split; [|split].
  - intros j x. cbn [SGIC_INGREDIENTES].
    eapply stocks_validos_insert; [exact Hs|reflexivity|exact Ha1|exact Ha2].
  - unfold recetas_integras in *. cbn [SGIC_INGREDIENTES SGIC_PRODUCTOS
      SGIC_PRODUCTO_INGREDIENTES].
    eapply Forall_impl; [exact Hrec|]. intros f (Hi & Hp & Hc).
    split; [apply is_Some_insert; exact Hi|]. split; assumption.
  - exact Hven.
Qed.

Lemma campos_update_stock_actual (data : DatosIngrediente) (c : CamposUpdate) :
  campos_update data = Ok c -> upd_stock_actual c = numero_de (req_stock_actual data).
Proof.
  unfold campos_update, mbind, Resultado_bind. intros Hc.
  destruct (texto_de (req_nombre data)); [|discriminate].
  destruct (texto_de (req_descripcion data)); [|discriminate].
  destruct (texto_de (req_unidad_medida data)); [|discriminate].
  injection Hc as <-. reflexivity.
Qed.

Lemma update_ingrediente_integro (r : nat -> Z) (id : Z) (data : DatosIngrediente) (bd : BD) :
  catalogo_integro bd -> catalogo_integro (update_ingrediente r id data bd).2.
Proof.
  intros (Hs & Hrec & Hven).
  pose proof (update_ingrediente_casos r id data bd) as Hcasos.
  destruct (update_ingrediente r id data bd) as [resp bd']. cbn [snd].
  destruct Hcasos as [[-> _]|(c & ing & Hval & Hc & _ & Hing & _ & ->)];
    [split; [assumption|]; split; assumption|].
  apply validate_ingrediente_ok in Hval. destruct Hval as (_ & _ & Ha & _).
  assert (Hst : 0 <= coef (stock_actual (asignar c (r 0%nat) ing)) /\
                -3 <= expo (stock_actual (asignar c (r 0%nat) ing))).
  { unfold asignar. cbn [stock_actual].
    rewrite (campos_update_stock_actual _ _ Hc).
    destruct (req_stock_actual data) as [| |d]; cbn [numero_de default from_option];
      try (apply (Hs id ing Hing)).
    apply validar_cantidad_ok in Ha. unfold Datatypes.id. lia. }
  split; [|split].
  - intros j x. cbn [SGIC_INGREDIENTES].
    eapply stocks_validos_insert; [exact Hs|reflexivity|apply Hst..].
  - unfold recetas_integras in *. cbn [SGIC_INGREDIENTES SGIC_PRODUCTOS
      SGIC_PRODUCTO_INGREDIENTES].
    eapply Forall_impl; [exact Hrec|]. intros f (Hi & Hp & Hcv).
    split; [apply is_Some_insert; exact Hi|]. split; assumption.
  - exact Hven.
Qed.

Lemma delete_ingrediente_integro (esq : Esquema) (r : nat -> Z) (id : Z) (bd : BD) :
  catalogo_integro bd -> catalogo_integro (delete_ingrediente esq r id bd).2.
Proof.
  intros (Hs & Hrec & Hven).
  pose proof (delete_ingrediente_casos esq r id bd) as Hcasos.
  destruct (delete_ingrediente esq r id bd) as [resp bd']. cbn [snd].
  destruct Hcasos as [(-> & _)|(Hno & _ & _ & _ & ->)]; [split; [assumption|]; split; assumption|].
  split; [|split].
  - intros j x. cbn [SGIC_INGREDIENTES]. intros Hj.
    apply lookup_delete_Some in Hj as [_ Hj]. exact (Hs j x Hj).
  - unfold recetas_integras in *. cbn [SGIC_INGREDIENTES SGIC_PRODUCTOS
      SGIC_PRODUCTO_INGREDIENTES].
    rewrite Forall_forall in Hrec. apply Forall_forall. intros f Hf.
    destruct (Hrec f Hf) as (Hi & Hp & Hc).
    split; [|split; assumption].
    rewrite lookup_delete_ne; [exact Hi|].
    intros Hid. apply Hno. apply Exists_exists. exists f. split; [exact Hf|congruence].
  - exact Hven.
Qed.

Lemma create_producto_integro (esq : Esquema) (r : nat -> Z) (data : DatosProducto) (bd : BD) :
  catalogo_integro bd -> catalogo_integro (create_producto esq r data bd).2.
Proof.
  intros (Hs & Hrec & Hven).
  pose proof (create_producto_casos esq r data bd) as Hcasos.
  destruct (create_producto esq r data bd) as [resp bd']. cbn [snd].
  destruct Hcasos as [(-> & _)|
    (n & precio & filas & _ & _ & _ & _ & _ & _ & Hitems & Hf2 & Hall & _ & ->)];
    [split; [assumption|]; split; assumption|].
  pose proof (filas_validas _ _ _ Hitems Hf2) as Hval.
  split; [exact Hs|]. split.
  - unfold recetas_integras in *. cbn [SGIC_INGREDIENTES SGIC_PRODUCTOS
      SGIC_PRODUCTO_INGREDIENTES].
    apply Forall_app. split.
    + eapply Forall_impl; [exact Hrec|]. intros f (Hi & Hp & Hc).
      split; [exact Hi|]. split; [apply is_Some_insert; exact Hp|exact Hc].
    + rewrite Forall_forall in Hall, Hval. apply Forall_forall. intros f Hf.
      destruct (Hval f Hf) as (Hid & Hc & _).
      split; [exact (Hall f Hf)|]. split; [|exact Hc].
      rewrite Hid, lookup_insert_eq. eauto.
  - unfold ventas_integras in *. cbn [SGIC_PRODUCTOS SGIC_VENTAS].
    eapply Forall_impl; [exact Hven|]. intros v Hv. apply is_Some_insert. exact Hv.
Qed.

Lemma update_producto_integro (esq : Esquema) (r : nat -> Z) (id : Z) (data : DatosProducto)
    (bd : BD) :
  catalogo_integro bd -> catalogo_integro (update_producto esq r id data bd).2.
Proof.
  intros (Hs & Hrec & Hven).
  pose proof (update_producto_casos esq r id data bd) as Hcasos.
  destruct (update_producto esq r id data bd) as [resp bd']. cbn [snd].
  destruct Hcasos as [(-> & _)|
    (p & n & filas & Hp & _ & _ & _ & Hitems & Hf2 & Hall & _ & ->)];
    [split; [assumption|]; split; assumption|].
  pose proof (filas_validas _ _ _ Hitems Hf2) as Hval.
  assert (Hviejas : Forall (fun f => is_Some (SGIC_INGREDIENTES bd !! id_ingrediente_fk f) /\
                      is_Some (<[id := asignar_producto n (numero_de (prod_precio_venta data)) p]>
                                 (SGIC_PRODUCTOS bd) !! id_producto_fk f) /\
                      cantidad_valida (cantidad_necesaria f))
                     (SGIC_PRODUCTO_INGREDIENTES bd)).
  { eapply Forall_impl; [exact Hrec|]. intros f (Hi & Hpf & Hc).
    split; [exact Hi|]. split; [apply is_Some_insert; exact Hpf|exact Hc]. }
  split; [exact Hs|]. split.
  - unfold recetas_integras. cbn [SGIC_INGREDIENTES SGIC_PRODUCTOS
      SGIC_PRODUCTO_INGREDIENTES].
    destruct (prod_ingredientes data); [exact Hviejas| |];
      (apply Forall_app; split;
       [rewrite Forall_forall in Hviejas; apply Forall_forall; intros f Hf;
        apply list_elem_of_filter in Hf as [_ Hf]; exact (Hviejas f Hf)
       |rewrite Forall_forall in Hall, Hval; apply Forall_forall; intros f Hf;
        destruct (Hval f Hf) as (Hid & Hc & _);
        split; [exact (Hall f Hf)|]; split; [|exact Hc];
        rewrite Hid, lookup_insert_eq; eauto]).
  - unfold ventas_integras in *. cbn [SGIC_PRODUCTOS SGIC_VENTAS].
    eapply Forall_impl; [exact Hven|]. intros v Hv. apply is_Some_insert. exact Hv.
Qed.

Lemma delete_producto_integro (esq : Esquema) (r : nat -> Z) (id : Z) (bd : BD) :
  recetas_protegidas esq ->
  catalogo_integro bd -> catalogo_integro (delete_producto esq r id bd).2.
Proof.
  intros Hprot (Hs & Hrec & Hven).
  pose proof (delete_producto_casos esq r id bd) as Hcasos.
  destruct (delete_producto esq r id bd) as [resp bd']. cbn [snd].
  destruct Hcasos as [(-> & _)|(_ & Hno & Himp & _ & ->)];
    [split; [assumption|]; split; assumption|].
  split; [exact Hs|]. split.
  - unfold recetas_integras in *. cbn [SGIC_INGREDIENTES SGIC_PRODUCTOS
      SGIC_PRODUCTO_INGREDIENTES].
    rewrite Forall_forall in Hrec. apply Forall_forall. intros f Hf.
    assert (Hne : id_producto_fk f <> id /\ f ∈ SGIC_PRODUCTO_INGREDIENTES bd).
    { destruct Hprot as [Hcas|Hbloq].
      - rewrite Hcas in Hf. apply list_elem_of_filter in Hf. exact Hf.
      - assert (Hf' : f ∈ SGIC_PRODUCTO_INGREDIENTES bd)
          by (destruct (recetas_en_cascada esq);
              [apply list_elem_of_filter in Hf as [_ Hf]|]; exact Hf).
        split; [|exact Hf']. intros Hid.
        assert (Hfilas : filas_receta id bd <> []).
        { intros Hnil. assert (Hin : f ∈ filas_receta id bd)
            by (apply list_elem_of_filter; split; assumption).
          rewrite Hnil in Hin. apply elem_of_nil in Hin. exact Hin. }
        rewrite (Hbloq id bd Hfilas) in Himp. discriminate. }
    destruct Hne as [Hne Hf'].
    destruct (Hrec f Hf') as (Hi & Hp & Hc).
    split; [exact Hi|]. split; [|exact Hc].
    rewrite lookup_delete_ne by congruence. exact Hp.
  - unfold ventas_integras in *. cbn [SGIC_PRODUCTOS SGIC_VENTAS].
    rewrite Forall_forall in Hven. apply Forall_forall. intros v Hv.
    rewrite lookup_delete_ne; [exact (Hven v Hv)|].
    intros Hid. apply Hno. apply Exists_exists. exists v. split; [exact Hv|congruence].
Qed.

Lemma entrada_integro (r : nat -> Z) (data : DatosEntrada) (bd : BD) :
  catalogo_integro bd -> catalogo_integro (registrar_entrada_inventario r data bd).2.
Proof.
  intros (Hs & Hrec & Hven).
  unfold registrar_entrada_inventario.
  destruct (req_id_ingrediente data) as [id|]; [|split; [assumption|]; split; assumption].
  destruct (req_cantidad data) as [cant|]; [|split; [assumption|]; split; assumption].
  destruct (dec_leb cant (dec_de_entero 0)); [split; [assumption|]; split; assumption|].
  destruct (tipo_movimiento_de _) as [tipo|e]; [|split; [assumption|]; split; assumption].
  rewrite ajuste_confirmado_eq.
  destruct (SGIC_INGREDIENTES bd !! id) as [ing|] eqn:Hing; [|split; [assumption|]; split; assumption].
  destruct (quantize_half_up _ _) as [nuevo|e] eqn:Hq.
  2:{ destruct e; (split; [assumption|]; split; assumption). }
  destruct (Z.ltb_spec (coef nuevo) 0) as [|Hnn]; [split; [assumption|]; split; assumption|].
  cbn [snd]. split; [|split].
  - intros j x. cbn [SGIC_INGREDIENTES].
    destruct (decide (id = j)) as [<-|Hne].
    + rewrite lookup_alter_eq, Hing. cbn. intros [= <-]. cbn [stock_actual con_stock].
      split; [exact Hnn|]. rewrite (quantize_expo _ _ _ Hq). cbn. lia.
    + rewrite lookup_alter_ne by exact Hne. apply Hs.
  - unfold recetas_integras in *. cbn [SGIC_INGREDIENTES SGIC_PRODUCTOS
      SGIC_PRODUCTO_INGREDIENTES].
    eapply Forall_impl; [exact Hrec|]. intros f (Hi & Hp & Hc).
    split; [apply is_Some_alter; exact Hi|]. split; assumption.
  - exact Hven.
Qed.

Lemma venta_integro (r : nat -> Z) (data : DatosVenta) (bd : BD) :
  catalogo_integro bd -> catalogo_integro (registrar_salida_por_venta r data bd).2.
Proof.
  intros Hint.
  destruct (decide (estado (registrar_salida_por_venta r data bd).1 = 200)) as [H200|Hno].
  2:{ eapply catalogo_integro_tablas; [|exact Hint].
      apply venta_rechazada_mismas_tablas. exact Hno. }
  destruct Hint as (Hs & Hrec & Hven).
  unfold registrar_salida_por_venta in *.
  destruct (req_id_producto data) as [id|]; [|discriminate].
  destruct (req_cantidad_vendida data) as [n|]; [|discriminate].
  destruct (n <=? 0); [discriminate|].
  unfold get_db_connection in *.
  destruct (SGIC_PRODUCTOS bd !! id) as [p|] eqn:Hp.
  2:{ rewrite (transaccion_venta_sin_producto r id n _ bd Hp) in H200. discriminate. }
  rewrite (transaccion_venta_eq r id n _ bd p Hp) in *.
  pose proof (descontar_receta_efecto (receta_de id bd) n (sec_id_venta bd)
                (nombre_producto p) (sesion_con_venta r id n (req_observacion_venta data) bd p))
    as Hef.
  destruct (descontar_receta _ _ _ _ _) as [[[]|e] s2] eqn:Hloop.
  2:{ destruct e; discriminate. }
  destruct Hef as (_ & Hpr & Hre & Hv & _ & _ & Hnom & _).
  destruct (descontar_receta_exito _ _ _ _ _ _ Hloop) as (_ & _ & _ & _ & Hval).
  cbn [pendiente sesion_con_venta SGIC_INGREDIENTES SGIC_PRODUCTOS
       SGIC_PRODUCTO_INGREDIENTES SGIC_VENTAS] in Hpr, Hre, Hv, Hnom.
  unfold catalogo_integro, stocks_validos, recetas_integras, ventas_integras in *.
  cbn [snd]. unfold liberar.
  cbn [confirmado pendiente SGIC_INGREDIENTES SGIC_PRODUCTOS SGIC_PRODUCTO_INGREDIENTES
       SGIC_VENTAS].
  split; [|split].
  - apply Hval. exact Hs.
  - rewrite Hpr, Hre. eapply Forall_impl; [exact Hrec|]. intros f (Hi & Hpf & Hc).
    split; [|split; assumption].
    specialize (Hnom (id_ingrediente_fk f)). destruct Hi as [x Hx].
    cbn [pendiente sesion_con_venta SGIC_INGREDIENTES] in Hnom.
    rewrite Hx in Hnom. cbn in Hnom.
    destruct (SGIC_INGREDIENTES (pendiente s2) !! id_ingrediente_fk f); [eauto|discriminate].
  - rewrite Hpr, Hv. apply Forall_app. split; [exact Hven|].
    apply Forall_singleton. unfold venta_de. cbn [venta_id_producto_fk]. rewrite Hp. eauto.
Qed.

Lemma atender_integro (esq : Esquema) (r : nat -> Z) (p : Peticion) (bd : BD) :
  recetas_protegidas esq ->
  catalogo_integro bd -> catalogo_integro (atender esq r p bd).
Proof.
  intros Hprot. destruct p; cbn [atender].
  - apply create_ingrediente_integro.
  - apply update_ingrediente_integro.
  - apply delete_ingrediente_integro.
  - apply create_producto_integro.
  - apply update_producto_integro.
  - apply delete_producto_integro. exact Hprot.
  - apply entrada_integro.
  - apply venta_integro.
Qed.

Lemma atender_todas_integro (esq : Esquema) (l : list ((nat -> Z) * Peticion)) :
  recetas_protegidas esq ->
  forall bd, catalogo_integro bd -> catalogo_integro (atender_todas esq l bd).
Proof.
  intros Hprot. induction l as [|[r p] l IH]; intros bd Hbd; [exact Hbd|].
  cbn [atender_todas foldl fst snd]. apply IH. apply atender_integro; assumption.
Qed.

Lemma esquema_ejemplo_protege : recetas_protegidas esquema_ejemplo.
Proof. left. reflexivity. Qed.

(** X25.  On a schema that keeps a recipe row from outliving its product
    -- the recipe rows are deleted with the product, which is what the
    code counts on, or a product that has recipe rows cannot be deleted --
    and whatever else the schema decides, the tables stay consistent
    whatever requests are made to the endpoints that write, in whatever
    order and whether they are accepted or not: no stock is negative or
    has more than three decimals, every recipe row names an ingredient and
    a product that have a row and has a positive quantity of at most three
    decimals and at most 99999.999, and every sale names a product that
    has a row. *)
Theorem catalogo_integro_se_conserva
    (esq : Esquema) (l : list ((nat -> Z) * Peticion)) (bd : BD) :
  recetas_protegidas esq ->
  catalogo_integro bd -> catalogo_integro (atender_todas esq l bd).
Proof.
  intros Hprot. revert bd. induction l as [|[r p] l IH]; intros bd Hbd.
  - exact Hbd.
  - cbn [atender_todas foldl fst snd]. apply IH.
    destruct p; cbn [atender].
    + apply create_ingrediente_integro. exact Hbd.
    + apply update_ingrediente_integro. exact Hbd.
    + apply delete_ingrediente_integro. exact Hbd.
    + apply create_producto_integro. exact Hbd.
    + apply update_producto_integro. exact Hbd.
    + apply delete_producto_integro; assumption.
    + apply entrada_integro. exact Hbd.
    + apply venta_integro. exact Hbd.
Qed.

Lemma bd_vacia_integra : catalogo_integro bd_vacia.
Proof.
  split; [|split].
  - intros id ing. cbn. rewrite lookup_empty. discriminate.
  - constructor.
  - constructor.
Qed.

Lemma catalogo_integro_se_conserva_ej :
  catalogo_integro (atender_todas esquema_ejemplo jornada bd_vacia).
Proof.
  apply (catalogo_integro_se_conserva esquema_ejemplo jornada bd_vacia).
  - left. reflexivity.
  - exact bd_vacia_integra.
Defined.

(** Without the cascade and without a key that forbids it, the DELETE of
    the latte goes through and leaves its two recipe rows behind. *)
Example sin_cascada_quedan_las_recetas :
  codigo (delete_producto esquema_sin_cascada reloj_ejemplo 1 bd_ejemplo).1 = 200 /\
  SGIC_PRODUCTOS (delete_producto esquema_sin_cascada reloj_ejemplo 1 bd_ejemplo).2 !! 1
    = None /\
  filas_receta 1 (delete_producto esquema_sin_cascada reloj_ejemplo 1 bd_ejemplo).2
    = filas_receta 1 bd_ejemplo /\
  ~ recetas_integras (delete_producto esquema_sin_cascada reloj_ejemplo 1 bd_ejemplo).2.
Proof.
  split; [vm_compute; reflexivity|]. split; [vm_compute; reflexivity|].
  split; [vm_compute; reflexivity|].
  intros H. unfold recetas_integras in H.
  assert (Hrec : SGIC_PRODUCTO_INGREDIENTES
                   (delete_producto esquema_sin_cascada reloj_ejemplo 1 bd_ejemplo).2
                 = SGIC_PRODUCTO_INGREDIENTES bd_ejemplo) by (vm_compute; reflexivity).
  rewrite Hrec in H. apply Forall_cons in H as [(_ & [x Hx] & _) _].
  vm_compute in Hx. discriminate Hx.
Qed.

(** ** A sale on consistent tables *)

Lemma descontar_receta_no_encontrado (filas : list (Z * Decimal)) (n idv : Z) (nom : string) :
  forall s s' id,
    descontar_receta filas n idv nom s = (Lanza (ValueError (MsgIngredienteNoEncontrado id)), s') ->
    id ∈ filas.*1 /\ SGIC_INGREDIENTES (pendiente s) !! id = None.
Proof.
  induction filas as [|[j c] resto IH]; intros s s' id Hloop.
  - discriminate.
  - rewrite descontar_receta_cons, actualizar_stock_eq in Hloop.
    destruct (SGIC_INGREDIENTES (pendiente s) !! j) as [ing|] eqn:Hing.
    + destruct (quantize_half_up _ _) as [nuevo|e] eqn:Hq.
      * destruct (coef nuevo <? 0); [discriminate|].
        apply IH in Hloop as [Hin Hnone].
        cbn [pendiente sesion_ajustada SGIC_INGREDIENTES] in Hnone.
        split; [cbn; right; exact Hin|].
        destruct (decide (j = id)) as [->|Hne].
        -- rewrite lookup_alter_eq, Hing in Hnone. discriminate.
        -- rewrite lookup_alter_ne in Hnone by exact Hne. exact Hnone.
      * apply quantize_lanza in Hq. subst e. discriminate.
    + injection Hloop as <- _. split; [cbn; left|exact Hing].
Qed.

(** X26.  On tables whose recipe rows all name an ingredient that has a
    row, no sale is answered with the error that an ingredient was not
    found. *)
Theorem venta_sin_ingrediente_perdido
    (r : nat -> Z) (data : DatosVenta) (bd : BD) (id : Z) :
  Forall (fun f => is_Some (SGIC_INGREDIENTES bd !! id_ingrediente_fk f))
         (SGIC_PRODUCTO_INGREDIENTES bd) ->
  cuerpo (registrar_salida_por_venta r data bd).1
  <> CuerpoValueError (MsgIngredienteNoEncontrado id).
Proof.
  intros Hrec. unfold registrar_salida_por_venta.
  destruct (req_id_producto data) as [idp|]; [|discriminate].
  destruct (req_cantidad_vendida data) as [n|]; [|discriminate].
  destruct (n <=? 0); [discriminate|].
  unfold get_db_connection.
  destruct (SGIC_PRODUCTOS bd !! idp) as [p|] eqn:Hp.
  2:{ rewrite (transaccion_venta_sin_producto r idp n _ bd Hp). discriminate. }
  rewrite (transaccion_venta_eq r idp n _ bd p Hp).
  destruct (descontar_receta _ _ _ _ _) as [[[]|e] s2] eqn:Hloop; [discriminate|].
  destruct e as [[j|nom j req disp|j]| | |code]; try discriminate.
  cbn. intros [= ->].
  apply descontar_receta_no_encontrado in Hloop as [Hin Hnone].
  cbn [pendiente sesion_con_venta SGIC_INGREDIENTES] in Hnone.
  unfold receta_de in Hin. rewrite <- list_fmap_compose in Hin.
  apply list_elem_of_fmap in Hin as (f & -> & Hf).
  unfold filas_receta in Hf. apply list_elem_of_filter in Hf as [_ Hf].
  rewrite Forall_forall in Hrec.
  destruct (Hrec f Hf) as [x Hx]. cbn in Hnone. congruence.
Qed.

Lemma venta_sin_ingrediente_perdido_ej :
  cuerpo (registrar_salida_por_venta reloj_ejemplo venta_ejemplo
            (atender_todas esquema_ejemplo jornada bd_vacia)).1
  <> CuerpoValueError (MsgIngredienteNoEncontrado 1).
Proof.
  apply (venta_sin_ingrediente_perdido reloj_ejemplo venta_ejemplo
           (atender_todas esquema_ejemplo jornada bd_vacia) 1).
  eapply Forall_impl;
    [apply (atender_todas_integro esquema_ejemplo jornada esquema_ejemplo_protege
              bd_vacia bd_vacia_integra)|].
  intros f Hf. apply Hf.
Defined.

(** ** With validated quantities the arithmetic of a sale is exact *)

Lemma cantidad_valida_coef (c : Decimal) : cantidad_valida c -> 0 < coef c <= 99999999.
Proof.
  intros (Hpos & He & Hmax). split; [exact Hpos|].
  unfold milesimas in Hmax.
  pose proof (pot10_pos (expo c + 3) ltac:(lia)). nia.
Qed.

Lemma descuento_exacto (c : Decimal) (n : Z) :
  cantidad_valida c -> 0 < n < 10 ^ 20 ->
  descuento c n = mkDec (- (coef c * n)) (expo c).
Proof.
  intros Hc Hn. pose proof (cantidad_valida_coef c Hc) as Hcoef.
  assert (Hcota : Z.abs (coef c * n) < 10 ^ prec).
  { replace (10 ^ prec) with (100000000 * 10 ^ 20) by (vm_compute; reflexivity).
    rewrite Z.abs_eq by nia. nia. }
  unfold descuento, dec_mul, dec_de_entero. cbn [coef expo].
  rewrite Z.add_0_r.
  rewrite (fix_id (mkDec (coef c * n) (expo c))) by exact Hcota.
  unfold dec_neg. cbn [coef expo].
  apply fix_id. cbn [coef]. rewrite Z.abs_opp. exact Hcota.
Qed.

(** Adding two values of at most three decimals and rounding the sum to
    thousandths gives the sum of their thousandths, when it fits the
    precision of the context. *)
Lemma ajuste_en_milesimas (s d : Decimal) :
  -3 <= expo s -> -3 <= expo d ->
  Z.abs (milesimas s + milesimas d) < 10 ^ prec ->
  quantize_half_up (dec_add s d) milesima = Ok (mkDec (milesimas s + milesimas d) (-3)).
Proof.
  intros Hs Hd Hcota.
  set (e := Z.min (expo s) (expo d)).
  assert (He : -3 <= e) by (subst e; lia).
  assert (Hm : milesimas s + milesimas d = (alinear s e + alinear d e) * 10 ^ (e + 3)).
  { rewrite (alinear_milesimas s e), (alinear_milesimas d e) by (subst e; lia). lia. }
  pose proof (pot10_pos (e + 3) ltac:(lia)) as Hp.
  assert (Hx : Z.abs (alinear s e + alinear d e) < 10 ^ prec).
  { rewrite Hm, Z.abs_mul, (Z.abs_eq (10 ^ (e + 3))) in Hcota by lia. nia. }
  unfold dec_add. fold e. rewrite fix_id by exact Hx.
  unfold quantize_half_up. cbn [coef expo milesima].
  destruct (Z.leb_spec (-3 - e) 0) as [_|]; [|lia].
  replace (- (-3 - e)) with (e + 3) by lia. rewrite <- Hm.
  destruct (Z.ltb_spec (Z.abs (milesimas s + milesimas d)) (10 ^ prec)); [reflexivity|lia].
Qed.

(** The loop over a recipe without repeated ingredients whose quantities
    are validated ones, on stocks that are thousandths below 10^15: it
    takes from each ingredient exactly [n] times the quantity of its row,
    or stops at a row whose ingredient has less than that. *)
Lemma descontar_receta_exacto (filas : list (Z * Decimal)) (n idv : Z) (nom : string) :
  NoDup filas.*1 ->
  Forall (fun fila => cantidad_valida fila.2) filas ->
  0 < n < 10 ^ 20 ->
  forall s,
    Forall (fun fila => exists ing,
              SGIC_INGREDIENTES (pendiente s) !! fila.1 = Some ing /\
              0 <= coef (stock_actual ing) /\ -3 <= expo (stock_actual ing) /\
              milesimas (stock_actual ing) < 10 ^ 15) filas ->
    match descontar_receta filas n idv nom s with
    | (Ok _, s') =>
        forall fila, fila ∈ filas ->
          exists ing ing',
            SGIC_INGREDIENTES (pendiente s) !! fila.1 = Some ing /\
            SGIC_INGREDIENTES (pendiente s') !! fila.1 = Some ing' /\
            stock_actual ing'
              = mkDec (milesimas (stock_actual ing) - n * milesimas fila.2) (-3) /\
            n * milesimas fila.2 <= milesimas (stock_actual ing) /\
            mismas_otras_columnas ing ing'
    | (Lanza e, _) =>
        exists fila ing,
          fila ∈ filas /\
          SGIC_INGREDIENTES (pendiente s) !! fila.1 = Some ing /\
          e = ValueError (MsgStockInsuficiente (nombre ing) fila.1
                            (mkDec (coef fila.2 * n) (expo fila.2)) (stock_actual ing)) /\
          milesimas (stock_actual ing) < n * milesimas fila.2
    end.
Proof.
  intros Hnd Hval Hn.
  induction filas as [|[id c] resto IH]; intros s Hs.
  - cbn. intros fila Hin. apply elem_of_nil in Hin. contradiction.
  - cbn [fmap list_fmap fst] in Hnd. apply NoDup_cons in Hnd as [Hni Hnd].
    apply Forall_cons in Hval as [Hc Hval]. cbn [snd] in Hc.
    apply Forall_cons in Hs as [(ing & Hing & Hnn & He & Hcota) Hs]. cbn [fst] in Hing.
    specialize (IH Hnd Hval).
    rewrite descontar_receta_cons. fold (descuento c n).
    rewrite actualizar_stock_eq, Hing.
    pose proof (cantidad_valida_coef c Hc) as Hcoef.
    assert (Hd : descuento c n = mkDec (- (coef c * n)) (expo c))
      by (apply descuento_exacto; assumption).
    destruct Hc as (Hcpos & Hce & Hcmax).
    assert (Hdm : milesimas (descuento c n) = - (n * milesimas c)).
    { rewrite Hd. unfold milesimas. cbn [coef expo]. ring. }
    assert (Hed : -3 <= expo (descuento c n)) by (rewrite Hd; cbn; lia).
    assert (Hsm : 0 <= milesimas (stock_actual ing)) by (apply milesimas_signo; assumption).
    assert (Hcm : 0 < n * milesimas c < 10 ^ prec).
    { assert (0 < milesimas c).
      { unfold milesimas. pose proof (pot10_pos (expo c + 3) ltac:(lia)). nia. }
      replace (10 ^ prec) with (100000000 * 10 ^ 20) by (vm_compute; reflexivity).
      nia. }
    assert (H15 : 10 ^ 15 < 10 ^ prec) by (vm_compute; reflexivity).
    rewrite (ajuste_en_milesimas _ _ He Hed) by (rewrite Hdm; lia).
    rewrite Hdm. cbn [coef].
    assert (Habs : dec_abs (descuento c n) = mkDec (coef c * n) (expo c)).
    { rewrite dec_abs_exacto; rewrite Hd; cbn [coef expo];
        rewrite Z.abs_opp, Z.abs_eq by nia; [reflexivity|].
      replace (10 ^ prec) with (100000000 * 10 ^ 20) by (vm_compute; reflexivity). nia. }
    destruct (Z.ltb_spec (milesimas (stock_actual ing) + - (n * milesimas c)) 0)
      as [Hneg|Hpos].
    { exists (id, c), ing. cbn [fst snd].
      split; [left|]. split; [exact Hing|]. split; [rewrite Habs; reflexivity|]. lia. }
    set (nuevo := mkDec (milesimas (stock_actual ing) + - (n * milesimas c)) (-3)).
    set (m := mkMovimiento id (Some idv) "SALIDA_VENTA" (abs_float (descuento c n))
                (reloj s (lecturas s)) (ObsSalidaPorVenta idv n nom)).
    set (s1 := sesion_ajustada s id nuevo m).
    assert (Hotro : forall fila, fila ∈ resto ->
              SGIC_INGREDIENTES (pendiente s1) !! fila.1
              = SGIC_INGREDIENTES (pendiente s) !! fila.1).
    { intros fila Hin. unfold s1. cbn [pendiente sesion_ajustada SGIC_INGREDIENTES].
      apply lookup_alter_ne. intros ->. apply Hni.
      apply list_elem_of_fmap. exists fila. split; [reflexivity|exact Hin]. }
    assert (Hs1 : Forall (fun fila => exists ing,
                    SGIC_INGREDIENTES (pendiente s1) !! fila.1 = Some ing /\
                    0 <= coef (stock_actual ing) /\ -3 <= expo (stock_actual ing) /\
                    milesimas (stock_actual ing) < 10 ^ 15) resto).
    { rewrite Forall_forall in Hs. apply Forall_forall. intros fila Hin.
      rewrite (Hotro fila Hin). exact (Hs fila Hin). }
    specialize (IH s1 Hs1).
    destruct (descontar_receta resto n idv nom s1) as [[[]|e] s'] eqn:Hloop.
    + intros fila Hin. apply elem_of_cons in Hin as [->|Hin].
      * exists ing, (con_stock nuevo ing). cbn [fst snd].
        split; [exact Hing|].
        destruct (descontar_receta_exito _ _ _ _ _ _ Hloop) as (_ & _ & _ & Hfr & _).
        rewrite (Hfr id Hni). unfold s1. cbn [pendiente sesion_ajustada SGIC_INGREDIENTES].
        rewrite lookup_alter_eq, Hing. cbn [stock_actual con_stock].
        split; [reflexivity|]. split; [reflexivity|]. split; [lia|]. repeat split.
      * destruct (IH fila Hin) as (ing1 & ing' & Hing1 & Hing' & Hst & Hle & Hcol).
        rewrite (Hotro fila Hin) in Hing1.
        exists ing1, ing'. repeat split; try assumption; apply Hcol.
    + destruct IH as (fila & ing1 & Hin & Hing1 & He1 & Hcorto).
      exists fila, ing1. split; [right; exact Hin|].
      rewrite (Hotro fila Hin) in Hing1. repeat split; assumption.
Qed.

(** The rows of a recipe on consistent tables with bounded stocks. *)
Lemma receta_en_rango (id : Z) (bd : BD) :
  catalogo_integro bd -> stocks_acotados bd ->
  Forall (fun fila : Z * Decimal => cantidad_valida fila.2) (receta_de id bd) /\
  Forall (fun fila : Z * Decimal => exists ing,
            SGIC_INGREDIENTES bd !! fila.1 = Some ing /\
            0 <= coef (stock_actual ing) /\ -3 <= expo (stock_actual ing) /\
            milesimas (stock_actual ing) < 10 ^ 15) (receta_de id bd).
Proof.
  intros (Hs & Hrec & _) Hcota.
  unfold recetas_integras in Hrec. rewrite Forall_forall in Hrec.
  split; unfold receta_de; apply Forall_fmap, Forall_forall; intros f Hf;
    apply list_elem_of_filter in Hf as [_ Hf]; destruct (Hrec f Hf) as ([ing Hing] & _ & Hc).
  - exact Hc.
  - cbn. exists ing. split; [exact Hing|].
    destruct (Hs _ _ Hing) as [Hnn He]. split; [exact Hnn|]. split; [exact He|].
    exact (Hcota _ _ Hing).
Qed.

(** X27.  On consistent tables whose stocks are below 10^12 units, the
    arithmetic of a sale is exact.  For a recipe that names no ingredient
    twice and fewer than 10^20 units, the sale is answered with 200 or
    with 400.  Answered with 200, it has taken from each ingredient of the
    recipe exactly the units sold times the quantity of the recipe: the
    stock is that number of thousandths, which the ingredient had, and
    the other columns of the row are as before.  Refused for insufficient
    stock, it names an ingredient of the recipe whose stock is below that
    amount, with the stock it has and the amount asked for. *)
Theorem venta_exacta
    (r : nat -> Z) (data : DatosVenta) (bd bd' : BD) (resp : Respuesta) (id n : Z) :
  catalogo_integro bd ->
  stocks_acotados bd ->
  req_id_producto data = Some id ->
  req_cantidad_vendida data = Some n ->
  n < 10 ^ 20 ->
  NoDup (receta_de id bd).*1 ->
  registrar_salida_por_venta r data bd = (resp, bd') ->
  (estado resp = 200 \/ estado resp = 400) /\
  (estado resp = 200 ->
   forall fila, fila ∈ receta_de id bd ->
     exists ing ing',
       SGIC_INGREDIENTES bd !! fila.1 = Some ing /\
       SGIC_INGREDIENTES bd' !! fila.1 = Some ing' /\
       expo (stock_actual ing') = -3 /\
       milesimas (stock_actual ing')
         = milesimas (stock_actual ing) - n * milesimas fila.2 /\
       0 <= milesimas (stock_actual ing') < 10 ^ 15 /\
       mismas_otras_columnas ing ing') /\
  (forall nom j req disp,
     cuerpo resp = CuerpoValueError (MsgStockInsuficiente nom j req disp) ->
     exists fila ing,
       fila ∈ receta_de id bd /\ fila.1 = j /\
       SGIC_INGREDIENTES bd !! j = Some ing /\
       nom = nombre ing /\ disp = stock_actual ing /\
       req = mkDec (coef fila.2 * n) (expo fila.2) /\
       milesimas (stock_actual ing) < n * milesimas fila.2).
Proof.
  intros Hint Hcota Hid Hcant Hn Hnd Heq.
  unfold registrar_salida_por_venta in Heq. rewrite Hid, Hcant in Heq.
  destruct (Z.leb_spec n 0) as [|Hpos].
  { injection Heq as <- <-. split; [right; reflexivity|].
    split; [discriminate|]. intros nom j req disp. discriminate. }
  unfold get_db_connection in Heq.
  destruct (SGIC_PRODUCTOS bd !! id) as [p|] eqn:Hp.
  2:{ rewrite (transaccion_venta_sin_producto r id n _ bd Hp) in Heq.
      injection Heq as <- <-. split; [right; reflexivity|].
      split; [discriminate|]. intros nom j req disp. discriminate. }
  rewrite (transaccion_venta_eq r id n _ bd p Hp) in Heq.
  destruct (receta_en_rango id bd Hint Hcota) as [Hval Hran].
  pose proof (descontar_receta_exacto (receta_de id bd) n (sec_id_venta bd)
                (nombre_producto p) Hnd Hval ltac:(lia)
                (sesion_con_venta r id n (req_observacion_venta data) bd p) Hran) as Hex.
  destruct (descontar_receta _ _ _ _ _) as [[[]|e] s'] eqn:Hloop.
  - injection Heq as <- <-. split; [left; reflexivity|].
    split; [|intros nom0 j0 req0 disp0; discriminate].
    intros _ fila Hin.
    destruct (Hex fila Hin) as (ing & ing' & Hing & Hing' & Hst & Hle & Hcol).
    exists ing, ing'. split; [exact Hing|]. split; [exact Hing'|].
    assert (Hmil : forall z, milesimas (mkDec z (-3)) = z)
      by (intros z; unfold milesimas; cbn; lia).
    rewrite Hst, !Hmil. cbn [expo].
    rewrite Forall_forall in Hran.
    destruct (Hran fila Hin) as (ing0 & Hing0 & _ & _ & Hc15).
    cbn [pendiente sesion_con_venta SGIC_INGREDIENTES] in Hing.
    rewrite Hing in Hing0. injection Hing0 as <-.
    assert (0 < n * milesimas fila.2).
    { rewrite Forall_forall in Hval. destruct (Hval fila Hin) as (Hc0 & Hce & _).
      unfold milesimas. pose proof (pot10_pos (expo fila.2 + 3) ltac:(lia)). nia. }
    split; [reflexivity|]. split; [reflexivity|]. split; [lia|exact Hcol].
  - destruct Hex as (fila & ing & Hin & Hing & -> & Hcorto).
    injection Heq as <- <-. split; [right; reflexivity|].
    split; [discriminate|].
    intros nom0 j0 req0 disp0 [= <- <- <- <-].
    exists fila, ing. repeat split; assumption.
Qed.

(** Three espressos of 0.008 of coffee each, from a stock of 1.000. *)
Lemma venta_exacta_ej :
  exists ing',
    SGIC_INGREDIENTES (registrar_salida_por_venta reloj_ejemplo venta_espressos bd_abierta).2
      !! 1 = Some ing' /\
    milesimas (stock_actual ing') = 1000 - 3 * 8.
Proof.
  destruct (venta_exacta reloj_ejemplo venta_espressos bd_abierta
              (registrar_salida_por_venta reloj_ejemplo venta_espressos bd_abierta).2
              (registrar_salida_por_venta reloj_ejemplo venta_espressos bd_abierta).1 1 3)
    as (_ & H200 & _).
  - apply (atender_todas_integro esquema_ejemplo apertura esquema_ejemplo_protege
             bd_vacia bd_vacia_integra).
  - intros j ing Hj.
    assert (Hing : SGIC_INGREDIENTES bd_abierta
                   = <[1 := mkIngrediente "Cafe" None "kg" (mkDec 1000 (-3)) (mkDec 5 (-1)) 0]> ∅)
      by (vm_compute; reflexivity).
    rewrite Hing in Hj. apply lookup_insert_Some in Hj as [[_ <-]|[_ Hj]].
    + vm_compute. reflexivity.
    + rewrite lookup_empty in Hj. discriminate.
  - reflexivity.
  - reflexivity.
  - vm_compute. reflexivity.
  - apply (@bool_decide_unpack _ (NoDup_dec _)). vm_compute. exact I.
  - vm_compute. reflexivity.
  - destruct (H200 ltac:(vm_compute; reflexivity) (1, mkDec 8 (-3)))
      as (ing & ing' & Hing & Hing' & _ & Hm & _).
    + replace (receta_de 1 bd_abierta) with [(1, mkDec 8 (-3))] by (vm_compute; reflexivity).
      left.
    + exists ing'. split; [exact Hing'|]. rewrite Hm.
      cbn [fst] in Hing.
      assert (Hx : SGIC_INGREDIENTES bd_abierta !! 1
                   = Some (mkIngrediente "Cafe" None "kg" (mkDec 1000 (-3)) (mkDec 5 (-1)) 0))
        by (vm_compute; reflexivity).
      rewrite Hx in Hing. injection Hing as <-. vm_compute. reflexivity.
Defined.

(** X2.  On consistent tables whose stocks are below 10^12 units, a sale
    of a positive number of units, fewer than 10^20, of a product that
    exists, whose recipe names no ingredient twice and finds, for each of
    its rows, the units sold times the quantity of the row in stock, is
    answered with 200.  Each ingredient of the recipe ends with exactly
    its stock less that amount, as a number of thousandths, and with its
    other columns as before. *)
Theorem venta_con_stock_suficiente
    (r : nat -> Z) (data : DatosVenta) (bd : BD) (id n : Z) (p : Producto) :
  catalogo_integro bd ->
  stocks_acotados bd ->
  req_id_producto data = Some id ->
  req_cantidad_vendida data = Some n ->
  0 < n < 10 ^ 20 ->
  SGIC_PRODUCTOS bd !! id = Some p ->
  NoDup (receta_de id bd).*1 ->
  Forall (fun fila => forall ing,
            SGIC_INGREDIENTES bd !! fila.1 = Some ing ->
            n * milesimas fila.2 <= milesimas (stock_actual ing))
         (receta_de id bd) ->
  (registrar_salida_por_venta r data bd).1
    = mkRespuesta 200 (CuerpoVenta n (nombre_producto p) (sec_id_venta bd)) /\
  forall fila, fila ∈ receta_de id bd ->
    exists ing ing',
      SGIC_INGREDIENTES bd !! fila.1 = Some ing /\
      SGIC_INGREDIENTES (registrar_salida_por_venta r data bd).2 !! fila.1 = Some ing' /\
      stock_actual ing'
        = mkDec (milesimas (stock_actual ing) - n * milesimas fila.2) (-3) /\
      mismas_otras_columnas ing ing'.
Proof.
  intros Hint Hcota Hid Hcant Hn Hp Hnd Hsuf.
  unfold registrar_salida_por_venta. rewrite Hid, Hcant.
  destruct (Z.leb_spec n 0) as [|_]; [lia|].
  unfold get_db_connection.
  rewrite (transaccion_venta_eq r id n _ bd p Hp).
  destruct (receta_en_rango id bd Hint Hcota) as [Hval Hran].
  pose proof (descontar_receta_exacto (receta_de id bd) n (sec_id_venta bd)
                (nombre_producto p) Hnd Hval Hn
                (sesion_con_venta r id n (req_observacion_venta data) bd p) Hran) as Hex.
  destruct (descontar_receta _ _ _ _ _) as [[[]|e] s'] eqn:Hloop.
  - cbn [fst snd]. split; [reflexivity|].
    intros fila Hin.
    destruct (Hex fila Hin) as (ing & ing' & Hing & Hing' & Hst & _ & Hcol).
    exists ing, ing'. repeat split; try assumption; apply Hcol.
  - exfalso. destruct Hex as (fila & ing & Hin & Hing & _ & Hcorto).
    rewrite Forall_forall in Hsuf. specialize (Hsuf fila Hin ing Hing). lia.
Qed.

(** Three espressos from the stock of 1.000 of coffee: the coffee ends
    with 0.976. *)
Lemma venta_con_stock_suficiente_ej :
  (registrar_salida_por_venta reloj_ejemplo venta_espressos bd_abierta).1
    = mkRespuesta 200 (CuerpoVenta 3 "Espresso" 1) /\
  exists ing',
    SGIC_INGREDIENTES (registrar_salida_por_venta reloj_ejemplo venta_espressos bd_abierta).2
      !! 1 = Some ing' /\
    stock_actual ing' = mkDec 976 (-3).
Proof.
  assert (Hing : SGIC_INGREDIENTES bd_abierta
                 = <[1 := mkIngrediente "Cafe" None "kg" (mkDec 1000 (-3)) (mkDec 5 (-1)) 0]> ∅)
    by (vm_compute; reflexivity).
  assert (Hrec : receta_de 1 bd_abierta = [(1, mkDec 8 (-3))]) by (vm_compute; reflexivity).
  destruct (venta_con_stock_suficiente reloj_ejemplo venta_espressos bd_abierta 1 3
              (mkProducto "Espresso" (mkDec 200 (-2))))
    as (Hresp & Hfilas).
  - apply (atender_todas_integro esquema_ejemplo apertura esquema_ejemplo_protege
             bd_vacia bd_vacia_integra).
  - intros j ing Hj.
    rewrite Hing in Hj. apply lookup_insert_Some in Hj as [[_ <-]|[_ Hj]].
    + vm_compute. reflexivity.
    + rewrite lookup_empty in Hj. discriminate.
  - reflexivity.
  - reflexivity.
  - split; [lia|vm_compute; reflexivity].
  - vm_compute. reflexivity.
  - apply (@bool_decide_unpack _ (NoDup_dec _)). vm_compute. exact I.
  - rewrite Hrec. apply Forall_cons. split; [|apply Forall_nil_2].
    intros ing Hj. cbn [fst snd] in *. rewrite Hing, lookup_insert_eq in Hj.
    injection Hj as <-. vm_compute. discriminate.
  - split; [exact Hresp|].
    destruct (Hfilas (1, mkDec 8 (-3))) as (ing & ing' & Hi & Hi' & Hst & _).
    + rewrite Hrec. left.
    + exists ing'. split; [exact Hi'|]. rewrite Hst.
      cbn [fst] in Hi. rewrite Hing, lookup_insert_eq in Hi. injection Hi as <-.
      vm_compute. reflexivity.
Defined.

(** ** POST /api/productos on data that validates *)

Lemma create_producto_valido (esq : Esquema) (r : nat -> Z) (data data' : DatosProducto)
    (bd : BD) (n : string) (precio : Decimal) :
  validate_producto_data data false = Ok ([], data') ->
  prod_nombre data = Valor n ->
  prod_precio_venta data = Valor precio ->
  prod_descripcion data <> Nulo ->
  prod_categoria data <> Nulo ->
  SGIC_PRODUCTOS bd !! genera_id_producto esq bd = None ->
  nombre_producto_en_uso (strip n) (genera_id_producto esq bd) (SGIC_PRODUCTOS bd) = false ->
  create_producto esq r data bd =
  match insertar_receta esq ContIngredienteNoExiste (genera_id_producto esq bd)
          (items_de (prod_ingredientes data))
          (sesion_con_producto esq r bd (mkProducto (strip n) precio)) with
  | (Ok (Some resp), s') => (resp, liberar s')
  | (Ok None, s') =>
      (mkContestacion 201
         (ContProducto (SGIC_PRODUCTOS (pendiente s') !! genera_id_producto esq bd)),
       mkBD (SGIC_INGREDIENTES (pendiente s')) (SGIC_PRODUCTOS (pendiente s'))
            (SGIC_PRODUCTO_INGREDIENTES (pendiente s')) (SGIC_VENTAS (pendiente s'))
            (SGIC_MOVIMIENTOS_INVENTARIO (pendiente s')) (sec_id_venta (pendiente s')))
  | (Lanza e, s') =>
      (match e with
       | IntegrityError code =>
           if code =? 1
           then mkContestacion 409
                  (ContCuerpo (CuerpoError "El nombre del producto ya existe."))
           else mkContestacion 400
                  (ContErrorDetalle "Error de integridad en la base de datos.")
       | ValueError ve => mkContestacion 400 (ContDatosInvalidos ve)
       | _ => mkContestacion 500 (ContCuerpo (CuerpoErrorInterno e))
       end, liberar s')
  end.
Proof.
  intros Hval Hn Hp Hd Hc Hlibre Huso.
  unfold create_producto.
  assert (Hsin : sin_datos_producto data = false).
  { unfold sin_datos_producto. rewrite Hn. reflexivity. }
  rewrite Hsin, Hval.
  apply validate_producto_ok in Hval.
  destruct Hval as (_ & _ & _ & _ & Hn' & Hd' & Hp' & Hc' & Hi' & _ & _).
  unfold get_db_connection, transaccion_create_producto, mbind, Tx_bind, elevar.
  rewrite Hn', Hd', Hp', Hc', Hn, Hp. cbn [texto_requerido decimal_de].
  destruct (prod_descripcion data) as [| |d]; [|contradiction|];
    (destruct (prod_categoria data) as [| |c]; [|contradiction|]);
    cbn [texto_o_none];
    unfold insert_producto; cbn [pendiente adquirir nombre_producto];
    rewrite Hlibre, Huso, (bool_decide_eq_false_2 (is_Some None)) by (intros [x [=]]);
    cbn [orb];
    cbn [confirmado bloqueos reloj lecturas];
    rewrite salida_de_la_receta, Hi';
    fold (sesion_con_producto esq r bd (mkProducto (strip n) precio));
    (destruct (insertar_receta _ _ _ _ _) as [[[resp|]|e] s']; [reflexivity|reflexivity|]);
    (destruct e as [m| | |code]; [reflexivity..|]; destruct (code =? 1); reflexivity).
Qed.

(** X28.  A recipe element whose unit is null gets past the validator of
    the products, which reads the unit through [str]: when the data
    validates and the first element of the recipe names an ingredient that
    exists and has a null unit, POST /api/productos fails where it strips
    the unit, answers 500 and stores nothing. *)
Theorem create_producto_unidad_nula
    (esq : Esquema) (r : nat -> Z) (data data' : DatosProducto) (bd : BD)
    (n : string) (item_receta : ItemReceta) (resto : list ItemReceta) (id : Z) :
  validate_producto_data data false = Ok ([], data') ->
  prod_nombre data = Valor n ->
  prod_descripcion data <> Nulo ->
  prod_categoria data <> Nulo ->
  SGIC_PRODUCTOS bd !! genera_id_producto esq bd = None ->
  nombre_producto_en_uso (strip n) (genera_id_producto esq bd) (SGIC_PRODUCTOS bd) = false ->
  prod_ingredientes data = Valor (item_receta :: resto) ->
  item_id_ingrediente item_receta = Valor id ->
  is_Some (SGIC_INGREDIENTES bd !! id) ->
  item_unidad_medida_receta item_receta = Nulo ->
  create_producto esq r data bd
  = (mkContestacion 500 (ContCuerpo (CuerpoErrorInterno AttributeError)), bd).
Proof.
  intros Hval Hn Hd Hc Hlibre Huso Hi Hid [ing Hing] Hu.
  pose proof (validate_producto_ok _ _ _ Hval) as (_ & Hp & _ & Hitems & _).
  destruct (prod_precio_venta data) as [| |precio] eqn:Hprecio; try discriminate.
  rewrite Hi in Hitems. cbn [items_de] in Hitems.
  apply Forall_cons in Hitems as [(_ & (c & Hcant & _) & _) _].
  rewrite (create_producto_valido esq r data data' bd n precio Hval Hn Hprecio Hd Hc
             Hlibre Huso).
  rewrite Hi. cbn [items_de insertar_receta]. unfold mbind, Tx_bind, elevar.
  rewrite Hid. cbn [entero_de]. unfold select_count_ingrediente.
  cbn [pendiente sesion_con_producto SGIC_INGREDIENTES]. rewrite Hing. cbn [Nat.eqb].
  rewrite Hcant, Hu. cbn [decimal_de texto_requerido].
  f_equal. unfold liberar. cbn. destruct bd. reflexivity.
Qed.

Lemma create_producto_unidad_nula_ej :
  create_producto esquema_ejemplo reloj_ejemplo te_sin_unidad bd_ejemplo
  = (mkContestacion 500 (ContCuerpo (CuerpoErrorInterno AttributeError)), bd_ejemplo).
Proof.
  apply (create_producto_unidad_nula esquema_ejemplo reloj_ejemplo te_sin_unidad
           te_sin_unidad bd_ejemplo "Te" item_sin_unidad [] 1).
  - vm_compute. reflexivity.
  - reflexivity.
  - discriminate.
  - discriminate.
  - vm_compute. reflexivity.
  - vm_compute. reflexivity.
  - reflexivity.
  - reflexivity.
  - eexists. vm_compute. reflexivity.
  - reflexivity.
Defined.

Lemma insertar_receta_exito (esq : Esquema) (no_existe : Z -> Contenido) (id_prod : Z)
    (items : list ItemReceta) :
  Forall item_valido items ->
  Forall (fun item_receta => item_unidad_medida_receta item_receta <> Nulo) items ->
  NoDup (item_id_ingrediente <$> items) ->
  forall s,
    Forall (fun item_receta =>
              exists id, item_id_ingrediente item_receta = Valor id /\
                         is_Some (SGIC_INGREDIENTES (pendiente s) !! id)) items ->
    Forall (fun item_receta =>
              forall id, item_id_ingrediente item_receta = Valor id ->
                ~ Exists (fun g => id_producto_fk g = id_prod /\ id_ingrediente_fk g = id)
                    (SGIC_PRODUCTO_INGREDIENTES (pendiente s))) items ->
    exists s', insertar_receta esq no_existe id_prod items s = (Ok None, s').
Proof.
  induction items as [|item resto IH]; intros Hval Hnn Hnd s Hex Hrep.
  - exists s. reflexivity.
  - apply Forall_cons in Hval as [(_ & (c & Hc & _) & Hunidad) Hval].
    apply Forall_cons in Hnn as [Hu Hnn].
    cbn [fmap list_fmap] in Hnd. apply NoDup_cons in Hnd as [Hni Hnd].
    apply Forall_cons in Hex as [(id & Hid & [ing Hing]) Hex].
    apply Forall_cons in Hrep as [Hrep1 Hrep].
    destruct (item_unidad_medida_receta item) as [| |u] eqn:Hunit; try contradiction.
    cbn [insertar_receta]. unfold mbind, Tx_bind, elevar.
    rewrite Hid. cbn [entero_de]. unfold select_count_ingrediente. rewrite Hing.
    cbn [Nat.eqb]. rewrite Hc, Hunit. cbn [decimal_de texto_requerido].
    unfold insert_producto_ingrediente.
    assert (Hfila : fila_repetida (mkProductoIngrediente id_prod id c (strip u))
                      (SGIC_PRODUCTO_INGREDIENTES (pendiente s)) = false).
    { unfold fila_repetida. apply bool_decide_eq_false. cbn. exact (Hrep1 id Hid). }
    rewrite Hfila, andb_false_r. unfold con_pendiente.
    apply (IH Hval Hnn Hnd).
    + cbn [pendiente SGIC_INGREDIENTES]. exact Hex.
    + cbn [pendiente SGIC_PRODUCTO_INGREDIENTES].
      rewrite Forall_forall in Hrep. apply Forall_forall. intros item' Hin id' Hid' Hexists.
      apply Exists_app in Hexists as [Hold|Hnew].
      * exact (Hrep item' Hin id' Hid' Hold).
      * apply Exists_cons in Hnew as [[_ Heq]|Hnil]; [|inversion Hnil].
        cbn in Heq. subst id'. apply Hni.
        rewrite Hid, <- Hid'. apply list_elem_of_fmap. exists item'. split; [reflexivity|exact Hin].
Qed.

(** X29.  POST /api/productos succeeds on good data: when the data
    validates, the description and the category are not null, no product
    has the name, the identifier that is generated has no row and no
    older recipe row carries it, and the elements of the recipe name
    ingredients that exist, none of them twice, each with a unit that is
    not null, the answer is 201. *)
Theorem create_producto_exito
    (esq : Esquema) (r : nat -> Z) (data data' : DatosProducto) (bd : BD) (n : string) :
  validate_producto_data data false = Ok ([], data') ->
  prod_nombre data = Valor n ->
  prod_descripcion data <> Nulo ->
  prod_categoria data <> Nulo ->
  SGIC_PRODUCTOS bd !! genera_id_producto esq bd = None ->
  nombre_producto_en_uso (strip n) (genera_id_producto esq bd) (SGIC_PRODUCTOS bd) = false ->
  Forall (fun f => id_producto_fk f <> genera_id_producto esq bd)
         (SGIC_PRODUCTO_INGREDIENTES bd) ->
  Forall (fun item_receta =>
            item_unidad_medida_receta item_receta <> Nulo /\
            exists id, item_id_ingrediente item_receta = Valor id /\
                       is_Some (SGIC_INGREDIENTES bd !! id))
         (items_de (prod_ingredientes data)) ->
  NoDup (item_id_ingrediente <$> items_de (prod_ingredientes data)) ->
  codigo (create_producto esq r data bd).1 = 201.
Proof.
  intros Hval Hn Hd Hc Hlibre Huso Hfresh Hitems Hnd.
  pose proof (validate_producto_ok _ _ _ Hval) as (_ & Hp & _ & Hvalidos & _).
  destruct (prod_precio_venta data) as [| |precio] eqn:Hprecio; try discriminate.
  rewrite (create_producto_valido esq r data data' bd n precio Hval Hn Hprecio Hd Hc
             Hlibre Huso).
  destruct (insertar_receta_exito esq ContIngredienteNoExiste (genera_id_producto esq bd)
              (items_de (prod_ingredientes data)) Hvalidos
              ltac:(eapply Forall_impl; [exact Hitems|]; intros x Hx; apply Hx) Hnd
              (sesion_con_producto esq r bd (mkProducto (strip n) precio)))
    as [s' Hok].
  - cbn [pendiente sesion_con_producto SGIC_INGREDIENTES].
    eapply Forall_impl; [exact Hitems|]. intros x Hx. apply Hx.
  - cbn [pendiente sesion_con_producto SGIC_PRODUCTO_INGREDIENTES].
    apply Forall_forall. intros item _ id _ Hex.
    apply Exists_exists in Hex as (g & Hg & Hprod & _).
    rewrite Forall_forall in Hfresh. exact (Hfresh g Hg Hprod).
  - rewrite Hok. reflexivity.
Qed.

Lemma create_producto_exito_ej :
  codigo (create_producto esquema_ejemplo reloj_ejemplo te_nuevo bd_ejemplo).1 = 201.
Proof.
  apply (create_producto_exito esquema_ejemplo reloj_ejemplo te_nuevo te_nuevo bd_ejemplo " Te ").
  - vm_compute. reflexivity.
  - reflexivity.
  - discriminate.
  - discriminate.
  - vm_compute. reflexivity.
  - vm_compute. reflexivity.
  - apply (@bool_decide_unpack _ (Forall_dec _ _)). vm_compute. exact I.
  - cbn [items_de te_nuevo prod_ingredientes].
    apply Forall_cons. split; [|apply Forall_nil_2].
    split; [discriminate|]. exists 1. split; [reflexivity|].
    eexists. vm_compute. reflexivity.
  - cbn [items_de te_nuevo prod_ingredientes fmap list_fmap]. apply NoDup_singleton.
Defined.

(** ** PUT /api/ingredientes/<id>: a stock within the limits *)

(** X30.  A PUT /api/ingredientes/<id> that carries a stock is answered
    with 200 only when the stock is a non-negative number of at most three
    decimals and at most 9999999.999, and it then stores that stock as it
    is. *)
Theorem update_stock_dentro_de_limites
    (r : nat -> Z) (id : Z) (data : DatosIngrediente) (bd bd' : BD) (resp : Respuesta)
    (d : Decimal) :
  update_ingrediente r id data bd = (resp, bd') ->
  estado resp = 200 ->
  req_stock_actual data = Valor d ->
  0 <= coef d /\ -3 <= expo d /\ milesimas d <= 9999999999 /\
  stock_de bd' id = Some d.
Proof.
  intros Heq H200 Hd.
  unfold update_ingrediente in Heq.
  destruct (sin_datos data); [injection Heq as <- <-; discriminate|].
  destruct (validate_ingrediente_data data true) as [[|e errors]|e] eqn:Hval;
    [|injection Heq as <- <-; discriminate..].
  pose proof (validate_ingrediente_ok _ _ Hval) as (_ & _ & Ha & _).
  rewrite Hd in Ha. apply validar_cantidad_ok in Ha.
  split; [apply Ha|]. split; [apply Ha|]. split; [apply Ha|].
  unfold get_db_connection, transaccion_update, mbind, Tx_bind, select_ingrediente in Heq.
  cbn [pendiente adquirir] in Heq.
  destruct (SGIC_INGREDIENTES bd !! id) as [ing|] eqn:Hing.
  2:{ cbn in Heq. injection Heq as <- <-. discriminate. }
  unfold elevar in Heq.
  destruct (campos_update data) as [c|e] eqn:Hc.
  2:{ destruct e as [m| | |code]; try (injection Heq as <- <-; discriminate).
      destruct (code =? 1); injection Heq as <- <-; discriminate. }
  destruct (campos_update_stock _ _ _ Hc Hd) as [Hupd Hsin]. rewrite Hsin in Heq.
  unfold update_campos in Heq.
  assert (Hfin : forall s1,
            s1 = mkSesion bd
                   (mkBD (alter (asignar c (r 0%nat)) id (SGIC_INGREDIENTES bd))
                      (SGIC_PRODUCTOS bd) (SGIC_PRODUCTO_INGREDIENTES bd) (SGIC_VENTAS bd)
                      (SGIC_MOVIMIENTOS_INVENTARIO bd) (sec_id_venta bd))
                   [] r 1%nat ->
            stock_de (liberar (commit s1).2) id = Some d).
  { intros s1 ->. unfold stock_de, liberar, commit.
    cbn [snd confirmado pendiente SGIC_INGREDIENTES].
    rewrite lookup_alter_eq, Hing. cbn. unfold asignar. cbn [stock_actual].
    rewrite Hupd. reflexivity. }
  destruct (upd_nombre c) as [nom|].
  - destruct (nombre_en_uso nom id (SGIC_INGREDIENTES (pendiente (adquirir r bd)))).
    + cbn in Heq. injection Heq as <- <-. discriminate.
    + cbn in Heq. injection Heq as <- <-. apply (Hfin _ eq_refl).
  - cbn in Heq. injection Heq as <- <-. apply (Hfin _ eq_refl).
Qed.

Lemma update_stock_dentro_de_limites_ej :
  stock_de (update_ingrediente reloj_ejemplo 1 update_ejemplo bd_ejemplo).2 1
  = Some (mkDec 3000 (-3)).
Proof.
  apply (update_stock_dentro_de_limites reloj_ejemplo 1 update_ejemplo bd_ejemplo
           (update_ingrediente reloj_ejemplo 1 update_ejemplo bd_ejemplo).2
           (update_ingrediente reloj_ejemplo 1 update_ejemplo bd_ejemplo).1
           (mkDec 3000 (-3))).
  - vm_compute. reflexivity.
  - vm_compute. reflexivity.
  - reflexivity.
Defined.
